(** * The Yori hex edit control (libwin/hexedit.c): a shallow embedding

    The control keeps a growable byte buffer, a cursor in display
    coordinates, an optional selection range and a dirty line range.  The
    C structure [YORI_WIN_CTRL_HEX_EDIT] becomes a record, every function
    that writes through its [HexEdit] pointer becomes a function returning
    the new record next to its C return value, and the machine integers
    ([UCHAR], [DWORD], [DWORDLONG]) are integers in [Z] whose wrap-around
    is written where the C expression can wrap. *)

From Stdlib Require Import ZArith Lia Bool List.
Import ListNotations.
Open Scope Z_scope.

(** ** Machine integers *)

Definition to_UCHAR (z : Z) : Z := z mod 2 ^ 8.
Definition to_DWORD (z : Z) : Z := z mod 2 ^ 32.
Definition to_DWORDLONG (z : Z) : Z := z mod 2 ^ 64.

(** [(DWORD)-1] *)
Definition DWORD_MAX : Z := 4294967295.

(** Modelled from the spec: [YORI_LIB_HEXDUMP_BYTES_PER_LINE] is declared in
    yorilib.h, which is not part of the sources at hand; the specification
    fixes the number of bytes per line at 16. *)
Definition YORI_LIB_HEXDUMP_BYTES_PER_LINE : Z := 16.

(** ** Memory

    A block of bytes is a total function from byte index to byte value; a
    pointer is [None] for [NULL].  Indexes outside the allocation are
    undefined behaviour in C: here they read and write the same total
    function, and the theorems state the index ranges they rely on. *)

Definition memory : Type := Z -> Z.

(** Reading or writing through [NULL] is undefined in C; the model treats
    [NULL] as a block of zeroes there. *)
Definition deref (p : option memory) : memory :=
  match p with
  | Some m => m
  | None => fun _ => 0
  end.

(** [Dst[Index] = Value] *)
Definition store (m : memory) (Index Value : Z) : memory :=
  fun i => if i =? Index then Value else m i.

(** [memmove(&Dst[DstIndex], &Src[SrcIndex], Length)] *)
Definition memmove (Dst : memory) (DstIndex : Z) (Src : memory) (SrcIndex Length : Z) : memory :=
  fun i => if (DstIndex <=? i) && (i <? DstIndex + Length)
           then Src (i - DstIndex + SrcIndex)
           else Dst i.

(** [ZeroMemory(&Dst[DstIndex], Length)] *)
Definition ZeroMemory (Dst : memory) (DstIndex Length : Z) : memory :=
  fun i => if (DstIndex <=? i) && (i <? DstIndex + Length) then 0 else Dst i.

(** ** Data model *)

Inductive YORI_WIN_HEX_EDIT_SELECT_ACTIVE : Type :=
  | YoriWinHexEditSelectNotActive
  | YoriWinHexEditSelectActive.

Record YORI_WIN_HEX_EDIT_SELECT : Type := {
  Active : YORI_WIN_HEX_EDIT_SELECT_ACTIVE;
  FirstByteOffset : Z;
  LastByteOffset : Z
}.

Inductive YORI_WIN_HEX_EDIT_CELL_TYPE : Type :=
  | YoriWinHexEditCellTypeOffset
  | YoriWinHexEditCellTypeWhitespace
  | YoriWinHexEditCellTypeHexDigit
  | YoriWinHexEditCellTypeCharValue.

Record COORD : Type := { X : Z; Y : Z }.

Record YORI_STRING : Type := {
  StartOfString : option memory;
  LengthInChars : Z;
  LengthAllocated : Z
}.

(** The fields of [YORI_WIN_CTRL_HEX_EDIT] that the modelled functions read
    or write.  [ClientSize] stands for what [YoriWinGetControlClientSize]
    returns for the embedded [Ctrl] header.  The scroll bar, the cursor
    move callback, the timer, the numeric key accumulator and the colour
    attributes take no part in the functions below. *)
Record YORI_WIN_CTRL_HEX_EDIT : Type := {
  ClientSize : COORD;
  Caption : YORI_STRING;
  Buffer : option memory;
  BufferAllocated : Z;
  BufferValid : Z;
  BytesPerLine : Z;
  BytesPerWord : Z;
  ViewportTop : Z;
  ViewportLeft : Z;
  CursorLine : Z;
  CursorOffset : Z;
  FirstDirtyLine : Z;
  LastDirtyLine : Z;
  Selection : YORI_WIN_HEX_EDIT_SELECT;
  OffsetWidth : Z;
  PercentCursorVisibleLastPaint : Z;
  InsertMode : bool;
  ReadOnly : bool;
  HasFocus : bool;
  UserModified : bool
}.

Definition set_Caption (v : YORI_STRING) (h : YORI_WIN_CTRL_HEX_EDIT) :=
  {| ClientSize := ClientSize h; Caption := v; Buffer := Buffer h;
     BufferAllocated := BufferAllocated h; BufferValid := BufferValid h;
     BytesPerLine := BytesPerLine h; BytesPerWord := BytesPerWord h;
     ViewportTop := ViewportTop h; ViewportLeft := ViewportLeft h;
     CursorLine := CursorLine h; CursorOffset := CursorOffset h;
     FirstDirtyLine := FirstDirtyLine h; LastDirtyLine := LastDirtyLine h;
     Selection := Selection h; OffsetWidth := OffsetWidth h;
     PercentCursorVisibleLastPaint := PercentCursorVisibleLastPaint h;
     InsertMode := InsertMode h; ReadOnly := ReadOnly h;
     HasFocus := HasFocus h; UserModified := UserModified h |}.

Definition set_Buffer (v : option memory) (h : YORI_WIN_CTRL_HEX_EDIT) :=
  {| ClientSize := ClientSize h; Caption := Caption h; Buffer := v;
     BufferAllocated := BufferAllocated h; BufferValid := BufferValid h;
     BytesPerLine := BytesPerLine h; BytesPerWord := BytesPerWord h;
     ViewportTop := ViewportTop h; ViewportLeft := ViewportLeft h;
     CursorLine := CursorLine h; CursorOffset := CursorOffset h;
     FirstDirtyLine := FirstDirtyLine h; LastDirtyLine := LastDirtyLine h;
     Selection := Selection h; OffsetWidth := OffsetWidth h;
     PercentCursorVisibleLastPaint := PercentCursorVisibleLastPaint h;
     InsertMode := InsertMode h; ReadOnly := ReadOnly h;
     HasFocus := HasFocus h; UserModified := UserModified h |}.

Definition set_BufferAllocated (v : Z) (h : YORI_WIN_CTRL_HEX_EDIT) :=
  {| ClientSize := ClientSize h; Caption := Caption h; Buffer := Buffer h;
     BufferAllocated := v; BufferValid := BufferValid h;
     BytesPerLine := BytesPerLine h; BytesPerWord := BytesPerWord h;
     ViewportTop := ViewportTop h; ViewportLeft := ViewportLeft h;
     CursorLine := CursorLine h; CursorOffset := CursorOffset h;
     FirstDirtyLine := FirstDirtyLine h; LastDirtyLine := LastDirtyLine h;
     Selection := Selection h; OffsetWidth := OffsetWidth h;
     PercentCursorVisibleLastPaint := PercentCursorVisibleLastPaint h;
     InsertMode := InsertMode h; ReadOnly := ReadOnly h;
     HasFocus := HasFocus h; UserModified := UserModified h |}.

Definition set_BufferValid (v : Z) (h : YORI_WIN_CTRL_HEX_EDIT) :=
  {| ClientSize := ClientSize h; Caption := Caption h; Buffer := Buffer h;
     BufferAllocated := BufferAllocated h; BufferValid := v;
     BytesPerLine := BytesPerLine h; BytesPerWord := BytesPerWord h;
     ViewportTop := ViewportTop h; ViewportLeft := ViewportLeft h;
     CursorLine := CursorLine h; CursorOffset := CursorOffset h;
     FirstDirtyLine := FirstDirtyLine h; LastDirtyLine := LastDirtyLine h;
     Selection := Selection h; OffsetWidth := OffsetWidth h;
     PercentCursorVisibleLastPaint := PercentCursorVisibleLastPaint h;
     InsertMode := InsertMode h; ReadOnly := ReadOnly h;
     HasFocus := HasFocus h; UserModified := UserModified h |}.

Definition set_ViewportTop (v : Z) (h : YORI_WIN_CTRL_HEX_EDIT) :=
  {| ClientSize := ClientSize h; Caption := Caption h; Buffer := Buffer h;
     BufferAllocated := BufferAllocated h; BufferValid := BufferValid h;
     BytesPerLine := BytesPerLine h; BytesPerWord := BytesPerWord h;
     ViewportTop := v; ViewportLeft := ViewportLeft h;
     CursorLine := CursorLine h; CursorOffset := CursorOffset h;
     FirstDirtyLine := FirstDirtyLine h; LastDirtyLine := LastDirtyLine h;
     Selection := Selection h; OffsetWidth := OffsetWidth h;
     PercentCursorVisibleLastPaint := PercentCursorVisibleLastPaint h;
     InsertMode := InsertMode h; ReadOnly := ReadOnly h;
     HasFocus := HasFocus h; UserModified := UserModified h |}.

Definition set_ViewportLeft (v : Z) (h : YORI_WIN_CTRL_HEX_EDIT) :=
  {| ClientSize := ClientSize h; Caption := Caption h; Buffer := Buffer h;
     BufferAllocated := BufferAllocated h; BufferValid := BufferValid h;
     BytesPerLine := BytesPerLine h; BytesPerWord := BytesPerWord h;
     ViewportTop := ViewportTop h; ViewportLeft := v;
     CursorLine := CursorLine h; CursorOffset := CursorOffset h;
     FirstDirtyLine := FirstDirtyLine h; LastDirtyLine := LastDirtyLine h;
     Selection := Selection h; OffsetWidth := OffsetWidth h;
     PercentCursorVisibleLastPaint := PercentCursorVisibleLastPaint h;
     InsertMode := InsertMode h; ReadOnly := ReadOnly h;
     HasFocus := HasFocus h; UserModified := UserModified h |}.

Definition set_Cursor (Line Offset : Z) (h : YORI_WIN_CTRL_HEX_EDIT) :=
  {| ClientSize := ClientSize h; Caption := Caption h; Buffer := Buffer h;
     BufferAllocated := BufferAllocated h; BufferValid := BufferValid h;
     BytesPerLine := BytesPerLine h; BytesPerWord := BytesPerWord h;
     ViewportTop := ViewportTop h; ViewportLeft := ViewportLeft h;
     CursorLine := Line; CursorOffset := Offset;
     FirstDirtyLine := FirstDirtyLine h; LastDirtyLine := LastDirtyLine h;
     Selection := Selection h; OffsetWidth := OffsetWidth h;
     PercentCursorVisibleLastPaint := PercentCursorVisibleLastPaint h;
     InsertMode := InsertMode h; ReadOnly := ReadOnly h;
     HasFocus := HasFocus h; UserModified := UserModified h |}.

Definition set_DirtyRange (First Last : Z) (h : YORI_WIN_CTRL_HEX_EDIT) :=
  {| ClientSize := ClientSize h; Caption := Caption h; Buffer := Buffer h;
     BufferAllocated := BufferAllocated h; BufferValid := BufferValid h;
     BytesPerLine := BytesPerLine h; BytesPerWord := BytesPerWord h;
     ViewportTop := ViewportTop h; ViewportLeft := ViewportLeft h;
     CursorLine := CursorLine h; CursorOffset := CursorOffset h;
     FirstDirtyLine := First; LastDirtyLine := Last;
     Selection := Selection h; OffsetWidth := OffsetWidth h;
     PercentCursorVisibleLastPaint := PercentCursorVisibleLastPaint h;
     InsertMode := InsertMode h; ReadOnly := ReadOnly h;
     HasFocus := HasFocus h; UserModified := UserModified h |}.

Definition set_Selection (v : YORI_WIN_HEX_EDIT_SELECT) (h : YORI_WIN_CTRL_HEX_EDIT) :=
  {| ClientSize := ClientSize h; Caption := Caption h; Buffer := Buffer h;
     BufferAllocated := BufferAllocated h; BufferValid := BufferValid h;
     BytesPerLine := BytesPerLine h; BytesPerWord := BytesPerWord h;
     ViewportTop := ViewportTop h; ViewportLeft := ViewportLeft h;
     CursorLine := CursorLine h; CursorOffset := CursorOffset h;
     FirstDirtyLine := FirstDirtyLine h; LastDirtyLine := LastDirtyLine h;
     Selection := v; OffsetWidth := OffsetWidth h;
     PercentCursorVisibleLastPaint := PercentCursorVisibleLastPaint h;
     InsertMode := InsertMode h; ReadOnly := ReadOnly h;
     HasFocus := HasFocus h; UserModified := UserModified h |}.

Definition set_PercentCursorVisibleLastPaint (v : Z) (h : YORI_WIN_CTRL_HEX_EDIT) :=
  {| ClientSize := ClientSize h; Caption := Caption h; Buffer := Buffer h;
     BufferAllocated := BufferAllocated h; BufferValid := BufferValid h;
     BytesPerLine := BytesPerLine h; BytesPerWord := BytesPerWord h;
     ViewportTop := ViewportTop h; ViewportLeft := ViewportLeft h;
     CursorLine := CursorLine h; CursorOffset := CursorOffset h;
     FirstDirtyLine := FirstDirtyLine h; LastDirtyLine := LastDirtyLine h;
     Selection := Selection h; OffsetWidth := OffsetWidth h;
     PercentCursorVisibleLastPaint := v;
     InsertMode := InsertMode h; ReadOnly := ReadOnly h;
     HasFocus := HasFocus h; UserModified := UserModified h |}.

Definition set_UserModified (v : bool) (h : YORI_WIN_CTRL_HEX_EDIT) :=
  {| ClientSize := ClientSize h; Caption := Caption h; Buffer := Buffer h;
     BufferAllocated := BufferAllocated h; BufferValid := BufferValid h;
     BytesPerLine := BytesPerLine h; BytesPerWord := BytesPerWord h;
     ViewportTop := ViewportTop h; ViewportLeft := ViewportLeft h;
     CursorLine := CursorLine h; CursorOffset := CursorOffset h;
     FirstDirtyLine := FirstDirtyLine h; LastDirtyLine := LastDirtyLine h;
     Selection := Selection h; OffsetWidth := OffsetWidth h;
     PercentCursorVisibleLastPaint := PercentCursorVisibleLastPaint h;
     InsertMode := InsertMode h; ReadOnly := ReadOnly h;
     HasFocus := HasFocus h; UserModified := v |}.

Definition set_InsertMode (v : bool) (h : YORI_WIN_CTRL_HEX_EDIT) :=
  {| ClientSize := ClientSize h; Caption := Caption h; Buffer := Buffer h;
     BufferAllocated := BufferAllocated h; BufferValid := BufferValid h;
     BytesPerLine := BytesPerLine h; BytesPerWord := BytesPerWord h;
     ViewportTop := ViewportTop h; ViewportLeft := ViewportLeft h;
     CursorLine := CursorLine h; CursorOffset := CursorOffset h;
     FirstDirtyLine := FirstDirtyLine h; LastDirtyLine := LastDirtyLine h;
     Selection := Selection h; OffsetWidth := OffsetWidth h;
     PercentCursorVisibleLastPaint := PercentCursorVisibleLastPaint h;
     InsertMode := v; ReadOnly := ReadOnly h;
     HasFocus := HasFocus h; UserModified := UserModified h |}.

(** ** Coordinate model *)

(** What [YoriWinHexEditCellType] returns: its return value and its three
    out parameters. *)
Record CELL : Type := {
  CellType : YORI_WIN_HEX_EDIT_CELL_TYPE;
  ByteOffset : Z;
  BitShift : Z;
  BeyondBufferEnd : bool
}.

Definition YoriWinHexEditLinesPopulated (HexEdit : YORI_WIN_CTRL_HEX_EDIT) : Z :=
  to_DWORD (to_DWORDLONG (BufferValid HexEdit + BytesPerLine HexEdit - 1)
            / BytesPerLine HexEdit).

Definition YoriWinHexEditOffsetSizeInCells (HexEdit : YORI_WIN_CTRL_HEX_EDIT) : Z :=
  if OffsetWidth HexEdit =? 64 then 18
  else if OffsetWidth HexEdit =? 32 then 9
  else 0.

Definition YoriWinHexEditGetCellsPerWord (HexEdit : YORI_WIN_CTRL_HEX_EDIT) : Z :=
  let CellsPerWord := to_DWORD (BytesPerWord HexEdit * 2 + 1) in
  if BytesPerWord HexEdit =? 8 then to_DWORD (CellsPerWord + 1) else CellsPerWord.

Definition YoriWinHexEditGetCellIndexForBitShift
    (HexEdit : YORI_WIN_CTRL_HEX_EDIT) (BitShift : Z) : Z :=
  let CellIndex := BitShift / 4 in
  if 32 <=? BitShift then to_DWORD (CellIndex + 1) else CellIndex.

Definition YoriWinHexEditCellType
    (HexEdit : YORI_WIN_CTRL_HEX_EDIT) (LineIndex CellOffset : Z) : CELL :=
  let Plain t := {| CellType := t; ByteOffset := 0; BitShift := 0;
                    BeyondBufferEnd := false |} in
  let LinesPopulated := YoriWinHexEditLinesPopulated HexEdit in
  let BytesThisLine :=
    if to_DWORD (LineIndex + 1) =? LinesPopulated
    then to_DWORD (BufferValid HexEdit
                   - to_DWORDLONG (LineIndex * BytesPerLine HexEdit))
    else BytesPerLine HexEdit in
  let OffsetInChars := YoriWinHexEditOffsetSizeInCells HexEdit in
  if (0 <? OffsetInChars) && (CellOffset <? OffsetInChars)
  then Plain YoriWinHexEditCellTypeOffset
  else if (0 <? OffsetInChars) && (CellOffset =? OffsetInChars)
  then Plain YoriWinHexEditCellTypeWhitespace
  else
    let CellsPerWord := YoriWinHexEditGetCellsPerWord HexEdit in
    let WordsPerLine := BytesPerLine HexEdit / BytesPerWord HexEdit in
    let DataOffset := to_DWORD (CellOffset - OffsetInChars) in
    let DataOffset :=
      if OffsetInChars =? 0 then to_DWORD (DataOffset + 1) else DataOffset in
    if DataOffset <? to_DWORD (WordsPerLine * CellsPerWord)
    then
      let ModValue := DataOffset mod CellsPerWord in
      let LocalByteOffset :=
        to_DWORD ((DataOffset / CellsPerWord) * BytesPerWord HexEdit) in
      if ModValue =? 0
      then Plain YoriWinHexEditCellTypeWhitespace
      else
        let ModValue := to_DWORD (CellsPerWord - 1 - ModValue) in
        if ModValue =? 8
        then Plain YoriWinHexEditCellTypeWhitespace
        else
          let ModValue := if 8 <? ModValue then ModValue - 1 else ModValue in
          let LocalBitShift := to_DWORD (4 * ModValue) in
          {| CellType := YoriWinHexEditCellTypeHexDigit;
             ByteOffset := LocalByteOffset;
             BitShift := LocalBitShift;
             BeyondBufferEnd :=
               (LinesPopulated <=? LineIndex)
               || (BytesThisLine <=? to_DWORD (LocalByteOffset + LocalBitShift / 8)) |}
    else
      let DataOffset := to_DWORD (DataOffset - WordsPerLine * CellsPerWord) in
      if DataOffset <? 2
      then Plain YoriWinHexEditCellTypeWhitespace
      else
        let DataOffset := DataOffset - 2 in
        if BytesPerLine HexEdit <=? DataOffset
        then Plain YoriWinHexEditCellTypeWhitespace
        else
          {| CellType := YoriWinHexEditCellTypeCharValue;
             ByteOffset := DataOffset;
             BitShift := 0;
             BeyondBufferEnd :=
               (LinesPopulated <=? LineIndex) || (BytesThisLine <=? DataOffset) |}.

(** The two inverse mappings return the pair [(EndLine, EndCharOffset)];
    both always return [TRUE] in C. *)
Definition YoriWinHexEditCellFromCharBufferOffset
    (HexEdit : YORI_WIN_CTRL_HEX_EDIT) (BufferOffset : Z) : Z * Z :=
  let OffsetInChars := YoriWinHexEditOffsetSizeInCells HexEdit in
  let OffsetInChars := if 0 <? OffsetInChars then OffsetInChars + 1 else OffsetInChars in
  let CellsPerWord := YoriWinHexEditGetCellsPerWord HexEdit in
  let WordsPerLine := BytesPerLine HexEdit / BytesPerWord HexEdit in
  let EndLine := to_DWORD (BufferOffset / BytesPerLine HexEdit) in
  let LineByteOffset := to_DWORD (BufferOffset mod BytesPerLine HexEdit) in
  (EndLine, to_DWORD (OffsetInChars + WordsPerLine * CellsPerWord + 1 + LineByteOffset)).

Definition YoriWinHexEditCellFromHexBufferOffset
    (HexEdit : YORI_WIN_CTRL_HEX_EDIT) (BufferOffset BitShift : Z) : Z * Z :=
  let OffsetInChars := YoriWinHexEditOffsetSizeInCells HexEdit in
  let MarginToRemove := if OffsetInChars =? 0 then 1 else 0 in
  let CellsPerWord := YoriWinHexEditGetCellsPerWord HexEdit in
  let EndLine := to_DWORD (BufferOffset / BytesPerLine HexEdit) in
  let LineByteOffset := to_DWORD (BufferOffset mod BytesPerLine HexEdit) in
  let LineCellOffset :=
    to_DWORD (LineByteOffset + BytesPerWord HexEdit - 1) / BytesPerWord HexEdit in
  let BitShiftCellIndex := YoriWinHexEditGetCellIndexForBitShift HexEdit BitShift in
  (EndLine,
   to_DWORD (OffsetInChars + (LineCellOffset + 1) * CellsPerWord
             - BitShiftCellIndex - MarginToRemove - 1)).

(** The buffer offset of a cell, as every caller of [YoriWinHexEditCellType]
    reassembles it: [BufferOffset = Line; BufferOffset = BufferOffset *
    BytesPerLine + ByteOffset;] in 64 bit arithmetic. *)
Definition BufferOffsetOfCell
    (HexEdit : YORI_WIN_CTRL_HEX_EDIT) (Line : Z) (Cell : CELL) : Z :=
  to_DWORDLONG (Line * BytesPerLine HexEdit + ByteOffset Cell).

(** ** Operations

    [YoriLibReferencedMalloc] and [YoriLibAllocateString] belong to yorilib
    and are not part of the sources at hand.  They are parameters of the
    model: the first maps the requested byte count to [None] when the
    allocation fails and to the fresh block, with whatever it contains,
    otherwise; the second does the same for a string of the requested
    number of characters. *)

Section Operations.

Variable YoriLibReferencedMalloc : Z -> option memory.
Variable YoriLibAllocateString : Z -> option YORI_STRING.

(** *** Cursor stepping *)

Definition YoriWinHexEditNextCellSameType
    (HexEdit : YORI_WIN_CTRL_HEX_EDIT) (CellType : YORI_WIN_HEX_EDIT_CELL_TYPE)
    (BufferOffset BitShift : Z) : option (Z * Z) :=
  match CellType with
  | YoriWinHexEditCellTypeCharValue =>
      Some (YoriWinHexEditCellFromCharBufferOffset HexEdit
              (to_DWORDLONG (BufferOffset + 1)))
  | YoriWinHexEditCellTypeHexDigit =>
      let Unaligned := to_DWORD (BufferOffset mod BytesPerWord HexEdit) in
      let '(NewBufferOffset, NewBitShift) :=
        if negb (Unaligned =? 0)
        then (to_DWORDLONG (BufferOffset - Unaligned),
              to_DWORD (BitShift + 8 * Unaligned))
        else (BufferOffset, BitShift) in
      let '(NewBufferOffset, NewBitShift) :=
        if 4 <=? NewBitShift
        then (NewBufferOffset, NewBitShift - 4)
        else (to_DWORDLONG (BufferOffset + BytesPerWord HexEdit),
              to_DWORD (8 * BytesPerWord HexEdit - 4)) in
      Some (YoriWinHexEditCellFromHexBufferOffset HexEdit NewBufferOffset NewBitShift)
  | _ => None
  end.

(** *** Dirty range and painting *)

Definition YoriWinHexEditExpandDirtyRange
    (HexEdit : YORI_WIN_CTRL_HEX_EDIT) (NewFirstDirtyLine NewLastDirtyLine : Z)
    : YORI_WIN_CTRL_HEX_EDIT :=
  let HexEdit :=
    if NewFirstDirtyLine <? FirstDirtyLine HexEdit
    then set_DirtyRange NewFirstDirtyLine (LastDirtyLine HexEdit) HexEdit
    else HexEdit in
  if LastDirtyLine HexEdit <? NewLastDirtyLine
  then set_DirtyRange (FirstDirtyLine HexEdit) NewLastDirtyLine HexEdit
  else HexEdit.

(** The cells written to the window by [YoriWinHexEditPaintSingleLine] live
    in the window manager; what painting leaves in the control is the reset
    dirty range and the cursor visibility it last applied.  The C function
    always returns [TRUE]. *)
Definition YoriWinHexEditPaint (HexEdit : YORI_WIN_CTRL_HEX_EDIT)
    : YORI_WIN_CTRL_HEX_EDIT :=
  let HexEdit :=
    if FirstDirtyLine HexEdit <=? LastDirtyLine HexEdit
    then set_DirtyRange DWORD_MAX 0 HexEdit
    else HexEdit in
  let NewPercentCursorVisible :=
    if HasFocus HexEdit then (if InsertMode HexEdit then 20 else 50) else 0 in
  let NewPercentCursorVisible :=
    if (CursorLine HexEdit <? ViewportTop HexEdit)
       || (to_DWORD (ViewportTop HexEdit + Y (ClientSize HexEdit)) <=? CursorLine HexEdit)
    then 0 else NewPercentCursorVisible in
  let NewPercentCursorVisible :=
    if (CursorOffset HexEdit <? ViewportLeft HexEdit)
       || (to_DWORD (ViewportLeft HexEdit + X (ClientSize HexEdit)) <=? CursorOffset HexEdit)
    then 0 else NewPercentCursorVisible in
  set_PercentCursorVisibleLastPaint NewPercentCursorVisible HexEdit.

(** The cursor move callback is a call out of the control; the control
    itself only records the new location. *)
Definition YoriWinHexEditSetCursorLocationInternal
    (HexEdit : YORI_WIN_CTRL_HEX_EDIT) (NewCursorOffset NewCursorLine : Z)
    : YORI_WIN_CTRL_HEX_EDIT :=
  set_Cursor NewCursorLine NewCursorOffset HexEdit.

Definition YoriWinHexEditEnsureCursorVisible (HexEdit : YORI_WIN_CTRL_HEX_EDIT)
    : YORI_WIN_CTRL_HEX_EDIT :=
  let NewViewportLeft :=
    if CursorOffset HexEdit <? ViewportLeft HexEdit
    then CursorOffset HexEdit
    else if to_DWORD (ViewportLeft HexEdit + X (ClientSize HexEdit)) <=? CursorOffset HexEdit
    then to_DWORD (CursorOffset HexEdit - X (ClientSize HexEdit) + 1)
    else ViewportLeft HexEdit in
  let NewViewportTop :=
    if CursorLine HexEdit <? ViewportTop HexEdit
    then CursorLine HexEdit
    else if to_DWORD (ViewportTop HexEdit + Y (ClientSize HexEdit)) <=? CursorLine HexEdit
    then to_DWORD (CursorLine HexEdit - Y (ClientSize HexEdit) + 1)
    else ViewportTop HexEdit in
  let HexEdit :=
    if negb (NewViewportTop =? ViewportTop HexEdit)
    then YoriWinHexEditExpandDirtyRange
           (set_ViewportTop NewViewportTop HexEdit) NewViewportTop DWORD_MAX
    else HexEdit in
  if negb (NewViewportLeft =? ViewportLeft HexEdit)
  then YoriWinHexEditExpandDirtyRange
         (set_ViewportLeft NewViewportLeft HexEdit) NewViewportTop DWORD_MAX
  else HexEdit.

Definition YoriWinHexEditSetCursorToBufferLocation
    (HexEdit : YORI_WIN_CTRL_HEX_EDIT) (CellType : YORI_WIN_HEX_EDIT_CELL_TYPE)
    (BufferOffset BitShift : Z) : bool * YORI_WIN_CTRL_HEX_EDIT :=
  let '(NewCursorLine, NewCursorOffset) :=
    match CellType with
    | YoriWinHexEditCellTypeHexDigit =>
        YoriWinHexEditCellFromHexBufferOffset HexEdit BufferOffset BitShift
    | _ => YoriWinHexEditCellFromCharBufferOffset HexEdit BufferOffset
    end in
  if negb (NewCursorLine =? CursorLine HexEdit)
     || negb (NewCursorOffset =? CursorOffset HexEdit)
  then
    let HexEdit :=
      YoriWinHexEditSetCursorLocationInternal HexEdit NewCursorOffset NewCursorLine in
    let HexEdit := YoriWinHexEditEnsureCursorVisible HexEdit in
    (true, YoriWinHexEditPaint HexEdit)
  else (false, HexEdit).

Definition YoriWinHexEditSetCursorLocationToZero (HexEdit : YORI_WIN_CTRL_HEX_EDIT)
    : bool * YORI_WIN_CTRL_HEX_EDIT :=
  YoriWinHexEditSetCursorToBufferLocation HexEdit YoriWinHexEditCellTypeHexDigit
    0 (to_DWORD (BytesPerWord HexEdit * 8 - 4)).

Definition YoriWinHexEditToggleInsert (HexEdit : YORI_WIN_CTRL_HEX_EDIT)
    : bool * YORI_WIN_CTRL_HEX_EDIT :=
  if InsertMode HexEdit
  then (true, set_InsertMode false HexEdit)
  else (true, set_InsertMode true HexEdit).

(** *** Buffer store *)

Definition YoriWinHexEditEnsureBufferLength
    (HexEdit : YORI_WIN_CTRL_HEX_EDIT) (NewBufferLength : Z)
    : bool * YORI_WIN_CTRL_HEX_EDIT :=
  if NewBufferLength <=? BufferAllocated HexEdit then (true, HexEdit)
  else if NewBufferLength <? BufferValid HexEdit then (false, HexEdit)
  else
    let PaddedBufferLength := to_DWORDLONG (NewBufferLength + 16384) in
    if DWORD_MAX <=? PaddedBufferLength then (false, HexEdit)
    else
      match YoriLibReferencedMalloc (to_DWORD PaddedBufferLength) with
      | None => (false, HexEdit)
      | Some NewBuffer =>
          let NewBuffer :=
            if 0 <? BufferValid HexEdit
            then memmove NewBuffer 0 (deref (Buffer HexEdit)) 0
                         (to_DWORD (BufferValid HexEdit))
            else NewBuffer in
          (true, set_BufferAllocated PaddedBufferLength
                   (set_Buffer (Some NewBuffer) HexEdit))
      end.

Definition YoriWinHexEditEnsureBufferValid
    (HexEdit : YORI_WIN_CTRL_HEX_EDIT) (NewBufferLength : Z)
    : bool * YORI_WIN_CTRL_HEX_EDIT :=
  if NewBufferLength <=? BufferValid HexEdit then (true, HexEdit)
  else
    match YoriWinHexEditEnsureBufferLength HexEdit NewBufferLength with
    | (false, HexEdit) => (false, HexEdit)
    | (true, HexEdit) =>
        let NewBuffer :=
          ZeroMemory (deref (Buffer HexEdit)) (BufferValid HexEdit)
                     (to_DWORD (NewBufferLength - BufferValid HexEdit)) in
        (true, set_BufferValid NewBufferLength
                 (set_Buffer (Some NewBuffer) HexEdit))
    end.

Definition YoriWinHexEditInsertSpaceInBuffer
    (HexEdit : YORI_WIN_CTRL_HEX_EDIT) (BufferOffset BytesToInsert : Z)
    : bool * YORI_WIN_CTRL_HEX_EDIT :=
  if BufferValid HexEdit <? BufferOffset then (false, HexEdit)
  else
    match YoriWinHexEditEnsureBufferLength HexEdit
            (to_DWORDLONG (BufferValid HexEdit + BytesToInsert)) with
    | (false, HexEdit) => (false, HexEdit)
    | (true, HexEdit) =>
        let BytesToMove := to_DWORDLONG (BufferValid HexEdit - BufferOffset) in
        if DWORD_MAX <? BytesToMove then (false, HexEdit)
        else
          let NewBuffer := deref (Buffer HexEdit) in
          let NewBuffer :=
            if 0 <? BytesToMove
            then memmove NewBuffer (to_DWORDLONG (BufferOffset + BytesToInsert))
                         NewBuffer BufferOffset (to_DWORD BytesToMove)
            else NewBuffer in
          let NewBuffer := ZeroMemory NewBuffer BufferOffset BytesToInsert in
          (true, set_BufferValid (to_DWORDLONG (BufferValid HexEdit + BytesToInsert))
                   (set_Buffer (Some NewBuffer) HexEdit))
    end.

(** *** Cell editor *)

Definition YoriWinHexEditInputCharToByte (Char : Z) : Z := to_UCHAR Char.

(** Modelled from the spec: [YoriLibUpcaseChar] belongs to yorilib and is
    not part of the sources at hand; the specification asks for hex digits
    to be accepted case-insensitively, so the letters a to z map to A to Z
    and every other character is returned as it is. *)
Definition YoriLibUpcaseChar (Char : Z) : Z :=
  if (97 <=? Char) && (Char <=? 122) then Char - 32 else Char.

(** The nibble typed, when [InputChar] is one of 0-9 or A-F. *)
Definition NibbleOfInputChar (InputChar : Z) : option Z :=
  if (48 <=? InputChar) && (InputChar <=? 57) then Some (to_UCHAR (InputChar - 48))
  else if (65 <=? InputChar) && (InputChar <=? 70) then Some (to_UCHAR (InputChar - 65 + 10))
  else None.

(** [InputChar = *Cell; InputChar &= ~BitMask; InputChar |= NewNibble <<
    EditBitShift; *Cell = InputChar;] *)
Definition WriteNibble (m : memory) (Index EditBitShift NewNibble : Z) : memory :=
  let BitMask := to_UCHAR (Z.shiftl 15 EditBitShift) in
  let InputChar := m Index in
  let InputChar := to_UCHAR (Z.land InputChar (Z.lnot BitMask)) in
  let InputChar := to_UCHAR (Z.lor InputChar (Z.shiftl NewNibble EditBitShift)) in
  store m Index InputChar.

(** The cell editors return their C return value, [LastLine],
    [LastCharOffset] and the control. *)
Definition EDIT_RESULT : Type := bool * Z * Z * YORI_WIN_CTRL_HEX_EDIT.

Definition ReturnOf (r : EDIT_RESULT) : bool := fst (fst (fst r)).
Definition LastLineOf (r : EDIT_RESULT) : Z := snd (fst (fst r)).
Definition LastCharOffsetOf (r : EDIT_RESULT) : Z := snd (fst r).
Definition ControlOf (r : EDIT_RESULT) : YORI_WIN_CTRL_HEX_EDIT := snd r.

Definition YoriWinHexEditDeleteCell
    (HexEdit : YORI_WIN_CTRL_HEX_EDIT) (FirstLine FirstCharOffset : Z) : EDIT_RESULT :=
  let Cell := YoriWinHexEditCellType HexEdit FirstLine FirstCharOffset in
  if BeyondBufferEnd Cell then (true, FirstLine, FirstCharOffset, HexEdit)
  else
    let BufferOffset := BufferOffsetOfCell HexEdit FirstLine Cell in
    let Mem := deref (Buffer HexEdit) in
    match CellType Cell with
    | YoriWinHexEditCellTypeOffset
    | YoriWinHexEditCellTypeWhitespace =>
        (true, FirstLine, FirstCharOffset,
         YoriWinHexEditExpandDirtyRange HexEdit FirstLine FirstLine)
    | YoriWinHexEditCellTypeHexDigit =>
        if BitShift Cell =? 0
        then
          let HexEdit :=
            if BufferOffset <? BufferValid HexEdit
            then
              let BytesToCopy := to_DWORDLONG (BufferValid HexEdit - BufferOffset) in
              if BytesPerWord HexEdit <? BytesToCopy
              then
                let BytesToCopy := BytesToCopy - BytesPerWord HexEdit in
                set_BufferValid (to_DWORDLONG (BufferValid HexEdit - BytesPerWord HexEdit))
                  (set_Buffer
                     (Some (memmove Mem BufferOffset
                                    Mem (BufferOffset + BytesPerWord HexEdit)
                                    (to_DWORD BytesToCopy)))
                     HexEdit)
              else set_BufferValid (to_DWORDLONG (BufferValid HexEdit - BytesToCopy)) HexEdit
            else HexEdit in
          let '(CurrentLine, CurrentCharOffset) :=
            YoriWinHexEditCellFromHexBufferOffset HexEdit BufferOffset
              (to_DWORD (BytesPerWord HexEdit * 8 - 4)) in
          (true, CurrentLine, CurrentCharOffset,
           YoriWinHexEditExpandDirtyRange (set_UserModified true HexEdit)
             FirstLine DWORD_MAX)
        else
          let BitMask := to_UCHAR (Z.shiftl 15 (BitShift Cell)) in
          let InputChar := to_UCHAR (Z.land (Mem BufferOffset) (Z.lnot BitMask)) in
          let HexEdit := set_Buffer (Some (store Mem BufferOffset InputChar)) HexEdit in
          let '(CurrentLine, CurrentCharOffset) :=
            match YoriWinHexEditNextCellSameType HexEdit (CellType Cell)
                    BufferOffset (BitShift Cell) with
            | Some Next => Next
            | None => (FirstLine, FirstCharOffset)
            end in
          (true, CurrentLine, CurrentCharOffset,
           YoriWinHexEditExpandDirtyRange (set_UserModified true HexEdit)
             FirstLine FirstLine)
    | YoriWinHexEditCellTypeCharValue =>
        if BufferOffset <? BufferValid HexEdit
        then
          let BytesToCopy := to_DWORDLONG (BufferValid HexEdit - BufferOffset) in
          let HexEdit :=
            if 1 <? BytesToCopy
            then set_Buffer
                   (Some (memmove Mem BufferOffset Mem (BufferOffset + 1)
                                  (to_DWORD (BytesToCopy - 1))))
                   HexEdit
            else HexEdit in
          let HexEdit := set_BufferValid (to_DWORDLONG (BufferValid HexEdit - 1)) HexEdit in
          (true, FirstLine, FirstCharOffset,
           YoriWinHexEditExpandDirtyRange (set_UserModified true HexEdit)
             FirstLine DWORD_MAX)
        else
          (true, FirstLine, FirstCharOffset,
           YoriWinHexEditExpandDirtyRange HexEdit FirstLine FirstLine)
    end.

(** [EditBufferOffset] and [EditBitShift]: the byte and the nibble within it
    that a cell of a word addresses. *)
Definition EditBufferOffsetOf (BufferOffset BitShift : Z) : Z :=
  if 8 <=? BitShift then to_DWORDLONG (BufferOffset + BitShift / 8) else BufferOffset.

Definition EditBitShiftOf (BitShift : Z) : Z :=
  if 8 <=? BitShift then BitShift mod 8 else BitShift.

Definition YoriWinHexEditInsertCell
    (HexEdit : YORI_WIN_CTRL_HEX_EDIT) (FirstLine FirstCharOffset Char : Z)
    : EDIT_RESULT :=
  let Cell := YoriWinHexEditCellType HexEdit FirstLine FirstCharOffset in
  let BufferOffset := BufferOffsetOfCell HexEdit FirstLine Cell in
  let Extended :=
    if BeyondBufferEnd Cell && (BufferValid HexEdit <? BufferOffset)
    then YoriWinHexEditEnsureBufferValid HexEdit BufferOffset
    else (true, HexEdit) in
  match Extended with
  | (false, HexEdit) => (true, FirstLine, FirstCharOffset, HexEdit)
  | (true, HexEdit) =>
      let DirtyLastLine := if BeyondBufferEnd Cell then DWORD_MAX else FirstLine in
      let EditBufferOffset := EditBufferOffsetOf BufferOffset (BitShift Cell) in
      let EditBitShift := EditBitShiftOf (BitShift Cell) in
      let InputChar := YoriWinHexEditInputCharToByte Char in
      (* the state, the last dirty line and CellUpdated after the switch *)
      let '(HexEdit, DirtyLastLine, CellUpdated) :=
        match CellType Cell with
        | YoriWinHexEditCellTypeOffset
        | YoriWinHexEditCellTypeWhitespace => (HexEdit, DirtyLastLine, false)
        | YoriWinHexEditCellTypeHexDigit =>
            match NibbleOfInputChar (to_UCHAR (YoriLibUpcaseChar InputChar)) with
            | None => (HexEdit, DirtyLastLine, false)
            | Some NewNibble =>
                let Inserted :=
                  if BitShift Cell =? to_DWORD (BytesPerWord HexEdit * 8 - 4)
                  then
                    match YoriWinHexEditInsertSpaceInBuffer HexEdit BufferOffset
                            (BytesPerWord HexEdit) with
                    | (false, HexEdit) => (false, HexEdit, DirtyLastLine)
                    | (true, HexEdit) => (true, HexEdit, DWORD_MAX)
                    end
                  else (true, HexEdit, DirtyLastLine) in
                match Inserted with
                | (false, HexEdit, DirtyLastLine) => (HexEdit, DirtyLastLine, false)
                | (true, HexEdit, DirtyLastLine) =>
                    (set_Buffer
                       (Some (WriteNibble (deref (Buffer HexEdit)) EditBufferOffset
                                          EditBitShift NewNibble))
                       HexEdit,
                     DirtyLastLine, true)
                end
            end
        | YoriWinHexEditCellTypeCharValue =>
            match YoriWinHexEditInsertSpaceInBuffer HexEdit EditBufferOffset 1 with
            | (false, HexEdit) => (HexEdit, DirtyLastLine, false)
            | (true, HexEdit) =>
                (set_Buffer
                   (Some (store (deref (Buffer HexEdit)) EditBufferOffset InputChar))
                   HexEdit,
                 DWORD_MAX, true)
            end
        end in
      let '(CurrentLine, CurrentCharOffset, HexEdit) :=
        if CellUpdated
        then
          let '(CurrentLine, CurrentCharOffset) :=
            match YoriWinHexEditNextCellSameType HexEdit (CellType Cell)
                    BufferOffset (BitShift Cell) with
            | Some Next => Next
            | None => (FirstLine, FirstCharOffset)
            end in
          (CurrentLine, CurrentCharOffset, set_UserModified true HexEdit)
        else (FirstLine, FirstCharOffset, HexEdit) in
      (true, CurrentLine, CurrentCharOffset,
       YoriWinHexEditExpandDirtyRange HexEdit FirstLine DirtyLastLine)
  end.

Definition YoriWinHexEditOverwriteCell
    (HexEdit : YORI_WIN_CTRL_HEX_EDIT) (FirstLine FirstCharOffset Char : Z)
    : EDIT_RESULT :=
  let Cell := YoriWinHexEditCellType HexEdit FirstLine FirstCharOffset in
  let BufferOffset := BufferOffsetOfCell HexEdit FirstLine Cell in
  let EditBufferOffset := EditBufferOffsetOf BufferOffset (BitShift Cell) in
  let EditBitShift := EditBitShiftOf (BitShift Cell) in
  let InputChar := YoriWinHexEditInputCharToByte Char in
  let Finish (HexEdit : YORI_WIN_CTRL_HEX_EDIT) : EDIT_RESULT :=
    let '(CurrentLine, CurrentCharOffset) :=
      match YoriWinHexEditNextCellSameType HexEdit (CellType Cell)
              BufferOffset (BitShift Cell) with
      | Some Next => Next
      | None => (FirstLine, FirstCharOffset)
      end in
    (true, CurrentLine, CurrentCharOffset,
     set_UserModified true
       (YoriWinHexEditExpandDirtyRange HexEdit FirstLine CurrentLine)) in
  let Extended :=
    if BeyondBufferEnd Cell
    then YoriWinHexEditEnsureBufferValid HexEdit (to_DWORDLONG (EditBufferOffset + 1))
    else (true, HexEdit) in
  match CellType Cell with
  | YoriWinHexEditCellTypeOffset
  | YoriWinHexEditCellTypeWhitespace => (true, FirstLine, FirstCharOffset, HexEdit)
  | YoriWinHexEditCellTypeHexDigit =>
      match NibbleOfInputChar (to_UCHAR (YoriLibUpcaseChar InputChar)) with
      | None => (true, FirstLine, FirstCharOffset, HexEdit)
      | Some NewNibble =>
          match Extended with
          | (false, HexEdit) => (true, FirstLine, FirstCharOffset, HexEdit)
          | (true, HexEdit) =>
              Finish (set_Buffer
                        (Some (WriteNibble (deref (Buffer HexEdit)) EditBufferOffset
                                           EditBitShift NewNibble))
                        HexEdit)
          end
      end
  | YoriWinHexEditCellTypeCharValue =>
      match Extended with
      | (false, HexEdit) => (true, FirstLine, FirstCharOffset, HexEdit)
      | (true, HexEdit) =>
          Finish (set_Buffer
                    (Some (store (deref (Buffer HexEdit)) EditBufferOffset InputChar))
                    HexEdit)
      end
  end.

Definition YoriWinHexEditAddChar (HexEdit : YORI_WIN_CTRL_HEX_EDIT) (Char : Z)
    : bool * YORI_WIN_CTRL_HEX_EDIT :=
  let '(Result, NewCursorLine, NewCursorOffset, Edited) :=
    if negb (InsertMode HexEdit)
    then YoriWinHexEditOverwriteCell HexEdit (CursorLine HexEdit) (CursorOffset HexEdit) Char
    else YoriWinHexEditInsertCell HexEdit (CursorLine HexEdit) (CursorOffset HexEdit) Char in
  if Result
  then (true, YoriWinHexEditSetCursorLocationInternal Edited NewCursorOffset NewCursorLine)
  else (false, Edited).

Definition YoriWinHexEditDelete (HexEdit : YORI_WIN_CTRL_HEX_EDIT)
    : bool * YORI_WIN_CTRL_HEX_EDIT :=
  let '(Result, LastLine, LastCharOffset, Edited) :=
    YoriWinHexEditDeleteCell HexEdit (CursorLine HexEdit) (CursorOffset HexEdit) in
  if Result
  then (true, YoriWinHexEditSetCursorLocationInternal Edited LastCharOffset LastLine)
  else (false, Edited).

(** *** Data exchange *)

Definition YoriWinHexEditSetDataNoCopy
    (HexEdit : YORI_WIN_CTRL_HEX_EDIT) (NewBuffer : memory)
    (NewBufferAllocated NewBufferValid : Z) : bool * YORI_WIN_CTRL_HEX_EDIT :=
  let HexEdit :=
    set_BufferValid NewBufferValid
      (set_BufferAllocated NewBufferAllocated
         (set_Buffer (Some NewBuffer) HexEdit)) in
  let HexEdit := YoriWinHexEditExpandDirtyRange HexEdit 0 DWORD_MAX in
  (true, YoriWinHexEditPaint HexEdit).

(** Returns the C return value, [*Buffer] and [*BufferLength].  The
    reference taken on the buffer lives in the allocator. *)
Definition YoriWinHexEditGetDataNoCopy (HexEdit : YORI_WIN_CTRL_HEX_EDIT)
    : bool * option memory * Z :=
  (true, Buffer HexEdit, BufferValid HexEdit).

(** *** Selection *)

Definition YoriWinHexEditClearSelection (HexEdit : YORI_WIN_CTRL_HEX_EDIT)
    : YORI_WIN_CTRL_HEX_EDIT :=
  match Active (Selection HexEdit) with
  | YoriWinHexEditSelectNotActive => HexEdit
  | YoriWinHexEditSelectActive =>
      let FirstDirtyLine :=
        to_DWORD (FirstByteOffset (Selection HexEdit) / BytesPerLine HexEdit) in
      let LastDirtyLine :=
        to_DWORD (LastByteOffset (Selection HexEdit) / BytesPerLine HexEdit) in
      let HexEdit :=
        set_Selection
          {| Active := YoriWinHexEditSelectNotActive;
             FirstByteOffset := FirstByteOffset (Selection HexEdit);
             LastByteOffset := LastByteOffset (Selection HexEdit) |}
          HexEdit in
      YoriWinHexEditExpandDirtyRange HexEdit FirstDirtyLine LastDirtyLine
  end.

Definition YoriWinHexEditSetSelectionRange
    (HexEdit : YORI_WIN_CTRL_HEX_EDIT) (First Last : Z)
    : bool * YORI_WIN_CTRL_HEX_EDIT :=
  let HexEdit := YoriWinHexEditClearSelection HexEdit in
  let HexEdit :=
    set_Selection
      {| Active := YoriWinHexEditSelectActive;
         FirstByteOffset := FirstByteOffset (Selection HexEdit);
         LastByteOffset := LastByteOffset (Selection HexEdit) |}
      HexEdit in
  if (BufferValid HexEdit <=? First) || (BufferValid HexEdit <=? Last)
  then (false, HexEdit)
  else
    let HexEdit :=
      set_Selection
        {| Active := YoriWinHexEditSelectActive;
           FirstByteOffset := First;
           LastByteOffset := Last |}
        HexEdit in
    let HexEdit :=
      YoriWinHexEditExpandDirtyRange HexEdit
        (to_DWORD (First / BytesPerLine HexEdit))
        (to_DWORD (Last / BytesPerLine HexEdit)) in
    (true, YoriWinHexEditPaint HexEdit).

Definition YoriWinHexEditSelectionActive (HexEdit : YORI_WIN_CTRL_HEX_EDIT) : bool :=
  match Active (Selection HexEdit) with
  | YoriWinHexEditSelectNotActive => false
  | YoriWinHexEditSelectActive => true
  end.

(** *** Whole-control operations *)

Definition YoriWinHexEditClear (HexEdit : YORI_WIN_CTRL_HEX_EDIT)
    : bool * YORI_WIN_CTRL_HEX_EDIT :=
  let HexEdit :=
    set_BufferValid 0 (set_BufferAllocated 0 (set_Buffer None HexEdit)) in
  let HexEdit := set_ViewportLeft 0 (set_ViewportTop 0 HexEdit) in
  let HexEdit :=
    YoriWinHexEditExpandDirtyRange HexEdit (ViewportTop HexEdit) DWORD_MAX in
  let HexEdit := snd (YoriWinHexEditSetCursorLocationToZero HexEdit) in
  (true, YoriWinHexEditPaint HexEdit).

(** [YoriWinHexEditPaintNonClient] draws the border and the caption through
    the window manager and leaves the control as it is. *)
Definition YoriWinHexEditSetCaption
    (HexEdit : YORI_WIN_CTRL_HEX_EDIT) (NewText : YORI_STRING)
    : bool * YORI_WIN_CTRL_HEX_EDIT :=
  let Allocated :=
    if LengthAllocated (Caption HexEdit) <? LengthInChars NewText
    then
      match YoriLibAllocateString (LengthInChars NewText) with
      | None => None
      | Some NewCaption => Some (set_Caption NewCaption HexEdit)
      end
    else Some HexEdit in
  match Allocated with
  | None => (false, HexEdit)
  | Some HexEdit =>
      let Chars :=
        if 0 <? LengthInChars NewText
        then Some (memmove (deref (StartOfString (Caption HexEdit))) 0
                           (deref (StartOfString NewText)) 0 (LengthInChars NewText))
        else StartOfString (Caption HexEdit) in
      (true, set_Caption
               {| StartOfString := Chars;
                  LengthInChars := LengthInChars NewText;
                  LengthAllocated := LengthAllocated (Caption HexEdit) |}
               HexEdit)
  end.

(** *** Programmatic mutation API *)

Definition YoriWinHexEditDeleteData
    (HexEdit : YORI_WIN_CTRL_HEX_EDIT) (DataOffset Length : Z)
    : bool * YORI_WIN_CTRL_HEX_EDIT :=
  if BufferValid HexEdit <=? DataOffset then (false, HexEdit)
  else
    let LengthToRemove :=
      if BufferValid HexEdit <? to_DWORDLONG (DataOffset + Length)
      then to_DWORDLONG (BufferValid HexEdit - DataOffset)
      else Length in
    let Mem := deref (Buffer HexEdit) in
    let HexEdit :=
      if to_DWORDLONG (DataOffset + LengthToRemove) <? BufferValid HexEdit
      then set_Buffer
             (Some (memmove Mem DataOffset
                            Mem (to_DWORDLONG (DataOffset + LengthToRemove))
                            (to_DWORD (BufferValid HexEdit - DataOffset - LengthToRemove))))
             HexEdit
      else HexEdit in
    let HexEdit :=
      set_BufferValid (to_DWORDLONG (BufferValid HexEdit - LengthToRemove)) HexEdit in
    (true, YoriWinHexEditExpandDirtyRange HexEdit
             (to_DWORD (DataOffset / BytesPerLine HexEdit)) DWORD_MAX).

Definition YoriWinHexEditInsertData
    (HexEdit : YORI_WIN_CTRL_HEX_EDIT) (DataOffset : Z) (Data : memory) (Length : Z)
    : bool * YORI_WIN_CTRL_HEX_EDIT :=
  if BufferValid HexEdit <=? DataOffset then (false, HexEdit)
  else
    match YoriWinHexEditInsertSpaceInBuffer HexEdit DataOffset (to_DWORD Length) with
    | (false, HexEdit) => (false, HexEdit)
    | (true, HexEdit) =>
        let HexEdit :=
          set_Buffer
            (Some (memmove (deref (Buffer HexEdit)) DataOffset Data 0 (to_DWORD Length)))
            HexEdit in
        (true, YoriWinHexEditExpandDirtyRange HexEdit
                 (to_DWORD (DataOffset / BytesPerLine HexEdit)) DWORD_MAX)
    end.

Definition YoriWinHexEditReplaceData
    (HexEdit : YORI_WIN_CTRL_HEX_EDIT) (DataOffset : Z) (Data : memory) (Length : Z)
    : bool * YORI_WIN_CTRL_HEX_EDIT :=
  if BufferValid HexEdit <? to_DWORDLONG (DataOffset + Length) then (false, HexEdit)
  else
    let Edited :=
      set_Buffer
        (Some (memmove (deref (Buffer HexEdit)) DataOffset Data 0 (to_DWORD Length)))
        HexEdit in
    (true, YoriWinHexEditExpandDirtyRange Edited
             (to_DWORD (DataOffset / BytesPerLine HexEdit))
             (to_DWORD (to_DWORDLONG (DataOffset + Length) / BytesPerLine HexEdit))).

(** *** Construction *)

(** The style bits tested by [YoriWinHexEditCreate]. *)
Record HEX_EDIT_STYLE : Type := {
  STYLE_VSCROLLBAR : bool;
  STYLE_READ_ONLY : bool;
  STYLE_OFFSET : bool;
  STYLE_LARGE_OFFSET : bool
}.

(** The control as [YoriWinHexEditCreate] leaves it when the window manager
    accepts it: [None] is the rejection of the arguments.  [Size] is the
    client area the window manager gives the control. *)
Definition YoriWinHexEditCreate
    (NewCaption : option YORI_STRING) (Size : COORD) (NewBytesPerWord : Z)
    (Style : HEX_EDIT_STYLE) : option YORI_WIN_CTRL_HEX_EDIT :=
  if STYLE_OFFSET Style && STYLE_LARGE_OFFSET Style then None
  else if negb (NewBytesPerWord =? 1) && negb (NewBytesPerWord =? 2)
          && negb (NewBytesPerWord =? 4) && negb (NewBytesPerWord =? 8)
  then None
  else
    let EmptyString :=
      {| StartOfString := None; LengthInChars := 0; LengthAllocated := 0 |} in
    let HexEdit :=
      {| ClientSize := Size;
         Caption :=
           match NewCaption with
           | Some Text => if 0 <? LengthInChars Text then Text else EmptyString
           | None => EmptyString
           end;
         Buffer := None; BufferAllocated := 0; BufferValid := 0;
         BytesPerLine := YORI_LIB_HEXDUMP_BYTES_PER_LINE;
         BytesPerWord := NewBytesPerWord;
         ViewportTop := 0; ViewportLeft := 0;
         CursorLine := 0; CursorOffset := 0;
         FirstDirtyLine := 0; LastDirtyLine := 0;
         Selection :=
           {| Active := YoriWinHexEditSelectNotActive;
              FirstByteOffset := 0; LastByteOffset := 0 |};
         OffsetWidth :=
           if STYLE_OFFSET Style then 32
           else if STYLE_LARGE_OFFSET Style then 64 else 0;
         PercentCursorVisibleLastPaint := 0;
         InsertMode := false;
         ReadOnly := STYLE_READ_ONLY Style;
         HasFocus := false;
         UserModified := false |} in
    let HexEdit := snd (YoriWinHexEditSetCursorLocationToZero HexEdit) in
    let HexEdit := YoriWinHexEditExpandDirtyRange HexEdit 0 DWORD_MAX in
    Some (YoriWinHexEditPaint HexEdit).

(** *** Mutations between two paints

    The operations that change the control and leave the painting to their
    caller. *)
Inductive MUTATION : Type :=
  | MutExpandDirtyRange (NewFirstDirtyLine NewLastDirtyLine : Z)
  | MutAddChar (Char : Z)
  | MutDelete
  | MutInsertCell (FirstLine FirstCharOffset Char : Z)
  | MutOverwriteCell (FirstLine FirstCharOffset Char : Z)
  | MutDeleteCell (FirstLine FirstCharOffset : Z)
  | MutInsertData (DataOffset : Z) (Data : memory) (Length : Z)
  | MutDeleteData (DataOffset Length : Z)
  | MutReplaceData (DataOffset : Z) (Data : memory) (Length : Z)
  | MutClearSelection
  | MutSetCursorLocationInternal (NewCursorOffset NewCursorLine : Z)
  | MutEnsureCursorVisible.

Definition ApplyMutation (HexEdit : YORI_WIN_CTRL_HEX_EDIT) (m : MUTATION)
    : YORI_WIN_CTRL_HEX_EDIT :=
  match m with
  | MutExpandDirtyRange a b => YoriWinHexEditExpandDirtyRange HexEdit a b
  | MutAddChar c => snd (YoriWinHexEditAddChar HexEdit c)
  | MutDelete => snd (YoriWinHexEditDelete HexEdit)
  | MutInsertCell l o c => snd (YoriWinHexEditInsertCell HexEdit l o c)
  | MutOverwriteCell l o c => snd (YoriWinHexEditOverwriteCell HexEdit l o c)
  | MutDeleteCell l o => snd (YoriWinHexEditDeleteCell HexEdit l o)
  | MutInsertData o d n => snd (YoriWinHexEditInsertData HexEdit o d n)
  | MutDeleteData o n => snd (YoriWinHexEditDeleteData HexEdit o n)
  | MutReplaceData o d n => snd (YoriWinHexEditReplaceData HexEdit o d n)
  | MutClearSelection => YoriWinHexEditClearSelection HexEdit
  | MutSetCursorLocationInternal o l => YoriWinHexEditSetCursorLocationInternal HexEdit o l
  | MutEnsureCursorVisible => YoriWinHexEditEnsureCursorVisible HexEdit
  end.

Definition ApplyMutations (HexEdit : YORI_WIN_CTRL_HEX_EDIT) (ms : list MUTATION)
    : YORI_WIN_CTRL_HEX_EDIT :=
  fold_left ApplyMutation ms HexEdit.

End Operations.

(** ** Checkers and sample controls used by the proofs *)

Definition CellTypeEqb (a b : YORI_WIN_HEX_EDIT_CELL_TYPE) : bool :=
  match a, b with
  | YoriWinHexEditCellTypeOffset, YoriWinHexEditCellTypeOffset
  | YoriWinHexEditCellTypeWhitespace, YoriWinHexEditCellTypeWhitespace
  | YoriWinHexEditCellTypeHexDigit, YoriWinHexEditCellTypeHexDigit
  | YoriWinHexEditCellTypeCharValue, YoriWinHexEditCellTypeCharValue => true
  | _, _ => false
  end.

(** The round trip within one line, as a test that can be run over the
    sixteen byte positions [r] and the sixteen nibbles [4 * k] of a line. *)
Definition HexRoundTripCheck (HexEdit : YORI_WIN_CTRL_HEX_EDIT) (Line r k : Z) : bool :=
  let Cell := YoriWinHexEditCellType HexEdit Line
                (snd (YoriWinHexEditCellFromHexBufferOffset HexEdit r (4 * k))) in
  implb ((r mod BytesPerWord HexEdit =? 0) && (4 * k <=? BytesPerWord HexEdit * 8 - 4))
        (CellTypeEqb (CellType Cell) YoriWinHexEditCellTypeHexDigit
         && (ByteOffset Cell =? r) && (BitShift Cell =? 4 * k)).

Definition CharRoundTripCheck (HexEdit : YORI_WIN_CTRL_HEX_EDIT) (Line r : Z) : bool :=
  let Cell := YoriWinHexEditCellType HexEdit Line
                (snd (YoriWinHexEditCellFromCharBufferOffset HexEdit r)) in
  CellTypeEqb (CellType Cell) YoriWinHexEditCellTypeCharValue
  && (ByteOffset Cell =? r) && (BitShift Cell =? 0).

(** Classifying the display cell [LineCell] yields the cell type [Kind] and
    leads back to [BufferOffset] and [Shift]. *)
Definition RoundTripsTo (HexEdit : YORI_WIN_CTRL_HEX_EDIT) (LineCell : Z * Z)
    (Kind : YORI_WIN_HEX_EDIT_CELL_TYPE) (BufferOffset Shift : Z) : Prop :=
  let Cell := YoriWinHexEditCellType HexEdit (fst LineCell) (snd LineCell) in
  CellType Cell = Kind
  /\ BufferOffsetOfCell HexEdit (fst LineCell) Cell = BufferOffset
  /\ BitShift Cell = Shift.

(** A control in a given configuration that holds a given buffer, with the
    cursor at the origin, nothing selected and nothing dirty. *)
Definition ControlWith (Words Width : Z) (Data : option memory) (Allocated Valid : Z)
    : YORI_WIN_CTRL_HEX_EDIT :=
  {| ClientSize := {| X := 76; Y := 20 |};
     Caption := {| StartOfString := None; LengthInChars := 0; LengthAllocated := 0 |};
     Buffer := Data; BufferAllocated := Allocated; BufferValid := Valid;
     BytesPerLine := YORI_LIB_HEXDUMP_BYTES_PER_LINE; BytesPerWord := Words;
     ViewportTop := 0; ViewportLeft := 0; CursorLine := 0; CursorOffset := 0;
     FirstDirtyLine := DWORD_MAX; LastDirtyLine := 0;
     Selection := {| Active := YoriWinHexEditSelectNotActive;
                     FirstByteOffset := 0; LastByteOffset := 0 |};
     OffsetWidth := Width; PercentCursorVisibleLastPaint := 0;
     InsertMode := false; ReadOnly := false; HasFocus := true;
     UserModified := false |}.

(** Two allocators for the examples: one that never fails and hands out
    zeroed blocks, and one that always fails. *)
Definition MallocZeroed : Z -> option memory := fun _ => Some (fun _ => 0).
Definition MallocFails : Z -> option memory := fun _ => None.
Definition AllocateStringFails : Z -> option YORI_STRING := fun _ => None.

(** The bytes 0, 1, 2, ... *)
Definition CountingBytes : memory := fun i => to_UCHAR i.

Definition NoStyle : HEX_EDIT_STYLE :=
  {| STYLE_VSCROLLBAR := false; STYLE_READ_ONLY := false;
     STYLE_OFFSET := false; STYLE_LARGE_OFFSET := false |}.

(** The nibble a typed character stands for, as both cell editors compute
    it: the character is truncated to a byte, upcased and read as a hex
    digit. *)
Definition TypedNibble (Char : Z) : option Z :=
  NibbleOfInputChar (to_UCHAR (YoriLibUpcaseChar (YoriWinHexEditInputCharToByte Char))).

(** The cursor did not move and the buffer, its allocated and its valid
    length are those of [HexEdit]. *)
Definition EditAbandoned (HexEdit : YORI_WIN_CTRL_HEX_EDIT)
    (FirstLine FirstCharOffset : Z) (Result : EDIT_RESULT) : Prop :=
  LastLineOf Result = FirstLine
  /\ LastCharOffsetOf Result = FirstCharOffset
  /\ Buffer (ControlOf Result) = Buffer HexEdit
  /\ BufferAllocated (ControlOf Result) = BufferAllocated HexEdit
  /\ BufferValid (ControlOf Result) = BufferValid HexEdit.

(** The dirty range of [After] contains the dirty range of [Before]. *)
Definition DirtyRangeExtends (Before After : YORI_WIN_CTRL_HEX_EDIT) : Prop :=
  FirstDirtyLine After <= FirstDirtyLine Before
  /\ LastDirtyLine Before <= LastDirtyLine After.

(** The buffer, its two lengths and the selection of [After] are those of
    [Before]. *)
Definition KeepsBufferAndSelection (Before After : YORI_WIN_CTRL_HEX_EDIT) : Prop :=
  Buffer After = Buffer Before
  /\ BufferAllocated After = BufferAllocated Before
  /\ BufferValid After = BufferValid Before
  /\ Selection After = Selection Before.

(** What is drawn on [Line] differs between [Before] and [After]: some byte
    of the line is valid in one and not in the other, or is valid in both
    with different values. *)
Definition LineAffected (Before After : YORI_WIN_CTRL_HEX_EDIT) (Line : Z) : Prop :=
  exists Offset,
    0 <= Offset
    /\ Offset / BytesPerLine Before = Line
    /\ ((Offset <? BufferValid Before) <> (Offset <? BufferValid After)
        \/ (Offset < BufferValid Before /\ Offset < BufferValid After
            /\ deref (Buffer Before) Offset <> deref (Buffer After) Offset)).

(** The valid bytes of the buffer, in order. *)
Definition ValidBytes (HexEdit : YORI_WIN_CTRL_HEX_EDIT) : list Z :=
  map (fun i => deref (Buffer HexEdit) (Z.of_nat i))
      (seq 0 (Z.to_nat (BufferValid HexEdit))).

(** The cursor of the control, as (line, display column). *)
Definition CursorOf (HexEdit : YORI_WIN_CTRL_HEX_EDIT) : Z * Z :=
  (CursorLine HexEdit, CursorOffset HexEdit).

(** ** Navigation, viewport and configuration

    The functions that move the cursor and the viewport, read the cursor
    back, reconfigure the control and dispatch the navigation keys.
    [YoriWinHexEditRepaintScrollBar] and [YoriWinHexEditPaintNonClient]
    only draw through the window manager and leave the control as it is,
    so their calls do not appear. *)

Definition set_BytesPerWord (v : Z) (h : YORI_WIN_CTRL_HEX_EDIT) :=
  {| ClientSize := ClientSize h; Caption := Caption h; Buffer := Buffer h;
     BufferAllocated := BufferAllocated h; BufferValid := BufferValid h;
     BytesPerLine := BytesPerLine h; BytesPerWord := v;
     ViewportTop := ViewportTop h; ViewportLeft := ViewportLeft h;
     CursorLine := CursorLine h; CursorOffset := CursorOffset h;
     FirstDirtyLine := FirstDirtyLine h; LastDirtyLine := LastDirtyLine h;
     Selection := Selection h; OffsetWidth := OffsetWidth h;
     PercentCursorVisibleLastPaint := PercentCursorVisibleLastPaint h;
     InsertMode := InsertMode h; ReadOnly := ReadOnly h;
     HasFocus := HasFocus h; UserModified := UserModified h |}.

Definition set_OffsetWidth (v : Z) (h : YORI_WIN_CTRL_HEX_EDIT) :=
  {| ClientSize := ClientSize h; Caption := Caption h; Buffer := Buffer h;
     BufferAllocated := BufferAllocated h; BufferValid := BufferValid h;
     BytesPerLine := BytesPerLine h; BytesPerWord := BytesPerWord h;
     ViewportTop := ViewportTop h; ViewportLeft := ViewportLeft h;
     CursorLine := CursorLine h; CursorOffset := CursorOffset h;
     FirstDirtyLine := FirstDirtyLine h; LastDirtyLine := LastDirtyLine h;
     Selection := Selection h; OffsetWidth := v;
     PercentCursorVisibleLastPaint := PercentCursorVisibleLastPaint h;
     InsertMode := InsertMode h; ReadOnly := ReadOnly h;
     HasFocus := HasFocus h; UserModified := UserModified h |}.

Definition set_ReadOnly (v : bool) (h : YORI_WIN_CTRL_HEX_EDIT) :=
  {| ClientSize := ClientSize h; Caption := Caption h; Buffer := Buffer h;
     BufferAllocated := BufferAllocated h; BufferValid := BufferValid h;
     BytesPerLine := BytesPerLine h; BytesPerWord := BytesPerWord h;
     ViewportTop := ViewportTop h; ViewportLeft := ViewportLeft h;
     CursorLine := CursorLine h; CursorOffset := CursorOffset h;
     FirstDirtyLine := FirstDirtyLine h; LastDirtyLine := LastDirtyLine h;
     Selection := Selection h; OffsetWidth := OffsetWidth h;
     PercentCursorVisibleLastPaint := PercentCursorVisibleLastPaint h;
     InsertMode := InsertMode h; ReadOnly := v;
     HasFocus := HasFocus h; UserModified := UserModified h |}.

Section Navigation.

Variable YoriLibReferencedMalloc : Z -> option memory.

(** *** Cursor stepping, backwards *)

Definition YoriWinHexEditPreviousCellSameType
    (HexEdit : YORI_WIN_CTRL_HEX_EDIT) (CellType : YORI_WIN_HEX_EDIT_CELL_TYPE)
    (BufferOffset BitShift : Z) : option (Z * Z) :=
  match CellType with
  | YoriWinHexEditCellTypeCharValue =>
      let NewBufferOffset :=
        if 0 <? BufferOffset then BufferOffset - 1 else BufferOffset in
      Some (YoriWinHexEditCellFromCharBufferOffset HexEdit NewBufferOffset)
  | YoriWinHexEditCellTypeHexDigit =>
      let Unaligned := to_DWORD (BufferOffset mod BytesPerWord HexEdit) in
      let '(NewBufferOffset, NewBitShift) :=
        if negb (Unaligned =? 0)
        then (to_DWORD (BufferOffset - Unaligned),
              to_DWORD (BitShift + 8 * Unaligned))
        else (BufferOffset, BitShift) in
      let '(NewBufferOffset, NewBitShift) :=
        if NewBitShift <? to_DWORD (BytesPerWord HexEdit * 8 - 4)
        then (NewBufferOffset, to_DWORD (NewBitShift + 4))
        else if 0 <? NewBufferOffset
        then (to_DWORDLONG (NewBufferOffset - BytesPerWord HexEdit), 0)
        else (NewBufferOffset, NewBitShift) in
      Some (YoriWinHexEditCellFromHexBufferOffset HexEdit NewBufferOffset NewBitShift)
  | _ => None
  end.

(** *** Display and cursor coordinates *)

Definition YoriWinHexEditFindCursorCharFromDisplayChar
    (HexEdit : YORI_WIN_CTRL_HEX_EDIT) (LineIndex DisplayChar : Z) : Z :=
  DisplayChar.

Definition YoriWinHexEditFindDisplayCharFromCursorChar
    (HexEdit : YORI_WIN_CTRL_HEX_EDIT) (LineIndex CursorChar : Z) : Z :=
  CursorChar.

(** Returns [*LineIndex] and [*CursorChar]. *)
Definition YoriWinHexEditTranslateViewportCoordinatesToCursorCoordinates
    (HexEdit : YORI_WIN_CTRL_HEX_EDIT) (ViewportLeftOffset ViewportTopOffset : Z)
    : Z * Z :=
  let LineOffset := to_DWORD (ViewportTopOffset + ViewportTop HexEdit) in
  let DisplayOffset := to_DWORD (ViewportLeftOffset + ViewportLeft HexEdit) in
  (LineOffset,
   YoriWinHexEditFindCursorCharFromDisplayChar HexEdit LineOffset DisplayOffset).

(** *** Reading the state back *)

(** [None] is the return value [FALSE]; otherwise the new block and
    [*DataLength]. *)
Definition YoriWinHexEditGetSelectedData (HexEdit : YORI_WIN_CTRL_HEX_EDIT)
    : option (memory * Z) :=
  match Active (Selection HexEdit) with
  | YoriWinHexEditSelectNotActive => None
  | YoriWinHexEditSelectActive =>
      let LocalDataLength :=
        to_DWORDLONG (LastByteOffset (Selection HexEdit)
                      - FirstByteOffset (Selection HexEdit) + 1) in
      let HighPart := LocalDataLength / 2 ^ 32 in
      let LowPart := LocalDataLength mod 2 ^ 32 in
      if negb (HighPart =? 0) then None
      else
        match YoriLibReferencedMalloc LowPart with
        | None => None
        | Some NewBuffer =>
            Some (memmove NewBuffer 0 (deref (Buffer HexEdit))
                          (FirstByteOffset (Selection HexEdit)) LowPart,
                  LocalDataLength)
        end
  end.

(** Returns [*ViewportLeft] and [*ViewportTop]. *)
Definition YoriWinHexEditGetViewportLocation (HexEdit : YORI_WIN_CTRL_HEX_EDIT)
    : Z * Z :=
  (ViewportLeft HexEdit, ViewportTop HexEdit).

Definition YoriWinHexEditGetModifyState (HexEdit : YORI_WIN_CTRL_HEX_EDIT) : bool :=
  UserModified HexEdit.

Definition YoriWinHexEditGetBytesPerWord (HexEdit : YORI_WIN_CTRL_HEX_EDIT) : Z :=
  BytesPerWord HexEdit.

(** [None] is the return value [FALSE]; otherwise [*AsChar], [*BufferOffset]
    and [*BitShift]. *)
Definition YoriWinHexEditGetCursorLocation (HexEdit : YORI_WIN_CTRL_HEX_EDIT)
    : option (bool * Z * Z) :=
  let Cell :=
    YoriWinHexEditCellType HexEdit (CursorLine HexEdit) (CursorOffset HexEdit) in
  match CellType Cell with
  | YoriWinHexEditCellTypeHexDigit =>
      Some (false, BufferOffsetOfCell HexEdit (CursorLine HexEdit) Cell, BitShift Cell)
  | YoriWinHexEditCellTypeCharValue =>
      Some (true, BufferOffsetOfCell HexEdit (CursorLine HexEdit) Cell, BitShift Cell)
  | _ => None
  end.

(** Returns the C return value, [*CursorOffset] and [*CursorLine]. *)
Definition YoriWinHexEditGetVisualCursorLocation (HexEdit : YORI_WIN_CTRL_HEX_EDIT)
    : bool * Z * Z :=
  (true, CursorOffset HexEdit, CursorLine HexEdit).

(** *** Viewport *)

Definition YoriWinHexEditSetViewportLocation
    (HexEdit : YORI_WIN_CTRL_HEX_EDIT) (NewViewportLeft NewViewportTop : Z)
    : YORI_WIN_CTRL_HEX_EDIT :=
  let LinesPopulated := YoriWinHexEditLinesPopulated HexEdit in
  let EffectiveNewViewportTop :=
    if LinesPopulated <? NewViewportTop
    then (if 0 <? LinesPopulated then LinesPopulated - 1 else 0)
    else NewViewportTop in
  let HexEdit :=
    if negb (EffectiveNewViewportTop =? ViewportTop HexEdit)
    then set_ViewportTop EffectiveNewViewportTop
           (YoriWinHexEditExpandDirtyRange HexEdit EffectiveNewViewportTop DWORD_MAX)
    else HexEdit in
  let HexEdit :=
    if negb (NewViewportLeft =? ViewportLeft HexEdit)
    then set_ViewportLeft NewViewportLeft
           (YoriWinHexEditExpandDirtyRange HexEdit EffectiveNewViewportTop DWORD_MAX)
    else HexEdit in
  YoriWinHexEditPaint HexEdit.

Definition YoriWinHexEditPageUp (HexEdit : YORI_WIN_CTRL_HEX_EDIT)
    : bool * YORI_WIN_CTRL_HEX_EDIT :=
  let ViewportHeight := to_DWORD (Y (ClientSize HexEdit)) in
  if 0 <? CursorLine HexEdit
  then
    let NewCursorLine :=
      if ViewportHeight <=? CursorLine HexEdit
      then CursorLine HexEdit - ViewportHeight
      else 0 in
    let HexEdit :=
      if ViewportHeight <=? ViewportTop HexEdit
      then set_ViewportTop (ViewportTop HexEdit - ViewportHeight) HexEdit
      else set_ViewportTop 0 HexEdit in
    let HexEdit :=
      YoriWinHexEditExpandDirtyRange HexEdit (ViewportTop HexEdit) DWORD_MAX in
    (true, YoriWinHexEditSetCursorLocationInternal HexEdit
             (CursorOffset HexEdit) NewCursorLine)
  else (false, HexEdit).

Definition YoriWinHexEditPageDown (HexEdit : YORI_WIN_CTRL_HEX_EDIT)
    : bool * YORI_WIN_CTRL_HEX_EDIT :=
  let ViewportHeight := to_DWORD (Y (ClientSize HexEdit)) in
  let LinesPopulated := YoriWinHexEditLinesPopulated HexEdit in
  if to_DWORD (ViewportTop HexEdit + ViewportHeight) <? LinesPopulated
  then
    let HexEdit :=
      set_ViewportTop (to_DWORD (ViewportTop HexEdit + ViewportHeight)) HexEdit in
    let HexEdit :=
      YoriWinHexEditExpandDirtyRange HexEdit (ViewportTop HexEdit) DWORD_MAX in
    let NewCursorLine :=
      if to_DWORD (CursorLine HexEdit + ViewportHeight) <? LinesPopulated
      then to_DWORD (CursorLine HexEdit + ViewportHeight)
      else if to_DWORD (CursorLine HexEdit + 1) <? LinesPopulated
      then to_DWORD (LinesPopulated - 1)
      else CursorLine HexEdit in
    (true, YoriWinHexEditSetCursorLocationInternal HexEdit
             (CursorOffset HexEdit) NewCursorLine)
  else (false, HexEdit).

Definition YoriWinHexEditNotifyMouseWheel
    (HexEdit : YORI_WIN_CTRL_HEX_EDIT) (LinesToMove : Z) (MoveUp : bool)
    : YORI_WIN_CTRL_HEX_EDIT :=
  let LineCountToDisplay := to_DWORD (Y (ClientSize HexEdit)) in
  let LinesPopulated := YoriWinHexEditLinesPopulated HexEdit in
  let NewViewportTop :=
    if MoveUp
    then
      if ViewportTop HexEdit <? LinesToMove
      then 0
      else ViewportTop HexEdit - LinesToMove
    else
      if LinesPopulated
         <? to_DWORD (ViewportTop HexEdit + LinesToMove + LineCountToDisplay)
      then
        if LineCountToDisplay <=? LinesPopulated
        then LinesPopulated - LineCountToDisplay
        else 0
      else to_DWORD (ViewportTop HexEdit + LinesToMove) in
  YoriWinHexEditSetViewportLocation HexEdit (ViewportLeft HexEdit) NewViewportTop.

(** [ScrollValue] is what [YoriWinScrollBarGetPosition] returns for the
    scroll bar of the control. *)
Definition YoriWinHexEditNotifyScrollChange
    (HexEdit : YORI_WIN_CTRL_HEX_EDIT) (ScrollValue : Z) : YORI_WIN_CTRL_HEX_EDIT :=
  let ElementCountToDisplay := Y (ClientSize HexEdit) mod 2 ^ 16 in
  let LinesPopulated := YoriWinHexEditLinesPopulated HexEdit in
  let NewViewportTop :=
    if LinesPopulated <? to_DWORDLONG (ScrollValue + ElementCountToDisplay)
    then
      if ElementCountToDisplay <=? LinesPopulated
      then LinesPopulated - ElementCountToDisplay
      else 0
    else
      if ScrollValue <? LinesPopulated
      then to_DWORD ScrollValue
      else ViewportTop HexEdit in
  if negb (NewViewportTop =? ViewportTop HexEdit)
  then
    let HexEdit :=
      YoriWinHexEditExpandDirtyRange
        (set_ViewportTop NewViewportTop HexEdit) NewViewportTop DWORD_MAX in
    let HexEdit :=
      if CursorLine HexEdit <? ViewportTop HexEdit
      then YoriWinHexEditSetCursorLocationInternal HexEdit
             (CursorOffset HexEdit) (ViewportTop HexEdit)
      else if to_DWORD (ViewportTop HexEdit + Y (ClientSize HexEdit))
              <=? CursorLine HexEdit
      then YoriWinHexEditSetCursorLocationInternal HexEdit
             (CursorOffset HexEdit)
             (to_DWORD (ViewportTop HexEdit + Y (ClientSize HexEdit) - 1))
      else HexEdit in
    YoriWinHexEditPaint HexEdit
  else HexEdit.

(** *** Configuration *)

(** Returns the previous value. *)
Definition YoriWinHexEditSetModifyState
    (HexEdit : YORI_WIN_CTRL_HEX_EDIT) (ModifyState : bool)
    : bool * YORI_WIN_CTRL_HEX_EDIT :=
  (UserModified HexEdit, set_UserModified ModifyState HexEdit).

Definition YoriWinHexEditSetReadOnly
    (HexEdit : YORI_WIN_CTRL_HEX_EDIT) (NewReadOnlyState : bool)
    : bool * YORI_WIN_CTRL_HEX_EDIT :=
  (true, set_ReadOnly NewReadOnlyState HexEdit).

Definition YoriWinHexEditSetBytesPerWord
    (HexEdit : YORI_WIN_CTRL_HEX_EDIT) (NewBytesPerWord : Z)
    : bool * YORI_WIN_CTRL_HEX_EDIT :=
  if negb (NewBytesPerWord =? 1) && negb (NewBytesPerWord =? 2)
     && negb (NewBytesPerWord =? 4) && negb (NewBytesPerWord =? 8)
  then (false, HexEdit)
  else
    let Cell :=
      YoriWinHexEditCellType HexEdit (CursorLine HexEdit) (CursorOffset HexEdit) in
    let BufferOffset := BufferOffsetOfCell HexEdit (CursorLine HexEdit) Cell in
    let '(BufferOffset, NewBitShift) :=
      match CellType Cell with
      | YoriWinHexEditCellTypeHexDigit =>
          if to_DWORD (NewBytesPerWord * 8) <=? BitShift Cell
          then
            let Unaligned := BitShift Cell / 8 in
            (to_DWORDLONG (BufferOffset + Unaligned),
             to_DWORD (BitShift Cell - Unaligned * 8))
          else if negb (BufferOffset mod NewBytesPerWord =? 0)
          then
            let Unaligned := to_DWORD (BufferOffset mod NewBytesPerWord) in
            (to_DWORDLONG (BufferOffset - Unaligned),
             to_DWORD (BitShift Cell + 8 * Unaligned))
          else (BufferOffset, BitShift Cell)
      | _ => (BufferOffset, BitShift Cell)
      end in
    let HexEdit := set_BytesPerWord NewBytesPerWord HexEdit in
    let HexEdit :=
      snd (YoriWinHexEditSetCursorToBufferLocation HexEdit (CellType Cell)
             BufferOffset NewBitShift) in
    let HexEdit :=
      YoriWinHexEditExpandDirtyRange HexEdit (ViewportTop HexEdit) DWORD_MAX in
    let HexEdit := YoriWinHexEditEnsureCursorVisible HexEdit in
    (true, YoriWinHexEditPaint HexEdit).

(** [NewStyle] is given by its named flags, as for [YoriWinHexEditCreate]:
    the first test of the C function rejects every flag that is not one of
    the two offset flags. *)
Definition YoriWinHexEditSetStyle
    (HexEdit : YORI_WIN_CTRL_HEX_EDIT) (NewStyle : HEX_EDIT_STYLE)
    : bool * YORI_WIN_CTRL_HEX_EDIT :=
  if STYLE_VSCROLLBAR NewStyle || STYLE_READ_ONLY NewStyle then (false, HexEdit)
  else if STYLE_OFFSET NewStyle && STYLE_LARGE_OFFSET NewStyle then (false, HexEdit)
  else
    let Cell :=
      YoriWinHexEditCellType HexEdit (CursorLine HexEdit) (CursorOffset HexEdit) in
    let BufferOffset := BufferOffsetOfCell HexEdit (CursorLine HexEdit) Cell in
    let HexEdit :=
      set_OffsetWidth
        (if STYLE_OFFSET NewStyle then 32
         else if STYLE_LARGE_OFFSET NewStyle then 64 else 0)
        HexEdit in
    let HexEdit :=
      snd (YoriWinHexEditSetCursorToBufferLocation HexEdit (CellType Cell)
             BufferOffset (BitShift Cell)) in
    let HexEdit :=
      YoriWinHexEditExpandDirtyRange HexEdit (ViewportTop HexEdit) DWORD_MAX in
    let HexEdit := YoriWinHexEditEnsureCursorVisible HexEdit in
    (true, YoriWinHexEditPaint HexEdit).

Definition YoriWinHexEditSetCursorLocation
    (HexEdit : YORI_WIN_CTRL_HEX_EDIT) (AsChar : bool) (BufferOffset BitShift : Z)
    : bool * YORI_WIN_CTRL_HEX_EDIT :=
  let CellType :=
    if AsChar then YoriWinHexEditCellTypeCharValue
    else YoriWinHexEditCellTypeHexDigit in
  YoriWinHexEditSetCursorToBufferLocation HexEdit CellType BufferOffset BitShift.

(** *** Cursor keys

    [YoriWinHexEditCursorLeft] and [YoriWinHexEditCursorRight] ignore the
    return value of the stepping function and then read [NewCursorLine] and
    [NewCursorOffset], which it leaves unwritten when the cursor is on an
    offset or whitespace cell; the locals are not initialised, so that read
    is undefined in C and is [None] here. *)

Definition YoriWinHexEditCursorLeft (HexEdit : YORI_WIN_CTRL_HEX_EDIT)
    : option (bool * YORI_WIN_CTRL_HEX_EDIT) :=
  let Cell :=
    YoriWinHexEditCellType HexEdit (CursorLine HexEdit) (CursorOffset HexEdit) in
  let BufferOffset := BufferOffsetOfCell HexEdit (CursorLine HexEdit) Cell in
  match YoriWinHexEditPreviousCellSameType HexEdit (CellType Cell)
          BufferOffset (BitShift Cell) with
  | None => None
  | Some (NewCursorLine, NewCursorOffset) =>
      if negb (NewCursorLine =? CursorLine HexEdit)
         || negb (NewCursorOffset =? CursorOffset HexEdit)
      then
        let HexEdit := YoriWinHexEditClearSelection HexEdit in
        let HexEdit :=
          YoriWinHexEditSetCursorLocationInternal HexEdit NewCursorOffset NewCursorLine in
        let HexEdit := YoriWinHexEditEnsureCursorVisible HexEdit in
        Some (true, YoriWinHexEditPaint HexEdit)
      else Some (false, HexEdit)
  end.

Definition YoriWinHexEditCursorRight (HexEdit : YORI_WIN_CTRL_HEX_EDIT)
    : option (bool * YORI_WIN_CTRL_HEX_EDIT) :=
  let Cell :=
    YoriWinHexEditCellType HexEdit (CursorLine HexEdit) (CursorOffset HexEdit) in
  let BufferOffset := BufferOffsetOfCell HexEdit (CursorLine HexEdit) Cell in
  match YoriWinHexEditNextCellSameType HexEdit (CellType Cell)
          BufferOffset (BitShift Cell) with
  | None => None
  | Some (NewCursorLine, NewCursorOffset) =>
      let PastEnd :=
        if BufferValid HexEdit <=? BufferOffset
        then
          let NewCell :=
            YoriWinHexEditCellType HexEdit NewCursorLine NewCursorOffset in
          (* the offset of the new cell is taken on the line the cursor
             is leaving *)
          BufferValid HexEdit
            <? BufferOffsetOfCell HexEdit (CursorLine HexEdit) NewCell
        else false in
      if PastEnd then Some (false, HexEdit)
      else
        let HexEdit := YoriWinHexEditClearSelection HexEdit in
        let HexEdit :=
          YoriWinHexEditSetCursorLocationInternal HexEdit NewCursorOffset NewCursorLine in
        let HexEdit := YoriWinHexEditEnsureCursorVisible HexEdit in
        Some (true, YoriWinHexEditPaint HexEdit)
  end.

Definition YoriWinHexEditCursorHome (HexEdit : YORI_WIN_CTRL_HEX_EDIT)
    : bool * YORI_WIN_CTRL_HEX_EDIT :=
  let Cell :=
    YoriWinHexEditCellType HexEdit (CursorLine HexEdit) (CursorOffset HexEdit) in
  let BufferOffset := BufferOffsetOfCell HexEdit (CursorLine HexEdit) Cell in
  let BufferOffset :=
    to_DWORDLONG ((BufferOffset / BytesPerLine HexEdit) * BytesPerLine HexEdit) in
  let NewBitShift :=
    match CellType Cell with
    | YoriWinHexEditCellTypeHexDigit => to_DWORD (BytesPerWord HexEdit * 8 - 4)
    | _ => BitShift Cell
    end in
  YoriWinHexEditSetCursorToBufferLocation (YoriWinHexEditClearSelection HexEdit)
    (CellType Cell) BufferOffset NewBitShift.

Definition YoriWinHexEditCursorEnd (HexEdit : YORI_WIN_CTRL_HEX_EDIT)
    : bool * YORI_WIN_CTRL_HEX_EDIT :=
  let Cell :=
    YoriWinHexEditCellType HexEdit (CursorLine HexEdit) (CursorOffset HexEdit) in
  let BufferOffset := BufferOffsetOfCell HexEdit (CursorLine HexEdit) Cell in
  let BufferOffset :=
    to_DWORDLONG ((BufferOffset / BytesPerLine HexEdit + 1) * BytesPerLine HexEdit) in
  let BufferOffset :=
    match CellType Cell with
    | YoriWinHexEditCellTypeHexDigit =>
        let BufferOffset := to_DWORDLONG (BufferOffset - BytesPerWord HexEdit) in
        if BufferValid HexEdit <? BufferOffset
        then to_DWORDLONG (BufferValid HexEdit / BytesPerWord HexEdit
                           * BytesPerWord HexEdit)
        else BufferOffset
    | _ =>
        let BufferOffset := to_DWORDLONG (BufferOffset - 1) in
        if BufferValid HexEdit <? BufferOffset
        then BufferValid HexEdit
        else BufferOffset
    end in
  YoriWinHexEditSetCursorToBufferLocation (YoriWinHexEditClearSelection HexEdit)
    (CellType Cell) BufferOffset 0.

Definition YoriWinHexEditCursorUp (HexEdit : YORI_WIN_CTRL_HEX_EDIT)
    : bool * YORI_WIN_CTRL_HEX_EDIT :=
  if CursorLine HexEdit =? 0 then (false, HexEdit)
  else
    let Cell :=
      YoriWinHexEditCellType HexEdit (CursorLine HexEdit) (CursorOffset HexEdit) in
    let BufferOffset :=
      to_DWORDLONG (to_DWORD (CursorLine HexEdit - 1) * BytesPerLine HexEdit
                    + ByteOffset Cell) in
    YoriWinHexEditSetCursorToBufferLocation (YoriWinHexEditClearSelection HexEdit)
      (CellType Cell) BufferOffset (BitShift Cell).

Definition YoriWinHexEditCursorDown (HexEdit : YORI_WIN_CTRL_HEX_EDIT)
    : bool * YORI_WIN_CTRL_HEX_EDIT :=
  let Cell :=
    YoriWinHexEditCellType HexEdit (CursorLine HexEdit) (CursorOffset HexEdit) in
  let BufferOffset :=
    to_DWORDLONG (to_DWORD (CursorLine HexEdit + 1) * BytesPerLine HexEdit
                  + ByteOffset Cell) in
  if BufferValid HexEdit <? BufferOffset then (false, HexEdit)
  else
    YoriWinHexEditSetCursorToBufferLocation (YoriWinHexEditClearSelection HexEdit)
      (CellType Cell) BufferOffset (BitShift Cell).

Definition YoriWinHexEditCursorCtrlHome (HexEdit : YORI_WIN_CTRL_HEX_EDIT)
    : bool * YORI_WIN_CTRL_HEX_EDIT :=
  let Cell :=
    YoriWinHexEditCellType HexEdit (CursorLine HexEdit) (CursorOffset HexEdit) in
  let NewBitShift :=
    match CellType Cell with
    | YoriWinHexEditCellTypeHexDigit => to_DWORD (BytesPerWord HexEdit * 8 - 4)
    | _ => BitShift Cell
    end in
  YoriWinHexEditSetCursorToBufferLocation (YoriWinHexEditClearSelection HexEdit)
    (CellType Cell) 0 NewBitShift.

Definition YoriWinHexEditCursorCtrlEnd (HexEdit : YORI_WIN_CTRL_HEX_EDIT)
    : bool * YORI_WIN_CTRL_HEX_EDIT :=
  let Cell :=
    YoriWinHexEditCellType HexEdit (CursorLine HexEdit) (CursorOffset HexEdit) in
  let BufferOffset :=
    match CellType Cell with
    | YoriWinHexEditCellTypeHexDigit =>
        to_DWORDLONG ((BufferValid HexEdit / BytesPerWord HexEdit)
                      * BytesPerWord HexEdit)
    | _ => BufferValid HexEdit
    end in
  YoriWinHexEditSetCursorToBufferLocation (YoriWinHexEditClearSelection HexEdit)
    (CellType Cell) BufferOffset 0.

Definition YoriWinHexEditMouseDown
    (HexEdit : YORI_WIN_CTRL_HEX_EDIT) (DisplayX DisplayY : Z)
    : bool * YORI_WIN_CTRL_HEX_EDIT :=
  let '(NewCursorLine, NewCursorChar) :=
    YoriWinHexEditTranslateViewportCoordinatesToCursorCoordinates
      HexEdit DisplayX DisplayY in
  let Cell := YoriWinHexEditCellType HexEdit NewCursorLine NewCursorChar in
  let BufferOffset := BufferOffsetOfCell HexEdit NewCursorLine Cell in
  let OnData :=
    match CellType Cell with
    | YoriWinHexEditCellTypeHexDigit | YoriWinHexEditCellTypeCharValue => true
    | _ => false
    end in
  if (BufferOffset <=? BufferValid HexEdit) && OnData
  then
    let HexEdit := YoriWinHexEditClearSelection HexEdit in
    let HexEdit :=
      YoriWinHexEditSetCursorLocationInternal HexEdit NewCursorChar NewCursorLine in
    let HexEdit := YoriWinHexEditEnsureCursorVisible HexEdit in
    (true, YoriWinHexEditPaint HexEdit)
  else (true, HexEdit).

(** *** Key dispatch

    The virtual key codes are constants of the Windows headers; the
    dispatchers only compare the code of the event with them, so the code
    is given here by the name it matches, or [VK_OTHER]. *)

Inductive VIRTUAL_KEY : Type :=
  | VK_LEFT | VK_RIGHT | VK_HOME | VK_END | VK_INSERT | VK_UP | VK_DOWN
  | VK_PRIOR | VK_NEXT | VK_DELETE | VK_OTHER.

(** Returns [Recognized] and the control; [None] when a cursor key reads
    the unwritten locals (see above). *)
Definition YoriWinHexEditProcessPossiblyEnhancedKey
    (HexEdit : YORI_WIN_CTRL_HEX_EDIT) (VirtualKeyCode : VIRTUAL_KEY)
    : option (bool * YORI_WIN_CTRL_HEX_EDIT) :=
  match VirtualKeyCode with
  | VK_LEFT =>
      match YoriWinHexEditCursorLeft HexEdit with
      | None => None
      | Some (_, HexEdit) => Some (true, HexEdit)
      end
  | VK_RIGHT =>
      match YoriWinHexEditCursorRight HexEdit with
      | None => None
      | Some (_, HexEdit) => Some (true, HexEdit)
      end
  | VK_HOME => Some (true, snd (YoriWinHexEditCursorHome HexEdit))
  | VK_END => Some (true, snd (YoriWinHexEditCursorEnd HexEdit))
  | VK_INSERT =>
      if negb (ReadOnly HexEdit)
      then Some (true, YoriWinHexEditPaint (snd (YoriWinHexEditToggleInsert HexEdit)))
      else Some (true, HexEdit)
  | VK_UP => Some (true, snd (YoriWinHexEditCursorUp HexEdit))
  | VK_DOWN => Some (true, snd (YoriWinHexEditCursorDown HexEdit))
  | VK_PRIOR =>
      match YoriWinHexEditPageUp HexEdit with
      | (true, HexEdit) => Some (true, YoriWinHexEditPaint HexEdit)
      | (false, HexEdit) => Some (true, HexEdit)
      end
  | VK_NEXT =>
      match YoriWinHexEditPageDown HexEdit with
      | (true, HexEdit) => Some (true, YoriWinHexEditPaint HexEdit)
      | (false, HexEdit) => Some (true, HexEdit)
      end
  | VK_DELETE =>
      if negb (ReadOnly HexEdit)
      then
        match YoriWinHexEditDelete HexEdit with
        | (true, HexEdit) =>
            Some (true, YoriWinHexEditPaint (YoriWinHexEditEnsureCursorVisible HexEdit))
        | (false, HexEdit) => Some (true, HexEdit)
        end
      else Some (true, HexEdit)
  | VK_OTHER => Some (false, HexEdit)
  end.

Definition YoriWinHexEditProcessPossiblyEnhancedCtrlKey
    (HexEdit : YORI_WIN_CTRL_HEX_EDIT) (VirtualKeyCode : VIRTUAL_KEY)
    : bool * YORI_WIN_CTRL_HEX_EDIT :=
  match VirtualKeyCode with
  | VK_HOME => (true, snd (YoriWinHexEditCursorCtrlHome HexEdit))
  | VK_END => (true, snd (YoriWinHexEditCursorCtrlEnd HexEdit))
  | _ => (false, HexEdit)
  end.

End Navigation.

(** ** Checkers and predicates for the navigation properties *)

(** What a display column stands for within its line, as a test that can
    be run over the columns of a line: a hex digit or character cell is the
    cell of its own byte and nibble, its byte lies within the line, a hex
    digit addresses an aligned word and a nibble of it. *)
Definition CellShapeCheck (HexEdit : YORI_WIN_CTRL_HEX_EDIT) (Line Col : Z) : bool :=
  let Cell := YoriWinHexEditCellType HexEdit Line Col in
  match CellType Cell with
  | YoriWinHexEditCellTypeHexDigit =>
      (snd (YoriWinHexEditCellFromHexBufferOffset HexEdit (ByteOffset Cell) (BitShift Cell))
       =? Col)
      && (0 <=? ByteOffset Cell) && (ByteOffset Cell + BitShift Cell / 8 <? 16)
      && (ByteOffset Cell mod BytesPerWord HexEdit =? 0)
      && (0 <=? BitShift Cell) && (BitShift Cell <=? BytesPerWord HexEdit * 8 - 4)
      && (BitShift Cell mod 4 =? 0)
  | YoriWinHexEditCellTypeCharValue =>
      (snd (YoriWinHexEditCellFromCharBufferOffset HexEdit (ByteOffset Cell)) =? Col)
      && (0 <=? ByteOffset Cell) && (ByteOffset Cell <? 16)
      && (BitShift Cell =? 0)
  | _ => true
  end.

(** The control is in one of the twelve configurations that
    [YoriWinHexEditCreate] and the two configuration functions allow. *)
Definition Configured (HexEdit : YORI_WIN_CTRL_HEX_EDIT) : Prop :=
  BytesPerLine HexEdit = YORI_LIB_HEXDUMP_BYTES_PER_LINE
  /\ In (BytesPerWord HexEdit) [1; 2; 4; 8]
  /\ In (OffsetWidth HexEdit) [0; 32; 64].

(** The fields that decide what a display cell stands for. *)
Definition SameGeometry (a b : YORI_WIN_CTRL_HEX_EDIT) : Prop :=
  BufferValid b = BufferValid a
  /\ BytesPerLine b = BytesPerLine a
  /\ BytesPerWord b = BytesPerWord a
  /\ OffsetWidth b = OffsetWidth a.

(** The data of the control and its configuration: every field but the
    viewport, the cursor, the dirty range, the selection and the cursor
    shape last painted. *)
Definition KeepsDocument (Before After : YORI_WIN_CTRL_HEX_EDIT) : Prop :=
  Buffer After = Buffer Before
  /\ BufferAllocated After = BufferAllocated Before
  /\ BufferValid After = BufferValid Before
  /\ BytesPerLine After = BytesPerLine Before
  /\ BytesPerWord After = BytesPerWord Before
  /\ OffsetWidth After = OffsetWidth Before
  /\ InsertMode After = InsertMode Before
  /\ ReadOnly After = ReadOnly Before
  /\ UserModified After = UserModified Before
  /\ ClientSize After = ClientSize Before
  /\ Caption After = Caption Before
  /\ HasFocus After = HasFocus Before.

(** Where the right and left arrow keys lead from the buffer location
    [(BufferOffset, Shift)]: to the next, respectively previous, nibble in
    the hex area and byte in the character area.  The left arrow stays at
    the first cell. *)
Definition LocationToTheRight (HexEdit : YORI_WIN_CTRL_HEX_EDIT) (AsChar : bool)
    (BufferOffset Shift : Z) : Z * Z :=
  if AsChar then (BufferOffset + 1, 0)
  else if 4 <=? Shift then (BufferOffset, Shift - 4)
  else (BufferOffset + BytesPerWord HexEdit, BytesPerWord HexEdit * 8 - 4).

Definition LocationToTheLeft (HexEdit : YORI_WIN_CTRL_HEX_EDIT) (AsChar : bool)
    (BufferOffset Shift : Z) : Z * Z :=
  if AsChar then (if 0 <? BufferOffset then BufferOffset - 1 else BufferOffset, 0)
  else if Shift <? BytesPerWord HexEdit * 8 - 4 then (BufferOffset, Shift + 4)
  else if 0 <? BufferOffset then (BufferOffset - BytesPerWord HexEdit, 0)
  else (BufferOffset, Shift).

(** A control with 64 counting bytes, one byte words and no offset column,
    whose cursor is on the low nibble of byte 20, and the same with the
    cursor on the character of byte 20. *)
Definition CursorOnNibble : YORI_WIN_CTRL_HEX_EDIT :=
  snd (YoriWinHexEditSetCursorLocation
         (ControlWith 1 0 (Some CountingBytes) 64 64) false 20 0).

Definition CursorOnCharacter : YORI_WIN_CTRL_HEX_EDIT :=
  snd (YoriWinHexEditSetCursorLocation
         (ControlWith 1 0 (Some CountingBytes) 64 64) true 20 0).

(** Where the End key leads from a buffer offset: to the last word
    (hex area) or byte (character area) of the line, or to the end of the
    valid data when that comes first. *)
Definition EndOfLine (HexEdit : YORI_WIN_CTRL_HEX_EDIT) (AsChar : bool)
    (BufferOffset : Z) : Z :=
  let NextLine := (BufferOffset / 16 + 1) * 16 in
  if AsChar
  then if BufferValid HexEdit <? NextLine - 1
       then BufferValid HexEdit
       else NextLine - 1
  else if BufferValid HexEdit <? NextLine - BytesPerWord HexEdit
       then BufferValid HexEdit / BytesPerWord HexEdit * BytesPerWord HexEdit
       else NextLine - BytesPerWord HexEdit.

(** The viewport top that [YoriWinHexEditSetViewportLocation] applies for a
    requested one: a request past the populated lines is brought back to
    the last populated line. *)
Definition ClampedViewportTop (HexEdit : YORI_WIN_CTRL_HEX_EDIT) (Requested : Z) : Z :=
  if YoriWinHexEditLinesPopulated HexEdit <? Requested
  then Z.max (YoriWinHexEditLinesPopulated HexEdit - 1) 0
  else Requested.

(** The byte [Old] with one of its two nibbles replaced: the low nibble
    for the shift 0 and the high nibble for the shift 4. *)
Definition ReplaceNibble (Old Shift Nibble : Z) : Z :=
  if Shift =? 0 then Old / 16 * 16 + Nibble else Nibble * 16 + Old mod 16.

(** [WriteNibble] replaces the nibble and [ClearNibble], the masking of
    [YoriWinHexEditDeleteCell], zeroes it: a test that can be run over the
    256 bytes and the 16 nibbles. *)
Definition NibbleWriteCheck (Old Nibble : Z) : bool :=
  (WriteNibble (fun _ => Old) 0 0 Nibble 0 =? ReplaceNibble Old 0 Nibble)
  && (WriteNibble (fun _ => Old) 0 4 Nibble 0 =? ReplaceNibble Old 4 Nibble)
  && (to_UCHAR (Z.land Old (Z.lnot (to_UCHAR (Z.shiftl 15 4)))) =? Old mod 16).

(** The byte that typing [Char] leaves in the place of [Old]: in the
    character area the character, truncated to a byte; in the hex area
    [Old] with the nibble at [Shift] replaced by the hex digit typed, and
    nothing when the character is no hex digit. *)
Definition ByteAfterTyping (AsChar : bool) (Old Shift Char : Z) : option Z :=
  if AsChar then Some (YoriWinHexEditInputCharToByte Char)
  else match TypedNibble Char with
       | Some Nibble => Some (ReplaceNibble Old (Shift mod 8) Nibble)
       | None => None
       end.

(** The fields that decide where a buffer offset is displayed. *)
Definition SameLayout (a b : YORI_WIN_CTRL_HEX_EDIT) : Prop :=
  BytesPerLine b = BytesPerLine a
  /\ BytesPerWord b = BytesPerWord a
  /\ OffsetWidth b = OffsetWidth a.

(** A control in insert mode that holds the four bytes 0, 1, 2, 3 as two
    byte words, with the cursor on the first digit of the first word. *)
Definition InsertingAtStart : YORI_WIN_CTRL_HEX_EDIT :=
  snd (YoriWinHexEditToggleInsert (ControlWith 2 0 (Some CountingBytes) 4 4)).

(** * Properties *)

(** ** Machine integers *)

Lemma to_DWORD_small (z : Z) : 0 <= z < 2 ^ 32 -> to_DWORD z = z.
Proof. intros; unfold to_DWORD; apply Z.mod_small; lia. Qed.

Lemma to_DWORDLONG_small (z : Z) : 0 <= z < 2 ^ 64 -> to_DWORDLONG z = z.
Proof. intros; unfold to_DWORDLONG; apply Z.mod_small; lia. Qed.

Lemma to_DWORDLONG_range (z : Z) : 0 <= to_DWORDLONG z < 2 ^ 64.
Proof. unfold to_DWORDLONG; apply Z.mod_pos_bound; lia. Qed.

(** ** Coordinate model *)

Lemma CellTypeEqb_eq (a b : YORI_WIN_HEX_EDIT_CELL_TYPE) :
  CellTypeEqb a b = true -> a = b.
Proof. destruct a, b; simpl; congruence. Qed.

Lemma forallb_Z_range (P : Z -> bool) (n : nat) :
  forallb P (map Z.of_nat (seq 0 n)) = true ->
  forall z, 0 <= z < Z.of_nat n -> P z = true.
Proof.
  intros H z Hz. rewrite forallb_forall in H. apply H.
  apply in_map_iff. exists (Z.to_nat z). split; [lia|].
  apply in_seq. lia.
Qed.

(** The hex round trip holds at each of the 16 x 16 positions of a line, in
    each of the twelve configurations: checked by running the code. *)
Lemma hex_roundtrip_check (HexEdit : YORI_WIN_CTRL_HEX_EDIT) (Line r k : Z) :
  BytesPerLine HexEdit = YORI_LIB_HEXDUMP_BYTES_PER_LINE ->
  In (BytesPerWord HexEdit) [1; 2; 4; 8] ->
  In (OffsetWidth HexEdit) [0; 32; 64] ->
  0 <= r < 16 -> 0 <= k < 16 ->
  HexRoundTripCheck HexEdit Line r k = true.
Proof.
  intros HL HW HO Hr Hk.
  destruct HexEdit as [cs cap buf alloc valid bpl bpw vt vl cl co fd ld sel ow pc im ro hf um].
  simpl in HL, HW, HO. subst bpl.
  revert k Hk. apply (forallb_Z_range _ 16). revert r Hr. apply (forallb_Z_range _ 16).
  repeat (destruct HW as [HW | HW]; [ subst bpw | ]); try contradiction;
  (repeat (destruct HO as [HO | HO]; [ subst ow | ]); try contradiction);
  vm_compute; reflexivity.
Qed.

Lemma char_roundtrip_check (HexEdit : YORI_WIN_CTRL_HEX_EDIT) (Line r : Z) :
  BytesPerLine HexEdit = YORI_LIB_HEXDUMP_BYTES_PER_LINE ->
  In (BytesPerWord HexEdit) [1; 2; 4; 8] ->
  In (OffsetWidth HexEdit) [0; 32; 64] ->
  0 <= r < 16 ->
  CharRoundTripCheck HexEdit Line r = true.
Proof.
  intros HL HW HO Hr.
  destruct HexEdit as [cs cap buf alloc valid bpl bpw vt vl cl co fd ld sel ow pc im ro hf um].
  simpl in HL, HW, HO. subst bpl.
  revert r Hr. apply (forallb_Z_range _ 16).
  repeat (destruct HW as [HW | HW]; [ subst bpw | ]); try contradiction;
  (repeat (destruct HO as [HO | HO]; [ subst ow | ]); try contradiction);
  vm_compute; reflexivity.
Qed.

(** The display column only depends on the position within the line. *)
Lemma CellFromHex_column (HexEdit : YORI_WIN_CTRL_HEX_EDIT) (BufferOffset Shift : Z) :
  BytesPerLine HexEdit = YORI_LIB_HEXDUMP_BYTES_PER_LINE ->
  YoriWinHexEditCellFromHexBufferOffset HexEdit BufferOffset Shift
  = (to_DWORD (BufferOffset / 16),
     snd (YoriWinHexEditCellFromHexBufferOffset HexEdit (BufferOffset mod 16) Shift)).
Proof.
  intros HL. unfold YoriWinHexEditCellFromHexBufferOffset. rewrite HL.
  unfold YORI_LIB_HEXDUMP_BYTES_PER_LINE. simpl snd.
  rewrite Z.mod_mod by lia. reflexivity.
Qed.

Lemma CellFromChar_column (HexEdit : YORI_WIN_CTRL_HEX_EDIT) (BufferOffset : Z) :
  BytesPerLine HexEdit = YORI_LIB_HEXDUMP_BYTES_PER_LINE ->
  YoriWinHexEditCellFromCharBufferOffset HexEdit BufferOffset
  = (to_DWORD (BufferOffset / 16),
     snd (YoriWinHexEditCellFromCharBufferOffset HexEdit (BufferOffset mod 16))).
Proof.
  intros HL. unfold YoriWinHexEditCellFromCharBufferOffset. rewrite HL.
  unfold YORI_LIB_HEXDUMP_BYTES_PER_LINE. simpl snd.
  rewrite Z.mod_mod by lia. reflexivity.
Qed.

Lemma line_and_byte_reassemble (BufferOffset : Z) :
  0 <= BufferOffset < 2 ^ 36 ->
  to_DWORDLONG (to_DWORD (BufferOffset / 16) * 16 + BufferOffset mod 16) = BufferOffset.
Proof.
  intros H.
  assert (0 <= BufferOffset / 16 < 2 ^ 32).
  { split; [apply Z.div_pos; lia | apply Z.div_lt_upper_bound; lia]. }
  rewrite to_DWORD_small by assumption.
  pose proof (Z.div_mod BufferOffset 16 ltac:(lia)).
  rewrite to_DWORDLONG_small; lia.
Qed.

(** C1 (as amended): for every buffer offset below 2^36, that is, whose
    line index fits the 32 bit line coordinate, with 16 bytes per line,
    every bytesPerWord in {1,2,4,8} and every offsetWidth in {0,32,64}: when
    the offset is aligned to bytesPerWord and the bit shift is a multiple of
    4 in [0, bytesPerWord*8-4], the cell computed by
    YoriWinHexEditCellFromHexBufferOffset is classified by
    YoriWinHexEditCellType as HexDigit and leads back to the same buffer
    offset and bit shift; and the cell computed by
    YoriWinHexEditCellFromCharBufferOffset is classified as CharValue and
    leads back to the same buffer offset. *)
Theorem coordinate_round_trip (HexEdit : YORI_WIN_CTRL_HEX_EDIT) (BufferOffset Shift : Z) :
  BytesPerLine HexEdit = YORI_LIB_HEXDUMP_BYTES_PER_LINE ->
  In (BytesPerWord HexEdit) [1; 2; 4; 8] ->
  In (OffsetWidth HexEdit) [0; 32; 64] ->
  0 <= BufferOffset < 2 ^ 36 ->
  (BufferOffset mod BytesPerWord HexEdit = 0 ->
   0 <= Shift <= BytesPerWord HexEdit * 8 - 4 ->
   Shift mod 4 = 0 ->
   RoundTripsTo HexEdit
     (YoriWinHexEditCellFromHexBufferOffset HexEdit BufferOffset Shift)
     YoriWinHexEditCellTypeHexDigit BufferOffset Shift)
  /\ RoundTripsTo HexEdit
       (YoriWinHexEditCellFromCharBufferOffset HexEdit BufferOffset)
       YoriWinHexEditCellTypeCharValue BufferOffset 0.
Proof.
  intros HL HW HO Hrange.
  assert (Hr : 0 <= BufferOffset mod 16 < 16) by (apply Z.mod_pos_bound; lia).
  split.
  - intros Halign Hshift Hmul.
    assert (Hk : 0 <= Shift / 4 < 16).
    { assert (BytesPerWord HexEdit <= 8) by (simpl in HW; lia).
      split; [apply Z.div_pos; lia | apply Z.div_lt_upper_bound; lia]. }
    assert (HS : Shift = 4 * (Shift / 4)).
    { pose proof (Z.div_mod Shift 4 ltac:(lia)). lia. }
    pose proof (hex_roundtrip_check HexEdit (to_DWORD (BufferOffset / 16))
                  (BufferOffset mod 16) (Shift / 4) HL HW HO Hr Hk) as Hc.
    unfold HexRoundTripCheck in Hc. rewrite <- HS in Hc.
    assert (Ha : (BufferOffset mod 16) mod BytesPerWord HexEdit = 0).
    { simpl in HW.
      destruct HW as [E | [E | [E | [E | []]]]]; rewrite <- E in *;
        pose proof (Z.div_mod BufferOffset 16 ltac:(lia));
        try (apply Z.mod_1_r);
        match goal with
        | |- _ mod ?w = 0 =>
            pose proof (Z.div_mod BufferOffset w ltac:(lia));
            pose proof (Z.div_mod (BufferOffset mod 16) w ltac:(lia));
            pose proof (Z.mod_pos_bound (BufferOffset mod 16) w ltac:(lia));
            lia
        end. }
    rewrite Ha in Hc.
    replace (Shift <=? BytesPerWord HexEdit * 8 - 4) with true in Hc
      by (symmetry; apply Z.leb_le; lia).
    rewrite Z.eqb_refl in Hc. cbn [andb implb] in Hc.
    apply andb_prop in Hc as [Hc H3]. apply andb_prop in Hc as [H1 H2].
    unfold RoundTripsTo. rewrite CellFromHex_column by assumption. cbn [fst snd].
    repeat split.
    + apply CellTypeEqb_eq; assumption.
    + unfold BufferOffsetOfCell. rewrite HL. apply Z.eqb_eq in H2. rewrite H2.
      apply line_and_byte_reassemble; assumption.
    + apply Z.eqb_eq; assumption.
  - pose proof (char_roundtrip_check HexEdit (to_DWORD (BufferOffset / 16))
                  (BufferOffset mod 16) HL HW HO Hr) as Hc.
    unfold CharRoundTripCheck in Hc.
    apply andb_prop in Hc as [Hc H3]. apply andb_prop in Hc as [H1 H2].
    unfold RoundTripsTo. rewrite CellFromChar_column by assumption. cbn [fst snd].
    repeat split.
    + apply CellTypeEqb_eq; assumption.
    + unfold BufferOffsetOfCell. rewrite HL. apply Z.eqb_eq in H2. rewrite H2.
      apply line_and_byte_reassemble; assumption.
    + apply Z.eqb_eq; assumption.
Qed.

Lemma coordinate_round_trip_witness :
  RoundTripsTo (ControlWith 4 32 None 0 0)
    (YoriWinHexEditCellFromHexBufferOffset (ControlWith 4 32 None 0 0) 40 12)
    YoriWinHexEditCellTypeHexDigit 40 12
  /\ RoundTripsTo (ControlWith 4 32 None 0 0)
       (YoriWinHexEditCellFromCharBufferOffset (ControlWith 4 32 None 0 0) 40)
       YoriWinHexEditCellTypeCharValue 40 0.
Proof.
  destruct (coordinate_round_trip (ControlWith 4 32 None 0 0) 40 12) as [Hhex Hchar].
  - reflexivity.
  - simpl; lia.
  - simpl; lia.
  - lia.
  - split; [apply Hhex | exact Hchar].
    + reflexivity.
    + simpl; lia.
    + reflexivity.
Defined.

(** C1 as stated fails for a 64 bit buffer offset whose line index does not
    fit the 32 bit line coordinate: at offset 2^36 the line wraps to 0 and
    the cell leads back to offset 0. *)
Lemma coordinate_round_trip_wraps :
  let HexEdit := ControlWith 1 0 None 0 0 in
  BytesPerLine HexEdit = YORI_LIB_HEXDUMP_BYTES_PER_LINE
  /\ In (BytesPerWord HexEdit) [1; 2; 4; 8]
  /\ In (OffsetWidth HexEdit) [0; 32; 64]
  /\ 0 <= 2 ^ 36 < 2 ^ 64
  /\ 2 ^ 36 mod BytesPerWord HexEdit = 0
  /\ ~ RoundTripsTo HexEdit
         (YoriWinHexEditCellFromHexBufferOffset HexEdit (2 ^ 36) 4)
         YoriWinHexEditCellTypeHexDigit (2 ^ 36) 4
  /\ ~ RoundTripsTo HexEdit
         (YoriWinHexEditCellFromCharBufferOffset HexEdit (2 ^ 36))
         YoriWinHexEditCellTypeCharValue (2 ^ 36) 0.
Proof.
  cbv zeta. repeat split; try (simpl; lia); try reflexivity.
  - intros (_ & H & _). vm_compute in H. discriminate.
  - intros (_ & H & _). vm_compute in H. discriminate.
Qed.

(** ** Buffer store *)

Ltac break_if :=
  match goal with
  | |- context [if ?c then _ else _] => destruct c eqn:?
  end.

Ltac break_match :=
  match goal with
  | |- context [match ?x with _ => _ end] => destruct x eqn:?
  end.

Lemma EnsureBufferLength_failure_unchanged
    (Malloc : Z -> option memory) (HexEdit : YORI_WIN_CTRL_HEX_EDIT) (n : Z) :
  fst (YoriWinHexEditEnsureBufferLength Malloc HexEdit n) = false ->
  snd (YoriWinHexEditEnsureBufferLength Malloc HexEdit n) = HexEdit.
Proof.
  unfold YoriWinHexEditEnsureBufferLength.
  repeat break_if; try break_match; simpl; congruence.
Qed.

Lemma EnsureBufferLength_enough
    (Malloc : Z -> option memory) (HexEdit : YORI_WIN_CTRL_HEX_EDIT) (n : Z) :
  n <= BufferAllocated HexEdit ->
  YoriWinHexEditEnsureBufferLength Malloc HexEdit n = (true, HexEdit).
Proof.
  intros H. unfold YoriWinHexEditEnsureBufferLength.
  replace (n <=? BufferAllocated HexEdit) with true by (symmetry; apply Z.leb_le; lia).
  reflexivity.
Qed.

(** What a growing call does, when nothing wraps. *)
Lemma EnsureBufferLength_grow
    (Malloc : Z -> option memory) (HexEdit : YORI_WIN_CTRL_HEX_EDIT) (n : Z) :
  BufferAllocated HexEdit < n -> BufferValid HexEdit <= n ->
  0 <= n -> n + 16384 < DWORD_MAX ->
  YoriWinHexEditEnsureBufferLength Malloc HexEdit n
  = match Malloc (n + 16384) with
    | None => (false, HexEdit)
    | Some NewBuffer =>
        (true,
         set_BufferAllocated (n + 16384)
           (set_Buffer
              (Some (if 0 <? BufferValid HexEdit
                     then memmove NewBuffer 0 (deref (Buffer HexEdit)) 0
                                  (to_DWORD (BufferValid HexEdit))
                     else NewBuffer))
              HexEdit))
    end.
Proof.
  intros Ha Hv H0 Hc. unfold DWORD_MAX in Hc. unfold YoriWinHexEditEnsureBufferLength.
  replace (n <=? BufferAllocated HexEdit) with false by (symmetry; apply Z.leb_gt; lia).
  replace (n <? BufferValid HexEdit) with false by (symmetry; apply Z.ltb_ge; lia).
  rewrite (to_DWORDLONG_small (n + 16384)) by lia.
  replace (DWORD_MAX <=? n + 16384) with false
    by (symmetry; apply Z.leb_gt; unfold DWORD_MAX; lia).
  rewrite (to_DWORD_small (n + 16384)) by lia.
  reflexivity.
Qed.

(** C5 (as amended): for every requested length n below 2^64-16384 (so that
    n+16384 does not wrap), YoriWinHexEditEnsureBufferLength is a no-op
    returning success when allocated >= n; otherwise, when it succeeds, the
    allocation has grown to exactly n+16384 bytes, the valid length is
    unchanged and the first valid bytes are preserved; it returns failure
    only when the allocator fails, when the padded length n+16384 reaches
    the ceiling 2^32-1, or when n is below the valid length, and in each of
    these cases the control is left unchanged; and it does succeed when none
    of the three applies. *)
Theorem ensure_buffer_length_policy
    (Malloc : Z -> option memory) (HexEdit : YORI_WIN_CTRL_HEX_EDIT) (n : Z) :
  0 <= BufferValid HexEdit ->
  0 <= n < 2 ^ 64 - 16384 ->
  let Result := YoriWinHexEditEnsureBufferLength Malloc HexEdit n in
  (n <= BufferAllocated HexEdit -> Result = (true, HexEdit))
  /\ (BufferAllocated HexEdit < n ->
      (fst Result = true ->
       BufferAllocated (snd Result) = n + 16384
       /\ BufferValid (snd Result) = BufferValid HexEdit
       /\ forall i, 0 <= i < BufferValid HexEdit ->
                    deref (Buffer (snd Result)) i = deref (Buffer HexEdit) i)
      /\ (fst Result = false ->
          snd Result = HexEdit
          /\ (Malloc (n + 16384) = None
              \/ DWORD_MAX <= n + 16384
              \/ n < BufferValid HexEdit))
      /\ (Malloc (n + 16384) <> None ->
          n + 16384 < DWORD_MAX ->
          BufferValid HexEdit <= n ->
          fst Result = true)).
Proof.
  intros Hvalid Hn Result. split.
  - intros H. apply EnsureBufferLength_enough; assumption.
  - intros Hgrow.
    destruct (Z_lt_le_dec n (BufferValid HexEdit)) as [Hlt | Hge].
    { (* the request is below the valid length *)
      assert (E : Result = (false, HexEdit)).
      { unfold Result, YoriWinHexEditEnsureBufferLength.
        replace (n <=? BufferAllocated HexEdit) with false by (symmetry; apply Z.leb_gt; lia).
        replace (n <? BufferValid HexEdit) with true by (symmetry; apply Z.ltb_lt; lia).
        reflexivity. }
      rewrite E; simpl. repeat split; try discriminate; try lia; auto. }
    destruct (Z_lt_le_dec (n + 16384) DWORD_MAX) as [Hc | Hc].
    + assert (E := EnsureBufferLength_grow Malloc HexEdit n Hgrow Hge ltac:(lia) Hc).
      fold Result in E. rewrite E.
      destruct (Malloc (n + 16384)) as [NewBuffer | ]; simpl.
      * repeat split; try discriminate; try congruence.
        intros i Hi.
        replace (0 <? BufferValid HexEdit) with true by (symmetry; apply Z.ltb_lt; lia).
        unfold memmove. rewrite to_DWORD_small by (unfold DWORD_MAX in Hc; lia).
        replace (0 <=? i) with true by (symmetry; apply Z.leb_le; lia).
        replace (i <? 0 + BufferValid HexEdit) with true by (symmetry; apply Z.ltb_lt; lia).
        simpl. f_equal. lia.
      * repeat split; try discriminate; auto; try (intros; congruence).
    + assert (E : Result = (false, HexEdit)).
      { unfold Result, YoriWinHexEditEnsureBufferLength.
        replace (n <=? BufferAllocated HexEdit) with false by (symmetry; apply Z.leb_gt; lia).
        replace (n <? BufferValid HexEdit) with false by (symmetry; apply Z.ltb_ge; lia).
        rewrite (to_DWORDLONG_small (n + 16384)) by lia.
        replace (DWORD_MAX <=? n + 16384) with true by (symmetry; apply Z.leb_le; lia).
        reflexivity. }
      rewrite E; simpl. repeat split; try discriminate; try lia; auto.
Qed.

Lemma ensure_buffer_length_policy_witness :
  let HexEdit := ControlWith 1 0 (Some CountingBytes) 4 4 in
  let Result := YoriWinHexEditEnsureBufferLength MallocZeroed HexEdit 5 in
  fst Result = true
  /\ BufferAllocated (snd Result) = 5 + 16384
  /\ BufferValid (snd Result) = 4
  /\ deref (Buffer (snd Result)) 3 = 3.
Proof.
  cbv zeta.
  destruct (ensure_buffer_length_policy MallocZeroed
              (ControlWith 1 0 (Some CountingBytes) 4 4) 5) as [_ H].
  - simpl; lia.
  - lia.
  - destruct H as (Hok & _ & Hsucc); [simpl; lia | ].
    assert (Ht : fst (YoriWinHexEditEnsureBufferLength MallocZeroed
                        (ControlWith 1 0 (Some CountingBytes) 4 4) 5) = true).
    { apply Hsucc; [discriminate | unfold DWORD_MAX; lia | simpl; lia]. }
    destruct (Hok Ht) as (Ha & Hv & Hb).
    split; [exact Ht | split; [exact Ha | split; [exact Hv | ]]].
    rewrite (Hb 3) by (simpl; lia). reflexivity.
Defined.

(** C5 as stated fails at the ceiling: with an allocator that never fails,
    a request of 2^32 bytes is refused before the allocator is asked. *)
Lemma ensure_buffer_length_refuses_without_allocating :
  (forall Size, MallocZeroed Size <> None)
  /\ BufferAllocated (ControlWith 1 0 None 0 0) < 2 ^ 32
  /\ fst (YoriWinHexEditEnsureBufferLength MallocZeroed
            (ControlWith 1 0 None 0 0) (2 ^ 32)) = false.
Proof.
  split; [intros Size; discriminate | split; [simpl; lia | reflexivity]].
Qed.

(** The padded length is a 64 bit sum: from the requested length
    2^64-16384 on it wraps.  At 2^64-1 it is 16383, which passes the
    ceiling test, and the call allocates 16383 bytes.  No caller asks for
    such a length: the cell editors ask for a cell offset plus one, and the
    insertions for the valid length plus a 32 bit count. *)
Lemma ensure_buffer_length_padding_wraps :
  let HexEdit := ControlWith 1 0 None 0 0 in
  let Result := YoriWinHexEditEnsureBufferLength MallocZeroed HexEdit (2 ^ 64 - 1) in
  to_DWORDLONG (2 ^ 64 - 1 + 16384) = 16383
  /\ fst Result = true
  /\ BufferAllocated (snd Result) = 16383
  /\ snd Result <> HexEdit.
Proof.
  cbv zeta.
  split; [reflexivity | split; [reflexivity | split; [reflexivity | ]]].
  intros H. apply (f_equal BufferAllocated) in H. vm_compute in H. discriminate.
Qed.

(** Below the wrap, a growing request at or past the ceiling is refused and
    the control is left as it was. *)
Lemma ensure_buffer_length_ceiling
    (Malloc : Z -> option memory) (HexEdit : YORI_WIN_CTRL_HEX_EDIT) (n : Z) :
  BufferAllocated HexEdit < n ->
  DWORD_MAX <= n + 16384 < 2 ^ 64 ->
  YoriWinHexEditEnsureBufferLength Malloc HexEdit n = (false, HexEdit).
Proof.
  intros Ha Hc. unfold YoriWinHexEditEnsureBufferLength.
  replace (n <=? BufferAllocated HexEdit) with false by (symmetry; apply Z.leb_gt; lia).
  destruct (n <? BufferValid HexEdit); [reflexivity | ].
  rewrite (to_DWORDLONG_small (n + 16384)) by (unfold DWORD_MAX in Hc; lia).
  replace (DWORD_MAX <=? n + 16384) with true by (symmetry; apply Z.leb_le; lia).
  reflexivity.
Qed.

(** C9 (as amended): the ceiling is a padded size of 2^32-1 bytes.  For
    every requested length n below 2^64-16384 the padded size n+16384 is
    computed without wrapping; when n exceeds the allocated length and the
    padded size reaches or exceeds the ceiling,
    YoriWinHexEditEnsureBufferLength returns failure with the control
    unchanged, whatever the allocator would have answered; when n is
    within the allocated length it returns success with the control
    unchanged, whatever the padded size. *)
Theorem allocation_ceiling
    (Malloc : Z -> option memory) (HexEdit : YORI_WIN_CTRL_HEX_EDIT) (n : Z) :
  0 <= n < 2 ^ 64 - 16384 ->
  to_DWORDLONG (n + 16384) = n + 16384
  /\ (BufferAllocated HexEdit < n ->
      DWORD_MAX <= n + 16384 ->
      YoriWinHexEditEnsureBufferLength Malloc HexEdit n = (false, HexEdit))
  /\ (n <= BufferAllocated HexEdit ->
      YoriWinHexEditEnsureBufferLength Malloc HexEdit n = (true, HexEdit)).
Proof.
  intros Hn. split; [apply to_DWORDLONG_small; lia | split].
  - intros Ha Hc. apply ensure_buffer_length_ceiling; [exact Ha | lia].
  - intros Ha. apply EnsureBufferLength_enough; exact Ha.
Qed.

Lemma allocation_ceiling_witness :
  let HexEdit := ControlWith 1 0 (Some CountingBytes) 4 4 in
  to_DWORDLONG (2 ^ 32 - 16385 + 16384) = 2 ^ 32 - 1
  /\ YoriWinHexEditEnsureBufferLength MallocZeroed HexEdit (2 ^ 32 - 16385)
     = (false, HexEdit)
  /\ YoriWinHexEditEnsureBufferLength MallocFails HexEdit 4 = (true, HexEdit).
Proof.
  cbv zeta.
  destruct (allocation_ceiling MallocZeroed
              (ControlWith 1 0 (Some CountingBytes) 4 4) (2 ^ 32 - 16385))
    as (HP & HC & _); [lia | ].
  destruct (allocation_ceiling MallocFails
              (ControlWith 1 0 (Some CountingBytes) 4 4) 4)
    as (_ & _ & HE); [lia | ].
  split; [rewrite HP; reflexivity | split].
  - apply HC; [simpl; lia | unfold DWORD_MAX; lia].
  - apply HE. simpl; lia.
Defined.

(** C9 as stated fails for a request the buffer already covers.  On a
    freshly created control a request of 2^32-16386 bytes is granted with
    the largest allocation below the ceiling, 2^32-2 bytes.  A request of
    2^32-2 bytes then has a padded size past the ceiling, and it returns
    success: nothing has to be allocated. *)
Lemma allocation_ceiling_spares_allocated_buffer :
  exists Created,
    YoriWinHexEditCreate None {| X := 76; Y := 20 |} 1 NoStyle = Some Created
    /\ let Grown :=
         snd (YoriWinHexEditEnsureBufferLength MallocZeroed Created (2 ^ 32 - 16386)) in
       fst (YoriWinHexEditEnsureBufferLength MallocZeroed Created (2 ^ 32 - 16386))
       = true
       /\ BufferAllocated Grown = 2 ^ 32 - 2
       /\ DWORD_MAX <= (2 ^ 32 - 2) + 16384
       /\ fst (YoriWinHexEditEnsureBufferLength MallocZeroed Grown (2 ^ 32 - 2))
          = true.
Proof.
  eexists. split; [reflexivity | ]. cbv zeta.
  split; [vm_compute; reflexivity | ].
  split; [vm_compute; reflexivity | ].
  split; [unfold DWORD_MAX; lia | vm_compute; reflexivity].
Qed.

(** ** Frame properties: what the operations leave alone *)

Ltac step := cbv beta iota zeta.

(** Projections of a control rebuilt by the field setters. *)
Ltac fields :=
  cbn [ClientSize Caption Buffer BufferAllocated BufferValid BytesPerLine
       BytesPerWord ViewportTop ViewportLeft CursorLine CursorOffset
       FirstDirtyLine LastDirtyLine Selection OffsetWidth
       PercentCursorVisibleLastPaint InsertMode ReadOnly HasFocus UserModified
       set_Caption set_Buffer set_BufferAllocated set_BufferValid
       set_ViewportTop set_ViewportLeft set_Cursor set_DirtyRange
       set_Selection set_PercentCursorVisibleLastPaint set_UserModified
       set_InsertMode
       fst snd] in *.

(** Expanding the dirty range only rewrites the two dirty line fields: the
    first becomes the minimum, the last the maximum. *)
Lemma ExpandDirtyRange_eq (HexEdit : YORI_WIN_CTRL_HEX_EDIT) (a b : Z) :
  YoriWinHexEditExpandDirtyRange HexEdit a b
  = set_DirtyRange (Z.min a (FirstDirtyLine HexEdit))
                   (Z.max b (LastDirtyLine HexEdit)) HexEdit.
Proof.
  unfold YoriWinHexEditExpandDirtyRange.
  destruct HexEdit as [cs cap buf alloc valid bpl bpw vt vl cl co fd ld sel ow pc im ro hf um].
  fields. destruct (a <? fd) eqn:Ha; fields; destruct (ld <? b) eqn:Hb;
    unfold set_DirtyRange; fields;
    try apply Z.ltb_lt in Ha; try apply Z.ltb_ge in Ha;
    try apply Z.ltb_lt in Hb; try apply Z.ltb_ge in Hb;
    f_equal; lia.
Qed.

(** Painting only rewrites the dirty line fields and the cursor visibility
    it last applied. *)
Lemma Paint_eq (HexEdit : YORI_WIN_CTRL_HEX_EDIT) :
  exists Percent,
    YoriWinHexEditPaint HexEdit
    = set_PercentCursorVisibleLastPaint Percent
        (set_DirtyRange
           (if FirstDirtyLine HexEdit <=? LastDirtyLine HexEdit
            then DWORD_MAX else FirstDirtyLine HexEdit)
           (if FirstDirtyLine HexEdit <=? LastDirtyLine HexEdit
            then 0 else LastDirtyLine HexEdit)
           HexEdit).
Proof.
  unfold YoriWinHexEditPaint.
  destruct HexEdit as [cs cap buf alloc valid bpl bpw vt vl cl co fd ld sel ow pc im ro hf um].
  fields. destruct (fd <=? ld); fields; eexists; reflexivity.
Qed.

Lemma Paint_keeps (HexEdit : YORI_WIN_CTRL_HEX_EDIT) :
  KeepsBufferAndSelection HexEdit (YoriWinHexEditPaint HexEdit).
Proof. destruct (Paint_eq HexEdit) as (p & ->). repeat split. Qed.

Lemma KeepsBufferAndSelection_trans (a b c : YORI_WIN_CTRL_HEX_EDIT) :
  KeepsBufferAndSelection a b -> KeepsBufferAndSelection b c ->
  KeepsBufferAndSelection a c.
Proof.
  unfold KeepsBufferAndSelection.
  intros (H1 & H2 & H3 & H4) (H5 & H6 & H7 & H8). repeat split; congruence.
Qed.

Lemma EnsureCursorVisible_keeps (HexEdit : YORI_WIN_CTRL_HEX_EDIT) :
  KeepsBufferAndSelection HexEdit (YoriWinHexEditEnsureCursorVisible HexEdit).
Proof.
  unfold YoriWinHexEditEnsureCursorVisible.
  set (NewViewportLeft := if CursorOffset HexEdit <? ViewportLeft HexEdit then _ else _).
  set (NewViewportTop := if CursorLine HexEdit <? ViewportTop HexEdit then _ else _).
  clearbody NewViewportLeft NewViewportTop. step.
  destruct (negb (NewViewportTop =? ViewportTop HexEdit));
    break_if; rewrite ?ExpandDirtyRange_eq; repeat split.
Qed.

Lemma SetCursorToBufferLocation_keeps
    (HexEdit : YORI_WIN_CTRL_HEX_EDIT) (Kind : YORI_WIN_HEX_EDIT_CELL_TYPE)
    (BufferOffset Shift : Z) :
  KeepsBufferAndSelection HexEdit
    (snd (YoriWinHexEditSetCursorToBufferLocation HexEdit Kind BufferOffset Shift)).
Proof.
  unfold YoriWinHexEditSetCursorToBufferLocation.
  destruct (match Kind with
            | YoriWinHexEditCellTypeHexDigit =>
                YoriWinHexEditCellFromHexBufferOffset HexEdit BufferOffset Shift
            | _ => YoriWinHexEditCellFromCharBufferOffset HexEdit BufferOffset
            end) as [Line Offset].
  break_if; cbn [fst snd]; [ | repeat split].
  eapply KeepsBufferAndSelection_trans; [ | apply Paint_keeps].
  eapply KeepsBufferAndSelection_trans; [ | apply EnsureCursorVisible_keeps].
  repeat split.
Qed.

Lemma Paint_Selection (HexEdit : YORI_WIN_CTRL_HEX_EDIT) :
  Selection (YoriWinHexEditPaint HexEdit) = Selection HexEdit.
Proof. destruct (Paint_eq HexEdit) as (p & ->). reflexivity. Qed.

Lemma ExpandDirtyRange_Selection (HexEdit : YORI_WIN_CTRL_HEX_EDIT) (a b : Z) :
  Selection (YoriWinHexEditExpandDirtyRange HexEdit a b) = Selection HexEdit.
Proof. rewrite ExpandDirtyRange_eq. reflexivity. Qed.

Lemma ExpandDirtyRange_BufferValid (HexEdit : YORI_WIN_CTRL_HEX_EDIT) (a b : Z) :
  BufferValid (YoriWinHexEditExpandDirtyRange HexEdit a b) = BufferValid HexEdit.
Proof. rewrite ExpandDirtyRange_eq. reflexivity. Qed.

(** ** Selection *)

(** Whether the range is accepted or not, the selection is active when
    YoriWinHexEditSetSelectionRange returns. *)
Lemma SetSelectionRange_always_activates
    (HexEdit : YORI_WIN_CTRL_HEX_EDIT) (First Last : Z) :
  Active (Selection (snd (YoriWinHexEditSetSelectionRange HexEdit First Last)))
  = YoriWinHexEditSelectActive.
Proof.
  unfold YoriWinHexEditSetSelectionRange. break_if; cbn [fst snd].
  - reflexivity.
  - rewrite Paint_Selection, ExpandDirtyRange_Selection. reflexivity.
Qed.

Lemma ClearSelection_BufferValid (HexEdit : YORI_WIN_CTRL_HEX_EDIT) :
  BufferValid (YoriWinHexEditClearSelection HexEdit) = BufferValid HexEdit.
Proof.
  unfold YoriWinHexEditClearSelection. break_match; [reflexivity | ].
  rewrite ExpandDirtyRange_BufferValid. reflexivity.
Qed.

(** A range within the valid data is accepted and becomes the selection. *)
Lemma SetSelectionRange_accepts
    (HexEdit : YORI_WIN_CTRL_HEX_EDIT) (First Last : Z) :
  First < BufferValid HexEdit -> Last < BufferValid HexEdit ->
  fst (YoriWinHexEditSetSelectionRange HexEdit First Last) = true
  /\ Selection (snd (YoriWinHexEditSetSelectionRange HexEdit First Last))
     = {| Active := YoriWinHexEditSelectActive;
          FirstByteOffset := First; LastByteOffset := Last |}.
Proof.
  intros HF HL. unfold YoriWinHexEditSetSelectionRange.
  cbn [BufferValid set_Selection]. rewrite ClearSelection_BufferValid.
  replace (BufferValid HexEdit <=? First) with false by (symmetry; apply Z.leb_gt; lia).
  replace (BufferValid HexEdit <=? Last) with false by (symmetry; apply Z.leb_gt; lia).
  cbn [orb fst snd]. split; [reflexivity | ].
  rewrite Paint_Selection, ExpandDirtyRange_Selection. reflexivity.
Qed.

(** A range that reaches past the valid data is refused. *)
Lemma SetSelectionRange_rejects
    (HexEdit : YORI_WIN_CTRL_HEX_EDIT) (First Last : Z) :
  BufferValid HexEdit <= First \/ BufferValid HexEdit <= Last ->
  fst (YoriWinHexEditSetSelectionRange HexEdit First Last) = false.
Proof.
  intros H. unfold YoriWinHexEditSetSelectionRange.
  cbn [BufferValid set_Selection]. rewrite ClearSelection_BufferValid.
  replace ((BufferValid HexEdit <=? First) || (BufferValid HexEdit <=? Last)) with true.
  - reflexivity.
  - symmetry. apply orb_true_iff. rewrite !Z.leb_le. exact H.
Qed.

(** C3: on a freshly created, empty control, YoriWinHexEditSetSelectionRange
    (0, 0) is refused (0 >= valid = 0) and returns failure, yet it leaves
    the selection active, over bytes 0 to 0 of an empty buffer: the
    selection state was changed by the rejected call. *)
Theorem set_selection_range_rejection_activates :
  exists HexEdit,
    YoriWinHexEditCreate None {| X := 76; Y := 20 |} 1 NoStyle = Some HexEdit
    /\ YoriWinHexEditSelectionActive HexEdit = false
    /\ BufferValid HexEdit = 0
    /\ fst (YoriWinHexEditSetSelectionRange HexEdit 0 0) = false
    /\ YoriWinHexEditSelectionActive
         (snd (YoriWinHexEditSetSelectionRange HexEdit 0 0)) = true
    /\ Selection (snd (YoriWinHexEditSetSelectionRange HexEdit 0 0))
       <> Selection HexEdit.
Proof.
  eexists. split; [reflexivity | ].
  split; [reflexivity | split; [reflexivity | split; [reflexivity | split; [reflexivity | ]]]].
  intros H. apply (f_equal Active) in H. vm_compute in H. discriminate.
Qed.

Lemma Clear_keeps_selection_and_empties (HexEdit : YORI_WIN_CTRL_HEX_EDIT) :
  fst (YoriWinHexEditClear HexEdit) = true
  /\ Selection (snd (YoriWinHexEditClear HexEdit)) = Selection HexEdit
  /\ Buffer (snd (YoriWinHexEditClear HexEdit)) = None
  /\ BufferValid (snd (YoriWinHexEditClear HexEdit)) = 0.
Proof.
  unfold YoriWinHexEditClear, YoriWinHexEditSetCursorLocationToZero. cbn [fst snd].
  match goal with
  | |- context [YoriWinHexEditPaint ?h] =>
      destruct (Paint_keeps h) as (HB & _ & HV & HS); rewrite HB, HV, HS
  end.
  match goal with
  | |- context [YoriWinHexEditSetCursorToBufferLocation ?h ?k ?o ?s] =>
      destruct (SetCursorToBufferLocation_keeps h k o s) as (HB' & _ & HV' & HS');
      rewrite HB', HV', HS'
  end.
  rewrite ExpandDirtyRange_eq. repeat split.
Qed.

Lemma Clear_Selection (HexEdit : YORI_WIN_CTRL_HEX_EDIT) :
  Selection (snd (YoriWinHexEditClear HexEdit)) = Selection HexEdit.
Proof. apply Clear_keeps_selection_and_empties. Qed.

Lemma DeleteData_Selection (HexEdit : YORI_WIN_CTRL_HEX_EDIT) (DataOffset Length : Z) :
  Selection (snd (YoriWinHexEditDeleteData HexEdit DataOffset Length))
  = Selection HexEdit.
Proof.
  unfold YoriWinHexEditDeleteData.
  repeat break_if; cbn [fst snd]; rewrite ?ExpandDirtyRange_eq; reflexivity.
Qed.

Lemma SetSelectionRange_BufferValid
    (HexEdit : YORI_WIN_CTRL_HEX_EDIT) (First Last : Z) :
  BufferValid (snd (YoriWinHexEditSetSelectionRange HexEdit First Last))
  = BufferValid HexEdit.
Proof.
  unfold YoriWinHexEditSetSelectionRange. break_if; cbn [fst snd].
  - fields. apply ClearSelection_BufferValid.
  - match goal with
    | |- context [YoriWinHexEditPaint ?h] => destruct (Paint_eq h) as (p & EP); rewrite EP
    end.
    rewrite ExpandDirtyRange_eq. fields. apply ClearSelection_BufferValid.
Qed.

(** A successful YoriWinHexEditSetSelectionRange (first, last) stores the
    range it was given, with first < valid and last < valid when the call
    returns; YoriWinHexEditClear and YoriWinHexEditDeleteData do not write
    the selection. *)
Lemma selection_set_within_valid_and_kept
    (HexEdit : YORI_WIN_CTRL_HEX_EDIT) (First Last DataOffset Length : Z) :
  (fst (YoriWinHexEditSetSelectionRange HexEdit First Last) = true ->
   let Selected := snd (YoriWinHexEditSetSelectionRange HexEdit First Last) in
   Selection Selected
   = {| Active := YoriWinHexEditSelectActive;
        FirstByteOffset := First; LastByteOffset := Last |}
   /\ First < BufferValid Selected /\ Last < BufferValid Selected)
  /\ Selection (snd (YoriWinHexEditClear HexEdit)) = Selection HexEdit
  /\ Selection (snd (YoriWinHexEditDeleteData HexEdit DataOffset Length))
     = Selection HexEdit.
Proof.
  split; [ | split; [apply Clear_Selection | apply DeleteData_Selection]].
  intros Hok Selected.
  assert (HF : First < BufferValid HexEdit).
  { destruct (Z_lt_le_dec First (BufferValid HexEdit)) as [H | H]; [exact H | ].
    rewrite SetSelectionRange_rejects in Hok by (left; exact H). discriminate. }
  assert (HL : Last < BufferValid HexEdit).
  { destruct (Z_lt_le_dec Last (BufferValid HexEdit)) as [H | H]; [exact H | ].
    rewrite SetSelectionRange_rejects in Hok by (right; exact H). discriminate. }
  unfold Selected. rewrite SetSelectionRange_BufferValid.
  split; [apply SetSelectionRange_accepts; assumption | split; assumption].
Qed.

Lemma selection_set_within_valid_and_kept_witness :
  let HexEdit := ControlWith 1 0 (Some CountingBytes) 4 4 in
  let Selected := snd (YoriWinHexEditSetSelectionRange HexEdit 1 2) in
  Selection Selected
  = {| Active := YoriWinHexEditSelectActive;
       FirstByteOffset := 1; LastByteOffset := 2 |}
  /\ 1 < BufferValid Selected /\ 2 < BufferValid Selected.
Proof.
  cbv zeta.
  destruct (selection_set_within_valid_and_kept
              (ControlWith 1 0 (Some CountingBytes) 4 4) 1 2 0 0) as [H _].
  apply H. reflexivity.
Defined.

(** C4: a selection set over valid bytes stays active, with its range, when
    the buffer is emptied or shortened under it.  A control is created,
    given the four bytes 0, 1, 2, 3, and bytes 2 to 3 are selected.  After
    YoriWinHexEditClear the buffer is gone and no byte is valid; after
    YoriWinHexEditDeleteData of the four bytes no byte is valid; after the
    Delete key on the character cell of byte 0 three bytes are valid.  Each
    time YoriWinHexEditSelectionActive still answers TRUE, the range is
    still 2 to 3, which is no longer below the valid length, and
    YoriWinHexEditGetSelectedData hands out a copy of two bytes. *)
Theorem stale_selection_survives_clear_and_delete :
  exists Created,
    YoriWinHexEditCreate None {| X := 76; Y := 20 |} 1 NoStyle = Some Created
    /\ let Loaded := snd (YoriWinHexEditSetDataNoCopy Created CountingBytes 4 4) in
       let Selected := snd (YoriWinHexEditSetSelectionRange Loaded 2 3) in
       let Cleared := snd (YoriWinHexEditClear Selected) in
       let Shrunk := snd (YoriWinHexEditDeleteData Selected 0 4) in
       let Placed := snd (YoriWinHexEditSetCursorLocation Selected true 0 0) in
       let Stale := {| Active := YoriWinHexEditSelectActive;
                       FirstByteOffset := 2; LastByteOffset := 3 |} in
       (fst (YoriWinHexEditSetSelectionRange Loaded 2 3) = true
        /\ BufferValid Selected = 4 /\ Selection Selected = Stale)
       /\ (fst (YoriWinHexEditClear Selected) = true
           /\ Buffer Cleared = None /\ BufferValid Cleared = 0
           /\ YoriWinHexEditSelectionActive Cleared = true
           /\ Selection Cleared = Stale
           /\ option_map snd (YoriWinHexEditGetSelectedData MallocZeroed Cleared)
              = Some 2)
       /\ (fst (YoriWinHexEditDeleteData Selected 0 4) = true
           /\ BufferValid Shrunk = 0
           /\ YoriWinHexEditSelectionActive Shrunk = true
           /\ Selection Shrunk = Stale
           /\ option_map snd (YoriWinHexEditGetSelectedData MallocZeroed Shrunk)
              = Some 2)
       /\ (let Deleted := YoriWinHexEditProcessPossiblyEnhancedKey Placed VK_DELETE in
           fst (YoriWinHexEditSetCursorLocation Selected true 0 0) = true
           /\ option_map fst Deleted = Some true
           /\ option_map (fun Result => BufferValid (snd Result)) Deleted = Some 3
           /\ option_map (fun Result => YoriWinHexEditSelectionActive (snd Result))
                         Deleted = Some true
           /\ option_map (fun Result => Selection (snd Result)) Deleted = Some Stale
           /\ option_map
                (fun Result =>
                   option_map snd
                     (YoriWinHexEditGetSelectedData MallocZeroed (snd Result)))
                Deleted = Some (Some 2)).
Proof.
  eexists. split; [reflexivity | ]. cbv zeta.
  split; [ | split; [ | split]].
  - repeat split; vm_compute; reflexivity.
  - repeat split; vm_compute; reflexivity.
  - repeat split; vm_compute; reflexivity.
  - repeat split; vm_compute; reflexivity.
Qed.

(** ** Data exchange *)

Lemma Create_Buffer
    (NewCaption : option YORI_STRING) (Size : COORD) (Words : Z)
    (Style : HEX_EDIT_STYLE) (HexEdit : YORI_WIN_CTRL_HEX_EDIT) :
  YoriWinHexEditCreate NewCaption Size Words Style = Some HexEdit ->
  Buffer HexEdit = None /\ BufferValid HexEdit = 0 /\ BufferAllocated HexEdit = 0.
Proof.
  unfold YoriWinHexEditCreate, YoriWinHexEditSetCursorLocationToZero.
  destruct (STYLE_OFFSET Style && STYLE_LARGE_OFFSET Style); [discriminate | ].
  break_if; [discriminate | ].
  intros H. injection H as <-.
  match goal with
  | |- context [YoriWinHexEditPaint ?h] =>
      destruct (Paint_keeps h) as (HB & HA & HV & _); rewrite HB, HA, HV
  end.
  rewrite ExpandDirtyRange_eq. fields.
  match goal with
  | |- context [YoriWinHexEditSetCursorToBufferLocation ?h ?k ?o ?s] =>
      destruct (SetCursorToBufferLocation_keeps h k o s) as (HB' & HA' & HV' & _);
      rewrite HB', HA', HV'
  end.
  repeat split.
Qed.

(** C10: YoriWinHexEditGetDataNoCopy always returns success, with the
    buffer pointer of the control and, as the length, the valid length
    (not the allocated length); for a control that was just created, or
    just cleared, that is success with a NULL pointer and the length 0. *)
Theorem get_data_no_copy_reports_valid_length :
  (forall HexEdit,
      YoriWinHexEditGetDataNoCopy HexEdit
      = (true, Buffer HexEdit, BufferValid HexEdit))
  /\ (forall NewCaption Size Words Style HexEdit,
         YoriWinHexEditCreate NewCaption Size Words Style = Some HexEdit ->
         YoriWinHexEditGetDataNoCopy HexEdit = (true, None, 0))
  /\ (forall HexEdit,
         YoriWinHexEditGetDataNoCopy (snd (YoriWinHexEditClear HexEdit))
         = (true, None, 0)).
Proof.
  split; [reflexivity | split].
  - intros NewCaption Size Words Style HexEdit H.
    destruct (Create_Buffer _ _ _ _ _ H) as (HB & HV & _).
    unfold YoriWinHexEditGetDataNoCopy. rewrite HB, HV. reflexivity.
  - intros HexEdit.
    destruct (Clear_keeps_selection_and_empties HexEdit) as (_ & _ & HB & HV).
    unfold YoriWinHexEditGetDataNoCopy. rewrite HB, HV. reflexivity.
Qed.

Lemma get_data_no_copy_reports_valid_length_witness :
  exists HexEdit,
    YoriWinHexEditCreate None {| X := 76; Y := 20 |} 2 NoStyle = Some HexEdit
    /\ YoriWinHexEditGetDataNoCopy HexEdit = (true, None, 0).
Proof.
  eexists. split; [reflexivity | ].
  destruct get_data_no_copy_reports_valid_length as (_ & H & _).
  apply (H None {| X := 76; Y := 20 |} 2 NoStyle). reflexivity.
Defined.

(** ** Programmatic mutation API *)

Lemma EnsureBufferLength_frame
    (Malloc : Z -> option memory) (HexEdit : YORI_WIN_CTRL_HEX_EDIT) (n : Z) :
  exists NewBuffer NewAllocated,
    snd (YoriWinHexEditEnsureBufferLength Malloc HexEdit n)
    = set_BufferAllocated NewAllocated (set_Buffer NewBuffer HexEdit).
Proof.
  unfold YoriWinHexEditEnsureBufferLength.
  destruct HexEdit as [cs cap buf alloc valid bpl bpw vt vl cl co fd ld sel ow pc im ro hf um].
  repeat break_if; try break_match; cbn [fst snd];
    do 2 eexists; unfold set_BufferAllocated, set_Buffer; fields; reflexivity.
Qed.

Lemma EnsureBufferLength_BufferValid
    (Malloc : Z -> option memory) (HexEdit : YORI_WIN_CTRL_HEX_EDIT) (n : Z) :
  BufferValid (snd (YoriWinHexEditEnsureBufferLength Malloc HexEdit n))
  = BufferValid HexEdit.
Proof.
  destruct (EnsureBufferLength_frame Malloc HexEdit n) as (b & a & E).
  rewrite E. reflexivity.
Qed.

(** The space is inserted when the buffer length can be ensured and the
    bytes to move fit a 32 bit count. *)
Lemma InsertSpaceInBuffer_success
    (Malloc : Z -> option memory) (HexEdit : YORI_WIN_CTRL_HEX_EDIT)
    (BufferOffset BytesToInsert : Z) :
  0 <= BufferOffset <= BufferValid HexEdit ->
  0 <= BytesToInsert ->
  BufferValid HexEdit + BytesToInsert < 2 ^ 64 ->
  BufferValid HexEdit - BufferOffset <= DWORD_MAX ->
  fst (YoriWinHexEditEnsureBufferLength Malloc HexEdit
         (BufferValid HexEdit + BytesToInsert)) = true ->
  fst (YoriWinHexEditInsertSpaceInBuffer Malloc HexEdit BufferOffset BytesToInsert) = true
  /\ BufferValid (snd (YoriWinHexEditInsertSpaceInBuffer Malloc HexEdit
                         BufferOffset BytesToInsert))
     = BufferValid HexEdit + BytesToInsert.
Proof.
  intros Hoff Hins Hsum Hmove Hens.
  unfold YoriWinHexEditInsertSpaceInBuffer.
  replace (BufferValid HexEdit <? BufferOffset) with false
    by (symmetry; apply Z.ltb_ge; lia).
  rewrite (to_DWORDLONG_small (BufferValid HexEdit + BytesToInsert)) by lia.
  pose proof (EnsureBufferLength_BufferValid Malloc HexEdit
                (BufferValid HexEdit + BytesToInsert)) as HV.
  destruct (YoriWinHexEditEnsureBufferLength Malloc HexEdit
              (BufferValid HexEdit + BytesToInsert)) as [[|] Grown];
    cbn [fst snd] in *; [ | discriminate].
  rewrite HV.
  rewrite (to_DWORDLONG_small (BufferValid HexEdit - BufferOffset))
    by (unfold DWORD_MAX in Hmove; lia).
  replace (DWORD_MAX <? BufferValid HexEdit - BufferOffset) with false
    by (symmetry; apply Z.ltb_ge; lia).
  cbn [fst snd]. fields.
  rewrite (to_DWORDLONG_small (BufferValid HexEdit + BytesToInsert)) by lia.
  split; reflexivity.
Qed.

(** The space is not inserted, and the control is unchanged, when the buffer
    length cannot be ensured. *)
Lemma InsertSpaceInBuffer_failure
    (Malloc : Z -> option memory) (HexEdit : YORI_WIN_CTRL_HEX_EDIT)
    (BufferOffset BytesToInsert : Z) :
  fst (YoriWinHexEditEnsureBufferLength Malloc HexEdit
         (to_DWORDLONG (BufferValid HexEdit + BytesToInsert))) = false ->
  YoriWinHexEditInsertSpaceInBuffer Malloc HexEdit BufferOffset BytesToInsert
  = (false, HexEdit).
Proof.
  intros Hens. unfold YoriWinHexEditInsertSpaceInBuffer.
  break_if; [reflexivity | ].
  pose proof (EnsureBufferLength_failure_unchanged Malloc HexEdit
                (to_DWORDLONG (BufferValid HexEdit + BytesToInsert)) Hens) as HU.
  destruct (YoriWinHexEditEnsureBufferLength Malloc HexEdit
              (to_DWORDLONG (BufferValid HexEdit + BytesToInsert))) as [[|] Grown];
    cbn [fst snd] in *; [discriminate | ].
  subst Grown. reflexivity.
Qed.

Lemma DeleteData_rejects (HexEdit : YORI_WIN_CTRL_HEX_EDIT) (DataOffset Length : Z) :
  BufferValid HexEdit <= DataOffset ->
  YoriWinHexEditDeleteData HexEdit DataOffset Length = (false, HexEdit).
Proof.
  intros H. unfold YoriWinHexEditDeleteData.
  replace (BufferValid HexEdit <=? DataOffset) with true by (symmetry; apply Z.leb_le; lia).
  reflexivity.
Qed.

Lemma DeleteData_clamps (HexEdit : YORI_WIN_CTRL_HEX_EDIT) (DataOffset Length : Z) :
  0 <= DataOffset < BufferValid HexEdit ->
  BufferValid HexEdit < 2 ^ 64 ->
  0 <= Length -> DataOffset + Length < 2 ^ 64 ->
  fst (YoriWinHexEditDeleteData HexEdit DataOffset Length) = true
  /\ BufferValid (snd (YoriWinHexEditDeleteData HexEdit DataOffset Length))
     = BufferValid HexEdit - Z.min Length (BufferValid HexEdit - DataOffset).
Proof.
  intros Hoff Hv Hlen Hsum. unfold YoriWinHexEditDeleteData.
  replace (BufferValid HexEdit <=? DataOffset) with false by (symmetry; apply Z.leb_gt; lia).
  rewrite (to_DWORDLONG_small (DataOffset + Length)) by lia.
  destruct (BufferValid HexEdit <? DataOffset + Length) eqn:Hclamp.
  - apply Z.ltb_lt in Hclamp.
    rewrite (to_DWORDLONG_small (BufferValid HexEdit - DataOffset)) by lia.
    break_if; cbn [fst snd]; rewrite ExpandDirtyRange_eq; fields;
      (split; [reflexivity | ]);
      rewrite to_DWORDLONG_small by lia; lia.
  - apply Z.ltb_ge in Hclamp.
    break_if; cbn [fst snd]; rewrite ExpandDirtyRange_eq; fields;
      (split; [reflexivity | ]);
      rewrite to_DWORDLONG_small by lia; lia.
Qed.

(** The bytes above the removed range move down over it. *)
Lemma DeleteData_content (HexEdit : YORI_WIN_CTRL_HEX_EDIT) (DataOffset Length i : Z) :
  0 <= DataOffset < BufferValid HexEdit ->
  BufferValid HexEdit < 2 ^ 32 ->
  0 <= Length -> DataOffset + Length < 2 ^ 64 ->
  let Removed := Z.min Length (BufferValid HexEdit - DataOffset) in
  0 <= i < BufferValid HexEdit - Removed ->
  deref (Buffer (snd (YoriWinHexEditDeleteData HexEdit DataOffset Length))) i
  = if i <? DataOffset
    then deref (Buffer HexEdit) i
    else deref (Buffer HexEdit) (i + Removed).
Proof.
  intros Hoff Hv Hlen Hsum Removed Hi. unfold YoriWinHexEditDeleteData.
  replace (BufferValid HexEdit <=? DataOffset) with false by (symmetry; apply Z.leb_gt; lia).
  rewrite (to_DWORDLONG_small (DataOffset + Length)) by lia.
  assert (HR : (if BufferValid HexEdit <? DataOffset + Length
                then to_DWORDLONG (BufferValid HexEdit - DataOffset)
                else Length) = Removed).
  { unfold Removed. destruct (BufferValid HexEdit <? DataOffset + Length) eqn:Hc.
    - apply Z.ltb_lt in Hc. rewrite to_DWORDLONG_small by lia. lia.
    - apply Z.ltb_ge in Hc. lia. }
  rewrite HR.
  assert (HRr : 0 <= Removed <= BufferValid HexEdit - DataOffset) by (unfold Removed; lia).
  rewrite (to_DWORDLONG_small (DataOffset + Removed)) by lia.
  destruct (DataOffset + Removed <? BufferValid HexEdit) eqn:Hm;
    cbn [fst snd]; rewrite ExpandDirtyRange_eq; fields.
  - apply Z.ltb_lt in Hm. cbn [deref]. unfold memmove.
    rewrite (to_DWORD_small (BufferValid HexEdit - DataOffset - Removed)) by lia.
    destruct (i <? DataOffset) eqn:Hlt.
    + apply Z.ltb_lt in Hlt.
      replace (DataOffset <=? i) with false by (symmetry; apply Z.leb_gt; lia).
      reflexivity.
    + apply Z.ltb_ge in Hlt.
      replace (DataOffset <=? i) with true by (symmetry; apply Z.leb_le; lia).
      replace (i <? DataOffset + (BufferValid HexEdit - DataOffset - Removed)) with true
        by (symmetry; apply Z.ltb_lt; lia).
      cbn [andb]. f_equal. lia.
  - apply Z.ltb_ge in Hm.
    replace (i <? DataOffset) with true by (symmetry; apply Z.ltb_lt; lia).
    reflexivity.
Qed.

Lemma ReplaceData_lengths
    (HexEdit : YORI_WIN_CTRL_HEX_EDIT) (DataOffset : Z) (Data : memory) (Length : Z) :
  BufferValid (snd (YoriWinHexEditReplaceData HexEdit DataOffset Data Length))
  = BufferValid HexEdit
  /\ BufferAllocated (snd (YoriWinHexEditReplaceData HexEdit DataOffset Data Length))
     = BufferAllocated HexEdit.
Proof.
  unfold YoriWinHexEditReplaceData.
  break_if; cbn [fst snd]; rewrite ?ExpandDirtyRange_eq; split; reflexivity.
Qed.

Lemma InsertData_succeeds
    (Malloc : Z -> option memory) (HexEdit : YORI_WIN_CTRL_HEX_EDIT)
    (DataOffset : Z) (Data : memory) (Length : Z) :
  0 <= DataOffset < BufferValid HexEdit ->
  0 <= Length < 2 ^ 32 ->
  BufferValid HexEdit + Length < 2 ^ 64 ->
  BufferValid HexEdit - DataOffset <= DWORD_MAX ->
  fst (YoriWinHexEditEnsureBufferLength Malloc HexEdit
         (BufferValid HexEdit + Length)) = true ->
  let Result := YoriWinHexEditInsertData Malloc HexEdit DataOffset Data Length in
  fst Result = true
  /\ BufferValid (snd Result) = BufferValid HexEdit + Length
  /\ forall i, DataOffset <= i < DataOffset + Length ->
               deref (Buffer (snd Result)) i = Data (i - DataOffset).
Proof.
  intros Hoff Hlen Hsum Hmove Hens Result.
  destruct (InsertSpaceInBuffer_success Malloc HexEdit DataOffset Length
              ltac:(lia) ltac:(lia) Hsum Hmove Hens) as [Hok Hvalid].
  unfold Result, YoriWinHexEditInsertData.
  replace (BufferValid HexEdit <=? DataOffset) with false by (symmetry; apply Z.leb_gt; lia).
  rewrite (to_DWORD_small Length) by lia.
  destruct (YoriWinHexEditInsertSpaceInBuffer Malloc HexEdit DataOffset Length)
    as [[|] Spaced]; cbn [fst snd] in *; [ | discriminate].
  rewrite ExpandDirtyRange_eq. fields.
  split; [reflexivity | split; [exact Hvalid | ]].
  intros i Hi. cbn [deref]. unfold memmove.
  replace (DataOffset <=? i) with true by (symmetry; apply Z.leb_le; lia).
  replace (i <? DataOffset + Length) with true by (symmetry; apply Z.ltb_lt; lia).
  cbn [andb]. f_equal. lia.
Qed.

(** C7 (as amended): for offsets and lengths that are not negative, with
    offset+length and valid+length below 2^64, YoriWinHexEditReplaceData
    fails, leaving the control unchanged, when offset+length exceeds the
    valid length, and it never changes the valid or the allocated length;
    YoriWinHexEditDeleteData fails, leaving the control unchanged, at every
    offset at or past the end of the valid data, and succeeds at every
    offset within it, removing the count clamped to the valid range;
    YoriWinHexEditInsertData fails, leaving the control unchanged, at
    every offset at or past the end of the valid data and, for a length
    below 2^32, when the buffer length valid+length cannot be ensured, and
    it succeeds at every offset within the valid data when the
    length is below 2^32, the valid-offset bytes to move are at most
    2^32-1 and the buffer length valid+length can be ensured, making valid
    grow by the length with the new data at the offset. *)
Theorem mutation_api_domain
    (Malloc : Z -> option memory) (HexEdit : YORI_WIN_CTRL_HEX_EDIT)
    (DataOffset : Z) (Data : memory) (Length : Z) :
  0 <= DataOffset -> 0 <= Length ->
  DataOffset + Length < 2 ^ 64 ->
  0 <= BufferValid HexEdit -> BufferValid HexEdit + Length < 2 ^ 64 ->
  (* replace *)
  (BufferValid HexEdit < DataOffset + Length ->
   YoriWinHexEditReplaceData HexEdit DataOffset Data Length = (false, HexEdit))
  /\ BufferValid (snd (YoriWinHexEditReplaceData HexEdit DataOffset Data Length))
     = BufferValid HexEdit
  /\ BufferAllocated (snd (YoriWinHexEditReplaceData HexEdit DataOffset Data Length))
     = BufferAllocated HexEdit
  (* delete *)
  /\ (BufferValid HexEdit <= DataOffset ->
      YoriWinHexEditDeleteData HexEdit DataOffset Length = (false, HexEdit))
  /\ (DataOffset < BufferValid HexEdit ->
      fst (YoriWinHexEditDeleteData HexEdit DataOffset Length) = true
      /\ BufferValid (snd (YoriWinHexEditDeleteData HexEdit DataOffset Length))
         = BufferValid HexEdit - Z.min Length (BufferValid HexEdit - DataOffset))
  (* insert *)
  /\ (BufferValid HexEdit <= DataOffset ->
      YoriWinHexEditInsertData Malloc HexEdit DataOffset Data Length = (false, HexEdit))
  /\ (fst (YoriWinHexEditEnsureBufferLength Malloc HexEdit
             (BufferValid HexEdit + Length)) = false ->
      Length < 2 ^ 32 ->
      YoriWinHexEditInsertData Malloc HexEdit DataOffset Data Length = (false, HexEdit))
  /\ (DataOffset < BufferValid HexEdit ->
      Length < 2 ^ 32 ->
      BufferValid HexEdit - DataOffset <= DWORD_MAX ->
      fst (YoriWinHexEditEnsureBufferLength Malloc HexEdit
             (BufferValid HexEdit + Length)) = true ->
      let Result := YoriWinHexEditInsertData Malloc HexEdit DataOffset Data Length in
      fst Result = true
      /\ BufferValid (snd Result) = BufferValid HexEdit + Length
      /\ forall i, DataOffset <= i < DataOffset + Length ->
                   deref (Buffer (snd Result)) i = Data (i - DataOffset)).
Proof.
  intros Hoff Hlen Hsum Hv Hvs.
  split.
  { intros H. unfold YoriWinHexEditReplaceData.
    rewrite (to_DWORDLONG_small (DataOffset + Length)) by lia.
    replace (BufferValid HexEdit <? DataOffset + Length) with true
      by (symmetry; apply Z.ltb_lt; lia).
    reflexivity. }
  split; [apply ReplaceData_lengths | ].
  split; [apply ReplaceData_lengths | ].
  split; [apply DeleteData_rejects | ].
  split.
  { intros H. apply DeleteData_clamps; lia. }
  split.
  { intros H. unfold YoriWinHexEditInsertData.
    replace (BufferValid HexEdit <=? DataOffset) with true
      by (symmetry; apply Z.leb_le; exact H).
    reflexivity. }
  split.
  { intros Hens Hl. unfold YoriWinHexEditInsertData.
    break_if; [reflexivity | ].
    rewrite (to_DWORD_small Length) by lia.
    rewrite InsertSpaceInBuffer_failure; [reflexivity | ].
    rewrite (to_DWORDLONG_small (BufferValid HexEdit + Length)) by lia.
    exact Hens. }
  intros H Hl Hmove Hens. apply InsertData_succeeds; try assumption; lia.
Qed.

Lemma mutation_api_domain_witness :
  let HexEdit := ControlWith 1 0 (Some CountingBytes) 4 4 in
  YoriWinHexEditReplaceData HexEdit 3 CountingBytes 2 = (false, HexEdit)
  /\ fst (YoriWinHexEditDeleteData HexEdit 3 2) = true
  /\ BufferValid (snd (YoriWinHexEditDeleteData HexEdit 3 2)) = 3
  /\ fst (YoriWinHexEditInsertData MallocZeroed HexEdit 3 CountingBytes 2) = true
  /\ BufferValid (snd (YoriWinHexEditInsertData MallocZeroed HexEdit 3 CountingBytes 2)) = 6
  /\ YoriWinHexEditInsertData MallocFails HexEdit 3 CountingBytes 2 = (false, HexEdit)
  /\ YoriWinHexEditInsertData MallocZeroed HexEdit 4 CountingBytes 2 = (false, HexEdit).
Proof.
  cbv zeta.
  destruct (mutation_api_domain MallocZeroed
              (ControlWith 1 0 (Some CountingBytes) 4 4) 3 CountingBytes 2)
    as (HR & _ & _ & _ & HD & _ & _ & HI); try (simpl; lia).
  destruct (mutation_api_domain MallocFails
              (ControlWith 1 0 (Some CountingBytes) 4 4) 3 CountingBytes 2)
    as (_ & _ & _ & _ & _ & _ & HF & _); try (simpl; lia).
  destruct (mutation_api_domain MallocZeroed
              (ControlWith 1 0 (Some CountingBytes) 4 4) 4 CountingBytes 2)
    as (_ & _ & _ & _ & _ & HE & _); try (simpl; lia).
  destruct HD as [HD1 HD2]; [simpl; lia | ].
  destruct HI as (HI1 & HI2 & _); [simpl; lia | lia | simpl; unfold DWORD_MAX; lia | reflexivity | ].
  split; [apply HR; simpl; lia | ].
  split; [exact HD1 | ].
  split; [exact HD2 | ].
  split; [exact HI1 | ].
  split; [exact HI2 | ].
  split; [apply HF; [reflexivity | lia] | ].
  apply HE. simpl; lia.
Defined.

(** C7 as stated fails at the end of the valid data: with four valid bytes,
    deleting at offset 4 is refused, and so is inserting at offset 4 even
    though the allocator never fails. *)
Lemma mutation_api_refuses_end_of_data :
  let HexEdit := ControlWith 1 0 (Some CountingBytes) 16 4 in
  BufferValid HexEdit = 4
  /\ fst (YoriWinHexEditDeleteData HexEdit 4 1) = false
  /\ fst (YoriWinHexEditInsertData MallocZeroed HexEdit 4 CountingBytes 1) = false.
Proof.
  cbv zeta. split; [reflexivity | split; reflexivity].
Qed.

(** ** Cell editor *)

Lemma EnsureBufferValid_BufferValid
    (Malloc : Z -> option memory) (HexEdit : YORI_WIN_CTRL_HEX_EDIT) (n : Z) :
  BufferValid (snd (YoriWinHexEditEnsureBufferValid Malloc HexEdit n))
  = BufferValid HexEdit
  \/ BufferValid (snd (YoriWinHexEditEnsureBufferValid Malloc HexEdit n)) = n.
Proof.
  unfold YoriWinHexEditEnsureBufferValid.
  break_if; [left; reflexivity | ].
  pose proof (EnsureBufferLength_BufferValid Malloc HexEdit n) as HV.
  destruct (YoriWinHexEditEnsureBufferLength Malloc HexEdit n) as [[|] Grown];
    cbn [fst snd] in *; [right; reflexivity | left; exact HV].
Qed.

(** Overwriting leaves the valid length alone unless the cell is beyond the
    end of the buffer, in which case it may extend the valid data up to
    the byte written. *)
Lemma OverwriteCell_BufferValid
    (Malloc : Z -> option memory) (HexEdit : YORI_WIN_CTRL_HEX_EDIT)
    (FirstLine FirstCharOffset Char : Z) :
  let Cell := YoriWinHexEditCellType HexEdit FirstLine FirstCharOffset in
  let Edited :=
    snd (YoriWinHexEditOverwriteCell Malloc HexEdit FirstLine FirstCharOffset Char) in
  BufferValid Edited = BufferValid HexEdit
  \/ (BeyondBufferEnd Cell = true
      /\ BufferValid Edited
         = to_DWORDLONG
             (EditBufferOffsetOf (BufferOffsetOfCell HexEdit FirstLine Cell)
                                 (BitShift Cell) + 1)).
Proof.
  intros Cell Edited. unfold Edited, YoriWinHexEditOverwriteCell. fold Cell.
  set (Needed := to_DWORDLONG
                   (EditBufferOffsetOf (BufferOffsetOfCell HexEdit FirstLine Cell)
                                       (BitShift Cell) + 1)).
  pose proof (EnsureBufferValid_BufferValid Malloc HexEdit Needed) as HE.
  destruct (BeyondBufferEnd Cell) eqn:HB.
  - destruct (YoriWinHexEditEnsureBufferValid Malloc HexEdit Needed) as [[|] Extended];
      cbn [fst snd] in HE;
      destruct (CellType Cell); try (left; reflexivity);
      try break_match; try (left; reflexivity);
      repeat break_match; cbn [fst snd];
      rewrite ?ExpandDirtyRange_eq; fields;
      (destruct HE as [HE | HE]; [left; exact HE | right; split; [reflexivity | exact HE]]).
  - left.
    destruct (CellType Cell); try reflexivity;
      try break_match; try reflexivity;
      repeat break_match; cbn [fst snd];
      rewrite ?ExpandDirtyRange_eq; fields; reflexivity.
Qed.

(** Inserting a hex digit at the first nibble of a word that starts within
    or at the end of the valid data inserts one word. *)
Lemma InsertCell_first_nibble
    (Malloc : Z -> option memory) (HexEdit : YORI_WIN_CTRL_HEX_EDIT)
    (FirstLine FirstCharOffset Char Nibble : Z) :
  let Cell := YoriWinHexEditCellType HexEdit FirstLine FirstCharOffset in
  let BufferOffset := BufferOffsetOfCell HexEdit FirstLine Cell in
  CellType Cell = YoriWinHexEditCellTypeHexDigit ->
  BitShift Cell = to_DWORD (BytesPerWord HexEdit * 8 - 4) ->
  TypedNibble Char = Some Nibble ->
  0 <= BufferOffset <= BufferValid HexEdit ->
  0 <= BytesPerWord HexEdit ->
  BufferValid HexEdit + BytesPerWord HexEdit < 2 ^ 64 ->
  BufferValid HexEdit - BufferOffset <= DWORD_MAX ->
  fst (YoriWinHexEditEnsureBufferLength Malloc HexEdit
         (BufferValid HexEdit + BytesPerWord HexEdit)) = true ->
  let Result := YoriWinHexEditInsertCell Malloc HexEdit FirstLine FirstCharOffset Char in
  ReturnOf Result = true
  /\ BufferValid (ControlOf Result) = BufferValid HexEdit + BytesPerWord HexEdit.
Proof.
  intros Cell BufferOffset Hkind Hshift Hchar Hoff Hw Hsum Hmove Hens Result.
  destruct (InsertSpaceInBuffer_success Malloc HexEdit BufferOffset
              (BytesPerWord HexEdit) Hoff Hw Hsum Hmove Hens) as [Hok Hvalid].
  unfold Result, YoriWinHexEditInsertCell. fold Cell. fold BufferOffset.
  replace (BeyondBufferEnd Cell && (BufferValid HexEdit <? BufferOffset)) with false
    by (symmetry; apply andb_false_iff; right; apply Z.ltb_ge; lia).
  step. rewrite Hkind. step.
  unfold TypedNibble in Hchar. rewrite Hchar. step.
  rewrite Hshift, Z.eqb_refl.
  destruct (YoriWinHexEditInsertSpaceInBuffer Malloc HexEdit BufferOffset
              (BytesPerWord HexEdit)) as [[|] Spaced];
    cbn [fst snd] in Hok, Hvalid; [ | discriminate].
  step.
  destruct (YoriWinHexEditNextCellSameType (set_Buffer _ Spaced)
              YoriWinHexEditCellTypeHexDigit BufferOffset
              (to_DWORD (BytesPerWord HexEdit * 8 - 4))) as [[NextLine NextOffset] | ];
    step; rewrite ExpandDirtyRange_eq; unfold ReturnOf, ControlOf; fields;
    (split; [reflexivity | exact Hvalid]).
Qed.

(** Inserting at any other nibble of an existing word, one whose cell is
    not beyond the end of the buffer, leaves the valid length alone. *)
Lemma InsertCell_other_nibble
    (Malloc : Z -> option memory) (HexEdit : YORI_WIN_CTRL_HEX_EDIT)
    (FirstLine FirstCharOffset Char : Z) :
  let Cell := YoriWinHexEditCellType HexEdit FirstLine FirstCharOffset in
  let BufferOffset := BufferOffsetOfCell HexEdit FirstLine Cell in
  CellType Cell = YoriWinHexEditCellTypeHexDigit ->
  BitShift Cell <> to_DWORD (BytesPerWord HexEdit * 8 - 4) ->
  BeyondBufferEnd Cell = false ->
  let Result := YoriWinHexEditInsertCell Malloc HexEdit FirstLine FirstCharOffset Char in
  ReturnOf Result = true
  /\ BufferValid (ControlOf Result) = BufferValid HexEdit.
Proof.
  intros Cell BufferOffset Hkind Hshift Hend Result.
  unfold Result, YoriWinHexEditInsertCell. fold Cell. fold BufferOffset.
  replace (BeyondBufferEnd Cell && (BufferValid HexEdit <? BufferOffset)) with false.
  2:{ symmetry; apply andb_false_iff. left; exact Hend. }
  step. rewrite Hkind. step.
  replace (BitShift Cell =? to_DWORD (BytesPerWord HexEdit * 8 - 4)) with false
    by (symmetry; apply Z.eqb_neq; exact Hshift).
  destruct (NibbleOfInputChar _) as [Nibble | ]; step.
  - destruct (YoriWinHexEditNextCellSameType _ _ _ _) as [[NextLine NextOffset] | ];
      step; rewrite ExpandDirtyRange_eq; unfold ReturnOf, ControlOf; fields;
      (split; reflexivity).
  - rewrite ExpandDirtyRange_eq; unfold ReturnOf, ControlOf; fields; split; reflexivity.
Qed.

(** C2 (as amended): for every cursor cell and every input character, an
    overwrite-mode edit (YoriWinHexEditOverwriteCell) leaves the valid
    length unchanged when the cell is not beyond the end of the buffer; an
    insert-mode edit (YoriWinHexEditInsertCell) of a HexDigit cell with a
    hex digit increases the valid length by exactly bytesPerWord when the
    nibble has the maximum bit shift bytesPerWord*8-4, its word starts
    within or exactly at the end of the valid data, bytesPerWord is 1, 2,
    4 or 8, valid+bytesPerWord is below 2^64, the bytes to move fit a 32
    bit count and the buffer length valid+bytesPerWord can be ensured; and
    an insert-mode edit of a HexDigit cell leaves the valid length
    unchanged at any other nibble of an existing word, that is, of a cell
    that is not beyond the end of the buffer. *)
Theorem edit_changes_of_valid_length
    (Malloc : Z -> option memory) (HexEdit : YORI_WIN_CTRL_HEX_EDIT)
    (FirstLine FirstCharOffset Char : Z) :
  let Cell := YoriWinHexEditCellType HexEdit FirstLine FirstCharOffset in
  let BufferOffset := BufferOffsetOfCell HexEdit FirstLine Cell in
  let Overwritten :=
    YoriWinHexEditOverwriteCell Malloc HexEdit FirstLine FirstCharOffset Char in
  let Inserted :=
    YoriWinHexEditInsertCell Malloc HexEdit FirstLine FirstCharOffset Char in
  (BeyondBufferEnd Cell = false ->
   BufferValid (ControlOf Overwritten) = BufferValid HexEdit)
  /\ (CellType Cell = YoriWinHexEditCellTypeHexDigit ->
      BitShift Cell = to_DWORD (BytesPerWord HexEdit * 8 - 4) ->
      TypedNibble Char <> None ->
      BufferOffset <= BufferValid HexEdit ->
      In (BytesPerWord HexEdit) [1; 2; 4; 8] ->
      BufferValid HexEdit + BytesPerWord HexEdit < 2 ^ 64 ->
      BufferValid HexEdit - BufferOffset <= DWORD_MAX ->
      fst (YoriWinHexEditEnsureBufferLength Malloc HexEdit
             (BufferValid HexEdit + BytesPerWord HexEdit)) = true ->
      BufferValid (ControlOf Inserted) = BufferValid HexEdit + BytesPerWord HexEdit)
  /\ (CellType Cell = YoriWinHexEditCellTypeHexDigit ->
      BitShift Cell <> to_DWORD (BytesPerWord HexEdit * 8 - 4) ->
      BeyondBufferEnd Cell = false ->
      BufferValid (ControlOf Inserted) = BufferValid HexEdit).
Proof.
  intros Cell BufferOffset Overwritten Inserted. split; [ | split].
  - intros Hend.
    destruct (OverwriteCell_BufferValid Malloc HexEdit FirstLine FirstCharOffset Char)
      as [H | [H _]]; [exact H | ].
    fold Cell in H. congruence.
  - intros Hkind Hshift Hchar Hoff Hw Hsum Hmove Hens.
    destruct (TypedNibble Char) as [Nibble | ] eqn:HN; [ | congruence].
    apply (InsertCell_first_nibble Malloc HexEdit FirstLine FirstCharOffset Char Nibble);
      try assumption.
    + split; [ | exact Hoff].
      unfold BufferOffset, BufferOffsetOfCell. apply to_DWORDLONG_range.
    + simpl in Hw; lia.
  - intros Hkind Hshift Hend.
    apply (InsertCell_other_nibble Malloc HexEdit FirstLine FirstCharOffset Char);
      assumption.
Qed.

Lemma edit_changes_of_valid_length_witness :
  let HexEdit := ControlWith 1 0 (Some CountingBytes) 16 4 in
  BufferValid (ControlOf (YoriWinHexEditOverwriteCell MallocFails HexEdit 0 0 52)) = 4
  /\ BufferValid (ControlOf (YoriWinHexEditInsertCell MallocFails HexEdit 0 0 52)) = 4 + 1
  /\ BufferValid (ControlOf (YoriWinHexEditInsertCell MallocFails HexEdit 0 1 52)) = 4.
Proof.
  cbv zeta.
  destruct (edit_changes_of_valid_length MallocFails
              (ControlWith 1 0 (Some CountingBytes) 16 4) 0 0 52) as (HO & HI & _).
  destruct (edit_changes_of_valid_length MallocFails
              (ControlWith 1 0 (Some CountingBytes) 16 4) 0 1 52) as (_ & _ & HN).
  split; [apply HO; reflexivity | split].
  - apply HI.
    + reflexivity.
    + reflexivity.
    + discriminate.
    + vm_compute; discriminate.
    + simpl; lia.
    + simpl; lia.
    + vm_compute; discriminate.
    + reflexivity.
  - apply HN.
    + reflexivity.
    + vm_compute; discriminate.
    + reflexivity.
Defined.

(** C2 as stated fails in both modes.  Overwrite: on a freshly created,
    empty control the digit 4 typed at the first hex cell makes one byte
    valid.  Insert: with six valid bytes and four byte words, a digit typed
    at the first nibble of the word at offset 8, which lies beyond the end
    of the valid data, makes twelve bytes valid: six more, not four. *)
Lemma edit_valid_length_as_stated_fails :
  (exists HexEdit,
      YoriWinHexEditCreate None {| X := 76; Y := 20 |} 1 NoStyle = Some HexEdit
      /\ InsertMode HexEdit = false
      /\ BufferValid HexEdit = 0
      /\ BufferValid (ControlOf (YoriWinHexEditOverwriteCell MallocZeroed HexEdit 0 0 52)) = 1)
  /\ (let HexEdit := ControlWith 4 0 (Some CountingBytes) 6 6 in
      let Cell := YoriWinHexEditCellType HexEdit 0 18 in
      CellType Cell = YoriWinHexEditCellTypeHexDigit
      /\ BufferOffsetOfCell HexEdit 0 Cell = 8
      /\ BitShift Cell = BytesPerWord HexEdit * 8 - 4
      /\ BeyondBufferEnd Cell = true
      /\ BufferValid (ControlOf (YoriWinHexEditInsertCell MallocZeroed HexEdit 0 18 52))
         = 12).
Proof.
  split.
  - eexists. split; [reflexivity | ].
    split; [reflexivity | split; [reflexivity | reflexivity]].
  - cbv zeta.
    split; [reflexivity | split; [reflexivity | split; [reflexivity | split; reflexivity]]].
Qed.

(** ** Allocation failure *)

Lemma EnsureBufferLength_no_memory
    (Malloc : Z -> option memory) (HexEdit : YORI_WIN_CTRL_HEX_EDIT) (n : Z) :
  (forall Size, Malloc Size = None) ->
  BufferAllocated HexEdit < n ->
  YoriWinHexEditEnsureBufferLength Malloc HexEdit n = (false, HexEdit).
Proof.
  intros HM Ha. unfold YoriWinHexEditEnsureBufferLength.
  replace (n <=? BufferAllocated HexEdit) with false by (symmetry; apply Z.leb_gt; lia).
  rewrite HM. repeat break_if; reflexivity.
Qed.

Lemma EnsureBufferValid_no_memory
    (Malloc : Z -> option memory) (HexEdit : YORI_WIN_CTRL_HEX_EDIT) (n : Z) :
  (forall Size, Malloc Size = None) ->
  BufferValid HexEdit < n -> BufferAllocated HexEdit < n ->
  YoriWinHexEditEnsureBufferValid Malloc HexEdit n = (false, HexEdit).
Proof.
  intros HM Hv Ha. unfold YoriWinHexEditEnsureBufferValid.
  replace (n <=? BufferValid HexEdit) with false by (symmetry; apply Z.leb_gt; lia).
  rewrite EnsureBufferLength_no_memory by assumption. reflexivity.
Qed.

Lemma InsertSpaceInBuffer_no_memory
    (Malloc : Z -> option memory) (HexEdit : YORI_WIN_CTRL_HEX_EDIT)
    (BufferOffset BytesToInsert : Z) :
  (forall Size, Malloc Size = None) ->
  BufferAllocated HexEdit < BufferValid HexEdit + BytesToInsert ->
  0 <= BufferValid HexEdit + BytesToInsert < 2 ^ 64 ->
  YoriWinHexEditInsertSpaceInBuffer Malloc HexEdit BufferOffset BytesToInsert
  = (false, HexEdit).
Proof.
  intros HM Ha Hr. apply InsertSpaceInBuffer_failure.
  rewrite to_DWORDLONG_small by lia.
  rewrite EnsureBufferLength_no_memory by assumption. reflexivity.
Qed.

(** Neither cell editor has a path that returns [FALSE]. *)
Lemma OverwriteCell_returns_true
    (Malloc : Z -> option memory) (HexEdit : YORI_WIN_CTRL_HEX_EDIT)
    (FirstLine FirstCharOffset Char : Z) :
  ReturnOf (YoriWinHexEditOverwriteCell Malloc HexEdit FirstLine FirstCharOffset Char)
  = true.
Proof.
  unfold YoriWinHexEditOverwriteCell. repeat break_match; reflexivity.
Qed.

Lemma InsertCell_returns_true
    (Malloc : Z -> option memory) (HexEdit : YORI_WIN_CTRL_HEX_EDIT)
    (FirstLine FirstCharOffset Char : Z) :
  ReturnOf (YoriWinHexEditInsertCell Malloc HexEdit FirstLine FirstCharOffset Char)
  = true.
Proof.
  unfold YoriWinHexEditInsertCell. repeat break_match; reflexivity.
Qed.

Lemma OverwriteCell_no_memory
    (Malloc : Z -> option memory) (HexEdit : YORI_WIN_CTRL_HEX_EDIT)
    (FirstLine FirstCharOffset Char : Z) :
  let Cell := YoriWinHexEditCellType HexEdit FirstLine FirstCharOffset in
  let Needed :=
    to_DWORDLONG (EditBufferOffsetOf (BufferOffsetOfCell HexEdit FirstLine Cell)
                                     (BitShift Cell) + 1) in
  (forall Size, Malloc Size = None) ->
  BeyondBufferEnd Cell = true ->
  BufferValid HexEdit < Needed -> BufferAllocated HexEdit < Needed ->
  YoriWinHexEditOverwriteCell Malloc HexEdit FirstLine FirstCharOffset Char
  = (true, FirstLine, FirstCharOffset, HexEdit).
Proof.
  intros Cell Needed HM HB Hv Ha.
  unfold YoriWinHexEditOverwriteCell. fold Cell. fold Needed.
  rewrite HB, EnsureBufferValid_no_memory by assumption.
  destruct (CellType Cell); try reflexivity.
  destruct (NibbleOfInputChar _); reflexivity.
Qed.

Lemma InsertCell_no_memory_to_extend
    (Malloc : Z -> option memory) (HexEdit : YORI_WIN_CTRL_HEX_EDIT)
    (FirstLine FirstCharOffset Char : Z) :
  let Cell := YoriWinHexEditCellType HexEdit FirstLine FirstCharOffset in
  let BufferOffset := BufferOffsetOfCell HexEdit FirstLine Cell in
  (forall Size, Malloc Size = None) ->
  BeyondBufferEnd Cell = true ->
  BufferValid HexEdit < BufferOffset -> BufferAllocated HexEdit < BufferOffset ->
  YoriWinHexEditInsertCell Malloc HexEdit FirstLine FirstCharOffset Char
  = (true, FirstLine, FirstCharOffset, HexEdit).
Proof.
  intros Cell BufferOffset HM HB Hv Ha.
  unfold YoriWinHexEditInsertCell. fold Cell. fold BufferOffset.
  rewrite HB.
  replace (BufferValid HexEdit <? BufferOffset) with true by (symmetry; apply Z.ltb_lt; lia).
  cbn [andb]. rewrite EnsureBufferValid_no_memory by assumption. reflexivity.
Qed.

Lemma InsertCell_no_memory_for_space
    (Malloc : Z -> option memory) (HexEdit : YORI_WIN_CTRL_HEX_EDIT)
    (FirstLine FirstCharOffset Char BytesToInsert : Z) :
  let Cell := YoriWinHexEditCellType HexEdit FirstLine FirstCharOffset in
  let BufferOffset := BufferOffsetOfCell HexEdit FirstLine Cell in
  (forall Size, Malloc Size = None) ->
  BufferOffset <= BufferValid HexEdit ->
  (CellType Cell = YoriWinHexEditCellTypeHexDigit
   /\ BitShift Cell = to_DWORD (BytesPerWord HexEdit * 8 - 4)
   /\ BytesToInsert = BytesPerWord HexEdit)
  \/ (CellType Cell = YoriWinHexEditCellTypeCharValue /\ BytesToInsert = 1) ->
  BufferAllocated HexEdit < BufferValid HexEdit + BytesToInsert ->
  0 <= BufferValid HexEdit + BytesToInsert < 2 ^ 64 ->
  EditAbandoned HexEdit FirstLine FirstCharOffset
    (YoriWinHexEditInsertCell Malloc HexEdit FirstLine FirstCharOffset Char).
Proof.
  intros Cell BufferOffset HM Hoff Hcase Ha Hr.
  unfold YoriWinHexEditInsertCell. fold Cell. fold BufferOffset.
  replace (BeyondBufferEnd Cell && (BufferValid HexEdit <? BufferOffset)) with false
    by (symmetry; apply andb_false_iff; right; apply Z.ltb_ge; lia).
  step.
  destruct Hcase as [(Hkind & Hshift & ->) | (Hkind & ->)]; rewrite Hkind; step.
  - rewrite Hshift, Z.eqb_refl.
    rewrite InsertSpaceInBuffer_no_memory by assumption.
    destruct (NibbleOfInputChar _); step;
      rewrite ExpandDirtyRange_eq; unfold EditAbandoned, LastLineOf, LastCharOffsetOf, ControlOf;
      fields; repeat split.
  - rewrite InsertSpaceInBuffer_no_memory by assumption. step.
    rewrite ExpandDirtyRange_eq; unfold EditAbandoned, LastLineOf, LastCharOffsetOf, ControlOf;
      fields; repeat split.
Qed.

Lemma SetCaption_no_memory
    (AllocateString : Z -> option YORI_STRING)
    (HexEdit : YORI_WIN_CTRL_HEX_EDIT) (NewText : YORI_STRING) :
  AllocateString (LengthInChars NewText) = None ->
  LengthAllocated (Caption HexEdit) < LengthInChars NewText ->
  YoriWinHexEditSetCaption AllocateString HexEdit NewText = (false, HexEdit).
Proof.
  intros HA HL. unfold YoriWinHexEditSetCaption.
  replace (LengthAllocated (Caption HexEdit) <? LengthInChars NewText) with true
    by (symmetry; apply Z.ltb_lt; lia).
  rewrite HA. reflexivity.
Qed.

(** What the three operations do when the allocator fails.  Both cell
    editors return TRUE.  Three cases leave the buffer, its allocated and
    its valid length as they were: an overwrite beyond the end of the
    buffer; an insert whose cell lies beyond the valid data and beyond the
    allocation; an insert at a cell within or at the end of the valid data
    whose word or byte cannot be inserted.  YoriWinHexEditSetCaption
    returns FALSE, leaving the control with its caption unchanged, when the
    longer caption cannot be allocated. *)
Lemma allocation_failure_abandons_edit
    (Malloc : Z -> option memory) (AllocateString : Z -> option YORI_STRING)
    (HexEdit : YORI_WIN_CTRL_HEX_EDIT)
    (FirstLine FirstCharOffset Char BytesToInsert : Z) (NewText : YORI_STRING) :
  let Cell := YoriWinHexEditCellType HexEdit FirstLine FirstCharOffset in
  let BufferOffset := BufferOffsetOfCell HexEdit FirstLine Cell in
  let Needed := to_DWORDLONG (EditBufferOffsetOf BufferOffset (BitShift Cell) + 1) in
  let Overwritten :=
    YoriWinHexEditOverwriteCell Malloc HexEdit FirstLine FirstCharOffset Char in
  let Inserted :=
    YoriWinHexEditInsertCell Malloc HexEdit FirstLine FirstCharOffset Char in
  (forall Size, Malloc Size = None) ->
  AllocateString (LengthInChars NewText) = None ->
  ReturnOf Overwritten = true
  /\ ReturnOf Inserted = true
  /\ (BeyondBufferEnd Cell = true ->
      BufferValid HexEdit < Needed -> BufferAllocated HexEdit < Needed ->
      Overwritten = (true, FirstLine, FirstCharOffset, HexEdit))
  /\ (BeyondBufferEnd Cell = true ->
      BufferValid HexEdit < BufferOffset -> BufferAllocated HexEdit < BufferOffset ->
      Inserted = (true, FirstLine, FirstCharOffset, HexEdit))
  /\ (BufferOffset <= BufferValid HexEdit ->
      (CellType Cell = YoriWinHexEditCellTypeHexDigit
       /\ BitShift Cell = to_DWORD (BytesPerWord HexEdit * 8 - 4)
       /\ BytesToInsert = BytesPerWord HexEdit)
      \/ (CellType Cell = YoriWinHexEditCellTypeCharValue /\ BytesToInsert = 1) ->
      BufferAllocated HexEdit < BufferValid HexEdit + BytesToInsert ->
      0 <= BufferValid HexEdit + BytesToInsert < 2 ^ 64 ->
      EditAbandoned HexEdit FirstLine FirstCharOffset Inserted)
  /\ (LengthAllocated (Caption HexEdit) < LengthInChars NewText ->
      YoriWinHexEditSetCaption AllocateString HexEdit NewText = (false, HexEdit)).
Proof.
  intros Cell BufferOffset Needed Overwritten Inserted HM HA.
  split; [apply OverwriteCell_returns_true | ].
  split; [apply InsertCell_returns_true | ].
  split; [intros; apply OverwriteCell_no_memory; assumption | ].
  split; [intros; apply InsertCell_no_memory_to_extend; assumption | ].
  split.
  - intros. apply (InsertCell_no_memory_for_space Malloc HexEdit FirstLine
                     FirstCharOffset Char BytesToInsert); assumption.
  - intros. apply SetCaption_no_memory; assumption.
Qed.

Lemma allocation_failure_abandons_edit_witness :
  let HexEdit := ControlWith 1 0 (Some CountingBytes) 4 4 in
  let Title := {| StartOfString := Some CountingBytes;
                  LengthInChars := 5; LengthAllocated := 5 |} in
  YoriWinHexEditOverwriteCell MallocFails HexEdit 0 12 52 = (true, 0, 12, HexEdit)
  /\ EditAbandoned HexEdit 0 0 (YoriWinHexEditInsertCell MallocFails HexEdit 0 0 52)
  /\ YoriWinHexEditSetCaption AllocateStringFails HexEdit Title = (false, HexEdit).
Proof.
  cbv zeta.
  destruct (allocation_failure_abandons_edit MallocFails AllocateStringFails
              (ControlWith 1 0 (Some CountingBytes) 4 4) 0 12 52 1
              {| StartOfString := Some CountingBytes;
                 LengthInChars := 5; LengthAllocated := 5 |})
    as (_ & _ & HO & _ & _ & HC); [reflexivity | reflexivity | ].
  destruct (allocation_failure_abandons_edit MallocFails AllocateStringFails
              (ControlWith 1 0 (Some CountingBytes) 4 4) 0 0 52 1
              {| StartOfString := Some CountingBytes;
                 LengthInChars := 5; LengthAllocated := 5 |})
    as (_ & _ & _ & _ & HI & _); [reflexivity | reflexivity | ].
  split; [ | split].
  - apply HO; [reflexivity | vm_compute; reflexivity | vm_compute; reflexivity].
  - apply HI.
    + vm_compute; discriminate.
    + left. split; [reflexivity | split; reflexivity].
    + simpl; lia.
    + simpl; lia.
  - apply HC. simpl; lia.
Defined.

(** C6: a failed allocation is reported as success, and an insert can
    leave the valid length changed.  On a freshly created, empty control
    every edit needs the buffer to grow; with an allocator that fails, both
    cell editors, and YoriWinHexEditAddChar on top of them, return TRUE in
    overwrite and in insert mode, with no byte written.  On a control with
    four byte words holding six valid bytes in a buffer of ten, in insert
    mode with the cursor on the first digit of the word at offset 8, a
    typed digit first extends the valid data to offset 8, within the
    allocation, and then fails to allocate room for the word: the call
    returns TRUE with eight bytes valid, no digit written and the control
    not marked as modified. *)
Theorem allocation_failure_reported_as_success :
  (forall Size, MallocFails Size = None)
  /\ (exists Created,
        YoriWinHexEditCreate None {| X := 76; Y := 20 |} 1 NoStyle = Some Created
        /\ let Inserting := snd (YoriWinHexEditToggleInsert Created) in
           (BufferAllocated Created = 0 /\ InsertMode Created = false
            /\ InsertMode Inserting = true)
           /\ ReturnOf (YoriWinHexEditOverwriteCell MallocFails Created
                          (CursorLine Created) (CursorOffset Created) 52) = true
           /\ ReturnOf (YoriWinHexEditInsertCell MallocFails Inserting
                          (CursorLine Inserting) (CursorOffset Inserting) 52) = true
           /\ fst (YoriWinHexEditAddChar MallocFails Created 52) = true
           /\ fst (YoriWinHexEditAddChar MallocFails Inserting 52) = true
           /\ BufferValid (snd (YoriWinHexEditAddChar MallocFails Created 52)) = 0
           /\ BufferValid (snd (YoriWinHexEditAddChar MallocFails Inserting 52)) = 0)
  /\ (exists Created,
        YoriWinHexEditCreate None {| X := 76; Y := 20 |} 4 NoStyle = Some Created
        /\ let Loaded := snd (YoriWinHexEditSetDataNoCopy Created CountingBytes 10 6) in
           let Inserting := snd (YoriWinHexEditToggleInsert Loaded) in
           let Placed := snd (YoriWinHexEditSetCursorLocation Inserting false 8 28) in
           let Typed := YoriWinHexEditAddChar MallocFails Placed 52 in
           (InsertMode Placed = true /\ CursorOf Placed = (0, 18)
            /\ BufferValid Placed = 6 /\ BufferAllocated Placed = 10)
           /\ fst Typed = true
           /\ BufferValid (snd Typed) = 8
           /\ BufferAllocated (snd Typed) = 10
           /\ deref (Buffer (snd Typed)) 8 = deref (Buffer Placed) 8
           /\ UserModified (snd Typed) = false).
Proof.
  split; [reflexivity | split].
  - eexists. split; [reflexivity | ]. cbv zeta.
    repeat split; vm_compute; reflexivity.
  - eexists. split; [reflexivity | ]. cbv zeta.
    repeat split; vm_compute; reflexivity.
Qed.

(** ** Dirty range *)

Lemma DirtyRangeExtends_refl (HexEdit : YORI_WIN_CTRL_HEX_EDIT) :
  DirtyRangeExtends HexEdit HexEdit.
Proof. unfold DirtyRangeExtends; lia. Qed.

Lemma DirtyRangeExtends_trans (a b c : YORI_WIN_CTRL_HEX_EDIT) :
  DirtyRangeExtends a b -> DirtyRangeExtends b c -> DirtyRangeExtends a c.
Proof. unfold DirtyRangeExtends; lia. Qed.

Lemma ExpandDirtyRange_covers (HexEdit : YORI_WIN_CTRL_HEX_EDIT) (a b : Z) :
  FirstDirtyLine (YoriWinHexEditExpandDirtyRange HexEdit a b) <= a
  /\ b <= LastDirtyLine (YoriWinHexEditExpandDirtyRange HexEdit a b).
Proof. rewrite ExpandDirtyRange_eq. fields. lia. Qed.

Lemma ExpandDirtyRange_extends (HexEdit : YORI_WIN_CTRL_HEX_EDIT) (a b : Z) :
  DirtyRangeExtends HexEdit (YoriWinHexEditExpandDirtyRange HexEdit a b).
Proof. unfold DirtyRangeExtends. rewrite ExpandDirtyRange_eq. fields. lia. Qed.

Lemma Paint_empties (HexEdit : YORI_WIN_CTRL_HEX_EDIT) :
  LastDirtyLine (YoriWinHexEditPaint HexEdit)
  < FirstDirtyLine (YoriWinHexEditPaint HexEdit).
Proof.
  destruct (Paint_eq HexEdit) as (p & ->). fields.
  destruct (FirstDirtyLine HexEdit <=? LastDirtyLine HexEdit) eqn:H.
  - unfold DWORD_MAX. lia.
  - apply Z.leb_gt in H. lia.
Qed.

Lemma EnsureBufferLength_dirty
    (Malloc : Z -> option memory) (HexEdit : YORI_WIN_CTRL_HEX_EDIT) (n : Z) :
  FirstDirtyLine (snd (YoriWinHexEditEnsureBufferLength Malloc HexEdit n))
  = FirstDirtyLine HexEdit
  /\ LastDirtyLine (snd (YoriWinHexEditEnsureBufferLength Malloc HexEdit n))
     = LastDirtyLine HexEdit.
Proof.
  destruct (EnsureBufferLength_frame Malloc HexEdit n) as (b & a & ->).
  split; reflexivity.
Qed.

Lemma EnsureBufferValid_dirty
    (Malloc : Z -> option memory) (HexEdit : YORI_WIN_CTRL_HEX_EDIT) (n : Z) :
  FirstDirtyLine (snd (YoriWinHexEditEnsureBufferValid Malloc HexEdit n))
  = FirstDirtyLine HexEdit
  /\ LastDirtyLine (snd (YoriWinHexEditEnsureBufferValid Malloc HexEdit n))
     = LastDirtyLine HexEdit.
Proof.
  unfold YoriWinHexEditEnsureBufferValid. break_if; [split; reflexivity | ].
  pose proof (EnsureBufferLength_dirty Malloc HexEdit n) as H.
  destruct (YoriWinHexEditEnsureBufferLength Malloc HexEdit n) as [[|] Grown];
    cbn [fst snd] in *; fields; exact H.
Qed.

Lemma InsertSpaceInBuffer_dirty
    (Malloc : Z -> option memory) (HexEdit : YORI_WIN_CTRL_HEX_EDIT)
    (BufferOffset BytesToInsert : Z) :
  FirstDirtyLine (snd (YoriWinHexEditInsertSpaceInBuffer Malloc HexEdit
                         BufferOffset BytesToInsert))
  = FirstDirtyLine HexEdit
  /\ LastDirtyLine (snd (YoriWinHexEditInsertSpaceInBuffer Malloc HexEdit
                           BufferOffset BytesToInsert))
     = LastDirtyLine HexEdit.
Proof.
  unfold YoriWinHexEditInsertSpaceInBuffer. break_if; [split; reflexivity | ].
  pose proof (EnsureBufferLength_dirty Malloc HexEdit
                (to_DWORDLONG (BufferValid HexEdit + BytesToInsert))) as H.
  destruct (YoriWinHexEditEnsureBufferLength Malloc HexEdit
              (to_DWORDLONG (BufferValid HexEdit + BytesToInsert))) as [[|] Grown];
    cbn [fst snd] in *; [ | exact H].
  break_if; cbn [fst snd]; fields; exact H.
Qed.

(** Turns the equations left by case analysis on the buffer operations into
    facts about the dirty lines of their results. *)
Ltac dirty_facts :=
  repeat match goal with
  | E : YoriWinHexEditEnsureBufferValid ?M ?h ?n = (_, ?r) |- _ =>
      let H := fresh "Hd" in
      pose proof (EnsureBufferValid_dirty M h n) as H;
      rewrite E in H; cbn [fst snd] in H; destruct H; clear E
  | E : YoriWinHexEditInsertSpaceInBuffer ?M ?h ?o ?n = (_, ?r) |- _ =>
      let H := fresh "Hd" in
      pose proof (InsertSpaceInBuffer_dirty M h o n) as H;
      rewrite E in H; cbn [fst snd] in H; destruct H; clear E
  end.

Ltac dirty_solve :=
  dirty_facts; cbn [fst snd ControlOf];
  unfold DirtyRangeExtends; rewrite ?ExpandDirtyRange_eq; fields;
  try lia; try congruence.

Ltac break_match_hyp :=
  match goal with
  | H : context [match ?x with _ => _ end] |- _ => destruct x eqn:?
  end.

Ltac split_pairs :=
  repeat match goal with
         | E : (_, _) = (_, _) |- _ => inversion E; subst; clear E
         end.

Ltac break_all :=
  repeat (first [break_match | break_match_hyp]; try discriminate; split_pairs).

Lemma InsertCell_extends
    (Malloc : Z -> option memory) (HexEdit : YORI_WIN_CTRL_HEX_EDIT)
    (FirstLine FirstCharOffset Char : Z) :
  DirtyRangeExtends HexEdit
    (ControlOf (YoriWinHexEditInsertCell Malloc HexEdit FirstLine FirstCharOffset Char)).
Proof.
  unfold YoriWinHexEditInsertCell.
  break_all; dirty_solve.
Qed.

Lemma OverwriteCell_extends
    (Malloc : Z -> option memory) (HexEdit : YORI_WIN_CTRL_HEX_EDIT)
    (FirstLine FirstCharOffset Char : Z) :
  DirtyRangeExtends HexEdit
    (ControlOf (YoriWinHexEditOverwriteCell Malloc HexEdit FirstLine FirstCharOffset Char)).
Proof.
  unfold YoriWinHexEditOverwriteCell.
  break_all; dirty_solve.
Qed.

Lemma DeleteCell_extends
    (HexEdit : YORI_WIN_CTRL_HEX_EDIT) (FirstLine FirstCharOffset : Z) :
  DirtyRangeExtends HexEdit
    (ControlOf (YoriWinHexEditDeleteCell HexEdit FirstLine FirstCharOffset)).
Proof.
  unfold YoriWinHexEditDeleteCell.
  break_all; dirty_solve.
Qed.

Lemma AddChar_extends
    (Malloc : Z -> option memory) (HexEdit : YORI_WIN_CTRL_HEX_EDIT) (Char : Z) :
  DirtyRangeExtends HexEdit (snd (YoriWinHexEditAddChar Malloc HexEdit Char)).
Proof.
  unfold YoriWinHexEditAddChar.
  pose proof (OverwriteCell_extends Malloc HexEdit (CursorLine HexEdit)
                (CursorOffset HexEdit) Char) as HO.
  pose proof (InsertCell_extends Malloc HexEdit (CursorLine HexEdit)
                (CursorOffset HexEdit) Char) as HI.
  destruct (negb (InsertMode HexEdit)).
  - destruct (YoriWinHexEditOverwriteCell _ _ _ _ _) as [[[[|] l] o] e];
      cbn [fst snd ControlOf] in *; unfold YoriWinHexEditSetCursorLocationInternal;
      unfold DirtyRangeExtends in *; fields; exact HO.
  - destruct (YoriWinHexEditInsertCell _ _ _ _ _) as [[[[|] l] o] e];
      cbn [fst snd ControlOf] in *; unfold YoriWinHexEditSetCursorLocationInternal;
      unfold DirtyRangeExtends in *; fields; exact HI.
Qed.

Lemma Delete_extends (HexEdit : YORI_WIN_CTRL_HEX_EDIT) :
  DirtyRangeExtends HexEdit (snd (YoriWinHexEditDelete HexEdit)).
Proof.
  unfold YoriWinHexEditDelete.
  pose proof (DeleteCell_extends HexEdit (CursorLine HexEdit) (CursorOffset HexEdit)) as HD.
  destruct (YoriWinHexEditDeleteCell _ _ _) as [[[[|] l] o] e];
    cbn [fst snd ControlOf] in *; unfold YoriWinHexEditSetCursorLocationInternal;
    unfold DirtyRangeExtends in *; fields; exact HD.
Qed.

Lemma InsertData_extends
    (Malloc : Z -> option memory) (HexEdit : YORI_WIN_CTRL_HEX_EDIT)
    (DataOffset : Z) (Data : memory) (Length : Z) :
  DirtyRangeExtends HexEdit
    (snd (YoriWinHexEditInsertData Malloc HexEdit DataOffset Data Length)).
Proof.
  unfold YoriWinHexEditInsertData.
  break_all; dirty_solve.
Qed.

Lemma DeleteData_extends (HexEdit : YORI_WIN_CTRL_HEX_EDIT) (DataOffset Length : Z) :
  DirtyRangeExtends HexEdit (snd (YoriWinHexEditDeleteData HexEdit DataOffset Length)).
Proof.
  unfold YoriWinHexEditDeleteData.
  break_all; dirty_solve.
Qed.

Lemma ReplaceData_extends
    (HexEdit : YORI_WIN_CTRL_HEX_EDIT) (DataOffset : Z) (Data : memory) (Length : Z) :
  DirtyRangeExtends HexEdit
    (snd (YoriWinHexEditReplaceData HexEdit DataOffset Data Length)).
Proof.
  unfold YoriWinHexEditReplaceData.
  break_all; dirty_solve.
Qed.

Lemma ClearSelection_extends (HexEdit : YORI_WIN_CTRL_HEX_EDIT) :
  DirtyRangeExtends HexEdit (YoriWinHexEditClearSelection HexEdit).
Proof.
  unfold YoriWinHexEditClearSelection.
  break_all; dirty_solve.
Qed.

Lemma EnsureCursorVisible_extends (HexEdit : YORI_WIN_CTRL_HEX_EDIT) :
  DirtyRangeExtends HexEdit (YoriWinHexEditEnsureCursorVisible HexEdit).
Proof.
  unfold YoriWinHexEditEnsureCursorVisible.
  set (NewViewportLeft := if CursorOffset HexEdit <? ViewportLeft HexEdit then _ else _).
  set (NewViewportTop := if CursorLine HexEdit <? ViewportTop HexEdit then _ else _).
  clearbody NewViewportLeft NewViewportTop. step.
  destruct (negb (NewViewportTop =? ViewportTop HexEdit));
    break_if; unfold DirtyRangeExtends; rewrite ?ExpandDirtyRange_eq; fields; lia.
Qed.

(** No mutation shrinks the dirty range. *)
Lemma ApplyMutation_extends
    (Malloc : Z -> option memory) (HexEdit : YORI_WIN_CTRL_HEX_EDIT) (m : MUTATION) :
  DirtyRangeExtends HexEdit (ApplyMutation Malloc HexEdit m).
Proof.
  destruct m; cbn [ApplyMutation].
  - apply ExpandDirtyRange_extends.
  - apply AddChar_extends.
  - apply Delete_extends.
  - apply InsertCell_extends.
  - apply OverwriteCell_extends.
  - apply DeleteCell_extends.
  - apply InsertData_extends.
  - apply DeleteData_extends.
  - apply ReplaceData_extends.
  - apply ClearSelection_extends.
  - unfold YoriWinHexEditSetCursorLocationInternal, DirtyRangeExtends. fields. lia.
  - apply EnsureCursorVisible_extends.
Qed.

Lemma ApplyMutations_extends
    (Malloc : Z -> option memory) (ms : list MUTATION) (HexEdit : YORI_WIN_CTRL_HEX_EDIT) :
  DirtyRangeExtends HexEdit (ApplyMutations Malloc HexEdit ms).
Proof.
  revert HexEdit. induction ms as [ | m ms IH]; intros HexEdit.
  - apply DirtyRangeExtends_refl.
  - cbn [ApplyMutations fold_left].
    eapply DirtyRangeExtends_trans; [apply ApplyMutation_extends | apply IH].
Qed.

Lemma ApplyMutations_app
    (Malloc : Z -> option memory) (ms1 ms2 : list MUTATION)
    (HexEdit : YORI_WIN_CTRL_HEX_EDIT) :
  ApplyMutations Malloc HexEdit (ms1 ++ ms2)
  = ApplyMutations Malloc (ApplyMutations Malloc HexEdit ms1) ms2.
Proof. unfold ApplyMutations. apply fold_left_app. Qed.

(** The discipline of the tracker: over every sequence of mutating
    operations carried out without a paint in between, the dirty range only
    ever extends, also with respect to each prefix of the sequence; it
    covers every line range that a mutation of the sequence marked through
    YoriWinHexEditExpandDirtyRange; and YoriWinHexEditPaint leaves the range
    empty, first > last. *)
Theorem dirty_range_discipline
    (Malloc : Z -> option memory) (HexEdit : YORI_WIN_CTRL_HEX_EDIT)
    (Mutations : list MUTATION) :
  let Final := ApplyMutations Malloc HexEdit Mutations in
  DirtyRangeExtends HexEdit Final
  /\ (forall Earlier Later,
         Mutations = Earlier ++ Later ->
         DirtyRangeExtends (ApplyMutations Malloc HexEdit Earlier) Final)
  /\ (forall Earlier First Last Later,
         Mutations = Earlier ++ MutExpandDirtyRange First Last :: Later ->
         FirstDirtyLine Final <= First /\ Last <= LastDirtyLine Final)
  /\ LastDirtyLine (YoriWinHexEditPaint Final)
     < FirstDirtyLine (YoriWinHexEditPaint Final).
Proof.
  intros Final. split; [apply ApplyMutations_extends | ].
  split; [ | split; [ | apply Paint_empties]].
  - intros Earlier Later ->. unfold Final. rewrite ApplyMutations_app.
    apply ApplyMutations_extends.
  - intros Earlier First Last Later ->. unfold Final.
    rewrite ApplyMutations_app. cbn [ApplyMutations fold_left ApplyMutation].
    pose proof (ExpandDirtyRange_covers (ApplyMutations Malloc HexEdit Earlier) First Last)
      as [HF HL].
    pose proof (ApplyMutations_extends Malloc Later
                  (YoriWinHexEditExpandDirtyRange
                     (ApplyMutations Malloc HexEdit Earlier) First Last)) as [HF' HL'].
    unfold ApplyMutations in *. lia.
Qed.

(** C8: fifteen bytes are loaded into a control of two byte words, the
    cursor is put on the first hex cell of line 1 (offset 16, past the end
    of the valid data) and the digit 4 is typed in overwrite mode, between
    two paints.  The buffer is extended to 18 valid bytes, which makes byte
    15, on line 0, valid: line 0 is affected, but the dirty range after the
    edit is line 1 to line 1 and does not cover it. *)
Theorem edit_past_partial_line_leaves_it_unmarked :
  exists Created,
    YoriWinHexEditCreate None {| X := 76; Y := 20 |} 2 NoStyle = Some Created
    /\ let Loaded := snd (YoriWinHexEditSetDataNoCopy Created CountingBytes 32 15) in
       let Placed :=
         snd (YoriWinHexEditSetCursorToBufferLocation Loaded
                YoriWinHexEditCellTypeHexDigit 16 12) in
       let Typed := ApplyMutations MallocFails Placed [MutAddChar 52] in
       (CursorLine Placed, CursorOffset Placed) = (1, 0)
       /\ LastDirtyLine Placed < FirstDirtyLine Placed
       /\ BufferValid Placed = 15
       /\ BufferValid Typed = 18
       /\ LineAffected Placed Typed 0
       /\ (FirstDirtyLine Typed, LastDirtyLine Typed) = (1, 1)
       /\ ~ FirstDirtyLine Typed <= 0.
Proof.
  eexists. split; [reflexivity | ]. cbv zeta.
  split; [vm_compute; reflexivity | ].
  split; [vm_compute; reflexivity | ].
  split; [vm_compute; reflexivity | ].
  split; [vm_compute; reflexivity | ].
  split.
  - exists 15. split; [lia | split; [vm_compute; reflexivity | ]].
    left. vm_compute. discriminate.
  - split; [vm_compute; reflexivity | ].
    vm_compute. intros H. apply H. reflexivity.
Qed.

(** ** Concrete scenarios

    The embedding run on three editing sessions. *)

(** Overwrite mode, one byte words, empty buffer: typing 4 and 1 at the
    first hex cell leaves the single byte 0x41 and the cursor on the first
    hex cell of the next byte. *)
Example typing_41_in_overwrite_mode :
  exists Created,
    YoriWinHexEditCreate None {| X := 76; Y := 20 |} 1 NoStyle = Some Created
    /\ let First := snd (YoriWinHexEditAddChar MallocZeroed Created 52) in
       let Second := snd (YoriWinHexEditAddChar MallocZeroed First 49) in
       CursorOf Created = (0, 0)
       /\ ValidBytes Created = []
       /\ ValidBytes First = [64]
       /\ ValidBytes Second = [65]
       /\ CursorOf Second = YoriWinHexEditCellFromHexBufferOffset Second 1 4.
Proof.
  eexists. split; [reflexivity | ]. cbv zeta.
  repeat (split; [vm_compute; reflexivity | ]). vm_compute; reflexivity.
Qed.

(** Insert mode, same control: the first digit inserts one byte, 0x40, and
    the second digit completes it in place: one byte, 0x41, not two. *)
Example typing_41_in_insert_mode :
  exists Created,
    YoriWinHexEditCreate None {| X := 76; Y := 20 |} 1 NoStyle = Some Created
    /\ let Inserting := snd (YoriWinHexEditToggleInsert Created) in
       let First := snd (YoriWinHexEditAddChar MallocZeroed Inserting 52) in
       let Second := snd (YoriWinHexEditAddChar MallocZeroed First 49) in
       InsertMode Inserting = true
       /\ ValidBytes First = [64]
       /\ ValidBytes Second = [65].
Proof.
  eexists. split; [reflexivity | ]. cbv zeta.
  repeat (split; [vm_compute; reflexivity | ]). vm_compute; reflexivity.
Qed.

(** Insert mode, character region: inserting A at offset 3 of the four
    bytes 0, 1, 2, 3 gives 0, 1, 2, A, 3 and moves the cursor to the
    character cell of offset 4. *)
Example inserting_A_in_character_region :
  let HexEdit :=
    snd (YoriWinHexEditToggleInsert (ControlWith 1 0 (Some CountingBytes) 4 4)) in
  let Cell := YoriWinHexEditCellFromCharBufferOffset HexEdit 3 in
  let Result := YoriWinHexEditInsertCell MallocZeroed HexEdit (fst Cell) (snd Cell) 65 in
  ValidBytes HexEdit = [0; 1; 2; 3]
  /\ ValidBytes (ControlOf Result) = [0; 1; 2; 65; 3]
  /\ (LastLineOf Result, LastCharOffsetOf Result)
     = YoriWinHexEditCellFromCharBufferOffset HexEdit 4.
Proof.
  cbv zeta. repeat (split; [vm_compute; reflexivity | ]). vm_compute; reflexivity.
Qed.

(** * Navigation, editing and configuration *)

(** ** Display cells *)

Lemma cell_shape_check (HexEdit : YORI_WIN_CTRL_HEX_EDIT) (Line Col : Z) :
  Configured HexEdit ->
  0 <= Col < 128 ->
  CellShapeCheck HexEdit Line Col = true.
Proof.
  intros (HL & HW & HO) Hc.
  destruct HexEdit as [cs cap buf alloc valid bpl bpw vt vl cl co fd ld sel ow pc im ro hf um].
  simpl in HL, HW, HO. subst bpl.
  revert Col Hc. apply (forallb_Z_range _ 128).
  repeat (destruct HW as [HW | HW]; [ subst bpw | ]); try contradiction;
  (repeat (destruct HO as [HO | HO]; [ subst ow | ]); try contradiction);
  vm_compute; reflexivity.
Qed.

Ltac bool_hyps :=
  repeat match goal with
  | H : (_ <? _) = true |- _ => apply Z.ltb_lt in H
  | H : (_ <? _) = false |- _ => apply Z.ltb_ge in H
  | H : (_ <=? _) = true |- _ => apply Z.leb_le in H
  | H : (_ <=? _) = false |- _ => apply Z.leb_gt in H
  | H : (_ =? _) = true |- _ => apply Z.eqb_eq in H
  | H : (_ =? _) = false |- _ => apply Z.eqb_neq in H
  | H : negb _ = true |- _ => apply negb_true_iff in H
  | H : negb _ = false |- _ => apply negb_false_iff in H
  | H : (_ && _) = true |- _ => apply andb_prop in H; destruct H
  end.

(** Closed [to_DWORD] terms are replaced by their value. *)
Ltac has_var t := match t with context [?v] => is_var v end.

Ltac closed_dwords :=
  repeat match goal with
  | |- context [to_DWORD ?x] =>
      tryif has_var x then fail else idtac;
      let v := eval vm_compute in (to_DWORD x) in
      change (to_DWORD x) with v
  end.

Ltac arith_hyps :=
  bool_hyps; unfold to_DWORD, to_DWORDLONG in *;
  change (2 ^ 32) with 4294967296 in *;
  change (2 ^ 64) with 18446744073709551616 in *.

Lemma CellType_wide (HexEdit : YORI_WIN_CTRL_HEX_EDIT) (Line Col : Z) :
  Configured HexEdit ->
  128 <= Col < 2 ^ 32 ->
  CellType (YoriWinHexEditCellType HexEdit Line Col) = YoriWinHexEditCellTypeWhitespace.
Proof.
  intros (HL & HW & HO) Hc.
  destruct HexEdit as [cs cap buf alloc valid bpl bpw vt vl cl co fd ld sel ow pc im ro hf um].
  simpl in HL, HW, HO. subst bpl.
  unfold YoriWinHexEditCellType, YoriWinHexEditOffsetSizeInCells,
    YoriWinHexEditGetCellsPerWord, YORI_LIB_HEXDUMP_BYTES_PER_LINE.
  cbn [BytesPerLine BytesPerWord OffsetWidth BufferValid].
  repeat (destruct HW as [HW | HW]; [ subst bpw | ]); try contradiction;
  (repeat (destruct HO as [HO | HO]; [ subst ow | ]); try contradiction).
  all: cbn [Z.eqb Pos.eqb Z.ltb Z.compare Pos.compare Pos.compare_cont andb].
  all: closed_dwords.
  all: repeat match goal with
       | |- CellType (if ?c then _ else _) = _ => destruct c eqn:?
       end; cbn [CellType]; try reflexivity; exfalso.
  all: arith_hyps.
  all: Z.div_mod_to_equations; lia.
Qed.

Lemma CellType_hex_shape (HexEdit : YORI_WIN_CTRL_HEX_EDIT) (Line Col : Z) :
  Configured HexEdit ->
  0 <= Col < 2 ^ 32 ->
  CellType (YoriWinHexEditCellType HexEdit Line Col) = YoriWinHexEditCellTypeHexDigit ->
  let Cell := YoriWinHexEditCellType HexEdit Line Col in
  snd (YoriWinHexEditCellFromHexBufferOffset HexEdit (ByteOffset Cell) (BitShift Cell)) = Col
  /\ 0 <= ByteOffset Cell
  /\ ByteOffset Cell + BitShift Cell / 8 < 16
  /\ ByteOffset Cell mod BytesPerWord HexEdit = 0
  /\ 0 <= BitShift Cell <= BytesPerWord HexEdit * 8 - 4
  /\ BitShift Cell mod 4 = 0.
Proof.
  intros HC Hc HT Cell.
  destruct (Z_lt_ge_dec Col 128) as [Hs | Hw].
  - pose proof (cell_shape_check HexEdit Line Col HC ltac:(lia)) as Hk.
    unfold CellShapeCheck in Hk. fold Cell in Hk. unfold Cell in Hk at 1.
    rewrite HT in Hk. bool_hyps. repeat split; assumption.
  - rewrite (CellType_wide HexEdit Line Col HC ltac:(lia)) in HT. discriminate.
Qed.

Lemma CellType_char_shape (HexEdit : YORI_WIN_CTRL_HEX_EDIT) (Line Col : Z) :
  Configured HexEdit ->
  0 <= Col < 2 ^ 32 ->
  CellType (YoriWinHexEditCellType HexEdit Line Col) = YoriWinHexEditCellTypeCharValue ->
  let Cell := YoriWinHexEditCellType HexEdit Line Col in
  snd (YoriWinHexEditCellFromCharBufferOffset HexEdit (ByteOffset Cell)) = Col
  /\ 0 <= ByteOffset Cell < 16
  /\ BitShift Cell = 0.
Proof.
  intros HC Hc HT Cell.
  destruct (Z_lt_ge_dec Col 128) as [Hs | Hw].
  - pose proof (cell_shape_check HexEdit Line Col HC ltac:(lia)) as Hk.
    unfold CellShapeCheck in Hk. fold Cell in Hk. unfold Cell in Hk at 1.
    rewrite HT in Hk. bool_hyps. repeat split; assumption.
  - rewrite (CellType_wide HexEdit Line Col HC ltac:(lia)) in HT. discriminate.
Qed.

Lemma offset_of_line_and_byte (Line b : Z) :
  0 <= Line < 2 ^ 32 -> 0 <= b < 16 ->
  to_DWORDLONG (Line * 16 + b) = Line * 16 + b
  /\ (Line * 16 + b) / 16 = Line
  /\ (Line * 16 + b) mod 16 = b
  /\ 0 <= Line * 16 + b < 2 ^ 36.
Proof.
  intros HL Hb. split; [apply to_DWORDLONG_small; lia | ].
  split; [ | split]; [ | | lia];
    change (2 ^ 32) with 4294967296 in *; Z.div_mod_to_equations; lia.
Qed.

(** X1: a hex digit or character cell is the cell of the buffer offset (and
    bit shift) it stands for: classifying a display cell with
    YoriWinHexEditCellType and mapping the result back with
    YoriWinHexEditCellFromHexBufferOffset, respectively
    YoriWinHexEditCellFromCharBufferOffset, returns the same line and
    column, for every 32 bit line and column in the twelve configurations. *)
Theorem cell_is_the_cell_of_its_offset
    (HexEdit : YORI_WIN_CTRL_HEX_EDIT) (Line Col : Z) :
  Configured HexEdit ->
  0 <= Line < 2 ^ 32 ->
  0 <= Col < 2 ^ 32 ->
  let Cell := YoriWinHexEditCellType HexEdit Line Col in
  (CellType Cell = YoriWinHexEditCellTypeHexDigit ->
   YoriWinHexEditCellFromHexBufferOffset HexEdit
     (BufferOffsetOfCell HexEdit Line Cell) (BitShift Cell) = (Line, Col))
  /\ (CellType Cell = YoriWinHexEditCellTypeCharValue ->
      YoriWinHexEditCellFromCharBufferOffset HexEdit
        (BufferOffsetOfCell HexEdit Line Cell) = (Line, Col)).
Proof.
  intros HC HL Hc Cell. pose proof HC as (HB & _ & _). split; intros HT.
  - destruct (CellType_hex_shape HexEdit Line Col HC Hc HT) as (H1 & H2 & H3 & _).
    fold Cell in H1, H2, H3.
    assert (Hb : 0 <= ByteOffset Cell < 16).
    { pose proof (Z.div_pos (BitShift Cell) 8).
      destruct (CellType_hex_shape HexEdit Line Col HC Hc HT) as (_ & _ & _ & _ & H5 & _).
      fold Cell in H5. pose proof (Z.div_pos (BitShift Cell) 8 ltac:(lia) ltac:(lia)). lia. }
    destruct (offset_of_line_and_byte Line (ByteOffset Cell) HL Hb) as (E1 & E2 & E3 & _).
    rewrite CellFromHex_column by assumption.
    unfold BufferOffsetOfCell. rewrite HB. unfold YORI_LIB_HEXDUMP_BYTES_PER_LINE.
    rewrite E1, E2, E3, H1. rewrite to_DWORD_small by lia. reflexivity.
  - destruct (CellType_char_shape HexEdit Line Col HC Hc HT) as (H1 & Hb & _).
    fold Cell in H1, Hb.
    destruct (offset_of_line_and_byte Line (ByteOffset Cell) HL Hb) as (E1 & E2 & E3 & _).
    rewrite CellFromChar_column by assumption.
    unfold BufferOffsetOfCell. rewrite HB. unfold YORI_LIB_HEXDUMP_BYTES_PER_LINE.
    rewrite E1, E2, E3, H1. rewrite to_DWORD_small by lia. reflexivity.
Qed.

Lemma cell_is_the_cell_of_its_offset_witness :
  CellType (YoriWinHexEditCellType (ControlWith 2 32 None 0 0) 3 21)
  = YoriWinHexEditCellTypeHexDigit
  /\ YoriWinHexEditCellFromHexBufferOffset (ControlWith 2 32 None 0 0)
       (BufferOffsetOfCell (ControlWith 2 32 None 0 0) 3
          (YoriWinHexEditCellType (ControlWith 2 32 None 0 0) 3 21))
       (BitShift (YoriWinHexEditCellType (ControlWith 2 32 None 0 0) 3 21))
     = (3, 21).
Proof.
  split; [reflexivity | ].
  refine (proj1 (cell_is_the_cell_of_its_offset
                   (ControlWith 2 32 None 0 0) 3 21 _ _ _) _).
  - unfold Configured. simpl. intuition lia.
  - lia.
  - lia.
  - reflexivity.
Defined.

(** The flag [BeyondBufferEnd] of a hex digit or character cell, as the
    function computes it. *)
Lemma CellType_beyond (HexEdit : YORI_WIN_CTRL_HEX_EDIT) (Line Col : Z) :
  let Cell := YoriWinHexEditCellType HexEdit Line Col in
  let LinesPopulated := YoriWinHexEditLinesPopulated HexEdit in
  let BytesThisLine :=
    if to_DWORD (Line + 1) =? LinesPopulated
    then to_DWORD (BufferValid HexEdit - to_DWORDLONG (Line * BytesPerLine HexEdit))
    else BytesPerLine HexEdit in
  (CellType Cell = YoriWinHexEditCellTypeHexDigit ->
   BeyondBufferEnd Cell
   = (LinesPopulated <=? Line)
     || (BytesThisLine <=? to_DWORD (ByteOffset Cell + BitShift Cell / 8)))
  /\ (CellType Cell = YoriWinHexEditCellTypeCharValue ->
      BeyondBufferEnd Cell
      = (LinesPopulated <=? Line) || (BytesThisLine <=? ByteOffset Cell)).
Proof.
  cbv zeta. unfold YoriWinHexEditCellType. cbv zeta.
  split; intros HT;
    repeat match type of HT with
    | CellType (if ?c then _ else _) = _ => destruct c eqn:?
    end; cbn [CellType BeyondBufferEnd ByteOffset BitShift] in *;
    try discriminate; reflexivity.
Qed.

Lemma beyond_arith (Valid Line B : Z) :
  0 <= Valid <= 2 ^ 36 - 16 -> 0 <= Line < 2 ^ 32 -> 0 <= B < 16 ->
  let LinesPopulated := to_DWORD (to_DWORDLONG (Valid + 16 - 1) / 16) in
  (LinesPopulated <=? Line)
  || ((if to_DWORD (Line + 1) =? LinesPopulated
       then to_DWORD (Valid - to_DWORDLONG (Line * 16))
       else 16) <=? B)
  = (Valid <=? Line * 16 + B).
Proof.
  intros HV HL HB LinesPopulated.
  assert (E : LinesPopulated = (Valid + 15) / 16).
  { unfold LinesPopulated. rewrite to_DWORDLONG_small by lia.
    replace (Valid + 16 - 1) with (Valid + 15) by lia.
    apply to_DWORD_small. change (2 ^ 36) with 68719476736 in *.
    change (2 ^ 32) with 4294967296 in *. Z.div_mod_to_equations; lia. }
  rewrite E. clear E LinesPopulated.
  rewrite (to_DWORDLONG_small (Line * 16)) by lia.
  change (2 ^ 36) with 68719476736 in *. change (2 ^ 32) with 4294967296 in *.
  destruct (Z.leb_spec ((Valid + 15) / 16) Line) as [H1 | H1]; cbn [orb].
  - symmetry. apply Z.leb_le. Z.div_mod_to_equations; lia.
  - assert (H2 : to_DWORD (Line + 1) = Line + 1).
    { apply to_DWORD_small. change (2 ^ 32) with 4294967296.
      Z.div_mod_to_equations; lia. }
    rewrite H2.
    destruct (Z.eqb_spec (Line + 1) ((Valid + 15) / 16)) as [H3 | H3].
    + rewrite to_DWORD_small
        by (change (2 ^ 32) with 4294967296; Z.div_mod_to_equations; lia).
      destruct (Z.leb_spec (Valid - Line * 16) B);
        destruct (Z.leb_spec Valid (Line * 16 + B)); try reflexivity; lia.
    + destruct (Z.leb_spec 16 B); [lia | ].
      symmetry. apply Z.leb_gt. Z.div_mod_to_equations; lia.
Qed.

(** Whether a data cell lies beyond the end of the valid data, in terms of
    the buffer offset it addresses. *)
Lemma BeyondBufferEnd_cell
    (HexEdit : YORI_WIN_CTRL_HEX_EDIT) (Line Col : Z) :
  Configured HexEdit ->
  0 <= Line < 2 ^ 32 ->
  0 <= Col < 2 ^ 32 ->
  0 <= BufferValid HexEdit <= 2 ^ 36 - 16 ->
  let Cell := YoriWinHexEditCellType HexEdit Line Col in
  (CellType Cell = YoriWinHexEditCellTypeHexDigit ->
   BeyondBufferEnd Cell
   = (BufferValid HexEdit
      <=? BufferOffsetOfCell HexEdit Line Cell + BitShift Cell / 8))
  /\ (CellType Cell = YoriWinHexEditCellTypeCharValue ->
      BeyondBufferEnd Cell
      = (BufferValid HexEdit <=? BufferOffsetOfCell HexEdit Line Cell)).
Proof.
  intros HC HL Hc HV Cell. pose proof HC as (HB & _ & _).
  destruct (CellType_beyond HexEdit Line Col) as [Bhex Bchar].
  cbv zeta in Bhex, Bchar. fold Cell in Bhex, Bchar.
  unfold YoriWinHexEditLinesPopulated in Bhex, Bchar. rewrite HB in Bhex, Bchar.
  unfold YORI_LIB_HEXDUMP_BYTES_PER_LINE in Bhex, Bchar.
  unfold BufferOffsetOfCell. rewrite HB. unfold YORI_LIB_HEXDUMP_BYTES_PER_LINE.
  split; intros HT.
  - destruct (CellType_hex_shape HexEdit Line Col HC Hc HT) as (_ & H2 & H3 & _ & H5 & _).
    fold Cell in H2, H3, H5.
    pose proof (Z.div_pos (BitShift Cell) 8 ltac:(lia) ltac:(lia)) as H6.
    rewrite (Bhex HT).
    rewrite (to_DWORD_small (ByteOffset Cell + BitShift Cell / 8)) by lia.
    destruct (offset_of_line_and_byte Line (ByteOffset Cell) HL ltac:(lia)) as (E1 & _).
    rewrite E1.
    rewrite (beyond_arith (BufferValid HexEdit) Line
               (ByteOffset Cell + BitShift Cell / 8) HV HL ltac:(lia)).
    f_equal. lia.
  - destruct (CellType_char_shape HexEdit Line Col HC Hc HT) as (_ & H2 & _).
    fold Cell in H2.
    rewrite (Bchar HT).
    destruct (offset_of_line_and_byte Line (ByteOffset Cell) HL H2) as (E1 & _).
    rewrite E1.
    apply (beyond_arith (BufferValid HexEdit) Line (ByteOffset Cell) HV HL H2).
Qed.

(** X2: the flag BeyondBufferEnd that YoriWinHexEditCellType reports for a
    hex digit or character cell is set exactly when the byte the cell
    addresses (for a hex digit, the byte of the word that holds the nibble)
    lies at or past the end of the valid data, for every 32 bit line and
    column and every valid length up to 2^36 - 16. *)
Theorem beyond_buffer_end_is_at_or_past_valid
    (HexEdit : YORI_WIN_CTRL_HEX_EDIT) (Line Col : Z) :
  Configured HexEdit ->
  0 <= Line < 2 ^ 32 ->
  0 <= Col < 2 ^ 32 ->
  0 <= BufferValid HexEdit <= 2 ^ 36 - 16 ->
  let Cell := YoriWinHexEditCellType HexEdit Line Col in
  (CellType Cell = YoriWinHexEditCellTypeHexDigit ->
   BeyondBufferEnd Cell
   = (BufferValid HexEdit
      <=? BufferOffsetOfCell HexEdit Line Cell + BitShift Cell / 8))
  /\ (CellType Cell = YoriWinHexEditCellTypeCharValue ->
      BeyondBufferEnd Cell
      = (BufferValid HexEdit <=? BufferOffsetOfCell HexEdit Line Cell)).
Proof. exact (BeyondBufferEnd_cell HexEdit Line Col). Qed.

Lemma beyond_buffer_end_is_at_or_past_valid_witness :
  CellType (YoriWinHexEditCellType (ControlWith 4 0 None 0 21) 1 15)
  = YoriWinHexEditCellTypeHexDigit
  /\ BeyondBufferEnd (YoriWinHexEditCellType (ControlWith 4 0 None 0 21) 1 15)
     = (BufferValid (ControlWith 4 0 None 0 21)
        <=? BufferOffsetOfCell (ControlWith 4 0 None 0 21) 1
              (YoriWinHexEditCellType (ControlWith 4 0 None 0 21) 1 15)
            + BitShift (YoriWinHexEditCellType (ControlWith 4 0 None 0 21) 1 15) / 8).
Proof.
  split; [reflexivity | ].
  refine (proj1 (beyond_buffer_end_is_at_or_past_valid
                   (ControlWith 4 0 None 0 21) 1 15 _ _ _ _) _).
  - unfold Configured. simpl. intuition lia.
  - lia.
  - lia.
  - simpl. lia.
  - reflexivity.
Defined.

(** ** What the cursor and viewport functions leave alone *)

Lemma KeepsDocument_refl (a : YORI_WIN_CTRL_HEX_EDIT) : KeepsDocument a a.
Proof. repeat split. Qed.

Lemma KeepsDocument_trans (a b c : YORI_WIN_CTRL_HEX_EDIT) :
  KeepsDocument a b -> KeepsDocument b c -> KeepsDocument a c.
Proof.
  unfold KeepsDocument. intros H1 H2.
  decompose [and] H1. decompose [and] H2. repeat split; congruence.
Qed.

Lemma KeepsDocument_geometry (a b : YORI_WIN_CTRL_HEX_EDIT) :
  KeepsDocument a b -> SameGeometry a b.
Proof. unfold KeepsDocument, SameGeometry. intros H. decompose [and] H. auto. Qed.

Lemma SameGeometry_configured (a b : YORI_WIN_CTRL_HEX_EDIT) :
  SameGeometry a b -> Configured a -> Configured b.
Proof.
  unfold SameGeometry, Configured. intros (_ & H1 & H2 & H3) (H4 & H5 & H6).
  rewrite H1, H2, H3. auto.
Qed.

(** What a display cell stands for is decided by the valid length and the
    configuration alone. *)
Lemma CellType_geometry (a b : YORI_WIN_CTRL_HEX_EDIT) (Line Col : Z) :
  SameGeometry a b ->
  YoriWinHexEditCellType b Line Col = YoriWinHexEditCellType a Line Col.
Proof.
  intros (H1 & H2 & H3 & H4).
  unfold YoriWinHexEditCellType, YoriWinHexEditLinesPopulated,
    YoriWinHexEditOffsetSizeInCells, YoriWinHexEditGetCellsPerWord.
  rewrite H1, H2, H3, H4. reflexivity.
Qed.

Lemma CellFromHex_geometry (a b : YORI_WIN_CTRL_HEX_EDIT) (BufferOffset Shift : Z) :
  SameGeometry a b ->
  YoriWinHexEditCellFromHexBufferOffset b BufferOffset Shift
  = YoriWinHexEditCellFromHexBufferOffset a BufferOffset Shift.
Proof.
  intros (H1 & H2 & H3 & H4).
  unfold YoriWinHexEditCellFromHexBufferOffset, YoriWinHexEditGetCellIndexForBitShift,
    YoriWinHexEditOffsetSizeInCells, YoriWinHexEditGetCellsPerWord.
  rewrite H2, H3, H4. reflexivity.
Qed.

Lemma CellFromChar_geometry (a b : YORI_WIN_CTRL_HEX_EDIT) (BufferOffset : Z) :
  SameGeometry a b ->
  YoriWinHexEditCellFromCharBufferOffset b BufferOffset
  = YoriWinHexEditCellFromCharBufferOffset a BufferOffset.
Proof.
  intros (H1 & H2 & H3 & H4).
  unfold YoriWinHexEditCellFromCharBufferOffset,
    YoriWinHexEditOffsetSizeInCells, YoriWinHexEditGetCellsPerWord.
  rewrite H2, H3, H4. reflexivity.
Qed.

Lemma ExpandDirtyRange_document (HexEdit : YORI_WIN_CTRL_HEX_EDIT) (a b : Z) :
  KeepsDocument HexEdit (YoriWinHexEditExpandDirtyRange HexEdit a b)
  /\ CursorOf (YoriWinHexEditExpandDirtyRange HexEdit a b) = CursorOf HexEdit
  /\ ViewportTop (YoriWinHexEditExpandDirtyRange HexEdit a b) = ViewportTop HexEdit
  /\ ViewportLeft (YoriWinHexEditExpandDirtyRange HexEdit a b) = ViewportLeft HexEdit.
Proof. rewrite ExpandDirtyRange_eq. repeat split. Qed.

Lemma Paint_document (HexEdit : YORI_WIN_CTRL_HEX_EDIT) :
  KeepsDocument HexEdit (YoriWinHexEditPaint HexEdit)
  /\ CursorOf (YoriWinHexEditPaint HexEdit) = CursorOf HexEdit
  /\ ViewportTop (YoriWinHexEditPaint HexEdit) = ViewportTop HexEdit
  /\ ViewportLeft (YoriWinHexEditPaint HexEdit) = ViewportLeft HexEdit.
Proof. destruct (Paint_eq HexEdit) as (p & ->). repeat split. Qed.

Lemma ClearSelection_document (HexEdit : YORI_WIN_CTRL_HEX_EDIT) :
  KeepsDocument HexEdit (YoriWinHexEditClearSelection HexEdit)
  /\ CursorOf (YoriWinHexEditClearSelection HexEdit) = CursorOf HexEdit
  /\ ViewportTop (YoriWinHexEditClearSelection HexEdit) = ViewportTop HexEdit
  /\ ViewportLeft (YoriWinHexEditClearSelection HexEdit) = ViewportLeft HexEdit
  /\ Active (Selection (YoriWinHexEditClearSelection HexEdit))
     = YoriWinHexEditSelectNotActive.
Proof.
  unfold YoriWinHexEditClearSelection.
  destruct (Active (Selection HexEdit)) eqn:E.
  - repeat split. assumption.
  - rewrite ExpandDirtyRange_eq. repeat split.
Qed.

Lemma SetCursorLocationInternal_document
    (HexEdit : YORI_WIN_CTRL_HEX_EDIT) (NewCursorOffset NewCursorLine : Z) :
  KeepsDocument HexEdit
    (YoriWinHexEditSetCursorLocationInternal HexEdit NewCursorOffset NewCursorLine)
  /\ CursorOf (YoriWinHexEditSetCursorLocationInternal HexEdit
                 NewCursorOffset NewCursorLine)
     = (NewCursorLine, NewCursorOffset)
  /\ Selection (YoriWinHexEditSetCursorLocationInternal HexEdit
                  NewCursorOffset NewCursorLine)
     = Selection HexEdit.
Proof. repeat split. Qed.

Lemma EnsureCursorVisible_document (HexEdit : YORI_WIN_CTRL_HEX_EDIT) :
  KeepsDocument HexEdit (YoriWinHexEditEnsureCursorVisible HexEdit)
  /\ CursorOf (YoriWinHexEditEnsureCursorVisible HexEdit) = CursorOf HexEdit.
Proof.
  unfold YoriWinHexEditEnsureCursorVisible.
  set (NewViewportLeft := if CursorOffset HexEdit <? ViewportLeft HexEdit then _ else _).
  set (NewViewportTop := if CursorLine HexEdit <? ViewportTop HexEdit then _ else _).
  clearbody NewViewportLeft NewViewportTop. step.
  destruct (negb (NewViewportTop =? ViewportTop HexEdit));
    break_if; rewrite ?ExpandDirtyRange_eq; repeat split.
Qed.

(** Moving the cursor to a buffer location leaves the document alone and
    puts the cursor on the cell of that location, whether the function
    reports a move or not. *)
Lemma SetCursorToBufferLocation_document
    (HexEdit : YORI_WIN_CTRL_HEX_EDIT) (Kind : YORI_WIN_HEX_EDIT_CELL_TYPE)
    (BufferOffset Shift : Z) :
  let After :=
    snd (YoriWinHexEditSetCursorToBufferLocation HexEdit Kind BufferOffset Shift) in
  KeepsDocument HexEdit After
  /\ Selection After = Selection HexEdit
  /\ CursorOf After
     = match Kind with
       | YoriWinHexEditCellTypeHexDigit =>
           YoriWinHexEditCellFromHexBufferOffset HexEdit BufferOffset Shift
       | _ => YoriWinHexEditCellFromCharBufferOffset HexEdit BufferOffset
       end.
Proof.
  cbv zeta. unfold YoriWinHexEditSetCursorToBufferLocation.
  destruct (match Kind with
            | YoriWinHexEditCellTypeHexDigit =>
                YoriWinHexEditCellFromHexBufferOffset HexEdit BufferOffset Shift
            | _ => YoriWinHexEditCellFromCharBufferOffset HexEdit BufferOffset
            end) as [Line Offset].
  break_if; cbn [fst snd].
  - set (Moved := YoriWinHexEditSetCursorLocationInternal HexEdit Offset Line).
    destruct (EnsureCursorVisible_document Moved) as (D1 & C1).
    destruct (Paint_document (YoriWinHexEditEnsureCursorVisible Moved)) as (D2 & C2 & _).
    pose proof (EnsureCursorVisible_keeps Moved) as (_ & _ & _ & S1).
    pose proof (Paint_Selection (YoriWinHexEditEnsureCursorVisible Moved)) as S2.
    split; [ | split].
    + eapply KeepsDocument_trans; [ | exact D2].
      eapply KeepsDocument_trans; [ | exact D1]. repeat split.
    + rewrite S2, S1. reflexivity.
    + rewrite C2, C1. reflexivity.
  - split; [apply KeepsDocument_refl | split; [reflexivity | ]].
    bool_hyps. unfold CursorOf.
    match goal with H : (_ || _) = false |- _ => apply orb_false_elim in H; destruct H end.
    bool_hyps. congruence.
Qed.

(** ** The cursor, by buffer location *)

Lemma aligned_within_line (BufferOffset Words : Z) :
  In Words [1; 2; 4; 8] ->
  BufferOffset mod Words = 0 ->
  (BufferOffset mod 16) mod Words = 0.
Proof.
  intros HW Ha. simpl in HW.
  destruct HW as [E | [E | [E | [E | []]]]]; subst Words;
    Z.div_mod_to_equations; lia.
Qed.

Lemma hex_offset_round_trip (HexEdit : YORI_WIN_CTRL_HEX_EDIT) (BufferOffset Shift : Z) :
  Configured HexEdit ->
  0 <= BufferOffset < 2 ^ 36 ->
  BufferOffset mod BytesPerWord HexEdit = 0 ->
  0 <= Shift <= BytesPerWord HexEdit * 8 - 4 ->
  Shift mod 4 = 0 ->
  RoundTripsTo HexEdit
    (YoriWinHexEditCellFromHexBufferOffset HexEdit BufferOffset Shift)
    YoriWinHexEditCellTypeHexDigit BufferOffset Shift.
Proof.
  intros (HL & HW & HO) Hrange Halign Hshift Hmul.
  assert (Hr : 0 <= BufferOffset mod 16 < 16) by (apply Z.mod_pos_bound; lia).
  assert (Hk : 0 <= Shift / 4 < 16).
  { assert (BytesPerWord HexEdit <= 8) by (simpl in HW; lia).
    split; [apply Z.div_pos; lia | apply Z.div_lt_upper_bound; lia]. }
  assert (HS : Shift = 4 * (Shift / 4)).
  { pose proof (Z.div_mod Shift 4 ltac:(lia)). lia. }
  pose proof (hex_roundtrip_check HexEdit (to_DWORD (BufferOffset / 16))
                (BufferOffset mod 16) (Shift / 4) HL HW HO Hr Hk) as Hc.
  unfold HexRoundTripCheck in Hc. rewrite <- HS in Hc.
  rewrite (aligned_within_line BufferOffset _ HW Halign) in Hc.
  replace (Shift <=? BytesPerWord HexEdit * 8 - 4) with true in Hc
    by (symmetry; apply Z.leb_le; lia).
  rewrite Z.eqb_refl in Hc. cbn [andb implb] in Hc.
  apply andb_prop in Hc as [Hc H3]. apply andb_prop in Hc as [H1 H2].
  unfold RoundTripsTo. rewrite CellFromHex_column by assumption. cbn [fst snd].
  split; [apply CellTypeEqb_eq; assumption | split].
  - unfold BufferOffsetOfCell. rewrite HL. apply Z.eqb_eq in H2. rewrite H2.
    apply line_and_byte_reassemble; assumption.
  - apply Z.eqb_eq; assumption.
Qed.

Lemma char_offset_round_trip (HexEdit : YORI_WIN_CTRL_HEX_EDIT) (BufferOffset : Z) :
  Configured HexEdit ->
  0 <= BufferOffset < 2 ^ 36 ->
  RoundTripsTo HexEdit
    (YoriWinHexEditCellFromCharBufferOffset HexEdit BufferOffset)
    YoriWinHexEditCellTypeCharValue BufferOffset 0.
Proof.
  intros (HL & HW & HO) Hrange.
  assert (Hr : 0 <= BufferOffset mod 16 < 16) by (apply Z.mod_pos_bound; lia).
  pose proof (char_roundtrip_check HexEdit (to_DWORD (BufferOffset / 16))
                (BufferOffset mod 16) HL HW HO Hr) as Hc.
  unfold CharRoundTripCheck in Hc.
  apply andb_prop in Hc as [Hc H3]. apply andb_prop in Hc as [H1 H2].
  unfold RoundTripsTo. rewrite CellFromChar_column by assumption. cbn [fst snd].
  split; [apply CellTypeEqb_eq; assumption | split].
  - unfold BufferOffsetOfCell. rewrite HL. apply Z.eqb_eq in H2. rewrite H2.
    apply line_and_byte_reassemble; assumption.
  - apply Z.eqb_eq; assumption.
Qed.

(** What YoriWinHexEditGetCursorLocation reports for a control whose cursor
    is on a cell that leads back to a buffer location. *)
Lemma GetCursorLocation_at
    (Before After : YORI_WIN_CTRL_HEX_EDIT) (LineCell : Z * Z)
    (Kind : YORI_WIN_HEX_EDIT_CELL_TYPE) (BufferOffset Shift : Z) :
  SameGeometry Before After ->
  CursorOf After = LineCell ->
  RoundTripsTo Before LineCell Kind BufferOffset Shift ->
  YoriWinHexEditGetCursorLocation After
  = match Kind with
    | YoriWinHexEditCellTypeHexDigit => Some (false, BufferOffset, Shift)
    | YoriWinHexEditCellTypeCharValue => Some (true, BufferOffset, Shift)
    | _ => None
    end.
Proof.
  intros HG HC (H1 & H2 & H3).
  unfold YoriWinHexEditGetCursorLocation.
  unfold CursorOf in HC. destruct LineCell as [Line Col].
  injection HC as E1 E2. rewrite E1, E2. cbn [fst snd] in *.
  rewrite (CellType_geometry Before After _ _ HG).
  unfold BufferOffsetOfCell in *. destruct HG as (_ & HB & _). rewrite HB.
  rewrite H1, H2, H3. destruct Kind; reflexivity.
Qed.

(** X3: the cursor location written with YoriWinHexEditSetCursorLocation is
    the one YoriWinHexEditGetCursorLocation reads back, whether the setter
    reports a move or not: for a buffer offset below 2^36, in the hex area
    with the offset aligned to the word and a bit shift that names a nibble
    of the word, and in the character area with the bit shift read back
    as 0. *)
Theorem set_then_get_cursor_location
    (HexEdit : YORI_WIN_CTRL_HEX_EDIT) (AsChar : bool) (BufferOffset Shift : Z) :
  Configured HexEdit ->
  0 <= BufferOffset < 2 ^ 36 ->
  (AsChar = false ->
   BufferOffset mod BytesPerWord HexEdit = 0
   /\ 0 <= Shift <= BytesPerWord HexEdit * 8 - 4
   /\ Shift mod 4 = 0) ->
  YoriWinHexEditGetCursorLocation
    (snd (YoriWinHexEditSetCursorLocation HexEdit AsChar BufferOffset Shift))
  = Some (AsChar, BufferOffset, if AsChar then 0 else Shift).
Proof.
  intros HC Hr Hhex. unfold YoriWinHexEditSetCursorLocation.
  destruct AsChar.
  - destruct (SetCursorToBufferLocation_document HexEdit
                YoriWinHexEditCellTypeCharValue BufferOffset Shift) as (D & _ & C).
    apply (GetCursorLocation_at HexEdit _ _ YoriWinHexEditCellTypeCharValue
             BufferOffset 0 (KeepsDocument_geometry _ _ D) C).
    apply char_offset_round_trip; assumption.
  - destruct (Hhex eq_refl) as (Ha & Hs & Hm).
    destruct (SetCursorToBufferLocation_document HexEdit
                YoriWinHexEditCellTypeHexDigit BufferOffset Shift) as (D & _ & C).
    apply (GetCursorLocation_at HexEdit _ _ YoriWinHexEditCellTypeHexDigit
             BufferOffset Shift (KeepsDocument_geometry _ _ D) C).
    apply hex_offset_round_trip; assumption.
Qed.

Lemma set_then_get_cursor_location_witness :
  YoriWinHexEditGetCursorLocation
    (snd (YoriWinHexEditSetCursorLocation (ControlWith 4 64 None 0 0) false 40 20))
  = Some (false, 40, 20).
Proof.
  apply (set_then_get_cursor_location (ControlWith 4 64 None 0 0) false 40 20).
  - unfold Configured. simpl. intuition lia.
  - lia.
  - intros _. simpl. repeat split; lia.
Defined.

(** ** Cursor keys *)

(** A hex digit or character cell keeps its column on every line. *)
Lemma CellFrom_line (HexEdit : YORI_WIN_CTRL_HEX_EDIT) (Line Col OtherLine : Z) :
  Configured HexEdit ->
  0 <= Col < 2 ^ 32 ->
  0 <= OtherLine < 2 ^ 32 ->
  let Cell := YoriWinHexEditCellType HexEdit Line Col in
  (CellType Cell = YoriWinHexEditCellTypeHexDigit ->
   YoriWinHexEditCellFromHexBufferOffset HexEdit
     (OtherLine * 16 + ByteOffset Cell) (BitShift Cell) = (OtherLine, Col))
  /\ (CellType Cell = YoriWinHexEditCellTypeCharValue ->
      YoriWinHexEditCellFromCharBufferOffset HexEdit
        (OtherLine * 16 + ByteOffset Cell) = (OtherLine, Col)).
Proof.
  intros HC Hc HL Cell. pose proof HC as (HB & _ & _). split; intros HT.
  - destruct (CellType_hex_shape HexEdit Line Col HC Hc HT) as (H1 & H2 & H3 & _ & H5 & _).
    fold Cell in H1, H2, H3, H5.
    pose proof (Z.div_pos (BitShift Cell) 8 ltac:(lia) ltac:(lia)).
    destruct (offset_of_line_and_byte OtherLine (ByteOffset Cell) HL ltac:(lia))
      as (_ & E2 & E3 & _).
    rewrite CellFromHex_column by assumption.
    rewrite E2, E3, H1. rewrite to_DWORD_small by lia. reflexivity.
  - destruct (CellType_char_shape HexEdit Line Col HC Hc HT) as (H1 & Hb & _).
    fold Cell in H1, Hb.
    destruct (offset_of_line_and_byte OtherLine (ByteOffset Cell) HL Hb)
      as (_ & E2 & E3 & _).
    rewrite CellFromChar_column by assumption.
    rewrite E2, E3, H1. rewrite to_DWORD_small by lia. reflexivity.
Qed.

Lemma SetCursorToBufferLocation_moved
    (HexEdit : YORI_WIN_CTRL_HEX_EDIT) (Kind : YORI_WIN_HEX_EDIT_CELL_TYPE)
    (BufferOffset Shift : Z) :
  match Kind with
  | YoriWinHexEditCellTypeHexDigit =>
      YoriWinHexEditCellFromHexBufferOffset HexEdit BufferOffset Shift
  | _ => YoriWinHexEditCellFromCharBufferOffset HexEdit BufferOffset
  end <> CursorOf HexEdit ->
  fst (YoriWinHexEditSetCursorToBufferLocation HexEdit Kind BufferOffset Shift) = true.
Proof.
  unfold YoriWinHexEditSetCursorToBufferLocation.
  destruct (match Kind with
            | YoriWinHexEditCellTypeHexDigit =>
                YoriWinHexEditCellFromHexBufferOffset HexEdit BufferOffset Shift
            | _ => YoriWinHexEditCellFromCharBufferOffset HexEdit BufferOffset
            end) as [Line Offset].
  intros Hne. break_if; [reflexivity | exfalso; apply Hne].
  match goal with H : (_ || _) = false |- _ => apply orb_false_elim in H; destruct H end.
  bool_hyps. unfold CursorOf. congruence.
Qed.

(** The cursor is on a hex digit or character cell of a 32 bit line and
    column. *)
Lemma cursor_cell_cases (HexEdit : YORI_WIN_CTRL_HEX_EDIT) :
  YoriWinHexEditGetCursorLocation HexEdit <> None ->
  CellType (YoriWinHexEditCellType HexEdit (CursorLine HexEdit) (CursorOffset HexEdit))
  = YoriWinHexEditCellTypeHexDigit
  \/ CellType (YoriWinHexEditCellType HexEdit (CursorLine HexEdit) (CursorOffset HexEdit))
     = YoriWinHexEditCellTypeCharValue.
Proof.
  unfold YoriWinHexEditGetCursorLocation.
  destruct (CellType (YoriWinHexEditCellType HexEdit (CursorLine HexEdit)
                        (CursorOffset HexEdit))); intros H; auto; contradiction.
Qed.

(** What a cursor location read with YoriWinHexEditGetCursorLocation says
    about the cell under the cursor. *)
Lemma cursor_location_facts
    (HexEdit : YORI_WIN_CTRL_HEX_EDIT) (AsChar : bool) (BufferOffset Shift : Z) :
  Configured HexEdit ->
  0 <= CursorLine HexEdit < 2 ^ 32 ->
  0 <= CursorOffset HexEdit < 2 ^ 32 ->
  YoriWinHexEditGetCursorLocation HexEdit = Some (AsChar, BufferOffset, Shift) ->
  let Cell :=
    YoriWinHexEditCellType HexEdit (CursorLine HexEdit) (CursorOffset HexEdit) in
  exists b,
    0 <= b < 16
    /\ BufferOffset = CursorLine HexEdit * 16 + b
    /\ ByteOffset Cell = b
    /\ BitShift Cell = Shift
    /\ CellType Cell = (if AsChar then YoriWinHexEditCellTypeCharValue
                        else YoriWinHexEditCellTypeHexDigit)
    /\ (if AsChar then Shift = 0
        else b mod BytesPerWord HexEdit = 0
             /\ 0 <= Shift <= BytesPerWord HexEdit * 8 - 4
             /\ Shift mod 4 = 0
             /\ b + Shift / 8 < 16)
    /\ (forall Line, 0 <= Line < 2 ^ 32 ->
        (if AsChar
         then YoriWinHexEditCellFromCharBufferOffset HexEdit (Line * 16 + b)
         else YoriWinHexEditCellFromHexBufferOffset HexEdit (Line * 16 + b) Shift)
        = (Line, CursorOffset HexEdit)).
Proof.
  intros HC HL Hc HG Cell. pose proof HC as (HB & _ & _).
  unfold YoriWinHexEditGetCursorLocation in HG. fold Cell in HG.
  unfold BufferOffsetOfCell in HG. rewrite HB in HG.
  unfold YORI_LIB_HEXDUMP_BYTES_PER_LINE in HG.
  destruct (CellType Cell) eqn:HT; try discriminate;
    injection HG as <- E1 E2; exists (ByteOffset Cell).
  - destruct (CellType_hex_shape HexEdit _ _ HC Hc HT) as (H1 & H2 & H3 & H4 & H5 & H6).
    fold Cell in H1, H2, H3, H4, H5, H6.
    pose proof (Z.div_pos (BitShift Cell) 8 ltac:(lia) ltac:(lia)).
    destruct (offset_of_line_and_byte (CursorLine HexEdit) (ByteOffset Cell) HL ltac:(lia))
      as (E3 & _).
    rewrite E3 in E1. subst Shift.
    repeat split; try assumption; try lia.
    intros Line HLine.
    apply (proj1 (CellFrom_line HexEdit (CursorLine HexEdit) (CursorOffset HexEdit)
                    Line HC Hc HLine) HT).
  - destruct (CellType_char_shape HexEdit _ _ HC Hc HT) as (H1 & H2 & H3).
    fold Cell in H1, H2, H3.
    destruct (offset_of_line_and_byte (CursorLine HexEdit) (ByteOffset Cell) HL H2)
      as (E3 & _).
    rewrite E3 in E1. subst Shift.
    repeat split; try assumption; try lia.
    intros Line HLine.
    apply (proj2 (CellFrom_line HexEdit (CursorLine HexEdit) (CursorOffset HexEdit)
                    Line HC Hc HLine) HT).
Qed.

Lemma aligned_on_line (Line b Words : Z) :
  In Words [1; 2; 4; 8] -> b mod Words = 0 -> (Line * 16 + b) mod Words = 0.
Proof.
  intros HW Hb. simpl in HW.
  destruct HW as [E | [E | [E | [E | []]]]]; subst Words;
    Z.div_mod_to_equations; lia.
Qed.

(** The cell of the byte [b] of line [Line], in the area and at the nibble
    the cursor is on, leads back to that location. *)
Lemma round_trip_on_line
    (HexEdit : YORI_WIN_CTRL_HEX_EDIT) (AsChar : bool) (Line b Shift : Z) :
  Configured HexEdit ->
  0 <= Line < 2 ^ 32 -> 0 <= b < 16 ->
  (if AsChar then Shift = 0
   else b mod BytesPerWord HexEdit = 0
        /\ 0 <= Shift <= BytesPerWord HexEdit * 8 - 4
        /\ Shift mod 4 = 0) ->
  RoundTripsTo HexEdit
    (if AsChar
     then YoriWinHexEditCellFromCharBufferOffset HexEdit (Line * 16 + b)
     else YoriWinHexEditCellFromHexBufferOffset HexEdit (Line * 16 + b) Shift)
    (if AsChar then YoriWinHexEditCellTypeCharValue
     else YoriWinHexEditCellTypeHexDigit)
    (Line * 16 + b) Shift.
Proof.
  intros HC HL Hb HS. pose proof HC as (_ & HW & _).
  destruct (offset_of_line_and_byte Line b HL Hb) as (_ & _ & _ & Hr).
  destruct AsChar.
  - subst Shift. apply char_offset_round_trip; assumption.
  - destruct HS as (H1 & H2 & H3).
    apply hex_offset_round_trip; try assumption.
    apply aligned_on_line; assumption.
Qed.

(** X4: the up and down keys move the cursor by one line within its column:
    when YoriWinHexEditGetCursorLocation reports the buffer offset o,
    YoriWinHexEditCursorDown moves to offset o + 16 (same area, same bit
    shift, same column) if o + 16 is at most the valid length and otherwise
    returns FALSE leaving the control as it is; YoriWinHexEditCursorUp moves
    to offset o - 16 if the cursor is below line 0 and otherwise returns
    FALSE leaving the control as it is. *)
Theorem cursor_up_and_down_move_by_one_line
    (HexEdit : YORI_WIN_CTRL_HEX_EDIT) (AsChar : bool) (BufferOffset Shift : Z) :
  Configured HexEdit ->
  0 <= CursorLine HexEdit < 2 ^ 32 - 1 ->
  0 <= CursorOffset HexEdit < 2 ^ 32 ->
  YoriWinHexEditGetCursorLocation HexEdit = Some (AsChar, BufferOffset, Shift) ->
  (BufferOffset + 16 <= BufferValid HexEdit ->
   let Down := YoriWinHexEditCursorDown HexEdit in
   fst Down = true
   /\ YoriWinHexEditGetCursorLocation (snd Down)
      = Some (AsChar, BufferOffset + 16, Shift)
   /\ CursorOf (snd Down) = (CursorLine HexEdit + 1, CursorOffset HexEdit))
  /\ (BufferValid HexEdit < BufferOffset + 16 ->
      YoriWinHexEditCursorDown HexEdit = (false, HexEdit))
  /\ (0 < CursorLine HexEdit ->
      let Up := YoriWinHexEditCursorUp HexEdit in
      fst Up = true
      /\ YoriWinHexEditGetCursorLocation (snd Up)
         = Some (AsChar, BufferOffset - 16, Shift)
      /\ CursorOf (snd Up) = (CursorLine HexEdit - 1, CursorOffset HexEdit))
  /\ (CursorLine HexEdit = 0 ->
      YoriWinHexEditCursorUp HexEdit = (false, HexEdit)).
Proof.
  intros HC HL Hc HG. pose proof HC as (HB & HW & _).
  destruct (cursor_location_facts HexEdit AsChar BufferOffset Shift HC
              ltac:(lia) Hc HG) as (b & Hb & Ho & Eb & Es & Et & Hs & Hcell).
  set (Cell := YoriWinHexEditCellType HexEdit (CursorLine HexEdit)
                 (CursorOffset HexEdit)) in *.
  destruct (ClearSelection_document HexEdit) as (D0 & _).
  pose proof (KeepsDocument_geometry _ _ D0) as G0.
  assert (Hdown : to_DWORDLONG (to_DWORD (CursorLine HexEdit + 1) * BytesPerLine HexEdit
                                + ByteOffset Cell) = BufferOffset + 16).
  { rewrite HB, Eb. unfold YORI_LIB_HEXDUMP_BYTES_PER_LINE.
    rewrite to_DWORD_small by lia.
    destruct (offset_of_line_and_byte (CursorLine HexEdit + 1) b ltac:(lia) Hb)
      as (E & _). rewrite E. lia. }
  assert (Hup : 0 < CursorLine HexEdit ->
                to_DWORDLONG (to_DWORD (CursorLine HexEdit - 1) * BytesPerLine HexEdit
                              + ByteOffset Cell) = BufferOffset - 16).
  { intros Hpos. rewrite HB, Eb. unfold YORI_LIB_HEXDUMP_BYTES_PER_LINE.
    rewrite to_DWORD_small by lia.
    destruct (offset_of_line_and_byte (CursorLine HexEdit - 1) b ltac:(lia) Hb)
      as (E & _). rewrite E. lia. }
  assert (Hmove : forall Line, 0 <= Line < 2 ^ 32 -> Line <> CursorLine HexEdit ->
            let After :=
              YoriWinHexEditSetCursorToBufferLocation
                (YoriWinHexEditClearSelection HexEdit) (CellType Cell)
                (Line * 16 + b) (BitShift Cell) in
            fst After = true
            /\ YoriWinHexEditGetCursorLocation (snd After)
               = Some (AsChar, Line * 16 + b, Shift)
            /\ CursorOf (snd After) = (Line, CursorOffset HexEdit)).
  { intros Line HLine Hne After.
    destruct (SetCursorToBufferLocation_document
                (YoriWinHexEditClearSelection HexEdit) (CellType Cell)
                (Line * 16 + b) (BitShift Cell)) as (D1 & _ & C1).
    fold After in D1, C1.
    assert (Ecell : match CellType Cell with
                    | YoriWinHexEditCellTypeHexDigit =>
                        YoriWinHexEditCellFromHexBufferOffset
                          (YoriWinHexEditClearSelection HexEdit)
                          (Line * 16 + b) (BitShift Cell)
                    | _ => YoriWinHexEditCellFromCharBufferOffset
                             (YoriWinHexEditClearSelection HexEdit) (Line * 16 + b)
                    end = (Line, CursorOffset HexEdit)).
    { rewrite Et, Es. specialize (Hcell Line HLine).
      destruct AsChar;
        [rewrite (CellFromChar_geometry _ _ _ G0)
        | rewrite (CellFromHex_geometry _ _ _ _ G0)]; exact Hcell. }
    split; [ | split].
    - apply SetCursorToBufferLocation_moved. rewrite Ecell.
      destruct (ClearSelection_document HexEdit) as (_ & C0 & _). rewrite C0.
      unfold CursorOf. congruence.
    - pose proof (KeepsDocument_trans _ _ _ D0 D1) as D.
      rewrite Ecell in C1.
      pose proof (GetCursorLocation_at HexEdit (snd After)
                    (Line, CursorOffset HexEdit)
                    (if AsChar then YoriWinHexEditCellTypeCharValue
                     else YoriWinHexEditCellTypeHexDigit)
                    (Line * 16 + b) Shift (KeepsDocument_geometry _ _ D) C1) as HA.
      rewrite HA.
      + destruct AsChar; reflexivity.
      + rewrite <- (Hcell Line HLine).
        apply round_trip_on_line; try assumption.
        destruct AsChar; [assumption | tauto].
    - rewrite C1. exact Ecell. }
  split; [ | split; [ | split]].
  - intros Hfit Down. unfold Down, YoriWinHexEditCursorDown. fold Cell.
    rewrite Hdown.
    replace (BufferValid HexEdit <? BufferOffset + 16) with false
      by (symmetry; apply Z.ltb_ge; lia).
    replace (BufferOffset + 16) with ((CursorLine HexEdit + 1) * 16 + b) by lia.
    apply Hmove; lia.
  - intros Hpast. unfold YoriWinHexEditCursorDown. fold Cell. rewrite Hdown.
    replace (BufferValid HexEdit <? BufferOffset + 16) with true
      by (symmetry; apply Z.ltb_lt; lia).
    reflexivity.
  - intros Hpos Up. unfold Up, YoriWinHexEditCursorUp. fold Cell.
    replace (CursorLine HexEdit =? 0) with false by (symmetry; apply Z.eqb_neq; lia).
    rewrite (Hup Hpos).
    replace (BufferOffset - 16) with ((CursorLine HexEdit - 1) * 16 + b) by lia.
    apply Hmove; lia.
  - intros Hzero. unfold YoriWinHexEditCursorUp. rewrite Hzero. reflexivity.
Qed.

Lemma CellFrom_range (HexEdit : YORI_WIN_CTRL_HEX_EDIT) (BufferOffset Shift : Z) :
  (0 <= fst (YoriWinHexEditCellFromHexBufferOffset HexEdit BufferOffset Shift) < 2 ^ 32
   /\ 0 <= snd (YoriWinHexEditCellFromHexBufferOffset HexEdit BufferOffset Shift) < 2 ^ 32)
  /\ (0 <= fst (YoriWinHexEditCellFromCharBufferOffset HexEdit BufferOffset) < 2 ^ 32
      /\ 0 <= snd (YoriWinHexEditCellFromCharBufferOffset HexEdit BufferOffset) < 2 ^ 32).
Proof.
  unfold YoriWinHexEditCellFromHexBufferOffset, YoriWinHexEditCellFromCharBufferOffset.
  cbn [fst snd]. unfold to_DWORD.
  repeat split; apply Z.mod_pos_bound; lia.
Qed.

(** The steps shared by the functions that move the cursor to a display
    cell: the selection is cleared, the cursor is set, brought into view
    and painted. *)
Lemma cursor_moved_to
    (HexEdit : YORI_WIN_CTRL_HEX_EDIT) (NewCursorOffset NewCursorLine : Z) :
  let After :=
    YoriWinHexEditPaint
      (YoriWinHexEditEnsureCursorVisible
         (YoriWinHexEditSetCursorLocationInternal
            (YoriWinHexEditClearSelection HexEdit) NewCursorOffset NewCursorLine)) in
  KeepsDocument HexEdit After
  /\ CursorOf After = (NewCursorLine, NewCursorOffset)
  /\ Active (Selection After) = YoriWinHexEditSelectNotActive.
Proof.
  cbv zeta.
  destruct (ClearSelection_document HexEdit) as (D0 & _ & _ & _ & S0).
  set (Cleared := YoriWinHexEditClearSelection HexEdit) in *.
  set (Moved := YoriWinHexEditSetCursorLocationInternal Cleared
                  NewCursorOffset NewCursorLine).
  destruct (EnsureCursorVisible_document Moved) as (D1 & C1).
  destruct (Paint_document (YoriWinHexEditEnsureCursorVisible Moved)) as (D2 & C2 & _).
  pose proof (EnsureCursorVisible_keeps Moved) as (_ & _ & _ & S1).
  pose proof (Paint_Selection (YoriWinHexEditEnsureCursorVisible Moved)) as S2.
  split; [ | split].
  - eapply KeepsDocument_trans; [exact D0 | ].
    eapply KeepsDocument_trans; [ | exact D2].
    eapply KeepsDocument_trans; [ | exact D1]. repeat split.
  - rewrite C2, C1. reflexivity.
  - rewrite S2, S1. exact S0.
Qed.

(** Two buffer locations with the same display cell are the same. *)
Lemma round_trip_injective
    (HexEdit : YORI_WIN_CTRL_HEX_EDIT) (LineCell : Z * Z)
    (Kind1 Kind2 : YORI_WIN_HEX_EDIT_CELL_TYPE) (o1 s1 o2 s2 : Z) :
  RoundTripsTo HexEdit LineCell Kind1 o1 s1 ->
  RoundTripsTo HexEdit LineCell Kind2 o2 s2 ->
  o1 = o2 /\ s1 = s2.
Proof. intros (_ & H1 & H2) (_ & H3 & H4). split; congruence. Qed.

Lemma location_round_trip
    (HexEdit : YORI_WIN_CTRL_HEX_EDIT) (AsChar : bool) (BufferOffset Shift : Z) :
  Configured HexEdit ->
  0 <= BufferOffset < 2 ^ 36 ->
  (if AsChar then Shift = 0
   else BufferOffset mod BytesPerWord HexEdit = 0
        /\ 0 <= Shift <= BytesPerWord HexEdit * 8 - 4
        /\ Shift mod 4 = 0) ->
  RoundTripsTo HexEdit
    (if AsChar
     then YoriWinHexEditCellFromCharBufferOffset HexEdit BufferOffset
     else YoriWinHexEditCellFromHexBufferOffset HexEdit BufferOffset Shift)
    (if AsChar then YoriWinHexEditCellTypeCharValue
     else YoriWinHexEditCellTypeHexDigit)
    BufferOffset Shift.
Proof.
  intros HC Hr HS. destruct AsChar.
  - subst Shift. apply char_offset_round_trip; assumption.
  - destruct HS as (H1 & H2 & H3). apply hex_offset_round_trip; assumption.
Qed.

(** The cursor location read after the cursor was put on the cell of a
    buffer location. *)
Lemma GetCursorLocation_after
    (Before After : YORI_WIN_CTRL_HEX_EDIT) (AsChar : bool) (BufferOffset Shift : Z) :
  Configured Before ->
  KeepsDocument Before After ->
  0 <= BufferOffset < 2 ^ 36 ->
  (if AsChar then Shift = 0
   else BufferOffset mod BytesPerWord Before = 0
        /\ 0 <= Shift <= BytesPerWord Before * 8 - 4
        /\ Shift mod 4 = 0) ->
  CursorOf After
  = (if AsChar
     then YoriWinHexEditCellFromCharBufferOffset Before BufferOffset
     else YoriWinHexEditCellFromHexBufferOffset Before BufferOffset Shift) ->
  YoriWinHexEditGetCursorLocation After = Some (AsChar, BufferOffset, Shift).
Proof.
  intros HC D Hr HS C.
  rewrite (GetCursorLocation_at Before After _
             (if AsChar then YoriWinHexEditCellTypeCharValue
              else YoriWinHexEditCellTypeHexDigit)
             BufferOffset Shift (KeepsDocument_geometry _ _ D) C).
  - destruct AsChar; reflexivity.
  - apply location_round_trip; assumption.
Qed.

Lemma BufferOffsetOfCell_cursor
    (HexEdit : YORI_WIN_CTRL_HEX_EDIT) (Line b : Z) (Cell : CELL) :
  BytesPerLine HexEdit = YORI_LIB_HEXDUMP_BYTES_PER_LINE ->
  0 <= Line < 2 ^ 32 -> 0 <= b < 16 -> ByteOffset Cell = b ->
  BufferOffsetOfCell HexEdit Line Cell = Line * 16 + b.
Proof.
  intros HB HL Hb E. unfold BufferOffsetOfCell. rewrite HB, E.
  apply (offset_of_line_and_byte Line b HL Hb).
Qed.

Lemma NextCellSameType_location
    (HexEdit : YORI_WIN_CTRL_HEX_EDIT) (AsChar : bool) (BufferOffset Shift : Z) :
  In (BytesPerWord HexEdit) [1; 2; 4; 8] ->
  0 <= BufferOffset < 2 ^ 36 ->
  (if AsChar then Shift = 0
   else BufferOffset mod BytesPerWord HexEdit = 0
        /\ 0 <= Shift <= BytesPerWord HexEdit * 8 - 4
        /\ Shift mod 4 = 0) ->
  let Next := LocationToTheRight HexEdit AsChar BufferOffset Shift in
  YoriWinHexEditNextCellSameType HexEdit
    (if AsChar then YoriWinHexEditCellTypeCharValue
     else YoriWinHexEditCellTypeHexDigit) BufferOffset Shift
  = Some (if AsChar
          then YoriWinHexEditCellFromCharBufferOffset HexEdit (fst Next)
          else YoriWinHexEditCellFromHexBufferOffset HexEdit (fst Next) (snd Next))
  /\ 0 <= fst Next < 2 ^ 36 + 8
  /\ (if AsChar then snd Next = 0
      else fst Next mod BytesPerWord HexEdit = 0
           /\ 0 <= snd Next <= BytesPerWord HexEdit * 8 - 4
           /\ snd Next mod 4 = 0).
Proof.
  intros HW Hr HS Next. unfold Next, LocationToTheRight, YoriWinHexEditNextCellSameType.
  assert (HW' : 1 <= BytesPerWord HexEdit <= 8) by (simpl in HW; lia).
  destruct AsChar; cbn [fst snd].
  - rewrite to_DWORDLONG_small by lia. repeat split; lia.
  - destruct HS as (Ha & Hs & Hm). rewrite Ha.
    change (to_DWORD 0) with 0. cbn [Z.eqb negb].
    destruct (4 <=? Shift) eqn:E4; cbn [fst snd]; bool_hyps.
    + repeat split; try lia. Z.div_mod_to_equations; lia.
    + rewrite to_DWORDLONG_small by lia. rewrite to_DWORD_small by lia.
      replace (8 * BytesPerWord HexEdit - 4) with (BytesPerWord HexEdit * 8 - 4) by lia.
      repeat split; try lia.
      * simpl in HW. destruct HW as [E | [E | [E | [E | []]]]]; rewrite <- E in *;
          Z.div_mod_to_equations; lia.
      * simpl in HW. destruct HW as [E | [E | [E | [E | []]]]]; rewrite <- E;
          reflexivity.
Qed.

Lemma PreviousCellSameType_location
    (HexEdit : YORI_WIN_CTRL_HEX_EDIT) (AsChar : bool) (BufferOffset Shift : Z) :
  In (BytesPerWord HexEdit) [1; 2; 4; 8] ->
  0 <= BufferOffset < 2 ^ 36 + 8 ->
  (if AsChar then Shift = 0
   else BufferOffset mod BytesPerWord HexEdit = 0
        /\ 0 <= Shift <= BytesPerWord HexEdit * 8 - 4
        /\ Shift mod 4 = 0) ->
  let Previous := LocationToTheLeft HexEdit AsChar BufferOffset Shift in
  YoriWinHexEditPreviousCellSameType HexEdit
    (if AsChar then YoriWinHexEditCellTypeCharValue
     else YoriWinHexEditCellTypeHexDigit) BufferOffset Shift
  = Some (if AsChar
          then YoriWinHexEditCellFromCharBufferOffset HexEdit (fst Previous)
          else YoriWinHexEditCellFromHexBufferOffset HexEdit (fst Previous)
                 (snd Previous))
  /\ 0 <= fst Previous <= BufferOffset
  /\ (if AsChar then snd Previous = 0
      else fst Previous mod BytesPerWord HexEdit = 0
           /\ 0 <= snd Previous <= BytesPerWord HexEdit * 8 - 4
           /\ snd Previous mod 4 = 0).
Proof.
  intros HW Hr HS Previous.
  unfold Previous, LocationToTheLeft, YoriWinHexEditPreviousCellSameType.
  assert (HW' : 1 <= BytesPerWord HexEdit <= 8) by (simpl in HW; lia).
  destruct AsChar; cbn [fst snd].
  - destruct (0 <? BufferOffset) eqn:E; bool_hyps; repeat split; lia.
  - destruct HS as (Ha & Hs & Hm). rewrite Ha.
    change (to_DWORD 0) with 0. cbn [Z.eqb negb].
    rewrite (to_DWORD_small (BytesPerWord HexEdit * 8 - 4)) by lia.
    destruct (Shift <? BytesPerWord HexEdit * 8 - 4) eqn:E4; cbn [fst snd]; bool_hyps.
    + rewrite to_DWORD_small by lia.
      repeat split; try lia; Z.div_mod_to_equations; lia.
    + destruct (0 <? BufferOffset) eqn:E0; cbn [fst snd]; bool_hyps.
      * assert (BytesPerWord HexEdit <= BufferOffset).
        { simpl in HW. destruct HW as [E | [E | [E | [E | []]]]]; rewrite <- E in *;
            Z.div_mod_to_equations; lia. }
        rewrite to_DWORDLONG_small by lia.
        repeat split; try lia.
        simpl in HW. destruct HW as [E | [E | [E | [E | []]]]]; rewrite <- E in *;
          Z.div_mod_to_equations; lia.
      * repeat split; try lia.
Qed.

Lemma CursorRight_step
    (HexEdit : YORI_WIN_CTRL_HEX_EDIT) (AsChar : bool) (BufferOffset Shift : Z) :
  Configured HexEdit ->
  0 <= CursorLine HexEdit < 2 ^ 32 ->
  0 <= CursorOffset HexEdit < 2 ^ 32 ->
  YoriWinHexEditGetCursorLocation HexEdit = Some (AsChar, BufferOffset, Shift) ->
  BufferOffset < BufferValid HexEdit <= 2 ^ 36 - 16 ->
  let Next := LocationToTheRight HexEdit AsChar BufferOffset Shift in
  exists After,
    YoriWinHexEditCursorRight HexEdit = Some (true, After)
    /\ KeepsDocument HexEdit After
    /\ Active (Selection After) = YoriWinHexEditSelectNotActive
    /\ CursorOf After
       = (if AsChar
          then YoriWinHexEditCellFromCharBufferOffset HexEdit (fst Next)
          else YoriWinHexEditCellFromHexBufferOffset HexEdit (fst Next) (snd Next))
    /\ YoriWinHexEditGetCursorLocation After = Some (AsChar, fst Next, snd Next).
Proof.
  intros HC HL Hc HG Hv Next. pose proof HC as (HB & HW & _).
  destruct (cursor_location_facts HexEdit AsChar BufferOffset Shift HC HL Hc HG)
    as (b & Hb & Ho & Eb & Es & Et & Hs & Hcell).
  set (Cell := YoriWinHexEditCellType HexEdit (CursorLine HexEdit)
                 (CursorOffset HexEdit)) in *.
  assert (Hs' : if AsChar then Shift = 0
                else BufferOffset mod BytesPerWord HexEdit = 0
                     /\ 0 <= Shift <= BytesPerWord HexEdit * 8 - 4
                     /\ Shift mod 4 = 0).
  { destruct AsChar; [assumption | ]. destruct Hs as (H1 & H2 & H3 & _).
    repeat split; try assumption; try lia. subst BufferOffset.
    apply aligned_on_line; assumption. }
  destruct (NextCellSameType_location HexEdit AsChar BufferOffset Shift HW
              ltac:(lia) Hs') as (EN & HrN & HsN).
  fold Next in EN, HrN, HsN.
  unfold YoriWinHexEditCursorRight. fold Cell.
  rewrite (BufferOffsetOfCell_cursor HexEdit _ b Cell HB HL Hb Eb), <- Ho.
  rewrite Et, Es, EN.
  destruct (if AsChar
            then YoriWinHexEditCellFromCharBufferOffset HexEdit (fst Next)
            else YoriWinHexEditCellFromHexBufferOffset HexEdit (fst Next) (snd Next))
    as [NewLine NewCol] eqn:ECell.
  replace (BufferValid HexEdit <=? BufferOffset) with false
    by (symmetry; apply Z.leb_gt; lia).
  eexists. split; [reflexivity | ].
  destruct (cursor_moved_to HexEdit NewCol NewLine) as (D & C & S).
  split; [exact D | split; [exact S | split; [exact C | ]]].
  apply (GetCursorLocation_after HexEdit _ AsChar (fst Next) (snd Next) HC D).
  - assert (BytesPerWord HexEdit <= 8) by (simpl in HW; lia).
    unfold Next, LocationToTheRight in *.
    destruct AsChar; [cbn [fst]; lia | ].
    destruct (4 <=? Shift); cbn [fst]; lia.
  - exact HsN.
  - rewrite C. symmetry. exact ECell.
Qed.

Lemma CursorLeft_step
    (HexEdit : YORI_WIN_CTRL_HEX_EDIT) (AsChar : bool) (BufferOffset Shift : Z) :
  Configured HexEdit ->
  0 <= CursorLine HexEdit < 2 ^ 32 ->
  0 <= CursorOffset HexEdit < 2 ^ 32 ->
  YoriWinHexEditGetCursorLocation HexEdit = Some (AsChar, BufferOffset, Shift) ->
  let Previous := LocationToTheLeft HexEdit AsChar BufferOffset Shift in
  exists Moved After,
    YoriWinHexEditCursorLeft HexEdit = Some (Moved, After)
    /\ (Previous = (BufferOffset, Shift) -> Moved = false /\ After = HexEdit)
    /\ (Previous <> (BufferOffset, Shift) ->
        Moved = true /\ Active (Selection After) = YoriWinHexEditSelectNotActive)
    /\ KeepsDocument HexEdit After
    /\ CursorOf After
       = (if AsChar
          then YoriWinHexEditCellFromCharBufferOffset HexEdit (fst Previous)
          else YoriWinHexEditCellFromHexBufferOffset HexEdit (fst Previous)
                 (snd Previous))
    /\ YoriWinHexEditGetCursorLocation After
       = Some (AsChar, fst Previous, snd Previous).
Proof.
  intros HC HL Hc HG Previous. pose proof HC as (HB & HW & _).
  destruct (cursor_location_facts HexEdit AsChar BufferOffset Shift HC HL Hc HG)
    as (b & Hb & Ho & Eb & Es & Et & Hs & Hcell).
  set (Cell := YoriWinHexEditCellType HexEdit (CursorLine HexEdit)
                 (CursorOffset HexEdit)) in *.
  destruct (offset_of_line_and_byte (CursorLine HexEdit) b HL Hb) as (_ & _ & _ & Hr).
  rewrite <- Ho in Hr.
  assert (Hs' : if AsChar then Shift = 0
                else BufferOffset mod BytesPerWord HexEdit = 0
                     /\ 0 <= Shift <= BytesPerWord HexEdit * 8 - 4
                     /\ Shift mod 4 = 0).
  { destruct AsChar; [assumption | ]. destruct Hs as (H1 & H2 & H3 & _).
    repeat split; try assumption; try lia. subst BufferOffset.
    apply aligned_on_line; assumption. }
  destruct (PreviousCellSameType_location HexEdit AsChar BufferOffset Shift HW
              ltac:(lia) Hs') as (EP & HrP & HsP).
  fold Previous in EP, HrP, HsP.
  assert (Here : CursorOf HexEdit
                 = if AsChar
                   then YoriWinHexEditCellFromCharBufferOffset HexEdit BufferOffset
                   else YoriWinHexEditCellFromHexBufferOffset HexEdit BufferOffset Shift).
  { rewrite Ho. symmetry. apply (Hcell (CursorLine HexEdit) HL). }
  pose proof (location_round_trip HexEdit AsChar BufferOffset Shift HC Hr Hs') as RT.
  pose proof (location_round_trip HexEdit AsChar (fst Previous) (snd Previous) HC
                ltac:(lia) HsP) as RTP.
  unfold YoriWinHexEditCursorLeft. fold Cell.
  rewrite (BufferOffsetOfCell_cursor HexEdit _ b Cell HB HL Hb Eb), <- Ho.
  rewrite Et, Es, EP.
  destruct (if AsChar
            then YoriWinHexEditCellFromCharBufferOffset HexEdit (fst Previous)
            else YoriWinHexEditCellFromHexBufferOffset HexEdit (fst Previous)
                   (snd Previous))
    as [NewLine NewCol] eqn:ECell.
  destruct (negb (NewLine =? CursorLine HexEdit)
            || negb (NewCol =? CursorOffset HexEdit)) eqn:EM.
  - destruct (cursor_moved_to HexEdit NewCol NewLine) as (D & C & S).
    do 2 eexists. split; [reflexivity | ].
    split; [ | split; [ | split; [exact D | split]]].
    + intros EPrev. exfalso.
      assert (E1 : fst Previous = BufferOffset) by (rewrite EPrev; reflexivity).
      assert (E2 : snd Previous = Shift) by (rewrite EPrev; reflexivity).
      rewrite E1, E2 in ECell.
      rewrite <- Here in ECell. unfold CursorOf in ECell.
      injection ECell as E3 E4. subst NewLine NewCol.
      rewrite !Z.eqb_refl in EM. discriminate.
    + intros _. split; [reflexivity | exact S].
    + rewrite C. reflexivity.
    + apply (GetCursorLocation_after HexEdit _ AsChar (fst Previous) (snd Previous)
               HC D ltac:(lia) HsP).
      rewrite C. symmetry. exact ECell.
  - apply orb_false_elim in EM as [E1 E2]. bool_hyps. subst NewLine NewCol.
    do 2 eexists. split; [reflexivity | ].
    assert (EPrev : Previous = (BufferOffset, Shift)).
    { rewrite <- Here in RT. unfold CursorOf in RT.
      destruct (round_trip_injective _ _ _ _ _ _ _ _ RTP RT) as [E1 E2].
      rewrite (surjective_pairing Previous). congruence. }
    split; [intros _; split; reflexivity | ].
    split; [intros Hne; contradiction | ].
    split; [apply KeepsDocument_refl | ].
    split.
    + reflexivity.
    + rewrite EPrev. cbn [fst snd]. exact HG.
Qed.

(** X5: the arrow keys step by one cell.  With the cursor on the buffer
    location (o, s) and o within the valid data, YoriWinHexEditCursorRight
    returns TRUE with the cursor on the next nibble (hex area: the next
    lower nibble of the word, or the highest nibble of the next word) or the
    next byte (character area); YoriWinHexEditCursorLeft puts the cursor on
    the previous nibble or byte and returns TRUE, except at the first nibble
    or byte of the buffer, where it returns FALSE and leaves the control as
    it is.  Both leave the document as it is and, when they move the cursor,
    leave no selection active. *)
Theorem arrow_keys_step_by_one_cell
    (HexEdit : YORI_WIN_CTRL_HEX_EDIT) (AsChar : bool) (BufferOffset Shift : Z) :
  Configured HexEdit ->
  0 <= CursorLine HexEdit < 2 ^ 32 ->
  0 <= CursorOffset HexEdit < 2 ^ 32 ->
  YoriWinHexEditGetCursorLocation HexEdit = Some (AsChar, BufferOffset, Shift) ->
  (BufferOffset < BufferValid HexEdit <= 2 ^ 36 - 16 ->
   exists After,
     YoriWinHexEditCursorRight HexEdit = Some (true, After)
     /\ YoriWinHexEditGetCursorLocation After
        = Some (AsChar,
                fst (LocationToTheRight HexEdit AsChar BufferOffset Shift),
                snd (LocationToTheRight HexEdit AsChar BufferOffset Shift))
     /\ KeepsDocument HexEdit After
     /\ Active (Selection After) = YoriWinHexEditSelectNotActive)
  /\ (exists Moved After,
        YoriWinHexEditCursorLeft HexEdit = Some (Moved, After)
        /\ YoriWinHexEditGetCursorLocation After
           = Some (AsChar,
                   fst (LocationToTheLeft HexEdit AsChar BufferOffset Shift),
                   snd (LocationToTheLeft HexEdit AsChar BufferOffset Shift))
        /\ KeepsDocument HexEdit After
        /\ (LocationToTheLeft HexEdit AsChar BufferOffset Shift = (BufferOffset, Shift) ->
            Moved = false /\ After = HexEdit)
        /\ (LocationToTheLeft HexEdit AsChar BufferOffset Shift <> (BufferOffset, Shift) ->
            Moved = true
            /\ Active (Selection After) = YoriWinHexEditSelectNotActive)).
Proof.
  intros HC HL Hc HG. split.
  - intros Hv.
    destruct (CursorRight_step HexEdit AsChar BufferOffset Shift HC HL Hc HG Hv)
      as (After & E & D & S & _ & G).
    exists After. auto.
  - destruct (CursorLeft_step HexEdit AsChar BufferOffset Shift HC HL Hc HG)
      as (Moved & After & E & Hstay & Hmove & D & _ & G).
    exists Moved, After. auto.
Qed.

Lemma arrow_keys_step_by_one_cell_witness :
  YoriWinHexEditGetCursorLocation CursorOnNibble = Some (false, 20, 0)
  /\ (exists After,
        YoriWinHexEditCursorRight CursorOnNibble = Some (true, After)
        /\ YoriWinHexEditGetCursorLocation After = Some (false, 21, 4)
        /\ KeepsDocument CursorOnNibble After
        /\ Active (Selection After) = YoriWinHexEditSelectNotActive).
Proof.
  split; [reflexivity | ].
  refine (proj1 (arrow_keys_step_by_one_cell CursorOnNibble false 20 0 _ _ _ _) _).
  - unfold Configured. simpl. intuition lia.
  - vm_compute. intuition discriminate.
  - vm_compute. intuition discriminate.
  - reflexivity.
  - vm_compute. intuition discriminate.
Defined.

Lemma left_of_right (Words : Z) (AsChar : bool) (BufferOffset Shift : Z)
    (a b : YORI_WIN_CTRL_HEX_EDIT) :
  BytesPerWord a = Words -> BytesPerWord b = Words ->
  In Words [1; 2; 4; 8] ->
  0 <= BufferOffset ->
  (if AsChar then Shift = 0
   else 0 <= Shift <= Words * 8 - 4 /\ Shift mod 4 = 0) ->
  let Next := LocationToTheRight a AsChar BufferOffset Shift in
  LocationToTheLeft b AsChar (fst Next) (snd Next) = (BufferOffset, Shift)
  /\ Next <> (BufferOffset, Shift).
Proof.
  intros Ea Eb HW Ho HS Next. unfold Next, LocationToTheRight, LocationToTheLeft.
  rewrite Ea, Eb. assert (1 <= Words <= 8) by (simpl in HW; lia).
  destruct AsChar; cbn [fst snd].
  - subst Shift. replace (0 <? BufferOffset + 1) with true
      by (symmetry; apply Z.ltb_lt; lia).
    split; [f_equal; lia | intros E; injection E; lia].
  - destruct HS as (Hs & Hm).
    destruct (4 <=? Shift) eqn:E4; cbn [fst snd]; bool_hyps.
    + replace (Shift - 4 <? Words * 8 - 4) with true
        by (symmetry; apply Z.ltb_lt; lia).
      split; [f_equal; lia | intros E; injection E; lia].
    + replace (Words * 8 - 4 <? Words * 8 - 4) with false
        by (symmetry; apply Z.ltb_ge; lia).
      replace (0 <? BufferOffset + Words) with true
        by (symmetry; apply Z.ltb_lt; lia).
      assert (Shift = 0) by (Z.div_mod_to_equations; lia).
      split; [f_equal; lia | intros E; injection E; lia].
Qed.

(** X6: the left arrow undoes the right arrow.  With the cursor on a hex
    digit or character cell within the valid data, YoriWinHexEditCursorRight
    followed by YoriWinHexEditCursorLeft both return TRUE and bring the
    cursor back to the display cell and buffer location it started from. *)
Theorem cursor_right_then_left_returns
    (HexEdit : YORI_WIN_CTRL_HEX_EDIT) (AsChar : bool) (BufferOffset Shift : Z) :
  Configured HexEdit ->
  0 <= CursorLine HexEdit < 2 ^ 32 ->
  0 <= CursorOffset HexEdit < 2 ^ 32 ->
  YoriWinHexEditGetCursorLocation HexEdit = Some (AsChar, BufferOffset, Shift) ->
  BufferOffset < BufferValid HexEdit <= 2 ^ 36 - 16 ->
  exists Right Back,
    YoriWinHexEditCursorRight HexEdit = Some (true, Right)
    /\ YoriWinHexEditCursorLeft Right = Some (true, Back)
    /\ YoriWinHexEditGetCursorLocation Back = Some (AsChar, BufferOffset, Shift)
    /\ CursorOf Back = CursorOf HexEdit.
Proof.
  intros HC HL Hc HG Hv. pose proof HC as (HB & HW & _).
  destruct (CursorRight_step HexEdit AsChar BufferOffset Shift HC HL Hc HG Hv)
    as (Right & ER & DR & _ & CR & GR).
  pose proof (KeepsDocument_geometry _ _ DR) as GeoR.
  pose proof (SameGeometry_configured _ _ GeoR HC) as HCR.
  set (Next := LocationToTheRight HexEdit AsChar BufferOffset Shift) in *.
  assert (HLR : 0 <= CursorLine Right < 2 ^ 32 /\ 0 <= CursorOffset Right < 2 ^ 32).
  { unfold CursorOf in CR.
    destruct (CellFrom_range HexEdit (fst Next) (snd Next)) as (Hh & Hch).
    destruct AsChar;
      [ replace (CursorLine Right)
          with (fst (YoriWinHexEditCellFromCharBufferOffset HexEdit (fst Next)))
          by (rewrite <- CR; reflexivity);
        replace (CursorOffset Right)
          with (snd (YoriWinHexEditCellFromCharBufferOffset HexEdit (fst Next)))
          by (rewrite <- CR; reflexivity); exact Hch
      | replace (CursorLine Right)
          with (fst (YoriWinHexEditCellFromHexBufferOffset HexEdit (fst Next) (snd Next)))
          by (rewrite <- CR; reflexivity);
        replace (CursorOffset Right)
          with (snd (YoriWinHexEditCellFromHexBufferOffset HexEdit (fst Next) (snd Next)))
          by (rewrite <- CR; reflexivity); exact Hh ]. }
  destruct HLR as (HLR & HcR).
  destruct (CursorLeft_step Right AsChar (fst Next) (snd Next) HCR HLR HcR GR)
    as (Moved & Back & EL & _ & Hmove & DL & CL & GL).
  destruct (cursor_location_facts HexEdit AsChar BufferOffset Shift HC HL Hc HG)
    as (b & Hb & Ho & _ & _ & _ & Hs & Hcell).
  assert (EWR : BytesPerWord Right = BytesPerWord HexEdit).
  { destruct GeoR as (_ & _ & E & _). exact E. }
  destruct (left_of_right (BytesPerWord HexEdit) AsChar BufferOffset Shift
              HexEdit Right eq_refl EWR HW ltac:(lia)
              ltac:(destruct AsChar; [exact Hs | tauto])) as (Eback & Hne).
  fold Next in Eback, Hne.
  rewrite Eback in GL, CL. cbn [fst snd] in GL, CL.
  destruct Hmove as (EM & _).
  { rewrite Eback. intros E. apply Hne. rewrite (surjective_pairing Next). congruence. }
  subst Moved. exists Right, Back.
  split; [exact ER | split; [exact EL | split; [exact GL | ]]].
  rewrite CL.
  destruct AsChar;
    [rewrite (CellFromChar_geometry _ _ _ GeoR)
    | rewrite (CellFromHex_geometry _ _ _ _ GeoR)];
    rewrite Ho; rewrite (Hcell (CursorLine HexEdit) HL); reflexivity.
Qed.

Lemma cursor_right_then_left_returns_witness :
  exists Right Back,
    YoriWinHexEditCursorRight CursorOnCharacter = Some (true, Right)
    /\ YoriWinHexEditCursorLeft Right = Some (true, Back)
    /\ YoriWinHexEditGetCursorLocation Back = Some (true, 20, 0)
    /\ CursorOf Back = CursorOf CursorOnCharacter.
Proof.
  apply (cursor_right_then_left_returns CursorOnCharacter true 20 0).
  - unfold Configured. simpl. intuition lia.
  - vm_compute. intuition discriminate.
  - vm_compute. intuition discriminate.
  - reflexivity.
  - vm_compute. intuition discriminate.
Defined.

Lemma cursor_up_and_down_move_by_one_line_witness :
  YoriWinHexEditGetCursorLocation CursorOnNibble = Some (false, 20, 0)
  /\ fst (YoriWinHexEditCursorDown CursorOnNibble) = true
  /\ YoriWinHexEditGetCursorLocation (snd (YoriWinHexEditCursorDown CursorOnNibble))
     = Some (false, 20 + 16, 0)
  /\ CursorOf (snd (YoriWinHexEditCursorDown CursorOnNibble))
     = (CursorLine CursorOnNibble + 1, CursorOffset CursorOnNibble).
Proof.
  split; [reflexivity | ].
  refine (proj1 (cursor_up_and_down_move_by_one_line CursorOnNibble false 20 0
                   _ _ _ _) _).
  - unfold Configured. simpl. intuition lia.
  - vm_compute. intuition discriminate.
  - vm_compute. intuition discriminate.
  - reflexivity.
  - vm_compute. discriminate.
Defined.

Lemma GetCursorLocation_set
    (HexEdit : YORI_WIN_CTRL_HEX_EDIT) (AsChar : bool) (BufferOffset Shift : Z) :
  Configured HexEdit ->
  0 <= BufferOffset < 2 ^ 36 ->
  (AsChar = false ->
   BufferOffset mod BytesPerWord HexEdit = 0
   /\ 0 <= Shift <= BytesPerWord HexEdit * 8 - 4
   /\ Shift mod 4 = 0) ->
  YoriWinHexEditGetCursorLocation
    (snd (YoriWinHexEditSetCursorToBufferLocation
            (YoriWinHexEditClearSelection HexEdit)
            (if AsChar then YoriWinHexEditCellTypeCharValue
             else YoriWinHexEditCellTypeHexDigit)
            BufferOffset Shift))
  = Some (AsChar, BufferOffset, if AsChar then 0 else Shift).
Proof.
  intros HC Hr HS.
  destruct (ClearSelection_document HexEdit) as (D0 & _).
  pose proof (KeepsDocument_geometry _ _ D0) as G0.
  destruct (SetCursorToBufferLocation_document
              (YoriWinHexEditClearSelection HexEdit)
              (if AsChar then YoriWinHexEditCellTypeCharValue
               else YoriWinHexEditCellTypeHexDigit)
              BufferOffset Shift) as (D1 & _ & C1).
  apply (GetCursorLocation_after HexEdit _ AsChar BufferOffset
           (if AsChar then 0 else Shift) HC (KeepsDocument_trans _ _ _ D0 D1) Hr).
  - destruct AsChar; [reflexivity | apply HS; reflexivity].
  - rewrite C1. destruct AsChar;
      [apply (CellFromChar_geometry _ _ _ G0)
      | apply (CellFromHex_geometry _ _ _ _ G0)].
Qed.

Lemma word_floor_aligned (Valid Words : Z) :
  In Words [1; 2; 4; 8] -> 0 <= Valid ->
  (Valid / Words * Words) mod Words = 0 /\ 0 <= Valid / Words * Words <= Valid.
Proof.
  intros HW HV. simpl in HW.
  destruct HW as [E | [E | [E | [E | []]]]]; subst Words;
    split; Z.div_mod_to_equations; lia.
Qed.

Lemma line_end_aligned (BufferOffset Words : Z) :
  In Words [1; 2; 4; 8] -> 0 <= BufferOffset < 2 ^ 36 ->
  ((BufferOffset / 16 + 1) * 16 - Words) mod Words = 0
  /\ (BufferOffset / 16 * 16) mod Words = 0
  /\ 0 <= BufferOffset / 16 * 16 <= BufferOffset
  /\ BufferOffset < (BufferOffset / 16 + 1) * 16 <= 2 ^ 36.
Proof.
  intros HW HV. simpl in HW. change (2 ^ 36) with 68719476736 in *.
  destruct HW as [E | [E | [E | [E | []]]]]; subst Words;
    repeat split; Z.div_mod_to_equations; lia.
Qed.

(** X7: where Home, End, Ctrl+Home and Ctrl+End put the cursor, as
    YoriWinHexEditGetCursorLocation reads it back, when the cursor is on the
    buffer location (o, s) in the hex or character area: Home leads to the
    first byte of the line (highest nibble in the hex area), End to the last
    word or byte of the line or to the end of the valid data when that
    comes first, Ctrl+Home to offset 0 and Ctrl+End to the end of the valid
    data (rounded down to a word in the hex area).  The area is kept. *)
Theorem home_and_end_keys
    (HexEdit : YORI_WIN_CTRL_HEX_EDIT) (AsChar : bool) (BufferOffset Shift : Z) :
  Configured HexEdit ->
  0 <= CursorLine HexEdit < 2 ^ 32 ->
  0 <= CursorOffset HexEdit < 2 ^ 32 ->
  0 <= BufferValid HexEdit < 2 ^ 36 ->
  YoriWinHexEditGetCursorLocation HexEdit = Some (AsChar, BufferOffset, Shift) ->
  let Highest := if AsChar then 0 else BytesPerWord HexEdit * 8 - 4 in
  YoriWinHexEditGetCursorLocation (snd (YoriWinHexEditCursorHome HexEdit))
  = Some (AsChar, BufferOffset / 16 * 16, Highest)
  /\ YoriWinHexEditGetCursorLocation (snd (YoriWinHexEditCursorEnd HexEdit))
     = Some (AsChar, EndOfLine HexEdit AsChar BufferOffset, 0)
  /\ YoriWinHexEditGetCursorLocation (snd (YoriWinHexEditCursorCtrlHome HexEdit))
     = Some (AsChar, 0, Highest)
  /\ YoriWinHexEditGetCursorLocation (snd (YoriWinHexEditCursorCtrlEnd HexEdit))
     = Some (AsChar,
             if AsChar then BufferValid HexEdit
             else BufferValid HexEdit / BytesPerWord HexEdit * BytesPerWord HexEdit,
             0).
Proof.
  intros HC HL Hc HV HG Highest. pose proof HC as (HB & HW & _).
  assert (HW' : 1 <= BytesPerWord HexEdit <= 8) by (simpl in HW; lia).
  destruct (cursor_location_facts HexEdit AsChar BufferOffset Shift HC HL Hc HG)
    as (b & Hb & Ho & Eb & Es & Et & Hs & _).
  set (Cell := YoriWinHexEditCellType HexEdit (CursorLine HexEdit)
                 (CursorOffset HexEdit)) in *.
  destruct (offset_of_line_and_byte (CursorLine HexEdit) b HL Hb) as (_ & _ & _ & Hr).
  rewrite <- Ho in Hr.
  pose proof (BufferOffsetOfCell_cursor HexEdit _ b Cell HB HL Hb Eb) as EO.
  rewrite <- Ho in EO.
  destruct (line_end_aligned BufferOffset (BytesPerWord HexEdit) HW Hr)
    as (A1 & A2 & A3 & A4).
  destruct (word_floor_aligned (BufferValid HexEdit) (BytesPerWord HexEdit) HW
              ltac:(lia)) as (A5 & A6).
  assert (ShiftOfChar : AsChar = true -> Shift = 0).
  { intros ->. exact Hs. }
  assert (HighestOk : (BytesPerWord HexEdit * 8 - 4) mod 4 = 0).
  { simpl in HW. destruct HW as [E | [E | [E | [E | []]]]]; rewrite <- E;
      reflexivity. }
  split; [ | split; [ | split]].
  - unfold YoriWinHexEditCursorHome. fold Cell. rewrite EO, HB.
    unfold YORI_LIB_HEXDUMP_BYTES_PER_LINE.
    rewrite to_DWORDLONG_small by lia. rewrite Et, Es.
    destruct AsChar.
    + apply (GetCursorLocation_set HexEdit true _ _ HC); [lia | discriminate].
    + rewrite to_DWORD_small by lia.
      apply (GetCursorLocation_set HexEdit false _ _ HC); [lia | ].
      intros _. split; [assumption | split; [lia | assumption]].
  - unfold YoriWinHexEditCursorEnd, EndOfLine. fold Cell. rewrite EO, HB.
    unfold YORI_LIB_HEXDUMP_BYTES_PER_LINE.
    rewrite (to_DWORDLONG_small ((BufferOffset / 16 + 1) * 16)) by lia.
    rewrite Et. destruct AsChar.
    + rewrite to_DWORDLONG_small by lia.
      destruct (BufferValid HexEdit <? (BufferOffset / 16 + 1) * 16 - 1) eqn:E;
        bool_hyps;
        (apply (GetCursorLocation_set HexEdit true _ _ HC); [lia | discriminate]).
    + rewrite (to_DWORDLONG_small ((BufferOffset / 16 + 1) * 16 - BytesPerWord HexEdit))
        by lia.
      destruct (BufferValid HexEdit
                <? (BufferOffset / 16 + 1) * 16 - BytesPerWord HexEdit) eqn:E;
        bool_hyps.
      * rewrite to_DWORDLONG_small by lia.
        apply (GetCursorLocation_set HexEdit false _ _ HC); [lia | ].
        intros _. split; [assumption | split; [lia | reflexivity]].
      * apply (GetCursorLocation_set HexEdit false _ _ HC); [lia | ].
        intros _. split; [assumption | split; [lia | reflexivity]].
  - unfold YoriWinHexEditCursorCtrlHome. fold Cell. rewrite Et, Es.
    destruct AsChar.
    + apply (GetCursorLocation_set HexEdit true _ _ HC); [lia | discriminate].
    + rewrite to_DWORD_small by lia.
      apply (GetCursorLocation_set HexEdit false _ _ HC); [lia | ].
      intros _. split; [reflexivity | split; [lia | assumption]].
  - unfold YoriWinHexEditCursorCtrlEnd. fold Cell. rewrite Et.
    destruct AsChar.
    + apply (GetCursorLocation_set HexEdit true _ _ HC); [lia | discriminate].
    + rewrite to_DWORDLONG_small by lia.
      apply (GetCursorLocation_set HexEdit false _ _ HC); [lia | ].
      intros _. split; [assumption | split; [lia | reflexivity]].
Qed.

Lemma home_and_end_keys_witness :
  YoriWinHexEditGetCursorLocation CursorOnNibble = Some (false, 20, 0)
  /\ YoriWinHexEditGetCursorLocation (snd (YoriWinHexEditCursorHome CursorOnNibble))
     = Some (false, 20 / 16 * 16, BytesPerWord CursorOnNibble * 8 - 4)
  /\ YoriWinHexEditGetCursorLocation (snd (YoriWinHexEditCursorEnd CursorOnNibble))
     = Some (false, EndOfLine CursorOnNibble false 20, 0)
  /\ YoriWinHexEditGetCursorLocation (snd (YoriWinHexEditCursorCtrlHome CursorOnNibble))
     = Some (false, 0, BytesPerWord CursorOnNibble * 8 - 4)
  /\ YoriWinHexEditGetCursorLocation (snd (YoriWinHexEditCursorCtrlEnd CursorOnNibble))
     = Some (false,
             BufferValid CursorOnNibble / BytesPerWord CursorOnNibble
             * BytesPerWord CursorOnNibble, 0).
Proof.
  split; [reflexivity | ].
  apply (home_and_end_keys CursorOnNibble false 20 0).
  - unfold Configured. simpl. intuition lia.
  - vm_compute. intuition discriminate.
  - vm_compute. intuition discriminate.
  - vm_compute. intuition discriminate.
  - reflexivity.
Defined.

(** ** Viewport *)

Lemma EnsureCursorVisible_viewport (HexEdit : YORI_WIN_CTRL_HEX_EDIT) :
  ViewportLeft (YoriWinHexEditEnsureCursorVisible HexEdit)
  = (if CursorOffset HexEdit <? ViewportLeft HexEdit
     then CursorOffset HexEdit
     else if to_DWORD (ViewportLeft HexEdit + X (ClientSize HexEdit))
             <=? CursorOffset HexEdit
     then to_DWORD (CursorOffset HexEdit - X (ClientSize HexEdit) + 1)
     else ViewportLeft HexEdit)
  /\ ViewportTop (YoriWinHexEditEnsureCursorVisible HexEdit)
     = (if CursorLine HexEdit <? ViewportTop HexEdit
        then CursorLine HexEdit
        else if to_DWORD (ViewportTop HexEdit + Y (ClientSize HexEdit))
                <=? CursorLine HexEdit
        then to_DWORD (CursorLine HexEdit - Y (ClientSize HexEdit) + 1)
        else ViewportTop HexEdit).
Proof.
  unfold YoriWinHexEditEnsureCursorVisible.
  set (NewViewportLeft := if CursorOffset HexEdit <? ViewportLeft HexEdit then _ else _).
  set (NewViewportTop := if CursorLine HexEdit <? ViewportTop HexEdit then _ else _).
  clearbody NewViewportLeft NewViewportTop. step.
  destruct (negb (NewViewportTop =? ViewportTop HexEdit)) eqn:ET;
    rewrite ?ExpandDirtyRange_eq; fields;
    destruct (negb (NewViewportLeft =? ViewportLeft HexEdit)) eqn:EL;
    rewrite ?ExpandDirtyRange_eq; fields; bool_hyps; split; congruence.
Qed.

Lemma EnsureCursorVisible_unchanged (HexEdit : YORI_WIN_CTRL_HEX_EDIT) :
  ViewportLeft (YoriWinHexEditEnsureCursorVisible HexEdit) = ViewportLeft HexEdit ->
  ViewportTop (YoriWinHexEditEnsureCursorVisible HexEdit) = ViewportTop HexEdit ->
  YoriWinHexEditEnsureCursorVisible HexEdit = HexEdit.
Proof.
  destruct (EnsureCursorVisible_viewport HexEdit) as (EL & ET).
  rewrite EL, ET. clear EL ET. intros EL ET.
  unfold YoriWinHexEditEnsureCursorVisible.
  rewrite EL, ET. rewrite !Z.eqb_refl. reflexivity.
Qed.

(** X8: YoriWinHexEditEnsureCursorVisible brings the cursor into the
    viewport: afterwards the cursor line and column lie within the client
    area counted from the viewport top and left, for every 32 bit cursor
    and viewport position and every client size that a console window can
    have.  The cursor and the document are not touched, and a control whose
    cursor was already within the viewport is left exactly as it is. *)
Theorem ensure_cursor_visible_shows_the_cursor (HexEdit : YORI_WIN_CTRL_HEX_EDIT) :
  0 <= CursorLine HexEdit < 2 ^ 32 ->
  0 <= CursorOffset HexEdit < 2 ^ 32 ->
  0 <= ViewportTop HexEdit < 2 ^ 32 ->
  0 <= ViewportLeft HexEdit < 2 ^ 32 ->
  1 <= X (ClientSize HexEdit) <= 32767 ->
  1 <= Y (ClientSize HexEdit) <= 32767 ->
  let After := YoriWinHexEditEnsureCursorVisible HexEdit in
  ViewportTop After <= CursorLine After < ViewportTop After + Y (ClientSize After)
  /\ ViewportLeft After <= CursorOffset After
                        < ViewportLeft After + X (ClientSize After)
  /\ CursorOf After = CursorOf HexEdit
  /\ KeepsDocument HexEdit After
  /\ (ViewportTop HexEdit <= CursorLine HexEdit
                          < ViewportTop HexEdit + Y (ClientSize HexEdit) ->
      ViewportLeft HexEdit <= CursorOffset HexEdit
                           < ViewportLeft HexEdit + X (ClientSize HexEdit) ->
      ViewportTop HexEdit + Y (ClientSize HexEdit) < 2 ^ 32 ->
      ViewportLeft HexEdit + X (ClientSize HexEdit) < 2 ^ 32 ->
      After = HexEdit).
Proof.
  intros HL Hc HT HLeft HX HY After.
  destruct (EnsureCursorVisible_document HexEdit) as (D & C).
  destruct (EnsureCursorVisible_viewport HexEdit) as (EL & ET).
  fold After in D, C, EL, ET.
  assert (ECS : ClientSize After = ClientSize HexEdit).
  { unfold KeepsDocument in D. tauto. }
  unfold CursorOf in C. injection C as C1 C2.
  change (2 ^ 32) with 4294967296 in *.
  split; [ | split; [ | split; [ | split]]].
  - rewrite ET, ECS, C1. unfold to_DWORD. change (2 ^ 32) with 4294967296.
    repeat break_if; bool_hyps; Z.div_mod_to_equations; lia.
  - rewrite EL, ECS, C2. unfold to_DWORD. change (2 ^ 32) with 4294967296.
    repeat break_if; bool_hyps; Z.div_mod_to_equations; lia.
  - unfold CursorOf. congruence.
  - exact D.
  - intros V1 V2 W1 W2. apply EnsureCursorVisible_unchanged.
    + fold After. rewrite EL.
      rewrite (to_DWORD_small (ViewportLeft HexEdit + X (ClientSize HexEdit)))
        by (change (2 ^ 32) with 4294967296; lia).
      repeat break_if; bool_hyps; lia.
    + fold After. rewrite ET.
      rewrite (to_DWORD_small (ViewportTop HexEdit + Y (ClientSize HexEdit)))
        by (change (2 ^ 32) with 4294967296; lia).
      repeat break_if; bool_hyps; lia.
Qed.

Lemma ensure_cursor_visible_shows_the_cursor_witness :
  let After :=
    YoriWinHexEditEnsureCursorVisible
      (YoriWinHexEditSetCursorLocationInternal
         (ControlWith 1 0 (Some CountingBytes) 4096 4096) 3 100) in
  ViewportTop After <= CursorLine After < ViewportTop After + Y (ClientSize After)
  /\ ViewportLeft After <= CursorOffset After
                        < ViewportLeft After + X (ClientSize After).
Proof.
  pose proof (ensure_cursor_visible_shows_the_cursor
                (YoriWinHexEditSetCursorLocationInternal
                   (ControlWith 1 0 (Some CountingBytes) 4096 4096) 3 100)) as H.
  cbv zeta in *. split; apply H; vm_compute; intuition discriminate.
Defined.

Lemma SetViewportLocation_result
    (HexEdit : YORI_WIN_CTRL_HEX_EDIT) (NewViewportLeft NewViewportTop : Z) :
  let After :=
    YoriWinHexEditSetViewportLocation HexEdit NewViewportLeft NewViewportTop in
  ViewportLeft After = NewViewportLeft
  /\ ViewportTop After = ClampedViewportTop HexEdit NewViewportTop
  /\ CursorOf After = CursorOf HexEdit
  /\ Selection After = Selection HexEdit
  /\ KeepsDocument HexEdit After
  /\ LastDirtyLine After < FirstDirtyLine After.
Proof.
  cbv zeta. unfold YoriWinHexEditSetViewportLocation, ClampedViewportTop.
  set (LinesPopulated := YoriWinHexEditLinesPopulated HexEdit).
  assert (E : (if LinesPopulated <? NewViewportTop
               then if 0 <? LinesPopulated then LinesPopulated - 1 else 0
               else NewViewportTop)
              = (if LinesPopulated <? NewViewportTop
                 then Z.max (LinesPopulated - 1) 0
                 else NewViewportTop)).
  { destruct (LinesPopulated <? NewViewportTop); [ | reflexivity].
    destruct (0 <? LinesPopulated) eqn:E0; bool_hyps; lia. }
  rewrite E. clear E.
  set (Top := if LinesPopulated <? NewViewportTop then _ else _).
  clearbody Top LinesPopulated. step.
  set (First := if negb (Top =? ViewportTop HexEdit) then _ else _).
  assert (H1 : ViewportTop First = Top /\ ViewportLeft First = ViewportLeft HexEdit
               /\ CursorOf First = CursorOf HexEdit
               /\ Selection First = Selection HexEdit
               /\ KeepsDocument HexEdit First).
  { unfold First. destruct (negb (Top =? ViewportTop HexEdit)) eqn:E; bool_hyps.
    - rewrite ExpandDirtyRange_eq. repeat split.
    - repeat split. congruence. }
  destruct H1 as (T1 & L1 & C1 & S1 & D1). clearbody First.
  set (Second := if negb (NewViewportLeft =? ViewportLeft First) then _ else _).
  assert (H2 : ViewportTop Second = Top /\ ViewportLeft Second = NewViewportLeft
               /\ CursorOf Second = CursorOf HexEdit
               /\ Selection Second = Selection HexEdit
               /\ KeepsDocument HexEdit Second).
  { unfold Second. destruct (negb (NewViewportLeft =? ViewportLeft First)) eqn:E;
      bool_hyps.
    - rewrite ExpandDirtyRange_eq.
      split; [exact T1 | split; [reflexivity | split; [exact C1 | split; [exact S1 | ]]]].
      eapply KeepsDocument_trans; [exact D1 | repeat split].
    - split; [exact T1 | split; [congruence | split; [exact C1 | split; [exact S1 | exact D1]]]]. }
  destruct H2 as (T2 & L2 & C2 & S2 & D2). clearbody Second.
  destruct (Paint_document Second) as (D3 & C3 & T3 & L3).
  split; [congruence | split; [congruence | split; [congruence | ]]].
  split; [rewrite Paint_Selection; exact S2 | ].
  split; [eapply KeepsDocument_trans; [exact D2 | exact D3] | apply Paint_empties].
Qed.

Lemma CursorOf_eq (a b : YORI_WIN_CTRL_HEX_EDIT) :
  CursorOf a = CursorOf b ->
  CursorLine a = CursorLine b /\ CursorOffset a = CursorOffset b.
Proof. unfold CursorOf. intros E. injection E as E1 E2. auto. Qed.

(** X9: YoriWinHexEditSetViewportLocation moves the viewport and nothing
    else.  YoriWinHexEditGetViewportLocation afterwards reports the
    requested left column and the requested top line, except that a top
    line past the populated lines is brought back to the last populated
    line (to line 0 for an empty buffer); the cursor stays where it was,
    even outside the viewport, the selection and the document are kept,
    and the control has been painted (its dirty range is empty). *)
Theorem set_viewport_location_moves_only_the_viewport
    (HexEdit : YORI_WIN_CTRL_HEX_EDIT) (NewViewportLeft NewViewportTop : Z) :
  let After :=
    YoriWinHexEditSetViewportLocation HexEdit NewViewportLeft NewViewportTop in
  YoriWinHexEditGetViewportLocation After
  = (NewViewportLeft, ClampedViewportTop HexEdit NewViewportTop)
  /\ YoriWinHexEditGetVisualCursorLocation After
     = YoriWinHexEditGetVisualCursorLocation HexEdit
  /\ Selection After = Selection HexEdit
  /\ KeepsDocument HexEdit After
  /\ LastDirtyLine After < FirstDirtyLine After.
Proof.
  intros After.
  destruct (SetViewportLocation_result HexEdit NewViewportLeft NewViewportTop)
    as (L & T & C & S & D & P).
  fold After in L, T, C, S, D, P.
  unfold YoriWinHexEditGetViewportLocation, YoriWinHexEditGetVisualCursorLocation.
  apply CursorOf_eq in C. destruct C as (C1 & C2).
  split; [rewrite L, T; reflexivity | ].
  split; [rewrite C1, C2; reflexivity | auto].
Qed.

Lemma LinesPopulated_range (HexEdit : YORI_WIN_CTRL_HEX_EDIT) :
  0 <= YoriWinHexEditLinesPopulated HexEdit < 2 ^ 32.
Proof.
  unfold YoriWinHexEditLinesPopulated, to_DWORD. apply Z.mod_pos_bound. lia.
Qed.

(** X10: YoriWinHexEditNotifyMouseWheel scrolls the viewport by the number
    of lines asked for and stops at the ends of the data.  Scrolling up
    aims at the viewport top less the lines to move, or at line 0 when
    that is negative; the viewport moves there when that line is not past
    the populated lines, and to the last populated line (line 0 when
    nothing is populated) when it is, as it can be when the viewport was
    left far beyond the data.  Scrolling down stops where the last
    populated line reaches the bottom of the client area (at line 0 when
    the data is shorter than the client area).  The left column, the cursor
    and the document are kept. *)
Theorem mouse_wheel_scrolls_within_the_data
    (HexEdit : YORI_WIN_CTRL_HEX_EDIT) (LinesToMove : Z) :
  0 <= ViewportTop HexEdit ->
  0 <= LinesToMove ->
  1 <= Y (ClientSize HexEdit) <= 32767 ->
  ViewportTop HexEdit + LinesToMove + Y (ClientSize HexEdit) < 2 ^ 32 ->
  let LinesPopulated := YoriWinHexEditLinesPopulated HexEdit in
  let Up := YoriWinHexEditNotifyMouseWheel HexEdit LinesToMove true in
  let Down := YoriWinHexEditNotifyMouseWheel HexEdit LinesToMove false in
  (Z.max (ViewportTop HexEdit - LinesToMove) 0 <= LinesPopulated ->
   ViewportTop Up = Z.max (ViewportTop HexEdit - LinesToMove) 0)
  /\ (LinesPopulated < Z.max (ViewportTop HexEdit - LinesToMove) 0 ->
      ViewportTop Up = Z.max (LinesPopulated - 1) 0)
  /\ ViewportTop Down
     = Z.min (ViewportTop HexEdit + LinesToMove)
             (Z.max (LinesPopulated - Y (ClientSize HexEdit)) 0)
  /\ (ViewportLeft Up = ViewportLeft HexEdit
      /\ CursorOf Up = CursorOf HexEdit /\ KeepsDocument HexEdit Up)
  /\ (ViewportLeft Down = ViewportLeft HexEdit
      /\ CursorOf Down = CursorOf HexEdit /\ KeepsDocument HexEdit Down).
Proof.
  intros HT Hn HY Hw LinesPopulated Up Down.
  pose proof (LinesPopulated_range HexEdit) as HLP. fold LinesPopulated in HLP.
  change (2 ^ 32) with 4294967296 in *.
  unfold Up, Down, YoriWinHexEditNotifyMouseWheel. fold LinesPopulated.
  rewrite (to_DWORD_small (Y (ClientSize HexEdit)))
    by (change (2 ^ 32) with 4294967296; lia).
  rewrite (to_DWORD_small (ViewportTop HexEdit + LinesToMove + Y (ClientSize HexEdit)))
    by (change (2 ^ 32) with 4294967296; lia).
  rewrite (to_DWORD_small (ViewportTop HexEdit + LinesToMove))
    by (change (2 ^ 32) with 4294967296; lia).
  split; [ | split; [ | split; [ | split]]].
  - intros Hin. destruct (ViewportTop HexEdit <? LinesToMove) eqn:EUp.
    all: match goal with
    | |- ViewportTop (YoriWinHexEditSetViewportLocation ?h ?l ?t) = _ =>
        destruct (SetViewportLocation_result h l t) as (_ & T & _); rewrite T
    end.
    all: unfold ClampedViewportTop; fold LinesPopulated.
    all: repeat break_if; bool_hyps; lia.
  - intros Hout. destruct (ViewportTop HexEdit <? LinesToMove) eqn:EUp.
    all: match goal with
    | |- ViewportTop (YoriWinHexEditSetViewportLocation ?h ?l ?t) = _ =>
        destruct (SetViewportLocation_result h l t) as (_ & T & _); rewrite T
    end.
    all: unfold ClampedViewportTop; fold LinesPopulated.
    all: repeat break_if; bool_hyps; lia.
  - destruct (LinesPopulated
              <? ViewportTop HexEdit + LinesToMove + Y (ClientSize HexEdit)) eqn:EDown;
      [destruct (Y (ClientSize HexEdit) <=? LinesPopulated) eqn:EFit | ].
    all: match goal with
    | |- ViewportTop (YoriWinHexEditSetViewportLocation ?h ?l ?t) = _ =>
        destruct (SetViewportLocation_result h l t) as (_ & T & _); rewrite T
    end.
    all: unfold ClampedViewportTop; fold LinesPopulated.
    all: repeat break_if; bool_hyps; lia.
  - match goal with
    | |- ViewportLeft (YoriWinHexEditSetViewportLocation ?h ?l ?t) = _ /\ _ =>
        destruct (SetViewportLocation_result h l t) as (L & _ & C & _ & D & _)
    end.
    auto.
  - match goal with
    | |- ViewportLeft (YoriWinHexEditSetViewportLocation ?h ?l ?t) = _ /\ _ =>
        destruct (SetViewportLocation_result h l t) as (L & _ & C & _ & D & _)
    end.
    auto.
Qed.

Lemma mouse_wheel_scrolls_within_the_data_witness :
  let Far := set_ViewportTop 81 (ControlWith 1 0 (Some CountingBytes) 160 160) in
  let Near := ControlWith 1 0 (Some CountingBytes) 4096 4096 in
  ViewportTop (YoriWinHexEditNotifyMouseWheel Far 3 true) = 9
  /\ ViewportTop (YoriWinHexEditNotifyMouseWheel Near 3 false) = 3.
Proof.
  cbv zeta. split.
  - change 9 with
      (Z.max (YoriWinHexEditLinesPopulated
                (set_ViewportTop 81 (ControlWith 1 0 (Some CountingBytes) 160 160))
              - 1) 0).
    apply (mouse_wheel_scrolls_within_the_data
             (set_ViewportTop 81 (ControlWith 1 0 (Some CountingBytes) 160 160)) 3).
    + simpl. lia.
    + lia.
    + simpl. lia.
    + simpl. lia.
    + vm_compute. reflexivity.
  - change 3 with
      (Z.min (ViewportTop (ControlWith 1 0 (Some CountingBytes) 4096 4096) + 3)
             (Z.max (YoriWinHexEditLinesPopulated
                       (ControlWith 1 0 (Some CountingBytes) 4096 4096)
                     - Y (ClientSize (ControlWith 1 0 (Some CountingBytes) 4096 4096)))
                    0)).
    apply (mouse_wheel_scrolls_within_the_data
             (ControlWith 1 0 (Some CountingBytes) 4096 4096) 3).
    + simpl. lia.
    + lia.
    + simpl. lia.
    + simpl. lia.
Defined.

Lemma PageUp_result (HexEdit : YORI_WIN_CTRL_HEX_EDIT) :
  0 < CursorLine HexEdit ->
  1 <= Y (ClientSize HexEdit) <= 32767 ->
  let After := snd (YoriWinHexEditPageUp HexEdit) in
  fst (YoriWinHexEditPageUp HexEdit) = true
  /\ ViewportTop After = Z.max (ViewportTop HexEdit - Y (ClientSize HexEdit)) 0
  /\ CursorOf After
     = (Z.max (CursorLine HexEdit - Y (ClientSize HexEdit)) 0, CursorOffset HexEdit)
  /\ ViewportLeft After = ViewportLeft HexEdit
  /\ Selection After = Selection HexEdit
  /\ KeepsDocument HexEdit After.
Proof.
  intros HL HY. cbv zeta. unfold YoriWinHexEditPageUp.
  rewrite (to_DWORD_small (Y (ClientSize HexEdit)))
    by (change (2 ^ 32) with 4294967296; lia).
  replace (0 <? CursorLine HexEdit) with true by (symmetry; apply Z.ltb_lt; lia).
  step. cbn [fst snd].
  split; [reflexivity | ].
  unfold YoriWinHexEditSetCursorLocationInternal.
  destruct (Y (ClientSize HexEdit) <=? ViewportTop HexEdit) eqn:E1;
    destruct (Y (ClientSize HexEdit) <=? CursorLine HexEdit) eqn:E2;
    rewrite ExpandDirtyRange_eq; unfold CursorOf; fields; bool_hyps;
    (split; [lia | split; [f_equal; lia | repeat split]]).
Qed.

Lemma PageDown_result (HexEdit : YORI_WIN_CTRL_HEX_EDIT) :
  0 <= ViewportTop HexEdit ->
  0 <= CursorLine HexEdit ->
  1 <= Y (ClientSize HexEdit) <= 32767 ->
  ViewportTop HexEdit + Y (ClientSize HexEdit) < YoriWinHexEditLinesPopulated HexEdit ->
  CursorLine HexEdit + Y (ClientSize HexEdit) < YoriWinHexEditLinesPopulated HexEdit ->
  let After := snd (YoriWinHexEditPageDown HexEdit) in
  fst (YoriWinHexEditPageDown HexEdit) = true
  /\ ViewportTop After = ViewportTop HexEdit + Y (ClientSize HexEdit)
  /\ CursorOf After
     = (CursorLine HexEdit + Y (ClientSize HexEdit), CursorOffset HexEdit)
  /\ ViewportLeft After = ViewportLeft HexEdit
  /\ Selection After = Selection HexEdit
  /\ KeepsDocument HexEdit After.
Proof.
  intros HT HL HY H1 H2. cbv zeta. unfold YoriWinHexEditPageDown.
  pose proof (LinesPopulated_range HexEdit) as HLP.
  set (LinesPopulated := YoriWinHexEditLinesPopulated HexEdit) in *.
  clearbody LinesPopulated.
  rewrite (to_DWORD_small (Y (ClientSize HexEdit)))
    by (change (2 ^ 32) with 4294967296; lia).
  rewrite (to_DWORD_small (ViewportTop HexEdit + Y (ClientSize HexEdit))) by lia.
  replace (ViewportTop HexEdit + Y (ClientSize HexEdit) <? LinesPopulated) with true
    by (symmetry; apply Z.ltb_lt; lia).
  step. rewrite ExpandDirtyRange_eq. fields.
  rewrite (to_DWORD_small (CursorLine HexEdit + Y (ClientSize HexEdit))) by lia.
  replace (CursorLine HexEdit + Y (ClientSize HexEdit) <? LinesPopulated) with true
    by (symmetry; apply Z.ltb_lt; lia).
  unfold YoriWinHexEditSetCursorLocationInternal, CursorOf. fields.
  repeat split.
Qed.

(** X11: Page Down followed by Page Up comes back.  When a full page lies
    below both the viewport top and the cursor line, YoriWinHexEditPageDown
    returns TRUE and moves both down by the height of the client area, and
    YoriWinHexEditPageUp then returns TRUE and restores the viewport top
    and the cursor; the column, the left edge of the viewport, the
    selection and the document are untouched.  At line 0
    YoriWinHexEditPageUp returns FALSE and leaves the control as it is, and
    so does YoriWinHexEditPageDown when the last populated line is already
    in view. *)
Theorem page_down_then_page_up_returns (HexEdit : YORI_WIN_CTRL_HEX_EDIT) :
  0 <= ViewportTop HexEdit ->
  0 <= CursorLine HexEdit ->
  1 <= Y (ClientSize HexEdit) <= 32767 ->
  let Height := Y (ClientSize HexEdit) in
  let LinesPopulated := YoriWinHexEditLinesPopulated HexEdit in
  (ViewportTop HexEdit + Height < LinesPopulated ->
   CursorLine HexEdit + Height < LinesPopulated ->
   let Down := YoriWinHexEditPageDown HexEdit in
   let Back := YoriWinHexEditPageUp (snd Down) in
   fst Down = true
   /\ ViewportTop (snd Down) = ViewportTop HexEdit + Height
   /\ CursorOf (snd Down) = (CursorLine HexEdit + Height, CursorOffset HexEdit)
   /\ fst Back = true
   /\ ViewportTop (snd Back) = ViewportTop HexEdit
   /\ CursorOf (snd Back) = CursorOf HexEdit
   /\ ViewportLeft (snd Back) = ViewportLeft HexEdit
   /\ Selection (snd Back) = Selection HexEdit
   /\ KeepsDocument HexEdit (snd Back))
  /\ (CursorLine HexEdit = 0 -> YoriWinHexEditPageUp HexEdit = (false, HexEdit))
  /\ (LinesPopulated <= ViewportTop HexEdit + Height < 2 ^ 32 ->
      YoriWinHexEditPageDown HexEdit = (false, HexEdit)).
Proof.
  intros HT HL HY Height LinesPopulated. split; [ | split].
  - intros H1 H2 Down Back.
    destruct (PageDown_result HexEdit HT HL HY H1 H2) as (F1 & T1 & C1 & L1 & S1 & D1).
    fold Down in F1, T1, C1, L1, S1, D1.
    assert (ECS : ClientSize (snd Down) = ClientSize HexEdit).
    { unfold KeepsDocument in D1. tauto. }
    destruct (CursorOf_eq (snd Down)
                (YoriWinHexEditSetCursorLocationInternal HexEdit
                   (CursorOffset HexEdit) (CursorLine HexEdit + Height)))
      as (CL1 & CO1); [rewrite C1; reflexivity | ].
    cbn [CursorLine CursorOffset YoriWinHexEditSetCursorLocationInternal set_Cursor]
      in CL1, CO1.
    destruct (PageUp_result (snd Down)) as (F2 & T2 & C2 & L2 & S2 & D2).
    { rewrite CL1. unfold Height. lia. }
    { rewrite ECS. exact HY. }
    fold Back in F2, T2, C2, L2, S2, D2.
    rewrite ECS, T1 in T2. rewrite ECS, CL1, CO1 in C2. fold Height in T2, C2.
    split; [exact F1 | split; [exact T1 | split; [exact C1 | split; [exact F2 | ]]]].
    split; [rewrite T2; unfold Height; lia | ].
    split; [rewrite C2; unfold CursorOf; f_equal; unfold Height; lia | ].
    split; [congruence | split; [congruence | ]].
    eapply KeepsDocument_trans; eassumption.
  - intros Hzero. unfold YoriWinHexEditPageUp. rewrite Hzero. reflexivity.
  - intros Hview. unfold YoriWinHexEditPageDown. fold LinesPopulated.
    rewrite (to_DWORD_small (Y (ClientSize HexEdit)))
      by (change (2 ^ 32) with 4294967296; lia).
    fold Height. rewrite (to_DWORD_small (ViewportTop HexEdit + Height)) by lia.
    replace (ViewportTop HexEdit + Height <? LinesPopulated) with false
      by (symmetry; apply Z.ltb_ge; lia).
    reflexivity.
Qed.

Lemma page_down_then_page_up_returns_witness :
  fst (YoriWinHexEditPageDown (ControlWith 1 0 (Some CountingBytes) 4096 4096)) = true
  /\ CursorOf (snd (YoriWinHexEditPageUp
                      (snd (YoriWinHexEditPageDown
                              (ControlWith 1 0 (Some CountingBytes) 4096 4096)))))
     = CursorOf (ControlWith 1 0 (Some CountingBytes) 4096 4096).
Proof.
  pose proof (page_down_then_page_up_returns
                (ControlWith 1 0 (Some CountingBytes) 4096 4096)) as H.
  cbv zeta in H.
  destruct H as (H & _); [simpl; lia | simpl; lia | simpl; lia | ].
  destruct H as (F & _ & _ & _ & _ & C & _);
    [vm_compute; reflexivity | vm_compute; reflexivity | ].
  split; assumption.
Defined.

(** X12: a scroll bar notification that moves the viewport takes the
    cursor along: after YoriWinHexEditNotifyScrollChange has changed the
    viewport top, the new top is at most the number of populated lines, the
    cursor line lies within the client area below it, and the control has
    been painted; the cursor column, the selection and the document are
    kept.  A notification that leaves the viewport top where it is leaves
    the whole control as it is. *)
Theorem scroll_change_takes_the_cursor_along
    (HexEdit : YORI_WIN_CTRL_HEX_EDIT) (ScrollValue : Z) :
  0 <= ScrollValue < 2 ^ 63 ->
  0 <= CursorLine HexEdit < 2 ^ 32 ->
  1 <= Y (ClientSize HexEdit) <= 32767 ->
  YoriWinHexEditLinesPopulated HexEdit + Y (ClientSize HexEdit) < 2 ^ 32 ->
  let After := YoriWinHexEditNotifyScrollChange HexEdit ScrollValue in
  (ViewportTop After = ViewportTop HexEdit -> After = HexEdit)
  /\ (ViewportTop After <> ViewportTop HexEdit ->
      0 <= ViewportTop After <= YoriWinHexEditLinesPopulated HexEdit
      /\ ViewportTop After <= CursorLine After
                           < ViewportTop After + Y (ClientSize After)
      /\ LastDirtyLine After < FirstDirtyLine After)
  /\ CursorOffset After = CursorOffset HexEdit
  /\ Selection After = Selection HexEdit
  /\ KeepsDocument HexEdit After.
Proof.
  intros HS HL HY HW After.
  pose proof (LinesPopulated_range HexEdit) as HLP.
  unfold After, YoriWinHexEditNotifyScrollChange.
  set (LinesPopulated := YoriWinHexEditLinesPopulated HexEdit) in *.
  clearbody LinesPopulated.
  change (2 ^ 16) with 65536. change (2 ^ 32) with 4294967296 in *.
  change (2 ^ 63) with 9223372036854775808 in *.
  rewrite (Z.mod_small (Y (ClientSize HexEdit)) 65536) by lia.
  rewrite (to_DWORDLONG_small (ScrollValue + Y (ClientSize HexEdit)))
    by (change (2 ^ 64) with 18446744073709551616; lia).
  set (NewViewportTop :=
         if LinesPopulated <? ScrollValue + Y (ClientSize HexEdit) then _ else _).
  assert (HN : NewViewportTop = ViewportTop HexEdit
               \/ 0 <= NewViewportTop <= LinesPopulated).
  { unfold NewViewportTop.
    destruct (LinesPopulated <? ScrollValue + Y (ClientSize HexEdit)) eqn:E1;
      [destruct (Y (ClientSize HexEdit) <=? LinesPopulated) eqn:E2
      | destruct (ScrollValue <? LinesPopulated) eqn:E2]; bool_hyps;
      try (right; lia); try (left; reflexivity).
    right. rewrite to_DWORD_small by (change (2 ^ 32) with 4294967296; lia). lia. }
  clearbody NewViewportTop. step.
  destruct (negb (NewViewportTop =? ViewportTop HexEdit)) eqn:EC; bool_hyps.
  - destruct HN as [HN | HN]; [contradiction | ].
    rewrite ExpandDirtyRange_eq. fields.
    rewrite (to_DWORD_small (NewViewportTop + Y (ClientSize HexEdit)))
      by (change (2 ^ 32) with 4294967296; lia).
    rewrite (to_DWORD_small (NewViewportTop + Y (ClientSize HexEdit) - 1))
      by (change (2 ^ 32) with 4294967296; lia).
    set (Scrolled := set_DirtyRange _ _ _).
    set (Dragged := if CursorLine HexEdit <? NewViewportTop then _ else _).
    assert (HD : ViewportTop Dragged = NewViewportTop
                 /\ NewViewportTop <= CursorLine Dragged
                                   < NewViewportTop + Y (ClientSize HexEdit)
                 /\ CursorOffset Dragged = CursorOffset HexEdit
                 /\ Selection Dragged = Selection HexEdit
                 /\ KeepsDocument HexEdit Dragged).
    { unfold Dragged, Scrolled, YoriWinHexEditSetCursorLocationInternal.
      destruct (CursorLine HexEdit <? NewViewportTop) eqn:E1;
        [ | destruct (NewViewportTop + Y (ClientSize HexEdit) <=? CursorLine HexEdit)
              eqn:E2]; fields; bool_hyps;
        (split; [reflexivity | split; [lia | repeat split]]). }
    clearbody Dragged. destruct HD as (T & C & O & S & D).
    destruct (Paint_document Dragged) as (DP & CP & TP & _).
    apply CursorOf_eq in CP. destruct CP as (CP1 & CP2).
    assert (ECS : ClientSize (YoriWinHexEditPaint Dragged) = ClientSize HexEdit).
    { pose proof (KeepsDocument_trans _ _ _ D DP) as DD.
      unfold KeepsDocument in DD. tauto. }
    split; [intros E; exfalso; rewrite TP, T in E; contradiction | ].
    split; [intros _; rewrite TP, T, CP1, ECS;
            split; [lia | split; [lia | apply Paint_empties]] | ].
    split; [congruence | ].
    split; [rewrite Paint_Selection; exact S | ].
    eapply KeepsDocument_trans; eassumption.
  - split; [reflexivity | ].
    split; [intros H; contradiction | ].
    split; [reflexivity | split; [reflexivity | apply KeepsDocument_refl]].
Qed.

Lemma scroll_change_takes_the_cursor_along_witness :
  ViewportTop (YoriWinHexEditNotifyScrollChange
                 (ControlWith 1 0 (Some CountingBytes) 4096 4096) 100) = 100
  /\ CursorLine (YoriWinHexEditNotifyScrollChange
                   (ControlWith 1 0 (Some CountingBytes) 4096 4096) 100) = 100
  /\ KeepsDocument (ControlWith 1 0 (Some CountingBytes) 4096 4096)
       (YoriWinHexEditNotifyScrollChange
          (ControlWith 1 0 (Some CountingBytes) 4096 4096) 100).
Proof.
  split; [reflexivity | split; [reflexivity | ]].
  apply (scroll_change_takes_the_cursor_along
           (ControlWith 1 0 (Some CountingBytes) 4096 4096) 100).
  - lia.
  - simpl. lia.
  - simpl. lia.
  - vm_compute. reflexivity.
Defined.

(** ** Buffer contents *)

Lemma EnsureBufferLength_content
    (Malloc : Z -> option memory) (HexEdit : YORI_WIN_CTRL_HEX_EDIT) (n i : Z) :
  0 <= n < 2 ^ 64 - 16384 ->
  fst (YoriWinHexEditEnsureBufferLength Malloc HexEdit n) = true ->
  0 <= i < BufferValid HexEdit ->
  deref (Buffer (snd (YoriWinHexEditEnsureBufferLength Malloc HexEdit n))) i
  = deref (Buffer HexEdit) i.
Proof.
  intros Hn Hok Hi. unfold YoriWinHexEditEnsureBufferLength in *.
  destruct (n <=? BufferAllocated HexEdit); [reflexivity | ].
  destruct (n <? BufferValid HexEdit) eqn:E1; [reflexivity | ].
  rewrite (to_DWORDLONG_small (n + 16384)) in * by lia.
  destruct (DWORD_MAX <=? n + 16384) eqn:E2; [reflexivity | ].
  destruct (Malloc (to_DWORD (n + 16384))); [ | reflexivity].
  cbn [fst snd]. fields. bool_hyps. unfold DWORD_MAX in *.
  replace (0 <? BufferValid HexEdit) with true by (symmetry; apply Z.ltb_lt; lia).
  cbn [deref]. unfold memmove.
  rewrite (to_DWORD_small (BufferValid HexEdit)) by lia.
  replace (0 <=? i) with true by (symmetry; apply Z.leb_le; lia).
  replace (i <? 0 + BufferValid HexEdit) with true by (symmetry; apply Z.ltb_lt; lia).
  cbn [andb]. f_equal. lia.
Qed.

(** The bytes of the buffer after space was inserted: the bytes before the
    offset stay, the space is zeroed and the bytes from the offset on move
    up. *)
Lemma InsertSpaceInBuffer_content
    (Malloc : Z -> option memory) (HexEdit : YORI_WIN_CTRL_HEX_EDIT)
    (BufferOffset BytesToInsert i : Z) :
  0 <= BufferOffset <= BufferValid HexEdit ->
  0 <= BytesToInsert ->
  BufferValid HexEdit + BytesToInsert < 2 ^ 64 - 16384 ->
  BufferValid HexEdit - BufferOffset <= DWORD_MAX ->
  fst (YoriWinHexEditInsertSpaceInBuffer Malloc HexEdit BufferOffset BytesToInsert)
  = true ->
  0 <= i < BufferValid HexEdit + BytesToInsert ->
  deref (Buffer (snd (YoriWinHexEditInsertSpaceInBuffer Malloc HexEdit
                        BufferOffset BytesToInsert))) i
  = if i <? BufferOffset then deref (Buffer HexEdit) i
    else if i <? BufferOffset + BytesToInsert then 0
    else deref (Buffer HexEdit) (i - BytesToInsert).
Proof.
  intros Hoff Hins Hsum Hmove Hok Hi.
  unfold YoriWinHexEditInsertSpaceInBuffer in *.
  replace (BufferValid HexEdit <? BufferOffset) with false in *
    by (symmetry; apply Z.ltb_ge; lia).
  rewrite (to_DWORDLONG_small (BufferValid HexEdit + BytesToInsert)) in * by lia.
  pose proof (EnsureBufferLength_BufferValid Malloc HexEdit
                (BufferValid HexEdit + BytesToInsert)) as HV.
  pose proof (fun j => EnsureBufferLength_content Malloc HexEdit
                         (BufferValid HexEdit + BytesToInsert) j ltac:(lia)) as HC.
  destruct (YoriWinHexEditEnsureBufferLength Malloc HexEdit
              (BufferValid HexEdit + BytesToInsert)) as [[|] Grown];
    cbn [fst snd] in *; [ | discriminate].
  rewrite HV in *.
  rewrite (to_DWORDLONG_small (BufferValid HexEdit - BufferOffset)) in *
    by (unfold DWORD_MAX in Hmove; lia).
  replace (DWORD_MAX <? BufferValid HexEdit - BufferOffset) with false in *
    by (symmetry; apply Z.ltb_ge; lia).
  cbn [fst snd]. fields. cbn [deref].
  rewrite (to_DWORDLONG_small (BufferOffset + BytesToInsert)) by lia.
  rewrite (to_DWORD_small (BufferValid HexEdit - BufferOffset))
    by (unfold DWORD_MAX in Hmove; change (2 ^ 32) with 4294967296; lia).
  unfold ZeroMemory, memmove.
  destruct (i <? BufferOffset) eqn:E1; bool_hyps.
  - replace (BufferOffset <=? i) with false by (symmetry; apply Z.leb_gt; lia).
    cbn [andb].
    destruct (0 <? BufferValid HexEdit - BufferOffset) eqn:E0; bool_hyps.
    + replace (BufferOffset + BytesToInsert <=? i) with false
        by (symmetry; apply Z.leb_gt; lia).
      cbn [andb]. apply HC; [reflexivity | lia].
    + apply HC; [reflexivity | lia].
  - replace (BufferOffset <=? i) with true by (symmetry; apply Z.leb_le; lia).
    destruct (i <? BufferOffset + BytesToInsert) eqn:E2; cbn [andb]; [reflexivity | ].
    bool_hyps.
    replace (0 <? BufferValid HexEdit - BufferOffset) with true
      by (symmetry; apply Z.ltb_lt; lia).
    replace (BufferOffset + BytesToInsert <=? i) with true
      by (symmetry; apply Z.leb_le; lia).
    replace (i <? BufferOffset + BytesToInsert + (BufferValid HexEdit - BufferOffset))
      with true by (symmetry; apply Z.ltb_lt; lia).
    cbn [andb].
    replace (i - (BufferOffset + BytesToInsert) + BufferOffset)
      with (i - BytesToInsert) by lia.
    apply HC; [reflexivity | lia].
Qed.

Lemma InsertData_inserted
    (Malloc : Z -> option memory) (HexEdit : YORI_WIN_CTRL_HEX_EDIT)
    (DataOffset : Z) (Data : memory) (Length : Z) :
  0 <= DataOffset < BufferValid HexEdit ->
  0 <= Length ->
  BufferValid HexEdit + Length < 2 ^ 32 ->
  fst (YoriWinHexEditInsertData Malloc HexEdit DataOffset Data Length) = true ->
  let After := snd (YoriWinHexEditInsertData Malloc HexEdit DataOffset Data Length) in
  BufferValid After = BufferValid HexEdit + Length
  /\ forall i, 0 <= i < BufferValid HexEdit + Length ->
       deref (Buffer After) i
       = if i <? DataOffset then deref (Buffer HexEdit) i
         else if i <? DataOffset + Length then Data (i - DataOffset)
         else deref (Buffer HexEdit) (i - Length).
Proof.
  intros Hoff Hlen Hsum Hok After. change (2 ^ 32) with 4294967296 in *.
  unfold After. unfold YoriWinHexEditInsertData in *.
  replace (BufferValid HexEdit <=? DataOffset) with false in *
    by (symmetry; apply Z.leb_gt; lia).
  rewrite (to_DWORD_small Length) in * by (change (2 ^ 32) with 4294967296; lia).
  pose proof (fun i => InsertSpaceInBuffer_content Malloc HexEdit DataOffset Length i
                         ltac:(lia) Hlen
                         ltac:(change (2 ^ 64) with 18446744073709551616; lia)
                         ltac:(unfold DWORD_MAX; lia)) as HC.
  assert (HV : fst (YoriWinHexEditInsertSpaceInBuffer Malloc HexEdit DataOffset Length)
               = true ->
               BufferValid (snd (YoriWinHexEditInsertSpaceInBuffer Malloc HexEdit
                                   DataOffset Length))
               = BufferValid HexEdit + Length).
  { intros Hsp. unfold YoriWinHexEditInsertSpaceInBuffer in *.
    replace (BufferValid HexEdit <? DataOffset) with false in *
      by (symmetry; apply Z.ltb_ge; lia).
    pose proof (EnsureBufferLength_BufferValid Malloc HexEdit
                  (to_DWORDLONG (BufferValid HexEdit + Length))) as HE.
    destruct (YoriWinHexEditEnsureBufferLength Malloc HexEdit
                (to_DWORDLONG (BufferValid HexEdit + Length))) as [[|] Grown];
      cbn [fst snd] in *; [ | discriminate].
    destruct (DWORD_MAX <? to_DWORDLONG (BufferValid Grown - DataOffset));
      cbn [fst snd] in *; [discriminate | ].
    fields. rewrite HE.
    apply to_DWORDLONG_small. change (2 ^ 64) with 18446744073709551616. lia. }
  destruct (YoriWinHexEditInsertSpaceInBuffer Malloc HexEdit DataOffset Length)
    as [[|] Spaced]; cbn [fst snd] in *; [ | discriminate].
  rewrite ExpandDirtyRange_eq. fields.
  split; [apply HV; reflexivity | ].
  intros i Hi. cbn [deref]. unfold memmove.
  destruct (i <? DataOffset) eqn:E1; bool_hyps.
  - replace (DataOffset <=? i) with false by (symmetry; apply Z.leb_gt; lia).
    cbn [andb]. rewrite HC by (try reflexivity; lia).
    replace (i <? DataOffset) with true by (symmetry; apply Z.ltb_lt; lia).
    reflexivity.
  - replace (DataOffset <=? i) with true by (symmetry; apply Z.leb_le; lia).
    destruct (i <? DataOffset + Length) eqn:E2; cbn [andb]; bool_hyps.
    + f_equal. lia.
    + rewrite HC by (try reflexivity; lia).
      replace (i <? DataOffset) with false by (symmetry; apply Z.ltb_ge; lia).
      replace (i <? DataOffset + Length) with false by (symmetry; apply Z.ltb_ge; lia).
      reflexivity.
Qed.

(** X13: YoriWinHexEditInsertData, when it succeeds at an offset within
    the valid data, makes the valid length grow by the length of the data
    and leaves the buffer holding the old bytes before the offset, then the
    data, then the old bytes from the offset on, for a buffer that stays
    below 4 GiB. *)
Theorem insert_data_places_the_bytes
    (Malloc : Z -> option memory) (HexEdit : YORI_WIN_CTRL_HEX_EDIT)
    (DataOffset : Z) (Data : memory) (Length : Z) :
  0 <= DataOffset < BufferValid HexEdit ->
  0 <= Length ->
  BufferValid HexEdit + Length < 2 ^ 32 ->
  fst (YoriWinHexEditInsertData Malloc HexEdit DataOffset Data Length) = true ->
  let After := snd (YoriWinHexEditInsertData Malloc HexEdit DataOffset Data Length) in
  BufferValid After = BufferValid HexEdit + Length
  /\ forall i, 0 <= i < BufferValid HexEdit + Length ->
       deref (Buffer After) i
       = if i <? DataOffset then deref (Buffer HexEdit) i
         else if i <? DataOffset + Length then Data (i - DataOffset)
         else deref (Buffer HexEdit) (i - Length).
Proof. exact (InsertData_inserted Malloc HexEdit DataOffset Data Length). Qed.

Lemma insert_data_places_the_bytes_witness :
  ValidBytes (snd (YoriWinHexEditInsertData MallocZeroed
                     (ControlWith 1 0 (Some CountingBytes) 4 4) 1
                     (fun i => 65 + i) 2))
  = [0; 65; 66; 1; 2; 3]
  /\ BufferValid (snd (YoriWinHexEditInsertData MallocZeroed
                         (ControlWith 1 0 (Some CountingBytes) 4 4) 1
                         (fun i => 65 + i) 2))
     = BufferValid (ControlWith 1 0 (Some CountingBytes) 4 4) + 2.
Proof.
  split; [vm_compute; reflexivity | ].
  apply (insert_data_places_the_bytes MallocZeroed
           (ControlWith 1 0 (Some CountingBytes) 4 4) 1 (fun i => 65 + i) 2).
  - simpl. lia.
  - lia.
  - simpl. lia.
  - vm_compute. reflexivity.
Defined.

(** X14: YoriWinHexEditDeleteData undoes YoriWinHexEditInsertData.  After
    a successful insertion of Length bytes at an offset within the valid
    data, deleting Length bytes at the same offset succeeds and gives back
    the valid length and every valid byte the buffer had before. *)
Theorem delete_data_undoes_insert_data
    (Malloc : Z -> option memory) (HexEdit : YORI_WIN_CTRL_HEX_EDIT)
    (DataOffset : Z) (Data : memory) (Length : Z) :
  0 <= DataOffset < BufferValid HexEdit ->
  0 <= Length ->
  BufferValid HexEdit + Length < 2 ^ 32 ->
  fst (YoriWinHexEditInsertData Malloc HexEdit DataOffset Data Length) = true ->
  let Inserted :=
    snd (YoriWinHexEditInsertData Malloc HexEdit DataOffset Data Length) in
  let Back := YoriWinHexEditDeleteData Inserted DataOffset Length in
  fst Back = true
  /\ BufferValid (snd Back) = BufferValid HexEdit
  /\ forall i, 0 <= i < BufferValid HexEdit ->
       deref (Buffer (snd Back)) i = deref (Buffer HexEdit) i.
Proof.
  intros Hoff Hlen Hsum Hok Inserted Back.
  destruct (InsertData_inserted Malloc HexEdit DataOffset Data Length
              Hoff Hlen Hsum Hok) as (HV & HC).
  fold Inserted in HV, HC. change (2 ^ 32) with 4294967296 in *.
  destruct (DeleteData_clamps Inserted DataOffset Length) as (F & V);
    try (change (2 ^ 64) with 18446744073709551616; lia).
  fold Back in F, V.
  split; [exact F | split; [rewrite V, HV; lia | ]].
  intros i Hi.
  pose proof (DeleteData_content Inserted DataOffset Length i) as HD.
  cbv zeta in HD. fold Back in HD.
  rewrite HD;
    try (change (2 ^ 64) with 18446744073709551616;
         change (2 ^ 32) with 4294967296; lia).
  replace (Z.min Length (BufferValid Inserted - DataOffset)) with Length by lia.
  destruct (i <? DataOffset) eqn:E; bool_hyps.
  - rewrite HC by lia.
    replace (i <? DataOffset) with true by (symmetry; apply Z.ltb_lt; lia).
    reflexivity.
  - rewrite HC by lia.
    replace (i + Length <? DataOffset) with false by (symmetry; apply Z.ltb_ge; lia).
    replace (i + Length <? DataOffset + Length) with false
      by (symmetry; apply Z.ltb_ge; lia).
    f_equal. lia.
Qed.

Lemma delete_data_undoes_insert_data_witness :
  fst (YoriWinHexEditDeleteData
         (snd (YoriWinHexEditInsertData MallocZeroed
                 (ControlWith 1 0 (Some CountingBytes) 4 4) 1 (fun i => 65 + i) 2))
         1 2) = true
  /\ BufferValid
       (snd (YoriWinHexEditDeleteData
               (snd (YoriWinHexEditInsertData MallocZeroed
                       (ControlWith 1 0 (Some CountingBytes) 4 4) 1
                       (fun i => 65 + i) 2))
               1 2))
     = BufferValid (ControlWith 1 0 (Some CountingBytes) 4 4).
Proof.
  pose proof (delete_data_undoes_insert_data MallocZeroed
                (ControlWith 1 0 (Some CountingBytes) 4 4) 1 (fun i => 65 + i) 2) as H.
  cbv zeta in H.
  destruct H as (F & V & _);
    [simpl; lia | lia | simpl; lia | vm_compute; reflexivity | ].
  split; assumption.
Defined.

(** X15: YoriWinHexEditReplaceData, for a range that lies within the valid
    data, returns TRUE, writes the data over the range and changes no other
    byte of the buffer and neither length. *)
Theorem replace_data_overwrites_the_range
    (HexEdit : YORI_WIN_CTRL_HEX_EDIT) (DataOffset : Z) (Data : memory) (Length : Z) :
  0 <= DataOffset ->
  0 <= Length < 2 ^ 32 ->
  DataOffset + Length <= BufferValid HexEdit ->
  BufferValid HexEdit < 2 ^ 64 ->
  let Result := YoriWinHexEditReplaceData HexEdit DataOffset Data Length in
  fst Result = true
  /\ BufferValid (snd Result) = BufferValid HexEdit
  /\ BufferAllocated (snd Result) = BufferAllocated HexEdit
  /\ forall i,
       deref (Buffer (snd Result)) i
       = if (DataOffset <=? i) && (i <? DataOffset + Length)
         then Data (i - DataOffset)
         else deref (Buffer HexEdit) i.
Proof.
  intros Hoff Hlen Hfit Hv Result. unfold Result, YoriWinHexEditReplaceData.
  rewrite (to_DWORDLONG_small (DataOffset + Length)) by lia.
  replace (BufferValid HexEdit <? DataOffset + Length) with false
    by (symmetry; apply Z.ltb_ge; lia).
  cbn [fst snd]. rewrite ExpandDirtyRange_eq. fields.
  rewrite (to_DWORD_small Length) by lia.
  split; [reflexivity | split; [reflexivity | split; [reflexivity | ]]].
  intros i. cbn [deref]. unfold memmove.
  destruct ((DataOffset <=? i) && (i <? DataOffset + Length)); [f_equal; lia | reflexivity].
Qed.

Lemma replace_data_overwrites_the_range_witness :
  ValidBytes (snd (YoriWinHexEditReplaceData
                     (ControlWith 1 0 (Some CountingBytes) 4 4) 1 (fun i => 65 + i) 2))
  = [0; 65; 66; 3]
  /\ fst (YoriWinHexEditReplaceData
            (ControlWith 1 0 (Some CountingBytes) 4 4) 1 (fun i => 65 + i) 2) = true.
Proof.
  split; [vm_compute; reflexivity | ].
  apply (replace_data_overwrites_the_range
           (ControlWith 1 0 (Some CountingBytes) 4 4) 1 (fun i => 65 + i) 2).
  - lia.
  - lia.
  - simpl. lia.
  - simpl. lia.
Defined.

(** ** Editing at the cursor *)

Lemma nibble_write_check (Old Nibble : Z) :
  0 <= Old < 256 -> 0 <= Nibble < 16 -> NibbleWriteCheck Old Nibble = true.
Proof.
  intros HO HN. revert Nibble HN. apply (forallb_Z_range _ 16).
  revert Old HO. apply (forallb_Z_range _ 256).
  vm_compute. reflexivity.
Qed.

Lemma WriteNibble_at (m : memory) (Index Shift Nibble i : Z) :
  0 <= m Index < 256 -> 0 <= Nibble < 16 -> Shift = 0 \/ Shift = 4 ->
  WriteNibble m Index Shift Nibble i
  = if i =? Index then ReplaceNibble (m Index) Shift Nibble else m i.
Proof.
  intros HO HN HS. pose proof (nibble_write_check (m Index) Nibble HO HN) as H.
  unfold NibbleWriteCheck in H. bool_hyps.
  unfold WriteNibble, store in *. rewrite Z.eqb_refl in *.
  destruct (i =? Index); [ | reflexivity].
  destruct HS; subst Shift; assumption.
Qed.

Lemma TypedNibble_range (Char Nibble : Z) :
  TypedNibble Char = Some Nibble -> 0 <= Nibble < 16.
Proof.
  unfold TypedNibble, NibbleOfInputChar, to_UCHAR.
  repeat break_if; intros H; inversion H; subst; bool_hyps;
    Z.div_mod_to_equations; lia.
Qed.

(** What the cell under the cursor is, when the cursor location reads as
    [(AsChar, BufferOffset, Shift)]. *)
Lemma cursor_cell_facts
    (HexEdit : YORI_WIN_CTRL_HEX_EDIT) (AsChar : bool) (BufferOffset Shift : Z) :
  Configured HexEdit ->
  0 <= CursorLine HexEdit < 2 ^ 32 ->
  0 <= CursorOffset HexEdit < 2 ^ 32 ->
  YoriWinHexEditGetCursorLocation HexEdit = Some (AsChar, BufferOffset, Shift) ->
  let Cell :=
    YoriWinHexEditCellType HexEdit (CursorLine HexEdit) (CursorOffset HexEdit) in
  CellType Cell = (if AsChar then YoriWinHexEditCellTypeCharValue
                   else YoriWinHexEditCellTypeHexDigit)
  /\ BufferOffsetOfCell HexEdit (CursorLine HexEdit) Cell = BufferOffset
  /\ BitShift Cell = Shift
  /\ (0 <= BufferValid HexEdit <= 2 ^ 36 - 16 ->
      BeyondBufferEnd Cell = (BufferValid HexEdit <=? BufferOffset + Shift / 8))
  /\ 0 <= BufferOffset < 2 ^ 36
  /\ 0 <= Shift / 8 < 8
  /\ (if AsChar then Shift = 0
      else BufferOffset mod BytesPerWord HexEdit = 0
           /\ 0 <= Shift <= BytesPerWord HexEdit * 8 - 4
           /\ Shift mod 4 = 0)
  /\ YoriWinHexEditCellFromHexBufferOffset HexEdit BufferOffset Shift
     = (if AsChar
        then YoriWinHexEditCellFromHexBufferOffset HexEdit BufferOffset Shift
        else CursorOf HexEdit).
Proof.
  intros HC HL Hc HG Cell.
  destruct (cursor_location_facts HexEdit AsChar BufferOffset Shift HC HL Hc HG)
    as (b & Hb & HB & Hbo & Hsh & Hk & Hshape & Hfrom).
  fold Cell in Hbo, Hsh, Hk.
  pose proof HC as (HBL & HW & _).
  assert (HO : BufferOffsetOfCell HexEdit (CursorLine HexEdit) Cell = BufferOffset).
  { rewrite HB. apply BufferOffsetOfCell_cursor; assumption. }
  destruct (offset_of_line_and_byte (CursorLine HexEdit) b HL Hb) as (_ & _ & _ & HR).
  assert (HBey : 0 <= BufferValid HexEdit <= 2 ^ 36 - 16 ->
                 (CellType Cell = YoriWinHexEditCellTypeHexDigit ->
                  BeyondBufferEnd Cell
                  = (BufferValid HexEdit <=? BufferOffset + Shift / 8))
                 /\ (CellType Cell = YoriWinHexEditCellTypeCharValue ->
                     BeyondBufferEnd Cell = (BufferValid HexEdit <=? BufferOffset))).
  { intros HV.
    destruct (BeyondBufferEnd_cell HexEdit (CursorLine HexEdit) (CursorOffset HexEdit)
                HC HL Hc HV) as [Bhex Bchar].
    fold Cell in Bhex, Bchar. rewrite HO, Hsh in Bhex. rewrite HO in Bchar.
    split; assumption. }
  split; [exact Hk | split; [exact HO | split; [exact Hsh | ]]].
  destruct AsChar.
  - rewrite Hshape. change (0 / 8) with 0. rewrite Z.add_0_r.
    split; [intros HV; exact (proj2 (HBey HV) Hk) | ].
    split; [lia | split; [lia | split; reflexivity]].
  - destruct Hshape as (S1 & S2 & S3 & S4).
    assert (0 <= Shift / 8 < 8).
    { simpl in HW. Z.div_mod_to_equations. lia. }
    split; [intros HV; exact (proj1 (HBey HV) Hk) | ].
    split; [lia | split; [assumption | ]].
    split.
    + split; [ | split; assumption].
      rewrite HB. apply aligned_on_line; assumption.
    + rewrite HB. apply (Hfrom (CursorLine HexEdit) HL).
Qed.

(** The type of a display cell, its byte and its nibble depend on the
    layout only, not on the length of the data. *)
Lemma CellType_layout (a b : YORI_WIN_CTRL_HEX_EDIT) (Line Col : Z) :
  SameLayout a b ->
  CellType (YoriWinHexEditCellType b Line Col)
  = CellType (YoriWinHexEditCellType a Line Col)
  /\ ByteOffset (YoriWinHexEditCellType b Line Col)
     = ByteOffset (YoriWinHexEditCellType a Line Col)
  /\ BitShift (YoriWinHexEditCellType b Line Col)
     = BitShift (YoriWinHexEditCellType a Line Col).
Proof.
  intros (H1 & H2 & H3).
  unfold YoriWinHexEditCellType, YoriWinHexEditOffsetSizeInCells,
    YoriWinHexEditGetCellsPerWord.
  rewrite H1, H2, H3. cbv zeta.
  repeat match goal with
         | |- context [CellType (if ?c then _ else _)] => destruct c
         end;
    cbn [CellType ByteOffset BitShift]; repeat split; reflexivity.
Qed.

Lemma CellFrom_layout (a b : YORI_WIN_CTRL_HEX_EDIT) (BufferOffset Shift : Z) :
  SameLayout a b ->
  YoriWinHexEditCellFromHexBufferOffset b BufferOffset Shift
  = YoriWinHexEditCellFromHexBufferOffset a BufferOffset Shift
  /\ YoriWinHexEditCellFromCharBufferOffset b BufferOffset
     = YoriWinHexEditCellFromCharBufferOffset a BufferOffset.
Proof.
  intros (H2 & H3 & H4).
  unfold YoriWinHexEditCellFromHexBufferOffset, YoriWinHexEditCellFromCharBufferOffset,
    YoriWinHexEditGetCellIndexForBitShift,
    YoriWinHexEditOffsetSizeInCells, YoriWinHexEditGetCellsPerWord.
  rewrite H2, H3, H4. split; reflexivity.
Qed.

Lemma GetCursorLocation_layout
    (Before After : YORI_WIN_CTRL_HEX_EDIT) (LineCell : Z * Z)
    (AsChar : bool) (BufferOffset Shift : Z) :
  SameLayout Before After ->
  CursorOf After = LineCell ->
  RoundTripsTo Before LineCell
    (if AsChar then YoriWinHexEditCellTypeCharValue
     else YoriWinHexEditCellTypeHexDigit) BufferOffset Shift ->
  YoriWinHexEditGetCursorLocation After = Some (AsChar, BufferOffset, Shift).
Proof.
  intros HG HC (H1 & H2 & H3).
  unfold YoriWinHexEditGetCursorLocation.
  unfold CursorOf in HC. destruct LineCell as [Line Col].
  injection HC as E1 E2. rewrite E1, E2. cbn [fst snd] in *.
  destruct (CellType_layout Before After Line Col HG) as (L1 & L2 & L3).
  unfold BufferOffsetOfCell in *. destruct HG as (HB & _). rewrite HB.
  rewrite L1, L2, L3, H1, H2, H3. destruct AsChar; reflexivity.
Qed.

Lemma EditBufferOffsetOf_eq (BufferOffset Shift : Z) :
  0 <= BufferOffset < 2 ^ 36 -> 0 <= Shift / 8 < 8 -> 0 <= Shift ->
  EditBufferOffsetOf BufferOffset Shift = BufferOffset + Shift / 8
  /\ EditBitShiftOf Shift = Shift mod 8.
Proof.
  intros HB H8 HS. unfold EditBufferOffsetOf, EditBitShiftOf.
  destruct (8 <=? Shift) eqn:E; bool_hyps.
  - split; [ | reflexivity].
    apply to_DWORDLONG_small. change (2 ^ 36) with 68719476736 in HB.
    change (2 ^ 64) with 18446744073709551616. lia.
  - rewrite Z.div_small by lia. rewrite Z.mod_small by lia. split; lia.
Qed.

(** Stepping to the next cell does not depend on the contents of the
    buffer. *)
Lemma NextCellSameType_after_edit
    (HexEdit Edited : YORI_WIN_CTRL_HEX_EDIT) (AsChar : bool) (BufferOffset Shift : Z) :
  Configured HexEdit ->
  SameLayout HexEdit Edited ->
  0 <= BufferOffset < 2 ^ 36 ->
  (if AsChar then Shift = 0
   else BufferOffset mod BytesPerWord HexEdit = 0
        /\ 0 <= Shift <= BytesPerWord HexEdit * 8 - 4
        /\ Shift mod 4 = 0) ->
  let Next := LocationToTheRight HexEdit AsChar BufferOffset Shift in
  YoriWinHexEditNextCellSameType Edited
    (if AsChar then YoriWinHexEditCellTypeCharValue
     else YoriWinHexEditCellTypeHexDigit) BufferOffset Shift
  = Some (if AsChar
          then YoriWinHexEditCellFromCharBufferOffset HexEdit (fst Next)
          else YoriWinHexEditCellFromHexBufferOffset HexEdit (fst Next) (snd Next)).
Proof.
  intros HC HG HB Hshape Next.
  pose proof HG as (_ & GW & _).
  pose proof HC as (_ & HW & _).
  destruct (CellFrom_layout HexEdit Edited
              (fst Next) (snd Next) HG) as [LH LC].
  destruct (NextCellSameType_location Edited AsChar BufferOffset Shift) as (E & _).
  - rewrite GW. exact HW.
  - exact HB.
  - rewrite GW. exact Hshape.
  - cbv zeta in E. rewrite E. unfold Next, LocationToTheRight. rewrite GW.
    destruct AsChar.
    + exact (f_equal Some LC).
    + exact (f_equal Some LH).
Qed.

(** The control after a character was typed in overwrite mode on a cell
    within the data. *)
Lemma AddChar_overwrite_result
    (Malloc : Z -> option memory) (HexEdit : YORI_WIN_CTRL_HEX_EDIT)
    (AsChar : bool) (BufferOffset Shift Char NewByte : Z) :
  Configured HexEdit ->
  0 <= CursorLine HexEdit < 2 ^ 32 ->
  0 <= CursorOffset HexEdit < 2 ^ 32 ->
  YoriWinHexEditGetCursorLocation HexEdit = Some (AsChar, BufferOffset, Shift) ->
  InsertMode HexEdit = false ->
  BufferOffset + Shift / 8 < BufferValid HexEdit <= 2 ^ 36 - 16 ->
  0 <= deref (Buffer HexEdit) (BufferOffset + Shift / 8) < 256 ->
  ByteAfterTyping AsChar (deref (Buffer HexEdit) (BufferOffset + Shift / 8)) Shift Char
  = Some NewByte ->
  let Next := LocationToTheRight HexEdit AsChar BufferOffset Shift in
  exists NewMem Line Col,
    YoriWinHexEditAddChar Malloc HexEdit Char
    = (true,
       YoriWinHexEditSetCursorLocationInternal
         (set_UserModified true
            (YoriWinHexEditExpandDirtyRange
               (set_Buffer (Some NewMem) HexEdit) (CursorLine HexEdit) Line))
         Col Line)
    /\ (Line, Col)
       = (if AsChar
          then YoriWinHexEditCellFromCharBufferOffset HexEdit (fst Next)
          else YoriWinHexEditCellFromHexBufferOffset HexEdit (fst Next) (snd Next))
    /\ (forall i,
          NewMem i = if i =? BufferOffset + Shift / 8 then NewByte
                     else deref (Buffer HexEdit) i).
Proof.
  intros HC HL Hc HG HI HV HOld HNew Next.
  destruct (cursor_cell_facts HexEdit AsChar BufferOffset Shift HC HL Hc HG)
    as (Hk & HO & Hsh & Hbey & HR & HS8 & Hshape & _).
  specialize (Hbey ltac:(lia)).
  replace (BufferValid HexEdit <=? BufferOffset + Shift / 8) with false in Hbey
    by (symmetry; apply Z.leb_gt; lia).
  assert (HS0 : 0 <= Shift) by (destruct AsChar; lia).
  destruct (EditBufferOffsetOf_eq BufferOffset Shift HR HS8 HS0) as [EO ES].
  set (Cell := YoriWinHexEditCellType HexEdit (CursorLine HexEdit)
                 (CursorOffset HexEdit)) in *.
  assert (HN : forall m,
             YoriWinHexEditNextCellSameType (set_Buffer (Some m) HexEdit)
               (if AsChar then YoriWinHexEditCellTypeCharValue
                else YoriWinHexEditCellTypeHexDigit) BufferOffset Shift
             = Some (if AsChar
                     then YoriWinHexEditCellFromCharBufferOffset HexEdit (fst Next)
                     else YoriWinHexEditCellFromHexBufferOffset HexEdit
                            (fst Next) (snd Next))).
  { intros m. apply NextCellSameType_after_edit; try assumption.
    unfold SameLayout. fields. repeat split; reflexivity. }
  unfold YoriWinHexEditAddChar. rewrite HI. cbn [negb].
  unfold YoriWinHexEditOverwriteCell. fold Cell. rewrite HO, Hsh, Hk, Hbey, EO, ES.
  unfold ByteAfterTyping in HNew.
  destruct AsChar.
  - step. rewrite HN.
    destruct (YoriWinHexEditCellFromCharBufferOffset HexEdit (fst Next))
      as [Line Col] eqn:EN.
    step.
    exists (store (deref (Buffer HexEdit)) (BufferOffset + Shift / 8)
              (YoriWinHexEditInputCharToByte Char)), Line, Col.
    split; [reflexivity | split; [reflexivity | ]].
    intros i. unfold store. inversion HNew. reflexivity.
  - step. unfold TypedNibble in HNew.
    destruct (NibbleOfInputChar (to_UCHAR (YoriLibUpcaseChar
                                             (YoriWinHexEditInputCharToByte Char))))
      as [Nibble | ] eqn:ET; [ | discriminate].
    step. rewrite HN.
    destruct (YoriWinHexEditCellFromHexBufferOffset HexEdit (fst Next) (snd Next))
      as [Line Col] eqn:EN.
    step.
    exists (WriteNibble (deref (Buffer HexEdit)) (BufferOffset + Shift / 8)
              (Shift mod 8) Nibble), Line, Col.
    split; [reflexivity | split; [reflexivity | ]].
    intros i. inversion HNew.
    apply WriteNibble_at; [exact HOld | exact (TypedNibble_range Char Nibble ET) | ].
    destruct Hshape as (_ & S2 & S3). Z.div_mod_to_equations. lia.
Qed.

(** X16: typing in overwrite mode.  With the cursor on a cell within the
    valid data, YoriWinHexEditAddChar in overwrite mode returns TRUE,
    replaces the byte under the cursor by the character typed (character
    area) or replaces the nibble under the cursor by the hex digit typed
    (hex area), changes no other byte and no length, marks the control as
    modified and moves the cursor one cell to the right. *)
Theorem typing_in_overwrite_mode_writes_the_cell
    (Malloc : Z -> option memory) (HexEdit : YORI_WIN_CTRL_HEX_EDIT)
    (AsChar : bool) (BufferOffset Shift Char NewByte : Z) :
  Configured HexEdit ->
  0 <= CursorLine HexEdit < 2 ^ 32 ->
  0 <= CursorOffset HexEdit < 2 ^ 32 ->
  YoriWinHexEditGetCursorLocation HexEdit = Some (AsChar, BufferOffset, Shift) ->
  InsertMode HexEdit = false ->
  BufferOffset + Shift / 8 < BufferValid HexEdit <= 2 ^ 36 - 16 ->
  0 <= deref (Buffer HexEdit) (BufferOffset + Shift / 8) < 256 ->
  ByteAfterTyping AsChar (deref (Buffer HexEdit) (BufferOffset + Shift / 8)) Shift Char
  = Some NewByte ->
  let Result := YoriWinHexEditAddChar Malloc HexEdit Char in
  fst Result = true
  /\ BufferValid (snd Result) = BufferValid HexEdit
  /\ BufferAllocated (snd Result) = BufferAllocated HexEdit
  /\ UserModified (snd Result) = true
  /\ (forall i,
        deref (Buffer (snd Result)) i
        = if i =? BufferOffset + Shift / 8 then NewByte
          else deref (Buffer HexEdit) i)
  /\ YoriWinHexEditGetCursorLocation (snd Result)
     = Some (AsChar,
             fst (LocationToTheRight HexEdit AsChar BufferOffset Shift),
             snd (LocationToTheRight HexEdit AsChar BufferOffset Shift)).
Proof.
  intros HC HL Hc HG HI HV HOld HNew Result.
  destruct (AddChar_overwrite_result Malloc HexEdit AsChar BufferOffset Shift Char
              NewByte HC HL Hc HG HI HV HOld HNew)
    as (NewMem & Line & Col & ER & EN & EM).
  destruct (cursor_cell_facts HexEdit AsChar BufferOffset Shift HC HL Hc HG)
    as (_ & _ & _ & _ & HR & HS8 & Hshape & _).
  unfold Result. rewrite ER. cbn [fst snd].
  unfold YoriWinHexEditSetCursorLocationInternal. rewrite ExpandDirtyRange_eq.
  split; [reflexivity | ]. fields.
  split; [reflexivity | split; [reflexivity | split; [reflexivity | ]]].
  split; [exact EM | ].
  pose proof HC as (_ & HW & _).
  destruct (NextCellSameType_location HexEdit AsChar BufferOffset Shift HW HR Hshape)
    as (_ & NR & NS).
  cbv zeta in NR, NS.
  assert (NB : fst (LocationToTheRight HexEdit AsChar BufferOffset Shift)
               <= BufferOffset + 8).
  { unfold LocationToTheRight. simpl in HW.
    destruct AsChar; [cbn [fst]; lia | ].
    destruct (4 <=? Shift); cbn [fst]; lia. }
  pose proof (location_round_trip HexEdit AsChar
                (fst (LocationToTheRight HexEdit AsChar BufferOffset Shift))
                (snd (LocationToTheRight HexEdit AsChar BufferOffset Shift))
                HC ltac:(lia) NS) as RT.
  rewrite <- EN in RT.
  assert (SG : SameGeometry HexEdit
                 (set_Cursor Line Col
                    (set_UserModified true
                       (set_DirtyRange
                          (Z.min (CursorLine HexEdit) (FirstDirtyLine HexEdit))
                          (Z.max Line (LastDirtyLine HexEdit))
                          (set_Buffer (Some NewMem) HexEdit))))).
  { unfold SameGeometry. fields. repeat split; reflexivity. }
  destruct AsChar;
    exact (GetCursorLocation_at HexEdit _ (Line, Col) _ _ _ SG eq_refl RT).
Qed.

Lemma typing_in_overwrite_mode_writes_the_cell_witness :
  YoriWinHexEditGetCursorLocation CursorOnNibble = Some (false, 20, 0)
  /\ deref (Buffer (snd (YoriWinHexEditAddChar MallocFails CursorOnNibble 97))) 20
     = 26
  /\ YoriWinHexEditGetCursorLocation
       (snd (YoriWinHexEditAddChar MallocFails CursorOnNibble 97))
     = Some (false, 21, 4).
Proof.
  split; [reflexivity | ].
  split; [vm_compute; reflexivity | ].
  refine (proj2 (proj2 (proj2 (proj2 (proj2
            (typing_in_overwrite_mode_writes_the_cell MallocFails CursorOnNibble
               false 20 0 97 26 _ _ _ _ _ _ _ _)))))).
  - unfold Configured. simpl. intuition lia.
  - vm_compute. intuition discriminate.
  - vm_compute. intuition discriminate.
  - reflexivity.
  - reflexivity.
  - vm_compute. intuition discriminate.
  - vm_compute. intuition discriminate.
  - reflexivity.
Defined.

(** ** Typing in insert mode and the delete key *)

Lemma InsertSpaceInBuffer_layout
    (Malloc : Z -> option memory) (HexEdit : YORI_WIN_CTRL_HEX_EDIT)
    (BufferOffset BytesToInsert : Z) :
  SameLayout HexEdit
    (snd (YoriWinHexEditInsertSpaceInBuffer Malloc HexEdit BufferOffset BytesToInsert)).
Proof.
  assert (HE : forall n,
             SameLayout HexEdit (snd (YoriWinHexEditEnsureBufferLength Malloc HexEdit n))).
  { intros n. unfold SameLayout, YoriWinHexEditEnsureBufferLength.
    destruct (n <=? BufferAllocated HexEdit); [repeat split; reflexivity | ].
    destruct (n <? BufferValid HexEdit); [repeat split; reflexivity | ].
    destruct (DWORD_MAX <=? to_DWORDLONG (n + 16384)); [repeat split; reflexivity | ].
    destruct (Malloc (to_DWORD (to_DWORDLONG (n + 16384))));
      fields; repeat split; reflexivity. }
  unfold YoriWinHexEditInsertSpaceInBuffer.
  destruct (BufferValid HexEdit <? BufferOffset); [repeat split; reflexivity | ].
  specialize (HE (to_DWORDLONG (BufferValid HexEdit + BytesToInsert))).
  destruct (YoriWinHexEditEnsureBufferLength Malloc HexEdit
              (to_DWORDLONG (BufferValid HexEdit + BytesToInsert))) as [[|] Grown];
    cbn [fst snd] in *; [ | exact HE].
  destruct (DWORD_MAX <? to_DWORDLONG (BufferValid Grown - BufferOffset));
    [exact HE | ].
  unfold SameLayout in *. fields. exact HE.
Qed.

Lemma InsertSpaceInBuffer_valid
    (Malloc : Z -> option memory) (HexEdit : YORI_WIN_CTRL_HEX_EDIT)
    (BufferOffset BytesToInsert : Z) :
  0 <= BufferValid HexEdit + BytesToInsert < 2 ^ 64 ->
  fst (YoriWinHexEditInsertSpaceInBuffer Malloc HexEdit BufferOffset BytesToInsert)
  = true ->
  BufferValid (snd (YoriWinHexEditInsertSpaceInBuffer Malloc HexEdit
                      BufferOffset BytesToInsert))
  = BufferValid HexEdit + BytesToInsert.
Proof.
  intros Hsum Hok. unfold YoriWinHexEditInsertSpaceInBuffer in *.
  destruct (BufferValid HexEdit <? BufferOffset); [discriminate | ].
  pose proof (EnsureBufferLength_BufferValid Malloc HexEdit
                (to_DWORDLONG (BufferValid HexEdit + BytesToInsert))) as HE.
  destruct (YoriWinHexEditEnsureBufferLength Malloc HexEdit
              (to_DWORDLONG (BufferValid HexEdit + BytesToInsert))) as [[|] Grown];
    cbn [fst snd] in *; [ | discriminate].
  destruct (DWORD_MAX <? to_DWORDLONG (BufferValid Grown - BufferOffset));
    cbn [fst snd] in *; [discriminate | ].
  fields. rewrite HE. apply to_DWORDLONG_small. lia.
Qed.

(** The control after a character was typed in insert mode where a new
    byte or word is made: on a character cell, or on the first digit of a
    word. *)
Lemma AddChar_insert_result
    (Malloc : Z -> option memory) (HexEdit : YORI_WIN_CTRL_HEX_EDIT)
    (AsChar : bool) (BufferOffset Shift Char NewByte : Z) :
  Configured HexEdit ->
  0 <= CursorLine HexEdit < 2 ^ 32 ->
  0 <= CursorOffset HexEdit < 2 ^ 32 ->
  YoriWinHexEditGetCursorLocation HexEdit = Some (AsChar, BufferOffset, Shift) ->
  InsertMode HexEdit = true ->
  BufferOffset <= BufferValid HexEdit < 2 ^ 32 ->
  (AsChar = false -> Shift = BytesPerWord HexEdit * 8 - 4) ->
  ByteAfterTyping AsChar 0 Shift Char = Some NewByte ->
  let Count := if AsChar then 1 else BytesPerWord HexEdit in
  let Spaced := YoriWinHexEditInsertSpaceInBuffer Malloc HexEdit BufferOffset Count in
  fst Spaced = true ->
  let Next := LocationToTheRight HexEdit AsChar BufferOffset Shift in
  exists NewMem Line Col,
    YoriWinHexEditAddChar Malloc HexEdit Char
    = (true,
       YoriWinHexEditSetCursorLocationInternal
         (YoriWinHexEditExpandDirtyRange
            (set_UserModified true (set_Buffer (Some NewMem) (snd Spaced)))
            (CursorLine HexEdit) DWORD_MAX)
         Col Line)
    /\ (Line, Col)
       = (if AsChar
          then YoriWinHexEditCellFromCharBufferOffset HexEdit (fst Next)
          else YoriWinHexEditCellFromHexBufferOffset HexEdit (fst Next) (snd Next))
    /\ (forall i, 0 <= i < BufferValid HexEdit + Count ->
          NewMem i = if i <? BufferOffset then deref (Buffer HexEdit) i
                     else if i <? BufferOffset + Count
                     then (if i =? BufferOffset + Shift / 8 then NewByte else 0)
                     else deref (Buffer HexEdit) (i - Count)).
Proof.
  intros HC HL Hc HG HI HV HFirst HNew Count Spaced HOk Next.
  destruct (cursor_cell_facts HexEdit AsChar BufferOffset Shift HC HL Hc HG)
    as (Hk & HO & Hsh & _ & HR & HS8 & Hshape & _).
  assert (HS0 : 0 <= Shift) by (destruct AsChar; lia).
  destruct (EditBufferOffsetOf_eq BufferOffset Shift HR HS8 HS0) as [EO ES].
  pose proof HC as (_ & HW & _).
  assert (HCount : 1 <= Count <= 8) by (unfold Count; simpl in HW; destruct AsChar; lia).
  set (Cell := YoriWinHexEditCellType HexEdit (CursorLine HexEdit)
                 (CursorOffset HexEdit)) in *.
  assert (HN : forall m,
             YoriWinHexEditNextCellSameType (set_Buffer (Some m) (snd Spaced))
               (if AsChar then YoriWinHexEditCellTypeCharValue
                else YoriWinHexEditCellTypeHexDigit) BufferOffset Shift
             = Some (if AsChar
                     then YoriWinHexEditCellFromCharBufferOffset HexEdit (fst Next)
                     else YoriWinHexEditCellFromHexBufferOffset HexEdit
                            (fst Next) (snd Next))).
  { intros m. apply NextCellSameType_after_edit; try assumption.
    destruct (InsertSpaceInBuffer_layout Malloc HexEdit BufferOffset Count)
      as (L1 & L2 & L3).
    unfold SameLayout. fields. repeat split; assumption. }
  pose proof (fun i => InsertSpaceInBuffer_content Malloc HexEdit BufferOffset Count i
                         ltac:(lia) ltac:(lia)
                         ltac:(change (2 ^ 32) with 4294967296 in HV;
                               change (2 ^ 64) with 18446744073709551616; lia)
                         ltac:(unfold DWORD_MAX;
                               change (2 ^ 32) with 4294967296 in HV; lia)
                         HOk) as HCont.
  fold Spaced in HCont.
  unfold YoriWinHexEditAddChar. rewrite HI. cbn [negb].
  unfold YoriWinHexEditInsertCell. fold Cell. rewrite HO, Hsh, Hk, EO, ES.
  replace (BeyondBufferEnd Cell && (BufferValid HexEdit <? BufferOffset)) with false
    by (symmetry; apply andb_false_iff; right; apply Z.ltb_ge; lia).
  unfold ByteAfterTyping in HNew. step.
  destruct AsChar.
  - assert (Shift / 8 = 0) as Z8 by (rewrite Hshape; reflexivity).
    rewrite Z8, Z.add_0_r in *. unfold Count in *. fold Spaced.
    destruct Spaced as [[|] After] eqn:ES'; cbn [fst snd] in *; [ | discriminate].
    step. rewrite HN.
    destruct (YoriWinHexEditCellFromCharBufferOffset HexEdit (fst Next))
      as [Line Col] eqn:EN.
    step.
    exists (store (deref (Buffer After)) BufferOffset
              (YoriWinHexEditInputCharToByte Char)), Line, Col.
    split; [reflexivity | split; [reflexivity | ]].
    intros i Hi. unfold store. inversion HNew as [HB]. rewrite HB.
    rewrite HCont by exact Hi.
    destruct (i =? BufferOffset) eqn:E; bool_hyps.
    + replace (i <? BufferOffset) with false by (symmetry; apply Z.ltb_ge; lia).
      replace (i <? BufferOffset + 1) with true by (symmetry; apply Z.ltb_lt; lia).
      reflexivity.
    + destruct (i <? BufferOffset); [reflexivity | ].
      destruct (i <? BufferOffset + 1) eqn:E2; [bool_hyps; lia | reflexivity].
  - specialize (HFirst eq_refl). unfold TypedNibble in HNew.
    destruct (NibbleOfInputChar (to_UCHAR (YoriLibUpcaseChar
                                             (YoriWinHexEditInputCharToByte Char))))
      as [Nibble | ] eqn:ET; [ | discriminate].
    step.
    replace (Shift =? to_DWORD (BytesPerWord HexEdit * 8 - 4)) with true
      by (symmetry; apply Z.eqb_eq; rewrite to_DWORD_small;
          [exact HFirst | simpl in HW; change (2 ^ 32) with 4294967296; lia]).
    unfold Count in *. fold Spaced.
    destruct Spaced as [[|] After] eqn:ES'; cbn [fst snd] in *; [ | discriminate].
    step. rewrite HN.
    destruct (YoriWinHexEditCellFromHexBufferOffset HexEdit (fst Next) (snd Next))
      as [Line Col] eqn:EN.
    step.
    exists (WriteNibble (deref (Buffer After)) (BufferOffset + Shift / 8)
              (Shift mod 8) Nibble), Line, Col.
    split; [reflexivity | split; [reflexivity | ]].
    intros i Hi. inversion HNew as [HB].
    assert (HIn : BufferOffset <= BufferOffset + Shift / 8
                  < BufferOffset + BytesPerWord HexEdit).
    { simpl in HW. Z.div_mod_to_equations. lia. }
    assert (HZero : deref (Buffer After) (BufferOffset + Shift / 8) = 0).
    { rewrite HCont by lia.
      replace (BufferOffset + Shift / 8 <? BufferOffset) with false
        by (symmetry; apply Z.ltb_ge; lia).
      replace (BufferOffset + Shift / 8 <? BufferOffset + BytesPerWord HexEdit)
        with true by (symmetry; apply Z.ltb_lt; lia).
      reflexivity. }
    rewrite WriteNibble_at;
      [ | rewrite HZero; lia | exact (TypedNibble_range Char Nibble ET)
        | destruct Hshape as (_ & S2 & S3); Z.div_mod_to_equations; lia ].
    rewrite HZero.
    destruct (i =? BufferOffset + Shift / 8) eqn:E; bool_hyps.
    + replace (i <? BufferOffset) with false by (symmetry; apply Z.ltb_ge; lia).
      replace (i <? BufferOffset + BytesPerWord HexEdit) with true
        by (symmetry; apply Z.ltb_lt; lia).
      reflexivity.
    + rewrite HCont by exact Hi. reflexivity.
Qed.

Lemma LocationToTheRight_range
    (HexEdit : YORI_WIN_CTRL_HEX_EDIT) (AsChar : bool) (BufferOffset Shift : Z) :
  In (BytesPerWord HexEdit) [1; 2; 4; 8] ->
  fst (LocationToTheRight HexEdit AsChar BufferOffset Shift) <= BufferOffset + 8.
Proof.
  intros HW. unfold LocationToTheRight. simpl in HW.
  destruct AsChar; [cbn [fst]; lia | ].
  destruct (4 <=? Shift); cbn [fst]; lia.
Qed.

(** What typing in insert mode leaves behind, where a new byte or word is
    made. *)
Lemma AddChar_inserts
    (Malloc : Z -> option memory) (HexEdit : YORI_WIN_CTRL_HEX_EDIT)
    (AsChar : bool) (BufferOffset Shift Char NewByte : Z) :
  Configured HexEdit ->
  0 <= CursorLine HexEdit < 2 ^ 32 ->
  0 <= CursorOffset HexEdit < 2 ^ 32 ->
  YoriWinHexEditGetCursorLocation HexEdit = Some (AsChar, BufferOffset, Shift) ->
  InsertMode HexEdit = true ->
  BufferOffset <= BufferValid HexEdit < 2 ^ 32 ->
  (AsChar = false -> Shift = BytesPerWord HexEdit * 8 - 4) ->
  ByteAfterTyping AsChar 0 Shift Char = Some NewByte ->
  let Count := if AsChar then 1 else BytesPerWord HexEdit in
  fst (YoriWinHexEditInsertSpaceInBuffer Malloc HexEdit BufferOffset Count) = true ->
  let Result := YoriWinHexEditAddChar Malloc HexEdit Char in
  fst Result = true
  /\ BufferValid (snd Result) = BufferValid HexEdit + Count
  /\ UserModified (snd Result) = true
  /\ SameLayout HexEdit (snd Result)
  /\ InsertMode (snd Result) = true
  /\ (0 <= CursorLine (snd Result) < 2 ^ 32
      /\ 0 <= CursorOffset (snd Result) < 2 ^ 32)
  /\ (forall i, 0 <= i < BufferValid HexEdit + Count ->
        deref (Buffer (snd Result)) i
        = if i <? BufferOffset then deref (Buffer HexEdit) i
          else if i <? BufferOffset + Count
          then (if i =? BufferOffset + Shift / 8 then NewByte else 0)
          else deref (Buffer HexEdit) (i - Count))
  /\ YoriWinHexEditGetCursorLocation (snd Result)
     = Some (AsChar,
             fst (LocationToTheRight HexEdit AsChar BufferOffset Shift),
             snd (LocationToTheRight HexEdit AsChar BufferOffset Shift)).
Proof.
  intros HC HL Hc HG HI HV HFirst HNew Count HOk Result.
  destruct (AddChar_insert_result Malloc HexEdit AsChar BufferOffset Shift Char
              NewByte HC HL Hc HG HI HV HFirst HNew HOk)
    as (NewMem & Line & Col & ER & EN & EM).
  destruct (cursor_cell_facts HexEdit AsChar BufferOffset Shift HC HL Hc HG)
    as (_ & _ & _ & _ & HR & HS8 & Hshape & _).
  pose proof HC as (_ & HW & _).
  assert (HCount : 1 <= Count <= 8) by (unfold Count; simpl in HW; destruct AsChar; lia).
  pose proof (InsertSpaceInBuffer_valid Malloc HexEdit BufferOffset Count
                ltac:(change (2 ^ 32) with 4294967296 in HV;
                      change (2 ^ 64) with 18446744073709551616; lia) HOk) as EV.
  destruct (InsertSpaceInBuffer_layout Malloc HexEdit BufferOffset Count)
    as (L1 & L2 & L3).
  fold Count in ER, EM.
  unfold Result. rewrite ER. cbn [fst snd].
  unfold YoriWinHexEditSetCursorLocationInternal. rewrite ExpandDirtyRange_eq.
  split; [reflexivity | ]. fields.
  split; [exact EV | split; [reflexivity | ]].
  split; [unfold SameLayout; fields; repeat split; assumption | ].
  split.
  { revert HOk HI. unfold YoriWinHexEditInsertSpaceInBuffer,
      YoriWinHexEditEnsureBufferLength. clear.
    intros HOk HI.
    repeat match goal with
           | H : context [if ?c then _ else _] |- _ => destruct c
           | H : context [match ?x with Some _ => _ | None => _ end] |- _ => destruct x
           end; cbn [fst snd] in *; fields; try discriminate; exact HI. }
  split.
  { pose proof (CellFrom_range HexEdit
                  (fst (LocationToTheRight HexEdit AsChar BufferOffset Shift))
                  (snd (LocationToTheRight HexEdit AsChar BufferOffset Shift)))
      as (RH & RC).
    destruct AsChar; [rewrite <- EN in RC; exact RC | rewrite <- EN in RH; exact RH]. }
  split; [exact EM | ].
  destruct (NextCellSameType_location HexEdit AsChar BufferOffset Shift HW HR Hshape)
    as (_ & NR & NS).
  cbv zeta in NR, NS.
  pose proof (LocationToTheRight_range HexEdit AsChar BufferOffset Shift HW) as NB.
  pose proof (location_round_trip HexEdit AsChar
                (fst (LocationToTheRight HexEdit AsChar BufferOffset Shift))
                (snd (LocationToTheRight HexEdit AsChar BufferOffset Shift))
                HC ltac:(change (2 ^ 32) with 4294967296 in HV;
                         change (2 ^ 36) with 68719476736; lia) NS) as RT.
  rewrite <- EN in RT.
  apply (GetCursorLocation_layout HexEdit _ (Line, Col)); [ | reflexivity | exact RT].
  unfold SameLayout. fields. repeat split; assumption.
Qed.

(** X17: typing in insert mode.  With the cursor on a character cell, or
    on the first digit of a word, at or before the end of the data,
    YoriWinHexEditAddChar in insert mode makes room for one byte,
    respectively one word, at the cursor when the buffer can hold it: the
    bytes from the cursor on move up, the new byte is the character typed,
    respectively the new word is zero but for the hex digit typed as its
    first digit, the valid length grows by the size inserted, the control
    is marked as modified and the cursor moves one cell to the right. *)
Theorem typing_in_insert_mode_inserts
    (Malloc : Z -> option memory) (HexEdit : YORI_WIN_CTRL_HEX_EDIT)
    (AsChar : bool) (BufferOffset Shift Char NewByte : Z) :
  Configured HexEdit ->
  0 <= CursorLine HexEdit < 2 ^ 32 ->
  0 <= CursorOffset HexEdit < 2 ^ 32 ->
  YoriWinHexEditGetCursorLocation HexEdit = Some (AsChar, BufferOffset, Shift) ->
  InsertMode HexEdit = true ->
  BufferOffset <= BufferValid HexEdit < 2 ^ 32 ->
  (AsChar = false -> Shift = BytesPerWord HexEdit * 8 - 4) ->
  ByteAfterTyping AsChar 0 Shift Char = Some NewByte ->
  let Count := if AsChar then 1 else BytesPerWord HexEdit in
  fst (YoriWinHexEditInsertSpaceInBuffer Malloc HexEdit BufferOffset Count) = true ->
  let Result := YoriWinHexEditAddChar Malloc HexEdit Char in
  fst Result = true
  /\ BufferValid (snd Result) = BufferValid HexEdit + Count
  /\ UserModified (snd Result) = true
  /\ (forall i, 0 <= i < BufferValid HexEdit + Count ->
        deref (Buffer (snd Result)) i
        = if i <? BufferOffset then deref (Buffer HexEdit) i
          else if i <? BufferOffset + Count
          then (if i =? BufferOffset + Shift / 8 then NewByte else 0)
          else deref (Buffer HexEdit) (i - Count))
  /\ YoriWinHexEditGetCursorLocation (snd Result)
     = Some (AsChar,
             fst (LocationToTheRight HexEdit AsChar BufferOffset Shift),
             snd (LocationToTheRight HexEdit AsChar BufferOffset Shift)).
Proof.
  intros HC HL Hc HG HI HV HFirst HNew Count HOk Result.
  destruct (AddChar_inserts Malloc HexEdit AsChar BufferOffset Shift Char NewByte
              HC HL Hc HG HI HV HFirst HNew HOk)
    as (R1 & R2 & R3 & _ & _ & _ & R5 & R6).
  repeat split; assumption.
Qed.

Lemma typing_in_insert_mode_inserts_witness :
  YoriWinHexEditGetCursorLocation InsertingAtStart = Some (false, 0, 12)
  /\ ValidBytes (snd (YoriWinHexEditAddChar MallocZeroed InsertingAtStart 97))
     = [0; 160; 0; 1; 2; 3]
  /\ YoriWinHexEditGetCursorLocation
       (snd (YoriWinHexEditAddChar MallocZeroed InsertingAtStart 97))
     = Some (false, 0, 8).
Proof.
  split; [reflexivity | ].
  split; [vm_compute; reflexivity | ].
  refine (proj2 (proj2 (proj2 (proj2
            (typing_in_insert_mode_inserts MallocZeroed InsertingAtStart
               false 0 12 97 160 _ _ _ _ _ _ _ _ _))))).
  - unfold Configured. simpl. intuition lia.
  - vm_compute. intuition discriminate.
  - vm_compute. intuition discriminate.
  - reflexivity.
  - reflexivity.
  - vm_compute. intuition discriminate.
  - reflexivity.
  - reflexivity.
  - vm_compute. reflexivity.
Defined.

(** The control after the delete key removed the byte or the word under
    the cursor. *)
Lemma Delete_removes
    (HexEdit : YORI_WIN_CTRL_HEX_EDIT) (AsChar : bool) (BufferOffset : Z) :
  Configured HexEdit ->
  0 <= CursorLine HexEdit < 2 ^ 32 ->
  0 <= CursorOffset HexEdit < 2 ^ 32 ->
  YoriWinHexEditGetCursorLocation HexEdit = Some (AsChar, BufferOffset, 0) ->
  BufferOffset < BufferValid HexEdit < 2 ^ 32 ->
  let Count :=
    if AsChar then 1
    else Z.min (BytesPerWord HexEdit) (BufferValid HexEdit - BufferOffset) in
  let Result := YoriWinHexEditDelete HexEdit in
  fst Result = true
  /\ BufferValid (snd Result) = BufferValid HexEdit - Count
  /\ UserModified (snd Result) = true
  /\ SameLayout HexEdit (snd Result)
  /\ (forall i, 0 <= i < BufferValid HexEdit - Count ->
        deref (Buffer (snd Result)) i
        = if i <? BufferOffset then deref (Buffer HexEdit) i
          else deref (Buffer HexEdit) (i + Count))
  /\ CursorOf (snd Result)
     = (if AsChar then CursorOf HexEdit
        else YoriWinHexEditCellFromHexBufferOffset HexEdit BufferOffset
               (BytesPerWord HexEdit * 8 - 4)).
Proof.
  intros HC HL Hc HG HV Count Result.
  destruct (cursor_cell_facts HexEdit AsChar BufferOffset 0 HC HL Hc HG)
    as (Hk & HO & Hsh & Hbey & HR & _ & Hshape & _).
  change (0 / 8) with 0 in Hbey. rewrite Z.add_0_r in Hbey.
  change (2 ^ 32) with 4294967296 in HV.
  specialize (Hbey ltac:(change (2 ^ 36) with 68719476736; lia)).
  replace (BufferValid HexEdit <=? BufferOffset) with false in Hbey
    by (symmetry; apply Z.leb_gt; lia).
  pose proof HC as (_ & HW & _).
  set (Cell := YoriWinHexEditCellType HexEdit (CursorLine HexEdit)
                 (CursorOffset HexEdit)) in *.
  unfold Result, YoriWinHexEditDelete, YoriWinHexEditDeleteCell.
  fold Cell. rewrite HO, Hsh, Hk, Hbey.
  replace (BufferOffset <? BufferValid HexEdit) with true
    by (symmetry; apply Z.ltb_lt; lia).
  rewrite (to_DWORDLONG_small (BufferValid HexEdit - BufferOffset))
    by (change (2 ^ 64) with 18446744073709551616; lia).
  unfold Count. clear Count.
  destruct AsChar.
  - step.
    destruct (1 <? BufferValid HexEdit - BufferOffset) eqn:E1; bool_hyps;
      rewrite ExpandDirtyRange_eq; unfold YoriWinHexEditSetCursorLocationInternal,
        SameLayout, CursorOf; fields;
      rewrite (to_DWORDLONG_small (BufferValid HexEdit - 1))
        by (change (2 ^ 64) with 18446744073709551616; lia);
      (split; [reflexivity | split; [reflexivity | split; [reflexivity | ]]]);
      (split; [repeat split; reflexivity | split; [ | reflexivity]]);
      intros i Hi.
    + cbn [deref]. unfold memmove.
      rewrite (to_DWORD_small (BufferValid HexEdit - BufferOffset - 1))
        by (change (2 ^ 32) with 4294967296; lia).
      destruct (i <? BufferOffset) eqn:E2; bool_hyps.
      * replace (BufferOffset <=? i) with false by (symmetry; apply Z.leb_gt; lia).
        reflexivity.
      * replace (BufferOffset <=? i) with true by (symmetry; apply Z.leb_le; lia).
        replace (i <? BufferOffset + (BufferValid HexEdit - BufferOffset - 1))
          with true by (symmetry; apply Z.ltb_lt; lia).
        cbn [andb]. f_equal. lia.
    + replace (i <? BufferOffset) with true by (symmetry; apply Z.ltb_lt; lia).
      reflexivity.
  - step. rewrite Z.eqb_refl.
    assert (HD : to_DWORD (BytesPerWord HexEdit * 8 - 4) = BytesPerWord HexEdit * 8 - 4)
      by (apply to_DWORD_small; simpl in HW; change (2 ^ 32) with 4294967296; lia).
    assert (HWpos : 1 <= BytesPerWord HexEdit <= 8) by (simpl in HW; lia).
    destruct (BytesPerWord HexEdit <? BufferValid HexEdit - BufferOffset) eqn:E1;
      bool_hyps.
    + replace (Z.min (BytesPerWord HexEdit) (BufferValid HexEdit - BufferOffset))
        with (BytesPerWord HexEdit) by lia.
      fields. rewrite HD.
      match goal with
      | |- context [YoriWinHexEditCellFromHexBufferOffset ?h BufferOffset ?s] =>
          destruct (CellFrom_layout HexEdit h BufferOffset s) as [LH _];
            [unfold SameLayout; fields; repeat split; reflexivity | ];
            rewrite LH; clear LH
      end.
      destruct (YoriWinHexEditCellFromHexBufferOffset HexEdit BufferOffset
                  (BytesPerWord HexEdit * 8 - 4)) as [Line Col].
      rewrite ExpandDirtyRange_eq; unfold YoriWinHexEditSetCursorLocationInternal,
        SameLayout, CursorOf; fields.
      rewrite (to_DWORDLONG_small (BufferValid HexEdit - BytesPerWord HexEdit))
        by (change (2 ^ 64) with 18446744073709551616; lia).
      split; [reflexivity | split; [reflexivity | split; [reflexivity | ]]].
      split; [repeat split; reflexivity | split; [ | reflexivity]].
      intros i Hi. cbn [deref]. unfold memmove.
      rewrite (to_DWORD_small (BufferValid HexEdit - BufferOffset - BytesPerWord HexEdit))
        by (change (2 ^ 32) with 4294967296; lia).
      destruct (i <? BufferOffset) eqn:E2; bool_hyps.
      * replace (BufferOffset <=? i) with false by (symmetry; apply Z.leb_gt; lia).
        reflexivity.
      * replace (BufferOffset <=? i) with true by (symmetry; apply Z.leb_le; lia).
        replace (i <? BufferOffset
                      + (BufferValid HexEdit - BufferOffset - BytesPerWord HexEdit))
          with true by (symmetry; apply Z.ltb_lt; lia).
        cbn [andb]. f_equal. lia.
    + replace (Z.min (BytesPerWord HexEdit) (BufferValid HexEdit - BufferOffset))
        with (BufferValid HexEdit - BufferOffset) by lia.
      fields. rewrite HD.
      match goal with
      | |- context [YoriWinHexEditCellFromHexBufferOffset ?h BufferOffset ?s] =>
          destruct (CellFrom_layout HexEdit h BufferOffset s) as [LH _];
            [unfold SameLayout; fields; repeat split; reflexivity | ];
            rewrite LH; clear LH
      end.
      destruct (YoriWinHexEditCellFromHexBufferOffset HexEdit BufferOffset
                  (BytesPerWord HexEdit * 8 - 4)) as [Line Col].
      rewrite ExpandDirtyRange_eq; unfold YoriWinHexEditSetCursorLocationInternal,
        SameLayout, CursorOf; fields.
      rewrite (to_DWORDLONG_small (BufferValid HexEdit
                                   - (BufferValid HexEdit - BufferOffset)))
        by (change (2 ^ 64) with 18446744073709551616;
            change (2 ^ 36) with 68719476736 in HR; lia).
      split; [reflexivity | split; [reflexivity | split; [reflexivity | ]]].
      split; [repeat split; reflexivity | split; [ | reflexivity]].
      intros i Hi.
      replace (i <? BufferOffset) with true by (symmetry; apply Z.ltb_lt; lia).
      reflexivity.
Qed.

Lemma SameLayout_configured (a b : YORI_WIN_CTRL_HEX_EDIT) :
  SameLayout a b -> Configured a -> Configured b.
Proof.
  intros (H1 & H2 & H3) (C1 & C2 & C3). unfold Configured.
  rewrite H1, H2, H3. repeat split; assumption.
Qed.

(** X18: the delete key on a character cell, or on the last digit of a
    word, within the valid data removes the byte, respectively the word
    (or what the data holds of it), under the cursor: the bytes behind it
    move down, the valid length shrinks by the size removed and the control
    is marked as modified.  The cursor stays on the character cell,
    respectively moves to the first digit of the word. *)
Theorem delete_key_removes_the_byte_or_word
    (HexEdit : YORI_WIN_CTRL_HEX_EDIT) (AsChar : bool) (BufferOffset : Z) :
  Configured HexEdit ->
  0 <= CursorLine HexEdit < 2 ^ 32 ->
  0 <= CursorOffset HexEdit < 2 ^ 32 ->
  YoriWinHexEditGetCursorLocation HexEdit = Some (AsChar, BufferOffset, 0) ->
  BufferOffset < BufferValid HexEdit < 2 ^ 32 ->
  let Count :=
    if AsChar then 1
    else Z.min (BytesPerWord HexEdit) (BufferValid HexEdit - BufferOffset) in
  let Result := YoriWinHexEditDelete HexEdit in
  fst Result = true
  /\ BufferValid (snd Result) = BufferValid HexEdit - Count
  /\ UserModified (snd Result) = true
  /\ (forall i, 0 <= i < BufferValid HexEdit - Count ->
        deref (Buffer (snd Result)) i
        = if i <? BufferOffset then deref (Buffer HexEdit) i
          else deref (Buffer HexEdit) (i + Count))
  /\ YoriWinHexEditGetCursorLocation (snd Result)
     = Some (AsChar, BufferOffset,
             if AsChar then 0 else BytesPerWord HexEdit * 8 - 4).
Proof.
  intros HC HL Hc HG HV Count Result.
  destruct (Delete_removes HexEdit AsChar BufferOffset HC HL Hc HG HV)
    as (R1 & R2 & R3 & R4 & R5 & R6).
  fold Result in R1, R2, R3, R4, R5, R6. fold Count in R2, R5.
  split; [exact R1 | split; [exact R2 | split; [exact R3 | split; [exact R5 | ]]]].
  destruct (cursor_cell_facts HexEdit AsChar BufferOffset 0 HC HL Hc HG)
    as (Hk & HO & Hsh & _ & HR & _ & Hshape & _).
  pose proof HC as (_ & HW & _).
  destruct AsChar.
  - apply (GetCursorLocation_layout HexEdit _ (CursorOf HexEdit) true);
      [exact R4 | exact R6 | ].
    unfold RoundTripsTo, CursorOf. cbn [fst snd]. repeat split; assumption.
  - apply (GetCursorLocation_layout HexEdit _ _ false _ _ R4 R6).
    apply (location_round_trip HexEdit false BufferOffset
             (BytesPerWord HexEdit * 8 - 4) HC HR).
    destruct Hshape as (S1 & _). simpl in HW.
    split; [exact S1 | split; [lia | ]].
    destruct HW as [W | [W | [W | [W | []]]]]; rewrite <- W; reflexivity.
Qed.

Lemma delete_key_removes_the_byte_or_word_witness :
  YoriWinHexEditGetCursorLocation CursorOnCharacter = Some (true, 20, 0)
  /\ BufferValid (snd (YoriWinHexEditDelete CursorOnCharacter)) = 63
  /\ deref (Buffer (snd (YoriWinHexEditDelete CursorOnCharacter))) 20 = 21
  /\ YoriWinHexEditGetCursorLocation (snd (YoriWinHexEditDelete CursorOnCharacter))
     = Some (true, 20, 0).
Proof.
  split; [reflexivity | ].
  split; [reflexivity | ].
  split; [reflexivity | ].
  refine (proj2 (proj2 (proj2 (proj2
            (delete_key_removes_the_byte_or_word CursorOnCharacter true 20
               _ _ _ _ _))))).
  - unfold Configured. simpl. intuition lia.
  - vm_compute. intuition discriminate.
  - vm_compute. intuition discriminate.
  - reflexivity.
  - vm_compute. intuition discriminate.
Defined.

(** X19: a character typed in insert mode is taken back by the left arrow
    followed by the delete key.  With the cursor on a character cell at or
    before the end of the data, after YoriWinHexEditAddChar in insert mode,
    YoriWinHexEditCursorLeft and YoriWinHexEditDelete the valid length,
    every valid byte and the cursor location are those from before. *)
Theorem typed_character_is_deleted_again
    (Malloc : Z -> option memory) (HexEdit : YORI_WIN_CTRL_HEX_EDIT)
    (BufferOffset Char : Z) :
  Configured HexEdit ->
  0 <= CursorLine HexEdit < 2 ^ 32 ->
  0 <= CursorOffset HexEdit < 2 ^ 32 ->
  YoriWinHexEditGetCursorLocation HexEdit = Some (true, BufferOffset, 0) ->
  InsertMode HexEdit = true ->
  BufferOffset <= BufferValid HexEdit < 2 ^ 32 - 1 ->
  fst (YoriWinHexEditInsertSpaceInBuffer Malloc HexEdit BufferOffset 1) = true ->
  exists Left,
    YoriWinHexEditCursorLeft (snd (YoriWinHexEditAddChar Malloc HexEdit Char))
    = Some (true, Left)
    /\ fst (YoriWinHexEditDelete Left) = true
    /\ BufferValid (snd (YoriWinHexEditDelete Left)) = BufferValid HexEdit
    /\ (forall i, 0 <= i < BufferValid HexEdit ->
          deref (Buffer (snd (YoriWinHexEditDelete Left))) i
          = deref (Buffer HexEdit) i)
    /\ YoriWinHexEditGetCursorLocation (snd (YoriWinHexEditDelete Left))
       = Some (true, BufferOffset, 0).
Proof.
  intros HC HL Hc HG HI HV HOk.
  destruct (cursor_cell_facts HexEdit true BufferOffset 0 HC HL Hc HG)
    as (_ & _ & _ & _ & HR & _).
  destruct (AddChar_inserts Malloc HexEdit true BufferOffset 0 Char
              (YoriWinHexEditInputCharToByte Char) HC HL Hc HG HI
              ltac:(lia) ltac:(discriminate) eq_refl HOk)
    as (_ & V1 & _ & L1 & _ & (CL1 & CO1) & B1 & G1).
  cbn [fst snd LocationToTheRight] in G1.
  set (Typed := snd (YoriWinHexEditAddChar Malloc HexEdit Char)) in *.
  pose proof (SameLayout_configured HexEdit Typed L1 HC) as HC1.
  destruct (CursorLeft_step Typed true (BufferOffset + 1) 0 HC1 CL1 CO1 G1)
    as (Moved & Left & EL & _ & HM & KD & CO & GL).
  unfold LocationToTheLeft in HM, CO, GL.
  replace (0 <? BufferOffset + 1) with true in HM, CO, GL
    by (symmetry; apply Z.ltb_lt; lia).
  replace (BufferOffset + 1 - 1) with BufferOffset in HM, CO, GL by lia.
  cbn [fst snd] in CO, GL.
  destruct HM as [HM _]; [intros E; inversion E; lia | ]. subst Moved.
  exists Left. split; [exact EL | ].
  pose proof KD as (KB & _ & KV & _).
  pose proof (KeepsDocument_geometry Typed Left KD) as (_ & G2 & G3 & G4).
  assert (HC2 : Configured Left).
  { apply (SameLayout_configured Typed Left); [ | exact HC1].
    unfold SameLayout. repeat split; assumption. }
  destruct (CellFrom_range Typed BufferOffset 0) as (_ & RC).
  assert (CL2 : 0 <= CursorLine Left < 2 ^ 32)
    by (unfold CursorOf in CO; injection CO as E1 E2; rewrite E1; apply RC).
  assert (CO2 : 0 <= CursorOffset Left < 2 ^ 32)
    by (unfold CursorOf in CO; injection CO as E1 E2; rewrite E2; apply RC).
  destruct (Delete_removes Left true BufferOffset HC2 CL2 CO2 GL
              ltac:(rewrite KV, V1; lia))
    as (D1 & D2 & _ & D4 & D5 & D6).
  split; [exact D1 | ].
  split; [rewrite D2, KV, V1; lia | ].
  split.
  - intros i Hi. rewrite D5 by (rewrite KV, V1; lia).
    rewrite KB.
    destruct (i <? BufferOffset) eqn:E; bool_hyps.
    + rewrite B1 by lia.
      replace (i <? BufferOffset) with true by (symmetry; apply Z.ltb_lt; lia).
      reflexivity.
    + rewrite B1 by lia.
      replace (i + 1 <? BufferOffset) with false by (symmetry; apply Z.ltb_ge; lia).
      replace (i + 1 <? BufferOffset + 1) with false
        by (symmetry; apply Z.ltb_ge; lia).
      f_equal. lia.
  - apply (GetCursorLocation_layout Left _ (CursorOf Left) true);
      [exact D4 | exact D6 | ].
    destruct (cursor_cell_facts Left true BufferOffset 0 HC2 CL2 CO2 GL)
      as (Hk & HO & Hsh & _).
    unfold RoundTripsTo, CursorOf. cbn [fst snd]. repeat split; assumption.
Qed.

Lemma typed_character_is_deleted_again_witness :
  exists Left,
    YoriWinHexEditCursorLeft
      (snd (YoriWinHexEditAddChar MallocZeroed
              (snd (YoriWinHexEditToggleInsert CursorOnCharacter)) 97))
    = Some (true, Left)
    /\ fst (YoriWinHexEditDelete Left) = true
    /\ BufferValid (snd (YoriWinHexEditDelete Left)) = 64
    /\ YoriWinHexEditGetCursorLocation (snd (YoriWinHexEditDelete Left))
       = Some (true, 20, 0).
Proof.
  destruct (typed_character_is_deleted_again MallocZeroed
              (snd (YoriWinHexEditToggleInsert CursorOnCharacter)) 20 97)
    as (Left & E & D1 & D2 & _ & D4).
  - unfold Configured. simpl. intuition lia.
  - vm_compute. intuition discriminate.
  - vm_compute. intuition discriminate.
  - reflexivity.
  - reflexivity.
  - vm_compute. intuition discriminate.
  - vm_compute. reflexivity.
  - exists Left. repeat split; assumption.
Defined.

(** X20: the delete key on the digit of a word that stands for the high
    nibble of the word's first byte (bit shift 4) within the valid data
    zeroes that nibble, changes no other byte and no length, marks the
    control as modified and moves the cursor to the last digit of the
    word. *)
Theorem delete_key_zeroes_the_high_digit
    (HexEdit : YORI_WIN_CTRL_HEX_EDIT) (BufferOffset : Z) :
  Configured HexEdit ->
  0 <= CursorLine HexEdit < 2 ^ 32 ->
  0 <= CursorOffset HexEdit < 2 ^ 32 ->
  YoriWinHexEditGetCursorLocation HexEdit = Some (false, BufferOffset, 4) ->
  BufferOffset < BufferValid HexEdit <= 2 ^ 36 - 16 ->
  0 <= deref (Buffer HexEdit) BufferOffset < 256 ->
  let Result := YoriWinHexEditDelete HexEdit in
  fst Result = true
  /\ BufferValid (snd Result) = BufferValid HexEdit
  /\ UserModified (snd Result) = true
  /\ (forall i,
        deref (Buffer (snd Result)) i
        = if i =? BufferOffset then deref (Buffer HexEdit) BufferOffset mod 16
          else deref (Buffer HexEdit) i)
  /\ YoriWinHexEditGetCursorLocation (snd Result) = Some (false, BufferOffset, 0).
Proof.
  intros HC HL Hc HG HV HOld Result.
  destruct (cursor_cell_facts HexEdit false BufferOffset 4 HC HL Hc HG)
    as (Hk & HO & Hsh & Hbey & HR & _ & Hshape & _).
  change (4 / 8) with 0 in Hbey. rewrite Z.add_0_r in Hbey.
  specialize (Hbey ltac:(lia)).
  replace (BufferValid HexEdit <=? BufferOffset) with false in Hbey
    by (symmetry; apply Z.leb_gt; lia).
  pose proof HC as (_ & HW & _).
  set (Cell := YoriWinHexEditCellType HexEdit (CursorLine HexEdit)
                 (CursorOffset HexEdit)) in *.
  assert (HN : forall m,
             YoriWinHexEditNextCellSameType (set_Buffer (Some m) HexEdit)
               YoriWinHexEditCellTypeHexDigit BufferOffset 4
             = Some (YoriWinHexEditCellFromHexBufferOffset HexEdit BufferOffset 0)).
  { intros m.
    apply (NextCellSameType_after_edit HexEdit (set_Buffer (Some m) HexEdit) false
             BufferOffset 4 HC); try assumption.
    unfold SameLayout. fields. repeat split; reflexivity. }
  unfold Result, YoriWinHexEditDelete, YoriWinHexEditDeleteCell.
  fold Cell. rewrite HO, Hsh, Hk, Hbey. step.
  change (4 =? 0) with false. step. rewrite HN.
  destruct (YoriWinHexEditCellFromHexBufferOffset HexEdit BufferOffset 0)
    as [Line Col] eqn:EN.
  step. rewrite ExpandDirtyRange_eq.
  unfold YoriWinHexEditSetCursorLocationInternal. cbn [fst snd]. fields.
  split; [reflexivity | split; [reflexivity | split; [reflexivity | ]]].
  split.
  - intros i. cbn [deref]. unfold store.
    destruct (i =? BufferOffset); [ | reflexivity].
    pose proof (nibble_write_check (deref (Buffer HexEdit) BufferOffset) 0 HOld
                  ltac:(lia)) as HNib.
    unfold NibbleWriteCheck in HNib. bool_hyps. assumption.
  - apply (GetCursorLocation_layout HexEdit _ (Line, Col) false);
      [unfold SameLayout; fields; repeat split; reflexivity | reflexivity | ].
    rewrite <- EN.
    apply (location_round_trip HexEdit false BufferOffset 0 HC HR).
    destruct Hshape as (S1 & _). simpl in HW.
    split; [exact S1 | split; [lia | reflexivity]].
Qed.

Lemma delete_key_zeroes_the_high_digit_witness :
  YoriWinHexEditGetCursorLocation (ControlWith 1 0 (Some (fun _ => 171)) 4 4)
  = Some (false, 0, 4)
  /\ ValidBytes (snd (YoriWinHexEditDelete (ControlWith 1 0 (Some (fun _ => 171)) 4 4)))
     = [11; 171; 171; 171]
  /\ YoriWinHexEditGetCursorLocation
       (snd (YoriWinHexEditDelete (ControlWith 1 0 (Some (fun _ => 171)) 4 4)))
     = Some (false, 0, 0).
Proof.
  split; [reflexivity | ].
  split; [vm_compute; reflexivity | ].
  refine (proj2 (proj2 (proj2 (proj2
            (delete_key_zeroes_the_high_digit
               (ControlWith 1 0 (Some (fun _ => 171)) 4 4) 0 _ _ _ _ _ _))))).
  - unfold Configured. simpl. intuition lia.
  - vm_compute. intuition discriminate.
  - vm_compute. intuition discriminate.
  - reflexivity.
  - vm_compute. intuition discriminate.
  - vm_compute. intuition discriminate.
Defined.

(** ** Keys and the document *)

Lemma cursor_key_document
    (HexEdit : YORI_WIN_CTRL_HEX_EDIT) (Kind : YORI_WIN_HEX_EDIT_CELL_TYPE)
    (BufferOffset Shift : Z) :
  KeepsDocument HexEdit
    (snd (YoriWinHexEditSetCursorToBufferLocation
            (YoriWinHexEditClearSelection HexEdit) Kind BufferOffset Shift)).
Proof.
  apply (KeepsDocument_trans _ (YoriWinHexEditClearSelection HexEdit)).
  - apply ClearSelection_document.
  - apply SetCursorToBufferLocation_document.
Qed.

Lemma CursorHome_document (HexEdit : YORI_WIN_CTRL_HEX_EDIT) :
  KeepsDocument HexEdit (snd (YoriWinHexEditCursorHome HexEdit)).
Proof. apply cursor_key_document. Qed.

Lemma CursorEnd_document (HexEdit : YORI_WIN_CTRL_HEX_EDIT) :
  KeepsDocument HexEdit (snd (YoriWinHexEditCursorEnd HexEdit)).
Proof. apply cursor_key_document. Qed.

Lemma CursorCtrlHome_document (HexEdit : YORI_WIN_CTRL_HEX_EDIT) :
  KeepsDocument HexEdit (snd (YoriWinHexEditCursorCtrlHome HexEdit)).
Proof. apply cursor_key_document. Qed.

Lemma CursorCtrlEnd_document (HexEdit : YORI_WIN_CTRL_HEX_EDIT) :
  KeepsDocument HexEdit (snd (YoriWinHexEditCursorCtrlEnd HexEdit)).
Proof. apply cursor_key_document. Qed.

Lemma CursorUp_document (HexEdit : YORI_WIN_CTRL_HEX_EDIT) :
  KeepsDocument HexEdit (snd (YoriWinHexEditCursorUp HexEdit)).
Proof.
  unfold YoriWinHexEditCursorUp.
  destruct (CursorLine HexEdit =? 0); [apply KeepsDocument_refl | ].
  apply cursor_key_document.
Qed.

Lemma CursorDown_document (HexEdit : YORI_WIN_CTRL_HEX_EDIT) :
  KeepsDocument HexEdit (snd (YoriWinHexEditCursorDown HexEdit)).
Proof.
  unfold YoriWinHexEditCursorDown. step.
  match goal with
  | |- context [if ?c then _ else _] => destruct c
  end; [apply KeepsDocument_refl | apply cursor_key_document].
Qed.

Lemma CursorLeft_document (HexEdit After : YORI_WIN_CTRL_HEX_EDIT) (Moved : bool) :
  YoriWinHexEditCursorLeft HexEdit = Some (Moved, After) ->
  KeepsDocument HexEdit After.
Proof.
  unfold YoriWinHexEditCursorLeft.
  destruct (YoriWinHexEditPreviousCellSameType HexEdit _ _ _) as [[Line Col] | ];
    [ | discriminate].
  destruct (negb (Line =? CursorLine HexEdit) || negb (Col =? CursorOffset HexEdit));
    intros E; injection E as _ E; subst After.
  - apply cursor_moved_to.
  - apply KeepsDocument_refl.
Qed.

Lemma CursorRight_document (HexEdit After : YORI_WIN_CTRL_HEX_EDIT) (Moved : bool) :
  YoriWinHexEditCursorRight HexEdit = Some (Moved, After) ->
  KeepsDocument HexEdit After.
Proof.
  unfold YoriWinHexEditCursorRight.
  destruct (YoriWinHexEditNextCellSameType HexEdit _ _ _) as [[Line Col] | ];
    [ | discriminate].
  step.
  match goal with
  | |- (if ?c then _ else _) = _ -> _ => destruct c
  end; intros E; injection E as _ E; subst After.
  - apply KeepsDocument_refl.
  - apply cursor_moved_to.
Qed.

Lemma PageUp_document (HexEdit : YORI_WIN_CTRL_HEX_EDIT) :
  KeepsDocument HexEdit (snd (YoriWinHexEditPageUp HexEdit)).
Proof.
  unfold YoriWinHexEditPageUp.
  destruct (0 <? CursorLine HexEdit); [ | apply KeepsDocument_refl].
  step. rewrite ExpandDirtyRange_eq.
  unfold YoriWinHexEditSetCursorLocationInternal, KeepsDocument.
  destruct (to_DWORD (Y (ClientSize HexEdit)) <=? ViewportTop HexEdit);
    fields; repeat split; reflexivity.
Qed.

Lemma PageDown_document (HexEdit : YORI_WIN_CTRL_HEX_EDIT) :
  KeepsDocument HexEdit (snd (YoriWinHexEditPageDown HexEdit)).
Proof.
  unfold YoriWinHexEditPageDown. step.
  match goal with
  | |- KeepsDocument _ (snd (if ?c then _ else _)) => destruct c
  end; [ | apply KeepsDocument_refl].
  rewrite ExpandDirtyRange_eq.
  unfold YoriWinHexEditSetCursorLocationInternal, KeepsDocument.
  fields. repeat split; reflexivity.
Qed.

(** X21: the navigation keys never change the data.  Whatever
    YoriWinHexEditProcessPossiblyEnhancedKey and
    YoriWinHexEditProcessPossiblyEnhancedCtrlKey do for a key that is not
    Insert or Delete, and for every key when the control is read only,
    leaves the buffer, its two lengths, the layout, the insert mode, the
    read-only state and the modified flag as they were. *)
Theorem keys_keep_the_document
    (HexEdit After : YORI_WIN_CTRL_HEX_EDIT) (Key : VIRTUAL_KEY) (Recognized : bool) :
  ReadOnly HexEdit = true \/ (Key <> VK_INSERT /\ Key <> VK_DELETE) ->
  (YoriWinHexEditProcessPossiblyEnhancedKey HexEdit Key = Some (Recognized, After) ->
   KeepsDocument HexEdit After)
  /\ KeepsDocument HexEdit
       (snd (YoriWinHexEditProcessPossiblyEnhancedCtrlKey HexEdit Key)).
Proof.
  intros HK. split.
  - destruct Key; cbn [YoriWinHexEditProcessPossiblyEnhancedKey].
    + destruct (YoriWinHexEditCursorLeft HexEdit) as [[Moved Left] | ] eqn:E;
        [ | discriminate].
      intros H. injection H as _ H. subst After.
      exact (CursorLeft_document HexEdit Left Moved E).
    + destruct (YoriWinHexEditCursorRight HexEdit) as [[Moved Right] | ] eqn:E;
        [ | discriminate].
      intros H. injection H as _ H. subst After.
      exact (CursorRight_document HexEdit Right Moved E).
    + intros H. injection H as _ H. subst After. apply CursorHome_document.
    + intros H. injection H as _ H. subst After. apply CursorEnd_document.
    + destruct HK as [HR | [HI _]]; [ | congruence].
      rewrite HR. cbn [negb]. intros H. injection H as _ H. subst After.
      apply KeepsDocument_refl.
    + intros H. injection H as _ H. subst After. apply CursorUp_document.
    + intros H. injection H as _ H. subst After. apply CursorDown_document.
    + pose proof (PageUp_document HexEdit) as HP.
      destruct (YoriWinHexEditPageUp HexEdit) as [[|] Paged]; cbn [snd] in HP;
        intros H; injection H as _ H; subst After; [ | exact HP].
      apply (KeepsDocument_trans _ Paged); [exact HP | apply Paint_document].
    + pose proof (PageDown_document HexEdit) as HP.
      destruct (YoriWinHexEditPageDown HexEdit) as [[|] Paged]; cbn [snd] in HP;
        intros H; injection H as _ H; subst After; [ | exact HP].
      apply (KeepsDocument_trans _ Paged); [exact HP | apply Paint_document].
    + destruct HK as [HR | [_ HD]]; [ | congruence].
      rewrite HR. cbn [negb]. intros H. injection H as _ H. subst After.
      apply KeepsDocument_refl.
    + intros H. injection H as _ H. subst After. apply KeepsDocument_refl.
  - destruct Key; cbn [YoriWinHexEditProcessPossiblyEnhancedCtrlKey snd];
      try apply KeepsDocument_refl.
    + apply CursorCtrlHome_document.
    + apply CursorCtrlEnd_document.
Qed.

Lemma keys_keep_the_document_witness :
  exists Recognized After,
    YoriWinHexEditProcessPossiblyEnhancedKey CursorOnNibble VK_RIGHT
    = Some (Recognized, After)
    /\ KeepsDocument CursorOnNibble After.
Proof.
  destruct (YoriWinHexEditProcessPossiblyEnhancedKey CursorOnNibble VK_RIGHT)
    as [[Recognized After] | ] eqn:E.
  - exists Recognized, After. split; [reflexivity | ].
    refine (proj1 (keys_keep_the_document CursorOnNibble After VK_RIGHT Recognized _) E).
    right. split; discriminate.
  - vm_compute in E. discriminate.
Defined.

(** ** Selected data *)

Lemma SetSelectionRange_document
    (HexEdit : YORI_WIN_CTRL_HEX_EDIT) (First Last : Z) :
  KeepsDocument HexEdit (snd (YoriWinHexEditSetSelectionRange HexEdit First Last)).
Proof.
  unfold YoriWinHexEditSetSelectionRange.
  pose proof (ClearSelection_document HexEdit) as (KD & _).
  set (Cleared := YoriWinHexEditClearSelection HexEdit) in *.
  step.
  match goal with
  | |- KeepsDocument _ (snd (if ?c then _ else _)) => destruct c
  end; cbn [snd].
  - unfold KeepsDocument in *. fields. exact KD.
  - apply (KeepsDocument_trans _ Cleared); [exact KD | ].
    match goal with
    | |- KeepsDocument _ (YoriWinHexEditPaint ?h) =>
        apply (KeepsDocument_trans _ h); [ | apply Paint_document]
    end.
    rewrite ExpandDirtyRange_eq. unfold KeepsDocument. fields.
    repeat split; reflexivity.
Qed.

(** X22: the selection that YoriWinHexEditSetSelectionRange accepts is the
    data YoriWinHexEditGetSelectedData copies.  For a range within the valid
    data that is shorter than 4 GiB and an allocation that succeeds, the
    copy has the length of the range, first and last byte included, and
    holds the bytes of the buffer from the first to the last offset.
    Without an active selection the function returns FALSE. *)
Theorem selected_data_is_the_selected_range
    (Malloc : Z -> option memory) (HexEdit : YORI_WIN_CTRL_HEX_EDIT)
    (First Last : Z) (Block : memory) :
  0 <= First <= Last ->
  Last < BufferValid HexEdit ->
  Last - First + 1 < 2 ^ 32 ->
  Malloc (Last - First + 1) = Some Block ->
  let Selected := snd (YoriWinHexEditSetSelectionRange HexEdit First Last) in
  (exists Copy,
     YoriWinHexEditGetSelectedData Malloc Selected = Some (Copy, Last - First + 1)
     /\ forall i, 0 <= i < Last - First + 1 ->
          Copy i = deref (Buffer HexEdit) (First + i))
  /\ YoriWinHexEditGetSelectedData Malloc (YoriWinHexEditClearSelection Selected)
     = None.
Proof.
  intros HF HL HLen HM Selected.
  destruct (SetSelectionRange_accepts HexEdit First Last ltac:(lia) HL) as (_ & HS).
  fold Selected in HS.
  pose proof (SetSelectionRange_document HexEdit First Last) as (KB & _).
  fold Selected in KB.
  split.
  - unfold YoriWinHexEditGetSelectedData. rewrite HS. cbn [Active FirstByteOffset
      LastByteOffset].
    change (2 ^ 32) with 4294967296 in *.
    rewrite (to_DWORDLONG_small (Last - First + 1))
      by (change (2 ^ 64) with 18446744073709551616; lia).
    rewrite (Z.div_small (Last - First + 1)) by lia.
    rewrite (Z.mod_small (Last - First + 1)) by lia.
    cbn [Z.eqb negb]. rewrite HM.
    eexists. split; [reflexivity | ].
    intros i Hi. unfold memmove. rewrite KB.
    replace (0 <=? i) with true by (symmetry; apply Z.leb_le; lia).
    replace (i <? 0 + (Last - First + 1)) with true by (symmetry; apply Z.ltb_lt; lia).
    cbn [andb]. f_equal. lia.
  - destruct (ClearSelection_document Selected) as (_ & _ & _ & _ & HA).
    unfold YoriWinHexEditGetSelectedData. rewrite HA. reflexivity.
Qed.

Lemma selected_data_is_the_selected_range_witness :
  exists Copy,
    YoriWinHexEditGetSelectedData MallocZeroed
      (snd (YoriWinHexEditSetSelectionRange
              (ControlWith 1 0 (Some CountingBytes) 64 64) 5 7))
    = Some (Copy, 3)
    /\ map Copy [0; 1; 2] = [5; 6; 7].
Proof.
  destruct (proj1 (selected_data_is_the_selected_range MallocZeroed
                     (ControlWith 1 0 (Some CountingBytes) 64 64) 5 7 (fun _ => 0)
                     ltac:(lia) ltac:(simpl; lia) ltac:(simpl; lia) eq_refl))
    as (Copy & E & HCopy).
  exists Copy. split; [exact E | ].
  cbn [map]. rewrite !HCopy by lia. reflexivity.
Defined.

(** ** Reconfiguration *)

(** The common end of the two configuration functions: the cursor is put
    on a buffer location and the control is repainted. *)
Lemma reconfigured_cursor
    (HexEdit : YORI_WIN_CTRL_HEX_EDIT) (AsChar : bool) (BufferOffset Shift a : Z) :
  let Kind := if AsChar then YoriWinHexEditCellTypeCharValue
              else YoriWinHexEditCellTypeHexDigit in
  let Final :=
    YoriWinHexEditPaint
      (YoriWinHexEditEnsureCursorVisible
         (YoriWinHexEditExpandDirtyRange
            (snd (YoriWinHexEditSetCursorToBufferLocation HexEdit Kind
                    BufferOffset Shift))
            a DWORD_MAX)) in
  KeepsDocument HexEdit Final
  /\ CursorOf Final
     = (if AsChar
        then YoriWinHexEditCellFromCharBufferOffset HexEdit BufferOffset
        else YoriWinHexEditCellFromHexBufferOffset HexEdit BufferOffset Shift).
Proof.
  intros Kind Final.
  destruct (SetCursorToBufferLocation_document HexEdit Kind BufferOffset Shift)
    as (D1 & _ & C1).
  set (Moved := snd (YoriWinHexEditSetCursorToBufferLocation HexEdit Kind
                       BufferOffset Shift)) in *.
  destruct (ExpandDirtyRange_document Moved a DWORD_MAX) as (D2 & C2 & _).
  set (Dirty := YoriWinHexEditExpandDirtyRange Moved a DWORD_MAX) in *.
  destruct (EnsureCursorVisible_document Dirty) as (D3 & C3).
  set (Visible := YoriWinHexEditEnsureCursorVisible Dirty) in *.
  destruct (Paint_document Visible) as (D4 & C4 & _).
  split.
  - apply (KeepsDocument_trans _ Moved); [exact D1 | ].
    apply (KeepsDocument_trans _ Dirty); [exact D2 | ].
    apply (KeepsDocument_trans _ Visible); [exact D3 | exact D4].
  - unfold Final. fold Moved. fold Dirty. fold Visible.
    rewrite C4, C3, C2, C1. unfold Kind. destruct AsChar; reflexivity.
Qed.

(** X23: YoriWinHexEditSetStyle, given one of the two offset styles or
    none, returns TRUE, sets the width of the offset column to 32, 64 or 0
    and keeps the cursor on the buffer location it was on; the buffer, its
    lengths, the word size and the modified flag stay as they were. *)
Theorem set_style_keeps_the_cursor_location
    (HexEdit : YORI_WIN_CTRL_HEX_EDIT) (NewStyle : HEX_EDIT_STYLE)
    (AsChar : bool) (BufferOffset Shift : Z) :
  Configured HexEdit ->
  0 <= CursorLine HexEdit < 2 ^ 32 ->
  0 <= CursorOffset HexEdit < 2 ^ 32 ->
  YoriWinHexEditGetCursorLocation HexEdit = Some (AsChar, BufferOffset, Shift) ->
  STYLE_VSCROLLBAR NewStyle = false ->
  STYLE_READ_ONLY NewStyle = false ->
  STYLE_OFFSET NewStyle && STYLE_LARGE_OFFSET NewStyle = false ->
  let Result := YoriWinHexEditSetStyle HexEdit NewStyle in
  fst Result = true
  /\ OffsetWidth (snd Result)
     = (if STYLE_OFFSET NewStyle then 32
        else if STYLE_LARGE_OFFSET NewStyle then 64 else 0)
  /\ YoriWinHexEditGetCursorLocation (snd Result) = Some (AsChar, BufferOffset, Shift)
  /\ Buffer (snd Result) = Buffer HexEdit
  /\ BufferValid (snd Result) = BufferValid HexEdit
  /\ BufferAllocated (snd Result) = BufferAllocated HexEdit
  /\ BytesPerWord (snd Result) = BytesPerWord HexEdit
  /\ UserModified (snd Result) = UserModified HexEdit.
Proof.
  intros HC HL Hc HG HS1 HS2 HS3 Result.
  destruct (cursor_cell_facts HexEdit AsChar BufferOffset Shift HC HL Hc HG)
    as (Hk & HO & Hsh & _ & HR & _ & Hshape & _).
  set (Cell := YoriWinHexEditCellType HexEdit (CursorLine HexEdit)
                 (CursorOffset HexEdit)) in *.
  unfold Result, YoriWinHexEditSetStyle. rewrite HS1, HS2, HS3. cbn [orb].
  fold Cell. rewrite HO, Hsh, Hk. step.
  set (Width := if STYLE_OFFSET NewStyle then 32
                else if STYLE_LARGE_OFFSET NewStyle then 64 else 0).
  assert (HWd : In Width [0; 32; 64]).
  { unfold Width. destruct (STYLE_OFFSET NewStyle); [simpl; tauto | ].
    destruct (STYLE_LARGE_OFFSET NewStyle); simpl; tauto. }
  set (Styled := set_OffsetWidth Width HexEdit).
  assert (HCS : Configured Styled).
  { destruct HC as (C1 & C2 & _). unfold Configured, Styled.
    repeat split; assumption. }
  destruct (reconfigured_cursor Styled AsChar BufferOffset Shift
              (ViewportTop (snd (YoriWinHexEditSetCursorToBufferLocation Styled
                                   (if AsChar then YoriWinHexEditCellTypeCharValue
                                    else YoriWinHexEditCellTypeHexDigit)
                                   BufferOffset Shift))))
    as (KD & CO).
  cbv zeta in KD, CO. cbn [fst snd].
  split; [reflexivity | ].
  pose proof KD as (K1 & K2 & K3 & _ & K5 & K6 & _ & _ & K9 & _).
  split; [rewrite K6; reflexivity | ].
  split; [ | repeat split; assumption].
  apply (GetCursorLocation_after Styled _ AsChar BufferOffset Shift HCS KD HR);
    [exact Hshape | exact CO].
Qed.

Lemma set_style_keeps_the_cursor_location_witness :
  YoriWinHexEditGetCursorLocation CursorOnNibble = Some (false, 20, 0)
  /\ CursorOf CursorOnNibble = (1, 13)
  /\ CursorOf
       (snd (YoriWinHexEditSetStyle CursorOnNibble
               {| STYLE_VSCROLLBAR := false; STYLE_READ_ONLY := false;
                  STYLE_OFFSET := true; STYLE_LARGE_OFFSET := false |}))
     = (1, 23)
  /\ YoriWinHexEditGetCursorLocation
       (snd (YoriWinHexEditSetStyle CursorOnNibble
               {| STYLE_VSCROLLBAR := false; STYLE_READ_ONLY := false;
                  STYLE_OFFSET := true; STYLE_LARGE_OFFSET := false |}))
     = Some (false, 20, 0).
Proof.
  split; [reflexivity | ].
  split; [reflexivity | ].
  split; [reflexivity | ].
  refine (proj1 (proj2 (proj2
            (set_style_keeps_the_cursor_location CursorOnNibble _ false 20 0
               _ _ _ _ _ _ _)))).
  - unfold Configured. simpl. intuition lia.
  - vm_compute. intuition discriminate.
  - vm_compute. intuition discriminate.
  - reflexivity.
  - reflexivity.
  - reflexivity.
  - reflexivity.
Defined.

(** The buffer location [YoriWinHexEditSetBytesPerWord] computes for the
    cursor names the same nibble of the same byte, as a location of the
    new word size. *)
Lemma rebased_location (Old New BufferOffset Shift : Z) :
  In Old [1; 2; 4; 8] -> In New [1; 2; 4; 8] ->
  New = 1 \/ Old <= New ->
  0 <= BufferOffset < 2 ^ 36 ->
  BufferOffset mod Old = 0 ->
  0 <= Shift <= Old * 8 - 4 ->
  Shift mod 4 = 0 ->
  let Rebased :=
    if to_DWORD (New * 8) <=? Shift
    then (to_DWORDLONG (BufferOffset + Shift / 8),
          to_DWORD (Shift - Shift / 8 * 8))
    else if negb (BufferOffset mod New =? 0)
    then (to_DWORDLONG (BufferOffset - to_DWORD (BufferOffset mod New)),
          to_DWORD (Shift + 8 * to_DWORD (BufferOffset mod New)))
    else (BufferOffset, Shift) in
  0 <= fst Rebased < 2 ^ 36
  /\ fst Rebased mod New = 0
  /\ 0 <= snd Rebased <= New * 8 - 4
  /\ snd Rebased mod 4 = 0
  /\ fst Rebased + snd Rebased / 8 = BufferOffset + Shift / 8
  /\ snd Rebased mod 8 = Shift mod 8.
Proof.
  intros HO HN HW HB HA HS H4 Rebased. unfold Rebased. clear Rebased.
  change (2 ^ 36) with 68719476736 in *.
  simpl in HO, HN.
  destruct HO as [<- | [<- | [<- | [<- | []]]]];
    destruct HN as [<- | [<- | [<- | [<- | []]]]];
    try (exfalso; lia);
    closed_dwords;
    repeat match goal with
           | |- context [if ?c then _ else _] => destruct c eqn:?
           end;
    bool_hyps; cbn [fst snd];
    unfold to_DWORD, to_DWORDLONG in *;
    change (2 ^ 32) with 4294967296 in *;
    change (2 ^ 64) with 18446744073709551616 in *;
    Z.div_mod_to_equations; lia.
Qed.

(** X24: YoriWinHexEditSetBytesPerWord keeps the cursor on its nibble.
    When the words become bytes, or do not become narrower, the function
    returns TRUE, applies the new word size and leaves the cursor on the
    same nibble of the same byte as before (on the same byte, in the
    character area); the buffer, its lengths and the modified flag stay as
    they were. *)
Theorem set_bytes_per_word_keeps_the_nibble
    (HexEdit : YORI_WIN_CTRL_HEX_EDIT) (NewBytesPerWord : Z)
    (AsChar : bool) (BufferOffset Shift : Z) :
  Configured HexEdit ->
  0 <= CursorLine HexEdit < 2 ^ 32 ->
  0 <= CursorOffset HexEdit < 2 ^ 32 ->
  YoriWinHexEditGetCursorLocation HexEdit = Some (AsChar, BufferOffset, Shift) ->
  In NewBytesPerWord [1; 2; 4; 8] ->
  NewBytesPerWord = 1 \/ BytesPerWord HexEdit <= NewBytesPerWord ->
  let Result := YoriWinHexEditSetBytesPerWord HexEdit NewBytesPerWord in
  fst Result = true
  /\ BytesPerWord (snd Result) = NewBytesPerWord
  /\ (exists NewOffset NewShift,
        YoriWinHexEditGetCursorLocation (snd Result)
        = Some (AsChar, NewOffset, NewShift)
        /\ NewOffset + NewShift / 8 = BufferOffset + Shift / 8
        /\ NewShift mod 8 = Shift mod 8)
  /\ Buffer (snd Result) = Buffer HexEdit
  /\ BufferValid (snd Result) = BufferValid HexEdit
  /\ BufferAllocated (snd Result) = BufferAllocated HexEdit
  /\ UserModified (snd Result) = UserModified HexEdit.
Proof.
  intros HC HL Hc HG HN HW Result.
  destruct (cursor_cell_facts HexEdit AsChar BufferOffset Shift HC HL Hc HG)
    as (Hk & HO & Hsh & _ & HR & _ & Hshape & _).
  set (Cell := YoriWinHexEditCellType HexEdit (CursorLine HexEdit)
                 (CursorOffset HexEdit)) in *.
  unfold Result, YoriWinHexEditSetBytesPerWord.
  replace (negb (NewBytesPerWord =? 1) && negb (NewBytesPerWord =? 2)
           && negb (NewBytesPerWord =? 4) && negb (NewBytesPerWord =? 8))
    with false
    by (simpl in HN; destruct HN as [<- | [<- | [<- | [<- | []]]]]; reflexivity).
  fold Cell. rewrite HO, Hsh, Hk.
  set (Worded := set_BytesPerWord NewBytesPerWord HexEdit).
  assert (HCW : Configured Worded).
  { destruct HC as (C1 & _ & C3). unfold Configured, Worded.
    repeat split; assumption. }
  destruct AsChar.
  - step.
    destruct (reconfigured_cursor Worded true BufferOffset Shift
                (ViewportTop (snd (YoriWinHexEditSetCursorToBufferLocation Worded
                                     YoriWinHexEditCellTypeCharValue
                                     BufferOffset Shift))))
      as (KD & CO).
    cbv zeta in KD, CO. cbn [fst snd].
    pose proof KD as (K1 & K2 & K3 & _ & K5 & _ & _ & _ & K9 & _).
    split; [reflexivity | split; [exact K5 | ]].
    split; [ | repeat split; assumption].
    exists BufferOffset, Shift.
    split; [ | split; reflexivity].
    apply (GetCursorLocation_after Worded _ true BufferOffset Shift HCW KD HR);
      [exact Hshape | exact CO].
  - destruct Hshape as (S1 & S2 & S3).
    pose proof HC as (_ & HOld & _).
    pose proof (rebased_location (BytesPerWord HexEdit) NewBytesPerWord BufferOffset
                  Shift HOld HN HW HR S1 S2 S3) as HReb.
    cbv zeta in HReb.
    set (Rebased := if to_DWORD (NewBytesPerWord * 8) <=? Shift then _ else _) in *.
    destruct Rebased as [NewOffset NewShift] eqn:ER.
    cbn [fst snd] in HReb. destruct HReb as (R1 & R2 & R3 & R4 & R5 & R6).
    step.
    destruct (reconfigured_cursor Worded false NewOffset NewShift
                (ViewportTop (snd (YoriWinHexEditSetCursorToBufferLocation Worded
                                     YoriWinHexEditCellTypeHexDigit
                                     NewOffset NewShift))))
      as (KD & CO).
    cbv zeta in KD, CO. cbn [fst snd].
    pose proof KD as (K1 & K2 & K3 & _ & K5 & _ & _ & _ & K9 & _).
    split; [reflexivity | split; [exact K5 | ]].
    split; [ | repeat split; assumption].
    exists NewOffset, NewShift.
    split; [ | split; assumption].
    apply (GetCursorLocation_after Worded _ false NewOffset NewShift HCW KD R1);
      [ | exact CO].
    split; [exact R2 | split; [exact R3 | exact R4]].
Qed.

Lemma set_bytes_per_word_keeps_the_nibble_witness :
  YoriWinHexEditGetCursorLocation
    (snd (YoriWinHexEditSetCursorLocation
            (ControlWith 1 0 (Some CountingBytes) 64 64) false 21 4))
  = Some (false, 21, 4)
  /\ YoriWinHexEditGetCursorLocation
       (snd (YoriWinHexEditSetBytesPerWord
               (snd (YoriWinHexEditSetCursorLocation
                       (ControlWith 1 0 (Some CountingBytes) 64 64) false 21 4))
               4))
     = Some (false, 20, 12)
  /\ exists NewOffset NewShift,
       YoriWinHexEditGetCursorLocation
         (snd (YoriWinHexEditSetBytesPerWord
                 (snd (YoriWinHexEditSetCursorLocation
                         (ControlWith 1 0 (Some CountingBytes) 64 64) false 21 4))
                 4))
       = Some (false, NewOffset, NewShift)
       /\ NewOffset + NewShift / 8 = 21 + 4 / 8
       /\ NewShift mod 8 = 4 mod 8.
Proof.
  split; [reflexivity | ].
  split; [reflexivity | ].
  refine (proj1 (proj2 (proj2
            (set_bytes_per_word_keeps_the_nibble
               (snd (YoriWinHexEditSetCursorLocation
                       (ControlWith 1 0 (Some CountingBytes) 64 64) false 21 4))
               4 false 21 4 _ _ _ _ _ _)))).
  - unfold Configured. simpl. intuition lia.
  - vm_compute. intuition discriminate.
  - vm_compute. intuition discriminate.
  - reflexivity.
  - simpl. tauto.
  - right. simpl. lia.
Defined.

(** ** Mouse *)

(** X25: a click never scrolls.  YoriWinHexEditMouseDown on a hex digit or
    character cell of the client area whose buffer offset is at most the
    valid length puts the cursor on that cell, leaves no selection active,
    keeps the viewport and the document and returns TRUE; a click anywhere
    else returns TRUE and changes nothing. *)
Theorem mouse_down_puts_the_cursor_on_the_cell
    (HexEdit : YORI_WIN_CTRL_HEX_EDIT) (DisplayX DisplayY : Z) :
  0 <= DisplayX < X (ClientSize HexEdit) ->
  0 <= DisplayY < Y (ClientSize HexEdit) ->
  0 <= ViewportLeft HexEdit ->
  0 <= ViewportTop HexEdit ->
  ViewportLeft HexEdit + X (ClientSize HexEdit) < 2 ^ 32 ->
  ViewportTop HexEdit + Y (ClientSize HexEdit) < 2 ^ 32 ->
  let Line := ViewportTop HexEdit + DisplayY in
  let Col := ViewportLeft HexEdit + DisplayX in
  let Cell := YoriWinHexEditCellType HexEdit Line Col in
  let OnData :=
    match CellType Cell with
    | YoriWinHexEditCellTypeHexDigit | YoriWinHexEditCellTypeCharValue =>
        BufferOffsetOfCell HexEdit Line Cell <=? BufferValid HexEdit
    | _ => false
    end in
  let Result := YoriWinHexEditMouseDown HexEdit DisplayX DisplayY in
  fst Result = true
  /\ (OnData = true ->
      CursorOf (snd Result) = (Line, Col)
      /\ Active (Selection (snd Result)) = YoriWinHexEditSelectNotActive
      /\ ViewportTop (snd Result) = ViewportTop HexEdit
      /\ ViewportLeft (snd Result) = ViewportLeft HexEdit
      /\ KeepsDocument HexEdit (snd Result))
  /\ (OnData = false -> snd Result = HexEdit).
Proof.
  intros HX HY HVL HVT HSX HSY Line Col Cell OnData Result.
  change (2 ^ 32) with 4294967296 in *.
  unfold Result, YoriWinHexEditMouseDown,
    YoriWinHexEditTranslateViewportCoordinatesToCursorCoordinates,
    YoriWinHexEditFindCursorCharFromDisplayChar.
  rewrite (to_DWORD_small (DisplayY + ViewportTop HexEdit))
    by (change (2 ^ 32) with 4294967296; lia).
  rewrite (to_DWORD_small (DisplayX + ViewportLeft HexEdit))
    by (change (2 ^ 32) with 4294967296; lia).
  replace (DisplayY + ViewportTop HexEdit) with Line by (unfold Line; lia).
  replace (DisplayX + ViewportLeft HexEdit) with Col by (unfold Col; lia).
  fold Cell. step.
  assert (EC : (BufferOffsetOfCell HexEdit Line Cell <=? BufferValid HexEdit)
               && match CellType Cell with
                  | YoriWinHexEditCellTypeHexDigit
                  | YoriWinHexEditCellTypeCharValue => true
                  | _ => false
                  end = OnData).
  { unfold OnData. destruct (CellType Cell);
      rewrite ?andb_true_r, ?andb_false_r; reflexivity. }
  rewrite EC. clearbody OnData.
  destruct OnData; cbn [fst snd].
  - split; [reflexivity | ]. split; [ | discriminate]. intros _.
    destruct (cursor_moved_to HexEdit Col Line) as (KD & CO & SA).
    cbv zeta in KD, CO, SA.
    split; [exact CO | split; [exact SA | ]].
    destruct (ClearSelection_document HexEdit) as (KC & _ & T1 & L1 & _).
    set (Cleared := YoriWinHexEditClearSelection HexEdit) in *.
    set (Placed := YoriWinHexEditSetCursorLocationInternal Cleared Col Line) in *.
    assert (HP : ViewportTop Placed = ViewportTop HexEdit
                 /\ ViewportLeft Placed = ViewportLeft HexEdit
                 /\ CursorLine Placed = Line /\ CursorOffset Placed = Col
                 /\ ClientSize Placed = ClientSize HexEdit).
    { unfold Placed, YoriWinHexEditSetCursorLocationInternal. fields.
      destruct KC as (_ & _ & _ & _ & _ & _ & _ & _ & _ & KS & _).
      repeat split; assumption. }
    destruct HP as (P1 & P2 & P3 & P4 & P5).
    destruct (EnsureCursorVisible_viewport Placed) as (EL & ET).
    rewrite P1, P2, P3, P4, P5 in *.
    replace (Col <? ViewportLeft HexEdit) with false in EL
      by (symmetry; apply Z.ltb_ge; unfold Col; lia).
    replace (to_DWORD (ViewportLeft HexEdit + X (ClientSize HexEdit)) <=? Col)
      with false in EL
      by (symmetry; apply Z.leb_gt; rewrite to_DWORD_small;
          [unfold Col | change (2 ^ 32) with 4294967296]; lia).
    replace (Line <? ViewportTop HexEdit) with false in ET
      by (symmetry; apply Z.ltb_ge; unfold Line; lia).
    replace (to_DWORD (ViewportTop HexEdit + Y (ClientSize HexEdit)) <=? Line)
      with false in ET
      by (symmetry; apply Z.leb_gt; rewrite to_DWORD_small;
          [unfold Line | change (2 ^ 32) with 4294967296]; lia).
    destruct (Paint_document (YoriWinHexEditEnsureCursorVisible Placed))
      as (_ & _ & TP & LP).
    split; [rewrite TP; exact ET | split; [rewrite LP; exact EL | exact KD]].
  - split; [reflexivity | ]. split; [discriminate | reflexivity].
Qed.

Lemma mouse_down_puts_the_cursor_on_the_cell_witness :
  CursorOf (snd (YoriWinHexEditMouseDown
                   (ControlWith 1 0 (Some CountingBytes) 64 64) 13 1))
  = (1, 13)
  /\ YoriWinHexEditGetCursorLocation
       (snd (YoriWinHexEditMouseDown
               (ControlWith 1 0 (Some CountingBytes) 64 64) 13 1))
     = Some (false, 20, 0).
Proof.
  split; [ | reflexivity].
  refine (proj1 (proj1 (proj2
            (mouse_down_puts_the_cursor_on_the_cell
               (ControlWith 1 0 (Some CountingBytes) 64 64) 13 1 _ _ _ _ _ _)) _)).
  - simpl. lia.
  - simpl. lia.
  - simpl. lia.
  - simpl. lia.
  - simpl. lia.
  - simpl. lia.
  - reflexivity.
Defined.

(** ** Replacing and clearing the data *)

(** X26: YoriWinHexEditClear puts the cursor on the first digit of the
    first word.  After it the control holds no data, the cursor location
    reads as the hex area, offset 0 and the highest nibble of the word, and
    the modified flag, the insert mode and the layout are what they
    were. *)
Theorem clear_puts_the_cursor_at_the_start (HexEdit : YORI_WIN_CTRL_HEX_EDIT) :
  Configured HexEdit ->
  let Cleared := snd (YoriWinHexEditClear HexEdit) in
  YoriWinHexEditGetCursorLocation Cleared
  = Some (false, 0, BytesPerWord HexEdit * 8 - 4)
  /\ YoriWinHexEditLinesPopulated Cleared = 0
  /\ UserModified Cleared = UserModified HexEdit
  /\ InsertMode Cleared = InsertMode HexEdit
  /\ SameLayout HexEdit Cleared.
Proof.
  intros HC Cleared. pose proof HC as (HB & HW & _).
  unfold Cleared, YoriWinHexEditClear, YoriWinHexEditSetCursorLocationToZero.
  cbn [snd].
  set (Emptied := YoriWinHexEditExpandDirtyRange _ _ DWORD_MAX).
  assert (HE : BytesPerLine Emptied = BytesPerLine HexEdit
               /\ BytesPerWord Emptied = BytesPerWord HexEdit
               /\ OffsetWidth Emptied = OffsetWidth HexEdit
               /\ UserModified Emptied = UserModified HexEdit
               /\ InsertMode Emptied = InsertMode HexEdit
               /\ BufferValid Emptied = 0
               /\ ViewportTop Emptied = 0
               /\ 0 <= CursorLine Emptied - CursorLine HexEdit <= 0).
  { unfold Emptied. rewrite ExpandDirtyRange_eq. fields.
    repeat split; try reflexivity; lia. }
  destruct HE as (E1 & E2 & E3 & E4 & E5 & E6 & E7 & E8).
  assert (HCE : Configured Emptied).
  { unfold Configured. rewrite E1, E2, E3. exact HC. }
  rewrite E2.
  rewrite (to_DWORD_small (BytesPerWord HexEdit * 8 - 4))
    by (simpl in HW; change (2 ^ 32) with 4294967296; lia).
  destruct (SetCursorToBufferLocation_document Emptied
              YoriWinHexEditCellTypeHexDigit 0 (BytesPerWord HexEdit * 8 - 4))
    as (D1 & _ & C1).
  set (Moved := snd (YoriWinHexEditSetCursorToBufferLocation Emptied _ 0 _)) in *.
  destruct (Paint_document Moved) as (D2 & C2 & T2 & _).
  pose proof (KeepsDocument_trans _ _ _ D1 D2) as KD.
  pose proof KD as (_ & _ & K3 & K4 & K5 & K6 & K7 & _ & K9 & _).
  split.
  - apply (GetCursorLocation_after Emptied _ false 0 (BytesPerWord HexEdit * 8 - 4)
             HCE KD).
    + change (2 ^ 36) with 68719476736. lia.
    + rewrite E2. simpl in HW.
      split; [apply Z.mod_0_l; lia | split; [lia | ]].
      destruct HW as [W | [W | [W | [W | []]]]]; rewrite <- W; reflexivity.
    + rewrite C2. exact C1.
  - split.
    { unfold YoriWinHexEditLinesPopulated. rewrite K3, K4, E6, E1, HB. reflexivity. }
    split; [rewrite K9; exact E4 | ].
    split; [rewrite K7; exact E5 | ].
    unfold SameLayout. rewrite K4, K5, K6. repeat split; assumption.
Qed.

Lemma clear_puts_the_cursor_at_the_start_witness :
  YoriWinHexEditGetCursorLocation (snd (YoriWinHexEditClear CursorOnNibble))
  = Some (false, 0, 4).
Proof.
  refine (proj1 (clear_puts_the_cursor_at_the_start CursorOnNibble _)).
  unfold Configured. simpl. intuition lia.
Defined.

(** X27: the buffer handed to YoriWinHexEditSetDataNoCopy is the one
    YoriWinHexEditGetDataNoCopy hands back, with the valid length given.
    Replacing the data moves neither the cursor nor the viewport, even when
    they lie beyond the new data, and keeps the selection, the layout and
    the modified flag. *)
Theorem set_data_then_get_data
    (HexEdit : YORI_WIN_CTRL_HEX_EDIT) (NewBuffer : memory)
    (NewBufferAllocated NewBufferValid : Z) :
  let Loaded :=
    snd (YoriWinHexEditSetDataNoCopy HexEdit NewBuffer NewBufferAllocated
           NewBufferValid) in
  YoriWinHexEditGetDataNoCopy Loaded = (true, Some NewBuffer, NewBufferValid)
  /\ CursorOf Loaded = CursorOf HexEdit
  /\ ViewportTop Loaded = ViewportTop HexEdit
  /\ ViewportLeft Loaded = ViewportLeft HexEdit
  /\ Selection Loaded = Selection HexEdit
  /\ UserModified Loaded = UserModified HexEdit
  /\ SameLayout HexEdit Loaded.
Proof.
  intros Loaded. unfold Loaded, YoriWinHexEditSetDataNoCopy. cbn [snd].
  match goal with
  | |- context [YoriWinHexEditPaint ?h] =>
      destruct (Paint_document h) as (KD & C & T & L);
        pose proof (Paint_Selection h) as S
  end.
  destruct KD as (K1 & _ & K3 & K4 & K5 & K6 & _ & _ & K9 & _).
  unfold YoriWinHexEditGetDataNoCopy, SameLayout.
  rewrite K1, K3, K4, K5, K6, K9, C, T, L, S.
  rewrite ExpandDirtyRange_eq. unfold CursorOf. fields.
  repeat split; reflexivity.
Qed.

Lemma set_cursor_identity (HexEdit : YORI_WIN_CTRL_HEX_EDIT) :
  YoriWinHexEditSetCursorLocationInternal HexEdit
    (CursorOffset HexEdit) (CursorLine HexEdit) = HexEdit.
Proof. destruct HexEdit. reflexivity. Qed.

(** X28: a character that is no hex digit, typed on a hex digit cell at or
    before the end of the data, is ignored.  YoriWinHexEditAddChar returns
    TRUE and leaves the document and the cursor as they were; in overwrite
    mode it leaves the whole control as it was. *)
Theorem typing_no_hex_digit_is_ignored
    (Malloc : Z -> option memory) (HexEdit : YORI_WIN_CTRL_HEX_EDIT)
    (BufferOffset Shift Char : Z) :
  Configured HexEdit ->
  0 <= CursorLine HexEdit < 2 ^ 32 ->
  0 <= CursorOffset HexEdit < 2 ^ 32 ->
  YoriWinHexEditGetCursorLocation HexEdit = Some (false, BufferOffset, Shift) ->
  BufferOffset <= BufferValid HexEdit ->
  TypedNibble Char = None ->
  let Result := YoriWinHexEditAddChar Malloc HexEdit Char in
  fst Result = true
  /\ KeepsDocument HexEdit (snd Result)
  /\ CursorOf (snd Result) = CursorOf HexEdit
  /\ (InsertMode HexEdit = false -> snd Result = HexEdit).
Proof.
  intros HC HL Hc HG HV HT Result.
  destruct (cursor_cell_facts HexEdit false BufferOffset Shift HC HL Hc HG)
    as (Hk & HO & Hsh & _).
  set (Cell := YoriWinHexEditCellType HexEdit (CursorLine HexEdit)
                 (CursorOffset HexEdit)) in *.
  unfold TypedNibble in HT.
  unfold Result, YoriWinHexEditAddChar.
  destruct (InsertMode HexEdit) eqn:HI; cbn [negb].
  - unfold YoriWinHexEditInsertCell. fold Cell. rewrite HO, Hsh, Hk.
    replace (BeyondBufferEnd Cell && (BufferValid HexEdit <? BufferOffset)) with false
      by (symmetry; apply andb_false_iff; right; apply Z.ltb_ge; lia).
    step. rewrite HT. step. cbn [fst snd].
    rewrite ExpandDirtyRange_eq.
    unfold YoriWinHexEditSetCursorLocationInternal, KeepsDocument, CursorOf. fields.
    split; [reflexivity | split; [ | split; [reflexivity | discriminate]]].
    rewrite HI. repeat split; reflexivity.
  - unfold YoriWinHexEditOverwriteCell. fold Cell. rewrite Hk. step.
    rewrite HT. cbn [fst snd]. rewrite set_cursor_identity.
    split; [reflexivity | split; [apply KeepsDocument_refl | ]].
    split; reflexivity.
Qed.

Lemma typing_no_hex_digit_is_ignored_witness :
  TypedNibble 103 = None
  /\ snd (YoriWinHexEditAddChar MallocZeroed CursorOnNibble 103) = CursorOnNibble.
Proof.
  split; [reflexivity | ].
  refine (proj2 (proj2 (proj2
            (typing_no_hex_digit_is_ignored MallocZeroed CursorOnNibble 20 0 103
               _ _ _ _ _ _))) _).
  - unfold Configured. simpl. intuition lia.
  - vm_compute. intuition discriminate.
  - vm_compute. intuition discriminate.
  - reflexivity.
  - vm_compute. discriminate.
  - reflexivity.
  - reflexivity.
Defined.

(** ** Typing beyond the end of the data *)

Lemma EnsureBufferLength_layout
    (Malloc : Z -> option memory) (HexEdit : YORI_WIN_CTRL_HEX_EDIT) (n : Z) :
  SameLayout HexEdit (snd (YoriWinHexEditEnsureBufferLength Malloc HexEdit n)).
Proof.
  unfold SameLayout, YoriWinHexEditEnsureBufferLength.
  destruct (n <=? BufferAllocated HexEdit); [repeat split; reflexivity | ].
  destruct (n <? BufferValid HexEdit); [repeat split; reflexivity | ].
  destruct (DWORD_MAX <=? to_DWORDLONG (n + 16384)); [repeat split; reflexivity | ].
  destruct (Malloc (to_DWORD (to_DWORDLONG (n + 16384))));
    fields; repeat split; reflexivity.
Qed.

(** Extending the valid data keeps the bytes that were valid and zeroes the
    bytes that become valid. *)
Lemma EnsureBufferValid_content
    (Malloc : Z -> option memory) (HexEdit : YORI_WIN_CTRL_HEX_EDIT) (n : Z) :
  0 <= BufferValid HexEdit < n ->
  n < 2 ^ 32 ->
  fst (YoriWinHexEditEnsureBufferValid Malloc HexEdit n) = true ->
  let Extended := snd (YoriWinHexEditEnsureBufferValid Malloc HexEdit n) in
  BufferValid Extended = n
  /\ SameLayout HexEdit Extended
  /\ forall i, 0 <= i < n ->
       deref (Buffer Extended) i
       = if i <? BufferValid HexEdit then deref (Buffer HexEdit) i else 0.
Proof.
  intros HV Hn Hok Extended. change (2 ^ 32) with 4294967296 in Hn.
  unfold Extended. clear Extended.
  unfold YoriWinHexEditEnsureBufferValid in *.
  replace (n <=? BufferValid HexEdit) with false in *
    by (symmetry; apply Z.leb_gt; lia).
  pose proof (EnsureBufferLength_BufferValid Malloc HexEdit n) as EV.
  pose proof (EnsureBufferLength_layout Malloc HexEdit n) as EL.
  pose proof (fun i => EnsureBufferLength_content Malloc HexEdit n i
                         ltac:(change (2 ^ 64) with 18446744073709551616; lia))
    as EC.
  destruct (YoriWinHexEditEnsureBufferLength Malloc HexEdit n) as [[|] Grown];
    cbn [fst snd] in *; [ | discriminate].
  fields. rewrite EV.
  split; [reflexivity | split; [exact EL | ]].
  intros i Hi. cbn [deref]. unfold ZeroMemory.
  rewrite (to_DWORD_small (n - BufferValid HexEdit))
    by (change (2 ^ 32) with 4294967296; lia).
  destruct (i <? BufferValid HexEdit) eqn:E; bool_hyps.
  - replace (BufferValid HexEdit <=? i) with false by (symmetry; apply Z.leb_gt; lia).
    cbn [andb]. apply EC; [reflexivity | lia].
  - replace (BufferValid HexEdit <=? i) with true by (symmetry; apply Z.leb_le; lia).
    replace (i <? BufferValid HexEdit + (n - BufferValid HexEdit)) with true
      by (symmetry; apply Z.ltb_lt; lia).
    reflexivity.
Qed.

(** X29: typing in overwrite mode at or beyond the end of the data
    extends the data up to the byte typed.  When the buffer can hold it,
    YoriWinHexEditAddChar makes the byte under the cursor the last valid
    byte, fills the bytes between the old end and that byte with zero,
    writes the character (or the hex digit, into a zero byte), marks the
    control as modified and moves the cursor one cell to the right. *)
Theorem typing_beyond_the_end_extends_with_zeroes
    (Malloc : Z -> option memory) (HexEdit : YORI_WIN_CTRL_HEX_EDIT)
    (AsChar : bool) (BufferOffset Shift Char NewByte : Z) :
  Configured HexEdit ->
  0 <= CursorLine HexEdit < 2 ^ 32 ->
  0 <= CursorOffset HexEdit < 2 ^ 32 ->
  YoriWinHexEditGetCursorLocation HexEdit = Some (AsChar, BufferOffset, Shift) ->
  InsertMode HexEdit = false ->
  0 <= BufferValid HexEdit <= BufferOffset + Shift / 8 ->
  BufferOffset + Shift / 8 + 1 < 2 ^ 32 ->
  ByteAfterTyping AsChar 0 Shift Char = Some NewByte ->
  fst (YoriWinHexEditEnsureBufferValid Malloc HexEdit (BufferOffset + Shift / 8 + 1))
  = true ->
  let Result := YoriWinHexEditAddChar Malloc HexEdit Char in
  fst Result = true
  /\ BufferValid (snd Result) = BufferOffset + Shift / 8 + 1
  /\ UserModified (snd Result) = true
  /\ (forall i, 0 <= i <= BufferOffset + Shift / 8 ->
        deref (Buffer (snd Result)) i
        = if i <? BufferValid HexEdit then deref (Buffer HexEdit) i
          else if i =? BufferOffset + Shift / 8 then NewByte else 0)
  /\ YoriWinHexEditGetCursorLocation (snd Result)
     = Some (AsChar,
             fst (LocationToTheRight HexEdit AsChar BufferOffset Shift),
             snd (LocationToTheRight HexEdit AsChar BufferOffset Shift)).
Proof.
  intros HC HL Hc HG HI HV HSmall HNew HOk Result.
  destruct (cursor_cell_facts HexEdit AsChar BufferOffset Shift HC HL Hc HG)
    as (Hk & HO & Hsh & Hbey & HR & HS8 & Hshape & _).
  change (2 ^ 32) with 4294967296 in HSmall.
  specialize (Hbey ltac:(change (2 ^ 36) with 68719476736; lia)).
  replace (BufferValid HexEdit <=? BufferOffset + Shift / 8) with true in Hbey
    by (symmetry; apply Z.leb_le; lia).
  assert (HS0 : 0 <= Shift) by (destruct AsChar; lia).
  destruct (EditBufferOffsetOf_eq BufferOffset Shift HR HS8 HS0) as [EO ES].
  pose proof HC as (_ & HW & _).
  destruct (EnsureBufferValid_content Malloc HexEdit (BufferOffset + Shift / 8 + 1)
              ltac:(lia) ltac:(change (2 ^ 32) with 4294967296; lia) HOk)
    as (XV & XL & XC).
  set (Cell := YoriWinHexEditCellType HexEdit (CursorLine HexEdit)
                 (CursorOffset HexEdit)) in *.
  assert (HN : forall m,
             YoriWinHexEditNextCellSameType
               (set_Buffer (Some m)
                  (snd (YoriWinHexEditEnsureBufferValid Malloc HexEdit
                          (BufferOffset + Shift / 8 + 1))))
               (if AsChar then YoriWinHexEditCellTypeCharValue
                else YoriWinHexEditCellTypeHexDigit) BufferOffset Shift
             = Some (if AsChar
                     then YoriWinHexEditCellFromCharBufferOffset HexEdit
                            (fst (LocationToTheRight HexEdit AsChar BufferOffset Shift))
                     else YoriWinHexEditCellFromHexBufferOffset HexEdit
                            (fst (LocationToTheRight HexEdit AsChar BufferOffset Shift))
                            (snd (LocationToTheRight HexEdit AsChar BufferOffset Shift)))).
  { intros m. apply NextCellSameType_after_edit; assumption. }
  destruct (NextCellSameType_location HexEdit AsChar BufferOffset Shift HW HR Hshape)
    as (_ & NR & NS).
  cbv zeta in NR, NS.
  pose proof (LocationToTheRight_range HexEdit AsChar BufferOffset Shift HW) as NB.
  pose proof (location_round_trip HexEdit AsChar
                (fst (LocationToTheRight HexEdit AsChar BufferOffset Shift))
                (snd (LocationToTheRight HexEdit AsChar BufferOffset Shift))
                HC ltac:(change (2 ^ 36) with 68719476736; lia) NS) as RT.
  unfold Result, YoriWinHexEditAddChar. rewrite HI. cbn [negb].
  unfold YoriWinHexEditOverwriteCell. fold Cell. rewrite HO, Hsh, Hk, Hbey, EO, ES.
  rewrite (to_DWORDLONG_small (BufferOffset + Shift / 8 + 1))
    by (change (2 ^ 64) with 18446744073709551616; lia).
  unfold ByteAfterTyping in HNew.
  set (Extended := YoriWinHexEditEnsureBufferValid Malloc HexEdit
                     (BufferOffset + Shift / 8 + 1)) in *.
  destruct Extended as [[|] After] eqn:EE; cbn [fst snd] in *; [ | discriminate].
  destruct AsChar.
  - step. rewrite HN.
    destruct (YoriWinHexEditCellFromCharBufferOffset HexEdit _) as [Line Col] eqn:EN.
    step. cbn [fst snd].
    unfold YoriWinHexEditSetCursorLocationInternal. rewrite ExpandDirtyRange_eq.
    fields.
    split; [reflexivity | split; [exact XV | split; [reflexivity | ]]].
    split.
    + intros i Hi. cbn [deref]. unfold store. inversion HNew as [HB].
      destruct (i =? BufferOffset + Shift / 8) eqn:E; bool_hyps.
      * replace (i <? BufferValid HexEdit) with false
          by (symmetry; apply Z.ltb_ge; lia).
        reflexivity.
      * rewrite XC by lia. destruct (i <? BufferValid HexEdit); reflexivity.
    + apply (GetCursorLocation_layout HexEdit _ (Line, Col) true);
        [ | reflexivity | exact RT].
      destruct XL as (L1 & L2 & L3).
      unfold SameLayout. fields. repeat split; assumption.
  - step. unfold TypedNibble in HNew.
    destruct (NibbleOfInputChar (to_UCHAR (YoriLibUpcaseChar
                                             (YoriWinHexEditInputCharToByte Char))))
      as [Nibble | ] eqn:ET; [ | discriminate].
    step. rewrite HN.
    destruct (YoriWinHexEditCellFromHexBufferOffset HexEdit _ _) as [Line Col] eqn:EN.
    step. cbn [fst snd].
    unfold YoriWinHexEditSetCursorLocationInternal. rewrite ExpandDirtyRange_eq.
    fields.
    split; [reflexivity | split; [exact XV | split; [reflexivity | ]]].
    split.
    + intros i Hi. cbn [deref]. inversion HNew as [HB].
      assert (HZero : deref (Buffer After) (BufferOffset + Shift / 8) = 0).
      { rewrite XC by lia.
        replace (BufferOffset + Shift / 8 <? BufferValid HexEdit) with false
          by (symmetry; apply Z.ltb_ge; lia).
        reflexivity. }
      rewrite WriteNibble_at;
        [ | rewrite HZero; lia | exact (TypedNibble_range Char Nibble ET)
          | destruct Hshape as (_ & S2 & S3); Z.div_mod_to_equations; lia ].
      rewrite HZero.
      destruct (i =? BufferOffset + Shift / 8) eqn:E; bool_hyps.
      * replace (i <? BufferValid HexEdit) with false
          by (symmetry; apply Z.ltb_ge; lia).
        reflexivity.
      * rewrite XC by lia. destruct (i <? BufferValid HexEdit); reflexivity.
    + apply (GetCursorLocation_layout HexEdit _ (Line, Col) false);
        [ | reflexivity | exact RT].
      destruct XL as (L1 & L2 & L3).
      unfold SameLayout. fields. repeat split; assumption.
Qed.

Lemma typing_beyond_the_end_extends_with_zeroes_witness :
  YoriWinHexEditGetCursorLocation
    (snd (YoriWinHexEditSetCursorLocation
            (ControlWith 1 0 (Some CountingBytes) 4 4) true 6 0))
  = Some (true, 6, 0)
  /\ ValidBytes
       (snd (YoriWinHexEditAddChar MallocZeroed
               (snd (YoriWinHexEditSetCursorLocation
                       (ControlWith 1 0 (Some CountingBytes) 4 4) true 6 0))
               65))
     = [0; 1; 2; 3; 0; 0; 65]
  /\ BufferValid
       (snd (YoriWinHexEditAddChar MallocZeroed
               (snd (YoriWinHexEditSetCursorLocation
                       (ControlWith 1 0 (Some CountingBytes) 4 4) true 6 0))
               65))
     = 6 + 0 / 8 + 1.
Proof.
  split; [reflexivity | ].
  split; [vm_compute; reflexivity | ].
  refine (proj1 (proj2
            (typing_beyond_the_end_extends_with_zeroes MallocZeroed
               (snd (YoriWinHexEditSetCursorLocation
                       (ControlWith 1 0 (Some CountingBytes) 4 4) true 6 0))
               true 6 0 65 65 _ _ _ _ _ _ _ _ _))).
  - unfold Configured. simpl. intuition lia.
  - vm_compute. intuition discriminate.
  - vm_compute. intuition discriminate.
  - reflexivity.
  - reflexivity.
  - vm_compute. intuition discriminate.
  - vm_compute. reflexivity.
  - reflexivity.
  - vm_compute. reflexivity.
Defined.

(** ** The right arrow at the end of the data *)

(** X30: the right arrow at or beyond the end of the data.  With the
    cursor on a cell whose buffer offset is at least the valid length,
    YoriWinHexEditCursorRight compares the valid length with the byte of
    the next cell taken on the line of the cursor: when the valid length is
    smaller, the cursor stays and the control is unchanged; otherwise the
    cursor moves to the next cell.  When the next cell lies on the line of
    the cursor, the offset compared is the buffer offset of the next
    cell. *)
Theorem right_arrow_at_the_end_of_the_data
    (HexEdit : YORI_WIN_CTRL_HEX_EDIT) (AsChar : bool) (BufferOffset Shift : Z) :
  Configured HexEdit ->
  0 <= CursorLine HexEdit < 2 ^ 32 - 1 ->
  0 <= CursorOffset HexEdit < 2 ^ 32 ->
  YoriWinHexEditGetCursorLocation HexEdit = Some (AsChar, BufferOffset, Shift) ->
  BufferValid HexEdit <= BufferOffset ->
  let Next := LocationToTheRight HexEdit AsChar BufferOffset Shift in
  let Seen := CursorLine HexEdit * 16 + fst Next mod 16 in
  (BufferValid HexEdit < Seen ->
   YoriWinHexEditCursorRight HexEdit = Some (false, HexEdit))
  /\ (Seen <= BufferValid HexEdit ->
      exists After,
        YoriWinHexEditCursorRight HexEdit = Some (true, After)
        /\ YoriWinHexEditGetCursorLocation After
           = Some (AsChar, fst Next, snd Next))
  /\ (fst Next / 16 = CursorLine HexEdit -> Seen = fst Next).
Proof.
  intros HC HL Hc HG HV Next Seen. pose proof HC as (HB & HW & _).
  assert (HL' : 0 <= CursorLine HexEdit < 2 ^ 32) by lia.
  destruct (cursor_cell_facts HexEdit AsChar BufferOffset Shift HC HL' Hc HG)
    as (Hk & HO & Hsh & _ & HR & _ & Hshape & _).
  destruct (cursor_location_facts HexEdit AsChar BufferOffset Shift HC HL' Hc HG)
    as (b & Hb & HBb & _).
  set (Cell := YoriWinHexEditCellType HexEdit (CursorLine HexEdit)
                 (CursorOffset HexEdit)) in *.
  destruct (NextCellSameType_location HexEdit AsChar BufferOffset Shift HW HR Hshape)
    as (EN & NR & NS).
  fold Next in EN, NR, NS.
  pose proof (LocationToTheRight_range HexEdit AsChar BufferOffset Shift HW) as NB.
  fold Next in NB.
  assert (NR' : 0 <= fst Next < 2 ^ 36).
  { change (2 ^ 36) with 68719476736. change (2 ^ 32) with 4294967296 in HL. lia. }
  pose proof (location_round_trip HexEdit AsChar (fst Next) (snd Next) HC NR' NS) as RT.
  destruct (CellFrom_range HexEdit (fst Next) (snd Next)) as (RH & RC).
  destruct (if AsChar
            then YoriWinHexEditCellFromCharBufferOffset HexEdit (fst Next)
            else YoriWinHexEditCellFromHexBufferOffset HexEdit (fst Next) (snd Next))
    as [NewLine NewCol] eqn:ECell.
  assert (HNew : 0 <= NewLine < 2 ^ 32 /\ 0 <= NewCol < 2 ^ 32).
  { destruct AsChar; rewrite ECell in *; cbn [fst snd] in *; assumption. }
  destruct HNew as (HNL & HNC).
  destruct RT as (RT1 & RT2 & RT3). cbn [fst snd] in RT1, RT2, RT3.
  set (NewCell := YoriWinHexEditCellType HexEdit NewLine NewCol) in *.
  assert (HBO : 0 <= ByteOffset NewCell < 16).
  { destruct AsChar.
    - destruct (CellType_char_shape HexEdit NewLine NewCol HC HNC RT1) as (_ & H & _).
      exact H.
    - destruct (CellType_hex_shape HexEdit NewLine NewCol HC HNC RT1)
        as (_ & H1 & H2 & _ & H4 & _).
      fold NewCell in H1, H2, H4.
      assert (0 <= BitShift NewCell / 8) by (apply Z.div_pos; lia). lia. }
  assert (HSeen : BufferOffsetOfCell HexEdit (CursorLine HexEdit) NewCell = Seen).
  { rewrite (BufferOffsetOfCell_cursor HexEdit NewLine (ByteOffset NewCell) NewCell
               HB HNL HBO eq_refl) in RT2.
    rewrite (BufferOffsetOfCell_cursor HexEdit (CursorLine HexEdit)
               (ByteOffset NewCell) NewCell HB HL' HBO eq_refl).
    unfold Seen. f_equal. rewrite <- RT2.
    rewrite Z.add_comm, Z.mod_add by lia. symmetry. apply Z.mod_small. exact HBO. }
  assert (ER : YoriWinHexEditCursorRight HexEdit
               = if BufferValid HexEdit <? Seen then Some (false, HexEdit)
                 else Some (true,
                            YoriWinHexEditPaint
                              (YoriWinHexEditEnsureCursorVisible
                                 (YoriWinHexEditSetCursorLocationInternal
                                    (YoriWinHexEditClearSelection HexEdit)
                                    NewCol NewLine)))).
  { unfold YoriWinHexEditCursorRight. fold Cell. rewrite HO, Hk, Hsh, EN.
    replace (BufferValid HexEdit <=? BufferOffset) with true
      by (symmetry; apply Z.leb_le; lia).
    step. fold NewCell. rewrite HSeen. reflexivity. }
  split; [ | split].
  - intros H. rewrite ER.
    replace (BufferValid HexEdit <? Seen) with true by (symmetry; apply Z.ltb_lt; lia).
    reflexivity.
  - intros H. rewrite ER.
    replace (BufferValid HexEdit <? Seen) with false by (symmetry; apply Z.ltb_ge; lia).
    eexists. split; [reflexivity | ].
    destruct (cursor_moved_to HexEdit NewCol NewLine) as (D & C & _).
    apply (GetCursorLocation_after HexEdit _ AsChar (fst Next) (snd Next) HC D NR' NS).
    rewrite C. symmetry. exact ECell.
  - intros H. unfold Seen. rewrite <- H.
    rewrite (Z.mul_comm (fst Next / 16)). symmetry. apply Z.div_mod. lia.
Qed.

Lemma right_arrow_at_the_end_of_the_data_witness :
  YoriWinHexEditGetCursorLocation
    (snd (YoriWinHexEditSetCursorLocation
            (ControlWith 1 0 (Some CountingBytes) 64 20) true 20 0))
  = Some (true, 20, 0)
  /\ YoriWinHexEditCursorRight
       (snd (YoriWinHexEditSetCursorLocation
               (ControlWith 1 0 (Some CountingBytes) 64 20) true 20 0))
     = Some (false,
             snd (YoriWinHexEditSetCursorLocation
                    (ControlWith 1 0 (Some CountingBytes) 64 20) true 20 0)).
Proof.
  split; [reflexivity | ].
  refine (proj1 (right_arrow_at_the_end_of_the_data
                   (snd (YoriWinHexEditSetCursorLocation
                           (ControlWith 1 0 (Some CountingBytes) 64 20) true 20 0))
                   true 20 0 _ _ _ _ _) _).
  - unfold Configured. simpl. intuition lia.
  - vm_compute. intuition discriminate.
  - vm_compute. intuition discriminate.
  - reflexivity.
  - vm_compute. discriminate.
  - vm_compute. reflexivity.
Defined.
